(** * Luminosity: the registry lifecycle simulator and its derived tables

    A shallow embedding of the year-over-year population simulator of
    [scripts/complete_decade_generator.py] (with its siblings
    [decade_generator.py], [luminosity_patch.py] and
    [grade_distribution_hotfix.py]) and the properties its specification
    states about it.

    Conventions of the embedding.
    - Python [int] is [Z]; Python [float] is idealised as an exact rational
      [Q] (every constant of the program is a short decimal) where the
      program only compares, clamps and draws; the product that
      [process_annual_changes] truncates to a head count is the binary64
      product ([Float.mul]), and a statement about a rounded exact product
      says how far from a tie it holds.
    - Python [dict] is an insertion-ordered association list ([PyDict]):
      iteration order is insertion order, assignment to a present key
      keeps its position, assignment to a new key appends.
    - Every random draw ([random.random], [random.choice], [random.sample],
      [np.random.normal], [Faker]) is an explicit input of the function
      that performs it, so a function of the program becomes a pure
      function of its arguments, the registry state and its draws. *)

From Stdlib Require Import ZArith QArith Qround Lqa Lia Ascii String.
From stdpp Require Import base decidable option list strings pretty gmap.

Local Open Scope Z_scope.

(** ** Python built-ins on numbers *)

Module Py.

(** [min(a, b)] on floats: the first argument unless the second is
    strictly smaller. *)
Definition min (a b : Q) : Q := if Qlt_le_dec b a then b else a.

(** [max(a, b)] on floats: the first argument unless the second is
    strictly larger. *)
Definition max (a b : Q) : Q := if Qlt_le_dec a b then b else a.

(** [round(x)] with one argument: the nearest integer, ties to even. *)
Definition round (x : Q) : Z :=
  let f := Qfloor x in
  match Qcompare (x - inject_Z f) (1 # 2) with
  | Lt => f
  | Gt => f + 1
  | Eq => if Z.even f then f else f + 1
  end.

(** [int(x)] on a float: truncation toward zero. *)
Definition int (x : Q) : Z := Z.quot (Qnum x) (Zpos (Qden x)).

(** [random.uniform(a, b)] is [a + (b - a) * random()]; [u] is the
    underlying draw of [random()]. *)
Definition uniform (a b u : Q) : Q := a + (b - a) * u.

(** [np.random.normal(loc, scale)] is [loc + scale * z] for a standard
    normal draw [z]. *)
Definition normal (loc scale z : Q) : Q := loc + scale * z.

End Py.

(** ** binary64 arithmetic *)

(** The finite values of a Python [float] are rationals; an operation
    returns the nearest of them to the exact result, ties going to the
    even significand.  Infinities are not values here: [in_range] says
    that a result stays below them, and a property that computes with
    floats says for which operands it speaks. *)
Module Float.

(** [2^e] for an integer exponent. *)
Definition pow2 (e : Z) : Q :=
  match e with
  | Zneg p => 1 # (2 ^ p)
  | _ => inject_Z (2 ^ e)
  end.

(** The binary exponent of a positive rational: the [e] with
    [2^e <= n/d < 2^(e+1)]. *)
Definition exponent (n d : positive) : Z :=
  let e := Z.log2 (Zpos n) - Z.log2 (Zpos d) in
  if Qle_bool (pow2 e) (Zpos n # d) then e else e - 1.

(** Rounding to binary64: 53 significant bits, so the spacing at [x] is
    [2^(exponent - 52)], and never below [2^-1074] (subnormal numbers). *)
Definition rnd (x : Q) : Q :=
  match Qnum x with
  | Z0 => 0
  | Zpos n | Zneg n =>
      let ulp := pow2 (Z.max (exponent n (Qden x) - 52) (-1074)) in
      Qred (inject_Z (Py.round (x / ulp)) * ulp)
  end.

(** The largest finite binary64, [(2 - 2^-52) * 2^1023]. *)
Definition max_value : Q := inject_Z (2 ^ 1024 - 2 ^ 971).

(** An exact result in the range of the finite floats: rounding it does
    not overflow. *)
Definition in_range (x : Q) : bool :=
  Qle_bool (- max_value) x && Qle_bool x max_value.

(** The rationals that are values of a float. *)
Definition is_float (x : Q) : bool := Qeq_bool (rnd x) x && in_range x.

(** The mixed product [n * x] of an [int] and a float is defined: [x] is
    a float, [n] converts to one ([OverflowError] otherwise) and the
    product is finite, so that [int] accepts it. *)
Definition int_product_defined (n : Z) (x : Q) : bool :=
  is_float x && in_range (inject_Z n) && in_range (inject_Z n * x).

(** A decimal literal of the source denotes the nearest binary64. *)
Definition lit (x : Q) : Q := rnd x.

(** [float(n)] for an [int], as the mixed product [n * x] converts it. *)
Definition of_int (n : Z) : Q := rnd (inject_Z n).

(** [a * b] on floats. *)
Definition mul (a b : Q) : Q := rnd (a * b).

End Float.

(** ** Grade scores *)

(** The draws one grade consumes: [rand] selects the branch of the
  mixture, [unif] feeds [random.uniform] and [gauss] is the standard
  normal deviate behind [np.random.normal].  Only one of [unif] and
  [gauss] is consumed by a given call. *)
Record GradeDraws := mkGradeDraws { rand : Q; unif : Q; gauss : Q }.

(** A draw of [random.random()] lies in the half-open unit interval. *)
Definition unit_draw (u : Q) : Prop := (0 <= u /\ u < 1)%Q.

Inductive Branch := Perfect | Failing | Passing.

(** [complete_decade_generator._generate_realistic_grade] (the copy in
  [decade_generator.py] is the same text). *)
Module CompleteDecade.

Definition branch (d : GradeDraws) : Branch :=
  if Qlt_le_dec (rand d) (3 # 100) then Perfect
  else if Qlt_le_dec (rand d) (8 # 100) then Failing
  else Passing.

Definition percentage (d : GradeDraws) : Q :=
  if Qlt_le_dec (rand d) (3 # 100) then
    Py.uniform (95 # 100) 1 (unif d)
  else if Qlt_le_dec (rand d) (8 # 100) then
    Py.uniform 0 (69 # 100) (unif d)
  else
    Py.max (70 # 100) (Py.min 1 (Py.normal (87 # 100) (8 # 100) (gauss d))).

(** The product is the exact one; the code rounds the binary64 product,
    which [round] tells apart from it only next to a tie. *)
Definition _generate_realistic_grade (points_possible : Z) (d : GradeDraws) : Z :=
  Z.max 0 (Z.min points_possible
                 (Py.round (inject_Z points_possible * percentage d))).

End CompleteDecade.

(** The per-row body of [grade_distribution_hotfix.generate_proper_grades]:
  percentages on the 0..100 scale. *)
Module Hotfix.

Definition percentage (d : GradeDraws) : Q :=
  if Qlt_le_dec (rand d) (3 # 100) then
    Py.uniform 95 100 (unif d)
  else if Qlt_le_dec (rand d) (8 # 100) then
    Py.uniform 0 69 (unif d)
  else
    Py.max 70 (Py.min 94 (Py.normal 85 5 (gauss d))).

Definition generate_proper_grade (points_possible : Z) (d : GradeDraws) : Z :=
  let score := Py.round ((percentage d / 100) * inject_Z points_possible) in
  Z.max 0 (Z.min points_possible score).

End Hotfix.

(** [luminosity_patch._generate_policy_compliant_score], with the
  [grade_policy] table of the patcher. *)
Module Patch.

Record GradePolicy := mkGradePolicy {
  min_percentage : Q;
  max_percentage : Q;
  median_percentage : Q;
  perfect_rate : Q;
  failing_rate : Q;
  std_dev : Q
}.

Definition grade_policy : GradePolicy :=
  mkGradePolicy 70 100 87 (3 # 100) (4 # 100) 8.

Definition percentage (d : GradeDraws) : Q :=
  if Qlt_le_dec (rand d) (perfect_rate grade_policy) then
    Py.uniform (95 # 100) 1 (unif d)
  else if Qlt_le_dec (rand d)
            (perfect_rate grade_policy + failing_rate grade_policy) then
    Py.uniform 0 (69 # 100) (unif d)
  else
    Py.max (70 # 100)
      (Py.min 1 (Py.normal (median_percentage grade_policy / 100)
                            (std_dev grade_policy / 100) (gauss d))).

Definition _generate_policy_compliant_score (points_possible : Z) (d : GradeDraws) : Z :=
  let score := Py.round (inject_Z points_possible * percentage d) in
  Z.max 0 (Z.min points_possible score).

End Patch.

(** ** Insertion-ordered dictionaries *)

Module PyDict.
Section dict.
Context {K V : Type} `{EqDecision K}.

(** [d.get(k)]: the value stored under [k], if any. *)
Fixpoint get (d : list (K * V)) (k : K) : option V :=
  match d with
  | [] => None
  | (k', v) :: r => if decide (k = k') then Some v else get r k
  end.

(** [k in d]. *)
Definition mem (d : list (K * V)) (k : K) : bool := bool_decide (is_Some (get d k)).

(** [d[k] = v]: a present key keeps its position, a new key is appended. *)
Fixpoint set (d : list (K * V)) (k : K) (v : V) : list (K * V) :=
  match d with
  | [] => [(k, v)]
  | (k', v') :: r =>
      if decide (k = k') then (k', v) :: r else (k', v') :: set r k v
  end.

(** [del d[k]] for a key the caller knows to be present (on an absent key
    the list is returned as it is; the callers below guard the call or
    delete a key they are iterating over). *)
Fixpoint del (d : list (K * V)) (k : K) : list (K * V) :=
  match d with
  | [] => []
  | (k', v') :: r => if decide (k = k') then r else (k', v') :: del r k
  end.

Definition keys (d : list (K * V)) : list K := d.*1.
Definition values (d : list (K * V)) : list V := d.*2.

(** The representation invariant: a key occurs once. *)
Definition wf (d : list (K * V)) : Prop := NoDup (keys d).

End dict.
End PyDict.

Abbreviation dict K V := (list (K * V)) (only parsing).

(** ** Python's [random] module, with the underlying draws made explicit *)

Module PyRandom.
Section random.
Context {A : Type}.

(** [random.choice(seq)] is [seq[randbelow(len(seq))]]; [pick] is the raw
    draw, reduced into range.  An empty sequence raises [IndexError]. *)
Definition choice (seq : list A) (pick : nat) : option A :=
  seq !! (pick `mod` length seq)%nat.

(** One step of the selection loop of [random.sample]:
    [j = randbelow(n - i); result[i] = pool[j]; pool[j] = pool[n - i - 1]]
    where the live part of the pool is [pool] itself. *)
Definition sample_step (pool : list A) (pick : nat) : option (A * list A) :=
  let n := length pool in
  let j := (pick `mod` n)%nat in
  match pool !! j, last pool with
  | Some x, Some y => Some (x, take (n - 1) (<[j := y]> pool))
  | _, _ => None
  end.

(** [random.sample(population, k)] for [0 <= k <= len(population)]: [k]
    elements at distinct positions of the population.  CPython selects
    them from a shrinking pool or, for a large population, by redrawing
    positions already taken; the two differ only in how the raw draws map
    to positions, and the pool loop stands for both here.  [picks] are the
    successive raw draws (a missing draw counts as 0).  A larger [k]
    raises [ValueError]: the callers below always pass
    [min(k, len(population))]. *)
Fixpoint sample (pool : list A) (k : nat) (picks : list nat) : list A :=
  match k with
  | O => []
  | S k' =>
      match sample_step pool (hd O picks) with
      | Some (x, pool') => x :: sample pool' k' (tl picks)
      | None => []
      end
  end.

End random.

(** [random.randint(a, b)]: [a + randbelow(b - a + 1)]. *)
Definition randint (a b : Z) (pick : nat) : Z :=
  a + Z.of_nat pick `mod` (b - a + 1).

(** [random.choices(population, weights)[0]]: the index is
    [bisect(cum_weights, random() * total, 0, n - 1)], the number of
    cumulative weights among the first [n - 1] that are [<= u * total]. *)
Fixpoint accumulate (acc : Q) (ws : list Q) : list Q :=
  match ws with
  | [] => []
  | w :: r => (acc + w)%Q :: accumulate (acc + w)%Q r
  end.

Definition bisect (cum : list Q) (x : Q) : nat :=
  length (List.filter (fun c => Qle_bool c x) cum).

Definition choices {A} (population : list A) (weights : list Q) (u : Q) : option A :=
  let cum := accumulate 0 weights in
  let total := List.last cum 0%Q in
  population !! bisect (take (length population - 1) cum) (u * total)%Q.

End PyRandom.

(** ** [datetime.date] *)

Module PyDate.

Record date := mkDate { year : Z; month : Z; day : Z }.

Definition is_leap (y : Z) : bool :=
  (y mod 4 =? 0) && (negb (y mod 100 =? 0) || (y mod 400 =? 0)).

Definition days_in_month (y m : Z) : Z :=
  if (m =? 2) then (if is_leap y then 29 else 28)
  else if (m =? 4) || (m =? 6) || (m =? 9) || (m =? 11) then 30
  else 31.

(** [date(y, m, d)] raises [ValueError] outside the calendar. *)
Definition make (y m d : Z) : option date :=
  if (1 <=? y) && (y <=? 9999) && (1 <=? m) && (m <=? 12)
     && (1 <=? d) && (d <=? days_in_month y m)
  then Some (mkDate y m d) else None.

Definition days_before_year (y : Z) : Z :=
  let p := y - 1 in p * 365 + p / 4 - p / 100 + p / 400.

Definition days_before_month (y m : Z) : Z :=
  foldr Z.add 0 (days_in_month y <$> seqZ 1 (m - 1)).

Definition toordinal (d : date) : Z :=
  days_before_year (year d) + days_before_month (year d) (month d) + day d.

(** [d.weekday()]: Monday is 0. *)
Definition weekday (d : date) : Z := (toordinal d + 6) mod 7.

(** [d + timedelta(days=1)] (below the last day of year 9999). *)
Definition next_day (d : date) : date :=
  if day d <? days_in_month (year d) (month d) then
    mkDate (year d) (month d) (day d + 1)
  else if month d <? 12 then mkDate (year d) (month d + 1) 1
  else mkDate (year d + 1) 1 1.

(** [a <= b] on dates, the comparison of the (year, month, day) triples. *)
Definition le (a b : date) : bool :=
  (year a <? year b)
  || ((year a =? year b)
      && ((month a <? month b)
          || ((month a =? month b) && (day a <=? day b)))).

Definition digit (n : Z) : ascii := ascii_of_nat (48 + Z.to_nat (n mod 10)).

(** A field printed in [width] decimal digits, zero padded. *)
Fixpoint zero_pad (width : nat) (n : Z) : string :=
  match width with
  | O => EmptyString
  | S w => zero_pad w (n / 10) +:+ String (digit n) EmptyString
  end.

(** [d.strftime("%Y-%m-%d")], for a year of four digits; the C library
    prints a year below 1000 as it is, without the zeros. *)
Definition strftime (d : date) : string :=
  zero_pad 4 (year d) +:+ "-" +:+ zero_pad 2 (month d) +:+ "-"
  +:+ zero_pad 2 (day d).

End PyDate.

(** ** The school-day calendar *)

Module Calendar.
Import PyDate.

(** [_is_holiday(check_date)].  The three periods are built from the year
    of the date being checked, as the source does; a period whose end
    points are not dates of the calendar raises in Python and is [None]
    here. *)
Definition holiday_periods (check_date : date) : option (list (date * date)) :=
  let y := year check_date in
  a1 ← make y 11 25; b1 ← make y 11 29;
  a2 ← make y 12 23; b2 ← make (y + 1) 1 3;
  a3 ← make (y + 1) 3 15; b3 ← make (y + 1) 3 22;
  Some [(a1, b1); (a2, b2); (a3, b3)].

Definition _is_holiday (check_date : date) : option bool :=
  periods ← holiday_periods check_date;
  Some (existsb (fun p : date * date =>
                   le (fst p) check_date && le check_date (snd p)) periods).

(** The [while] loop of [complete_decade_generator._get_school_days]:
    [fuel] bounds the number of iterations; [None] is an exception of the
    source or exhausted fuel. *)
Fixpoint school_days_loop (fuel : nat) (current_date end_date : date)
    (school_days : list string) : option (list string) :=
  if le current_date end_date && (length school_days <? 180)%nat then
    match fuel with
    | O => None
    | S fuel' =>
        school_days' ←
          (if weekday current_date <? 5 then
             h ← _is_holiday current_date;
             Some (if h : bool then school_days
                   else school_days ++ [strftime current_date])
           else Some school_days);
        school_days_loop fuel' (next_day current_date) end_date school_days'
    end
  else Some school_days.

(** [_get_school_days(year)]: the span from 26 August to 6 June holds
    fewer than 366 days, which bounds the loop. *)
Definition _get_school_days (year : Z) : option (list string) :=
  start_date ← make year 8 26;
  end_date ← make (year + 1) 6 6;
  school_days_loop 366 start_date end_date [].

(** The loop of [decade_generator._get_school_days], which runs to the end
    date and truncates afterwards. *)
Fixpoint school_days_loop_all (fuel : nat) (current_date end_date : date)
    (school_days : list string) : option (list string) :=
  if le current_date end_date then
    match fuel with
    | O => None
    | S fuel' =>
        school_days' ←
          (if weekday current_date <? 5 then
             h ← _is_holiday current_date;
             Some (if h : bool then school_days
                   else school_days ++ [strftime current_date])
           else Some school_days);
        school_days_loop_all fuel' (next_day current_date) end_date school_days'
    end
  else Some school_days.

Definition _get_school_days_truncating (year : Z) : option (list string) :=
  start_date ← make year 8 26;
  end_date ← make (year + 1) 6 6;
  take 180 <$> school_days_loop_all 366 start_date end_date [].

End Calendar.

(** ** Entities

    The entities are Python dictionaries with a fixed set of string keys;
    each becomes a record whose fields carry the keys' names.  A key that
    is only present on some objects ([graduation_year], [transfer_year],
    [is_transfer], ...) is an [option] field. *)

Module Student.
Record t := mk {
  student_id : Z;
  first_name : string;
  last_name : string;
  gender : string;
  date_of_birth : string;
  grade_level_id : Z;
  enrollment_year : Z;
  family_id : string;
  graduation_year : option Z;
  transfer_year : option Z;
  is_transfer : option bool
}.

(** [student["grade_level_id"] = g]. *)
Definition with_grade (s : t) (g : Z) : t :=
  mk (student_id s) (first_name s) (last_name s) (gender s) (date_of_birth s)
     g (enrollment_year s) (family_id s) (graduation_year s)
     (transfer_year s) (is_transfer s).

(** [{**student, "graduation_year": year}]. *)
Definition with_graduation_year (s : t) (year : Z) : t :=
  mk (student_id s) (first_name s) (last_name s) (gender s) (date_of_birth s)
     (grade_level_id s) (enrollment_year s) (family_id s) (Some year)
     (transfer_year s) (is_transfer s).

(** [{**student, "transfer_year": year}]. *)
Definition with_transfer_year (s : t) (year : Z) : t :=
  mk (student_id s) (first_name s) (last_name s) (gender s) (date_of_birth s)
     (grade_level_id s) (enrollment_year s) (family_id s) (graduation_year s)
     (Some year) (is_transfer s).

#[global] Instance student_eq_dec : EqDecision t.
Proof. solve_decision. Defined.
End Student.

Module Guardian.
Record t := mk {
  guardian_id : Z;
  first_name : string;
  last_name : string;
  email : string;
  phone : string
}.

#[global] Instance guardian_eq_dec : EqDecision t.
Proof. solve_decision. Defined.
End Guardian.

(** A row of the student-guardian relationship table. *)
Module StudentGuardian.
Record t := mk {
  student_id : Z;
  guardian_id : Z;
  guardian_type_id : Z;
  family_id : string
}.

#[global] Instance relationship_eq_dec : EqDecision t.
Proof. solve_decision. Defined.
End StudentGuardian.

(** The keys of [GuardianRegistry.student_guardians]: the registry stores
    rows under the integer [student_id] and under the strings
    ["{student_id}_1"] and ["{student_id}_2"].  An [int] and a [str] are
    never equal as dictionary keys. *)
Inductive SGKey := IntKey (n : Z) | StrKey (s : string).

#[global] Instance SGKey_eq_dec : EqDecision SGKey.
Proof. solve_decision. Defined.

(** [f"FAM{n // 3}"]. *)
Definition fam (n : Z) : string := "FAM" +:+ pretty (n / 3).

(** [f"{student_id}_{i}"]. *)
Definition sg_str_key (student_id i : Z) : SGKey :=
  StrKey (pretty student_id +:+ "_" +:+ pretty i).

(** The values [Faker] makes up for one person. *)
Record FakePerson := mkFakePerson {
  fake_first_name : string;
  fake_last_name : string;
  fake_email : string;
  fake_phone : string
}.

(** ** GuardianRegistry *)

Record GuardianRegistry := mkGuardianRegistry {
  guardians : dict Z Guardian.t;
  student_guardians : dict SGKey StudentGuardian.t;
  guardian_id_counter : Z;
  transferred_guardians : dict Z Guardian.t
}.

(** [GuardianRegistry.__init__]. *)
Definition GuardianRegistry_init : GuardianRegistry :=
  mkGuardianRegistry [] [] 1 [].

(** The draws made while one student is given new guardians. *)
Record GuardianDraws := mkGuardianDraws {
  shares_draw : Q;        (* random.random() < 0.65 *)
  structure_draw : Q;     (* rand = random.random() *)
  type_pick : nat;        (* random.choice(guardian_types) *)
  fake_mother : FakePerson;
  fake_father : FakePerson;
  fake_other : FakePerson
}.

(** One pass of the loop body of [remove_student_guardians]. *)
Definition remove_relationship (student_id : Z) (reg : GuardianRegistry)
    (relationship : StudentGuardian.t) : GuardianRegistry :=
  let guardian_id := StudentGuardian.guardian_id relationship in
  let other_students :=
    filter (fun sg => StudentGuardian.guardian_id sg = guardian_id
                      /\ StudentGuardian.student_id sg <> student_id)
           (PyDict.values (student_guardians reg)) in
  let reg1 :=
    match other_students with
    | [] =>
        match PyDict.get (guardians reg) guardian_id with
        | Some g =>
            mkGuardianRegistry
              (PyDict.del (guardians reg) guardian_id)
              (student_guardians reg)
              (guardian_id_counter reg)
              (PyDict.set (transferred_guardians reg) guardian_id g)
        | None => reg
        end
    | _ :: _ => reg
    end in
  if PyDict.mem (student_guardians reg1) (IntKey student_id) then
    mkGuardianRegistry
      (guardians reg1)
      (PyDict.del (student_guardians reg1) (IntKey student_id))
      (guardian_id_counter reg1)
      (transferred_guardians reg1)
  else reg1.

(** [GuardianRegistry.remove_student_guardians]. *)
Definition remove_student_guardians (student_id : Z) (reg : GuardianRegistry)
    : GuardianRegistry :=
  let student_guardian_relationships :=
    filter (fun sg => StudentGuardian.student_id sg = student_id)
           (PyDict.values (student_guardians reg)) in
  foldl (remove_relationship student_id) reg student_guardian_relationships.

(** The state of the loop of [generate_guardians_for_students]: the
    registry and the two result lists. *)
Record GenState := mkGenState {
  gen_reg : GuardianRegistry;
  new_guardians : list Guardian.t;
  new_student_guardians : list StudentGuardian.t
}.

(** A sibling is linked to one row of the family's existing guardians. *)
Definition reuse_family_guardian (student_id : Z) (family_id : string)
    (st : GenState) (existing_sg : StudentGuardian.t) : GenState :=
  let new_relationship :=
    StudentGuardian.mk student_id
      (StudentGuardian.guardian_id existing_sg)
      (StudentGuardian.guardian_type_id existing_sg)
      family_id in
  let reg := gen_reg st in
  mkGenState
    (mkGuardianRegistry (guardians reg)
       (PyDict.set (student_guardians reg) (IntKey student_id) new_relationship)
       (guardian_id_counter reg) (transferred_guardians reg))
    (new_guardians st)
    (new_student_guardians st ++ [new_relationship]).

(** A guardian is created under the current counter and related to the
    student under [key]; the counter moves on. *)
Definition add_guardian (key : SGKey) (student_id : Z) (family_id : string)
    (first_name last_name email phone : string) (guardian_type_id : Z)
    (st : GenState) : GenState :=
  let reg := gen_reg st in
  let guardian :=
    Guardian.mk (guardian_id_counter reg) first_name last_name email phone in
  let relationship :=
    StudentGuardian.mk student_id (guardian_id_counter reg)
      guardian_type_id family_id in
  mkGenState
    (mkGuardianRegistry
       (PyDict.set (guardians reg) (guardian_id_counter reg) guardian)
       (PyDict.set (student_guardians reg) key relationship)
       (guardian_id_counter reg + 1)
       (transferred_guardians reg))
    (new_guardians st ++ [guardian])
    (new_student_guardians st ++ [relationship]).

(** The body of the [for student in students] loop.  Every student the
    registry creates carries ["family_id"], so the default of
    [student.get("family_id", ...)] is never taken. *)
Definition generate_for_student (draws : Z -> GuardianDraws)
    (st : GenState) (student : Student.t) : GenState :=
  let student_id := Student.student_id student in
  let student_last_name := Student.last_name student in
  let family_id := Student.family_id student in
  let d := draws student_id in
  if PyDict.mem (student_guardians (gen_reg st)) (IntKey student_id) then st
  else
    let existing_family_guardians :=
      filter (fun sg => StudentGuardian.family_id sg = family_id)
             (PyDict.values (student_guardians (gen_reg st))) in
    match existing_family_guardians with
    | _ :: _ =>
        foldl (reuse_family_guardian student_id family_id) st
              existing_family_guardians
    | [] =>
        if Qlt_le_dec (shares_draw d) (65 # 100) then
          if Qlt_le_dec (structure_draw d) (60 # 100) then
            (* two-parent family *)
            let st1 :=
              add_guardian (sg_str_key student_id 1) student_id family_id
                (fake_first_name (fake_mother d)) student_last_name
                (fake_email (fake_mother d)) (fake_phone (fake_mother d)) 1 st in
            add_guardian (sg_str_key student_id 2) student_id family_id
              (fake_first_name (fake_father d)) student_last_name
              (fake_email (fake_father d)) (fake_phone (fake_father d)) 2 st1
          else if Qlt_le_dec (structure_draw d) (95 # 100) then
            (* single mother *)
            add_guardian (IntKey student_id) student_id family_id
              (fake_first_name (fake_mother d)) student_last_name
              (fake_email (fake_mother d)) (fake_phone (fake_mother d)) 1 st
          else
            (* single father *)
            add_guardian (IntKey student_id) student_id family_id
              (fake_first_name (fake_father d)) student_last_name
              (fake_email (fake_father d)) (fake_phone (fake_father d)) 2 st
        else
          (* non-parent guardian *)
          let guardian_type_id :=
            default 5 (PyRandom.choice [5; 6; 7; 8; 9; 10] (type_pick d)) in
          add_guardian (IntKey student_id) student_id family_id
            (fake_first_name (fake_other d)) (fake_last_name (fake_other d))
            (fake_email (fake_other d)) (fake_phone (fake_other d))
            guardian_type_id st
    end.

(** [GuardianRegistry.generate_guardians_for_students]; [draws s] are the
    draws made while student [s] is processed. *)
Definition generate_guardians_for_students (students : list Student.t)
    (draws : Z -> GuardianDraws) (reg : GuardianRegistry) : GenState :=
  foldl (generate_for_student draws) (mkGenState reg [] []) students.

(** The guardians related to a student in the registry's
    [student_guardians] collection. *)
Definition guardian_ids_of (reg : GuardianRegistry) (student_id : Z) : gset Z :=
  list_to_set
    (StudentGuardian.guardian_id <$>
       filter (fun sg => StudentGuardian.student_id sg = student_id)
              (PyDict.values (student_guardians reg))).

(** The number of relationship rows that mention a guardian. *)
Definition relationship_count (reg : GuardianRegistry) (guardian_id : Z) : nat :=
  length (filter (fun sg => StudentGuardian.guardian_id sg = guardian_id)
                 (PyDict.values (student_guardians reg))).

(** ** StudentRegistry

    [family_registry] is created empty by [__init__] and never read or
    written afterwards; it is left out of the state. *)

Record StudentRegistry := mkStudentRegistry {
  active_students : dict Z Student.t;
  graduated_students : dict Z Student.t;
  transferred_students : dict Z Student.t;
  student_id_counter : Z
}.

(** [StudentRegistry.__init__]. *)
Definition StudentRegistry_init : StudentRegistry :=
  mkStudentRegistry [] [] [] 1.

(** A row of the baseline [students.csv]. *)
Record StudentRow := mkStudentRow {
  row_student_id : Z;
  row_first_name : string;
  row_last_name : string;
  row_gender : string;
  row_date_of_birth : string;
  row_grade_level_id : Z
}.

Definition load_baseline_student (reg : StudentRegistry) (student : StudentRow)
    : StudentRegistry :=
  mkStudentRegistry
    (PyDict.set (active_students reg) (row_student_id student)
       (Student.mk (row_student_id student) (row_first_name student)
          (row_last_name student) (row_gender student)
          (row_date_of_birth student) (row_grade_level_id student)
          2015 (fam (row_student_id student)) None None None))
    (graduated_students reg)
    (transferred_students reg)
    (Z.max (student_id_counter reg) (row_student_id student + 1)).

(** [StudentRegistry.load_baseline_students]. *)
Definition load_baseline_students (students_df : list StudentRow)
    (reg : StudentRegistry) : StudentRegistry :=
  foldl load_baseline_student reg students_df.

(** The state of the loop of [advance_grade_levels]. *)
Record AdvanceState := mkAdvanceState {
  adv_reg : StudentRegistry;
  graduated : list Student.t;
  advanced : list Student.t
}.

(** The loop body of [advance_grade_levels] for one item of the snapshot
    [list(self.active_students.items())].  The object the snapshot yields
    is the one stored under the key, so the in-place write to
    ["grade_level_id"] is a write to the registry, and [advanced] lists
    the object as it is once written. *)
Definition advance_one (year : Z) (st : AdvanceState) (item : Z * Student.t)
    : AdvanceState :=
  let '(student_id, student) := item in
  let reg := adv_reg st in
  let current_grade := Student.grade_level_id student in
  if 13 <=? current_grade then
    mkAdvanceState
      (mkStudentRegistry
         (PyDict.del (active_students reg) student_id)
         (PyDict.set (graduated_students reg) student_id
            (Student.with_graduation_year student year))
         (transferred_students reg)
         (student_id_counter reg))
      (graduated st ++ [student])
      (advanced st)
  else
    let student' := Student.with_grade student (current_grade + 1) in
    mkAdvanceState
      (mkStudentRegistry
         (PyDict.set (active_students reg) student_id student')
         (graduated_students reg)
         (transferred_students reg)
         (student_id_counter reg))
      (graduated st)
      (advanced st ++ [student']).

(** [StudentRegistry.advance_grade_levels]. *)
Definition advance_grade_levels (year : Z) (reg : StudentRegistry)
    : AdvanceState :=
  foldl (advance_one year) (mkAdvanceState reg [] []) (active_students reg).

(** The draws of one iteration of [enroll_new_kindergarteners]. *)
Record KinderDraws := mkKinderDraws {
  kd_birth_date : string;     (* fake.date_between(...).strftime(...) *)
  kd_gender_pick : nat;       (* random.choice(["M", "F"]) *)
  kd_first_name : string;     (* fake.first_name_male() / _female() *)
  kd_sibling_draw : Q;        (* random.random() < 0.20 *)
  kd_family_pick : nat;       (* random.choice(existing_families) *)
  kd_last_name : string       (* fake.last_name() *)
}.

(** The state of the loop of [enroll_new_kindergarteners]. *)
Record EnrollState := mkEnrollState {
  enr_reg : StudentRegistry;
  new_students : list Student.t
}.

(** The family and the surname of a new kindergartener. *)
Definition kinder_family (reg : StudentRegistry) (d : KinderDraws)
    : string * string :=
  if Qlt_le_dec (kd_sibling_draw d) (20 # 100) then
    let existing_families :=
      Student.family_id <$> PyDict.values (active_students reg) in
    match PyRandom.choice existing_families (kd_family_pick d) with
    | Some family_id =>
        (* the first active student of that family *)
        let sibling :=
          head (filter (fun s => Student.family_id s = family_id)
                       (PyDict.values (active_students reg))) in
        (family_id, from_option Student.last_name (kd_last_name d) sibling)
    | None => (fam (student_id_counter reg), kd_last_name d)
    end
  else (fam (student_id_counter reg), kd_last_name d).

(** The window of birth dates both loops build before they draw one:
    [datetime(birth_year - 1, 9, 1).date()] and
    [datetime(birth_year, 8, 31).date()].  Either raises [ValueError]
    outside the years 1..9999. *)
Definition birth_window (birth_year : Z) : option (PyDate.date * PyDate.date) :=
  start_date ← PyDate.make (birth_year - 1) 9 1;
  end_date ← PyDate.make birth_year 8 31;
  Some (start_date, end_date).

(** One iteration of [enroll_new_kindergarteners], for a year whose
    [birth_window (year - 5)] exists (the years 7..10004): the birth date
    is the draw of [fake.date_between] in that window, printed.  In
    another year the iteration raises before it enrols anybody; the
    properties below say which years they cover. *)
Definition enroll_one (year : Z) (draws : nat -> KinderDraws)
    (st : EnrollState) (i : nat) : EnrollState :=
  let reg := enr_reg st in
  let d := draws i in
  let gender := default "M" (PyRandom.choice ["M"; "F"] (kd_gender_pick d)) in
  let '(family_id, last_name) := kinder_family reg d in
  let student :=
    Student.mk (student_id_counter reg) (kd_first_name d) last_name gender
      (kd_birth_date d) 1 year family_id None None None in
  mkEnrollState
    (mkStudentRegistry
       (PyDict.set (active_students reg) (student_id_counter reg) student)
       (graduated_students reg)
       (transferred_students reg)
       (student_id_counter reg + 1))
    (new_students st ++ [student]).

(** [StudentRegistry.enroll_new_kindergarteners]; [draws i] are the draws
    of iteration [i] of [range(count)]. *)
Definition enroll_new_kindergarteners (year count : Z)
    (draws : nat -> KinderDraws) (reg : StudentRegistry) : EnrollState :=
  foldl (enroll_one year draws) (mkEnrollState reg [])
        (seq 0 (Z.to_nat count)).

(** The draws of one transfer-in of [process_transfers]. *)
Record TransferInDraws := mkTransferInDraws {
  ti_grade_pick : nat;        (* random.randint(1, 12) *)
  ti_birth_date : string;
  ti_gender_pick : nat;
  ti_first_name : string;
  ti_last_name : string;
  ti_guardians : GuardianDraws
}.

Record TransferDraws := mkTransferDraws {
  td_out_picks : list nat;    (* random.sample(transfer_candidates, ...) *)
  td_in : nat -> TransferInDraws
}.

(** The state of [process_transfers]: both registries and the result
    lists. *)
Record TransferState := mkTransferState {
  tr_reg : StudentRegistry;
  tr_guardians : GuardianRegistry;
  transfers_in : list Student.t;
  transfers_out : list Student.t
}.

Definition transfer_out_one (year : Z) (st : TransferState) (student_id : Z)
    : TransferState :=
  let reg := tr_reg st in
  match PyDict.get (active_students reg) student_id with
  | Some student =>
      mkTransferState
        (mkStudentRegistry
           (PyDict.del (active_students reg) student_id)
           (graduated_students reg)
           (PyDict.set (transferred_students reg) student_id
              (Student.with_transfer_year student year))
           (student_id_counter reg))
        (remove_student_guardians student_id (tr_guardians st))
        (transfers_in st)
        (transfers_out st ++ [student])
  | None => st   (* a sampled key is a key of the registry *)
  end.

(** One transfer in, for a year in which the [birth_window] of the drawn
    grade exists: [birth_year] is [year - 5 - (grade_level - 1)] with a
    grade from 1 to 12, so every draw has its window in the years
    18..10004. *)
Definition transfer_in_one (year : Z) (draws : nat -> TransferInDraws)
    (st : TransferState) (i : nat) : TransferState :=
  let reg := tr_reg st in
  let d := draws i in
  let grade_level := PyRandom.randint 1 12 (ti_grade_pick d) in
  let gender := default "M" (PyRandom.choice ["M"; "F"] (ti_gender_pick d)) in
  let student :=
    Student.mk (student_id_counter reg) (ti_first_name d) (ti_last_name d)
      gender (ti_birth_date d) grade_level year
      (fam (student_id_counter reg)) None None (Some true) in
  mkTransferState
    (mkStudentRegistry
       (PyDict.set (active_students reg) (student_id_counter reg) student)
       (graduated_students reg)
       (transferred_students reg)
       (student_id_counter reg + 1))
    (gen_reg (generate_guardians_for_students [student]
                (fun _ => ti_guardians d) (tr_guardians st)))
    (transfers_in st ++ [student])
    (transfers_out st).

(** [StudentRegistry.process_transfers]. *)
Definition process_transfers (year transfer_in_count transfer_out_count : Z)
    (draws : TransferDraws) (reg : StudentRegistry)
    (guardian_registry : GuardianRegistry) : TransferState :=
  let st0 := mkTransferState reg guardian_registry [] [] in
  let st1 :=
    if 0 <? transfer_out_count then
      let transfer_candidates := PyDict.keys (active_students reg) in
      let transfer_out_ids :=
        PyRandom.sample transfer_candidates
          (Z.to_nat (Z.min transfer_out_count
                           (Z.of_nat (length transfer_candidates))))
          (td_out_picks draws) in
      foldl (transfer_out_one year) st0 transfer_out_ids
    else st0 in
  foldl (transfer_in_one year (td_in draws)) st1
        (seq 0 (Z.to_nat transfer_in_count)).

(** ** TeacherRegistry *)

Module Teacher.
Record t := mk {
  teacher_id : Z;
  first_name : string;
  last_name : string;
  department_id : Z;
  hire_year : Z;
  years_experience : Z;
  position_level : string;
  retirement_year : option Z;
  departure_year : option Z
}.

(** [teacher["years_experience"] += 1]. *)
Definition aged (x : t) : t :=
  mk (teacher_id x) (first_name x) (last_name x) (department_id x)
     (hire_year x) (years_experience x + 1) (position_level x)
     (retirement_year x) (departure_year x).

(** [{**teacher, "retirement_year": year}]. *)
Definition with_retirement_year (x : t) (year : Z) : t :=
  mk (teacher_id x) (first_name x) (last_name x) (department_id x)
     (hire_year x) (years_experience x) (position_level x)
     (Some year) (departure_year x).

(** [{**teacher, "departure_year": year}]. *)
Definition with_departure_year (x : t) (year : Z) : t :=
  mk (teacher_id x) (first_name x) (last_name x) (department_id x)
     (hire_year x) (years_experience x) (position_level x)
     (retirement_year x) (Some year).

#[global] Instance teacher_eq_dec : EqDecision t.
Proof. solve_decision. Defined.
End Teacher.

Record TeacherRegistry := mkTeacherRegistry {
  active_teachers : dict Z Teacher.t;
  retired_teachers : dict Z Teacher.t;
  former_teachers : dict Z Teacher.t;
  teacher_id_counter : Z
}.

(** [TeacherRegistry.__init__]. *)
Definition TeacherRegistry_init : TeacherRegistry :=
  mkTeacherRegistry [] [] [] 1.

(** A row of the baseline [teachers.csv]. *)
Record TeacherRow := mkTeacherRow {
  row_teacher_id : Z;
  row_teacher_first_name : string;
  row_teacher_last_name : string;
  row_department_id : Z
}.

(** The draws made for one baseline teacher. *)
Record BaselineTeacherDraws := mkBaselineTeacherDraws {
  bt_hire_pick : nat;         (* random.randint(2005, 2015) *)
  bt_experience_pick : nat;   (* random.randint(1, 20) *)
  bt_position_pick : nat      (* random.choice([...]) *)
}.

Definition load_baseline_teacher (draws : nat -> BaselineTeacherDraws)
    (reg : TeacherRegistry) (item : nat * TeacherRow) : TeacherRegistry :=
  let '(i, teacher) := item in
  let d := draws i in
  mkTeacherRegistry
    (PyDict.set (active_teachers reg) (row_teacher_id teacher)
       (Teacher.mk (row_teacher_id teacher) (row_teacher_first_name teacher)
          (row_teacher_last_name teacher) (row_department_id teacher)
          (PyRandom.randint 2005 2015 (bt_hire_pick d))
          (PyRandom.randint 1 20 (bt_experience_pick d))
          (default "Teacher"
             (PyRandom.choice ["Teacher"; "Senior Teacher"; "Department Head"]
                (bt_position_pick d)))
          None None))
    (retired_teachers reg)
    (former_teachers reg)
    (Z.max (teacher_id_counter reg) (row_teacher_id teacher + 1)).

(** [TeacherRegistry.load_baseline_teachers]; [draws i] are the draws for
    row [i] of the frame. *)
Definition load_baseline_teachers (teachers_df : list TeacherRow)
    (draws : nat -> BaselineTeacherDraws) (reg : TeacherRegistry)
    : TeacherRegistry :=
  foldl (load_baseline_teacher draws) reg
        (zip (seq 0 (length teachers_df)) teachers_df).

(** [department_counts[dept_id] = department_counts.get(dept_id, 0) + 1]. *)
Definition count_department (department_counts : dict Z Z) (teacher : Teacher.t)
    : dict Z Z :=
  let dept_id := Teacher.department_id teacher in
  PyDict.set department_counts dept_id
    (default 0 (PyDict.get department_counts dept_id) + 1).

(** [TeacherRegistry._assess_department_needs]: a weight per department
    1..9, the shortfall against an even split and at least 1. *)
Definition _assess_department_needs (reg : TeacherRegistry) : dict Z Q :=
  let department_counts :=
    foldl count_department [] (PyDict.values (active_teachers reg)) in
  let total_teachers := foldr Z.add 0 (PyDict.values department_counts) in
  (fun dept_id =>
     let current_count := default 0 (PyDict.get department_counts dept_id) in
     let ideal_count := (inject_Z total_teachers / 9)%Q in
     let need_factor := Py.max 1 (ideal_count - inject_Z current_count) in
     (dept_id, need_factor)) <$> seqZ 1 9.

(** [list.sort(key=years_experience, reverse=True)]: a stable sort, so
    teachers of equal experience keep their order.  [insert_desc] puts a
    teacher in front of the first one with no more experience. *)
Fixpoint insert_desc (x : Teacher.t) (l : list Teacher.t) : list Teacher.t :=
  match l with
  | [] => [x]
  | y :: r =>
      if Teacher.years_experience x <? Teacher.years_experience y
      then y :: insert_desc x r
      else x :: y :: r
  end.

Definition sort_by_experience_desc (l : list Teacher.t) : list Teacher.t :=
  foldr insert_desc [] l.

(** The draws of one new hire. *)
Record HireDraws := mkHireDraws {
  hd_department_draw : Q;     (* random.choices(..., weights=...) *)
  hd_gender_pick : nat;
  hd_first_name : string;
  hd_last_name : string;
  hd_experience_pick : nat    (* random.randint(0, 5) *)
}.

Record TeacherDraws := mkTeacherDraws {
  td_retire_draw : nat -> Q;  (* random.random() < 0.3, per candidate *)
  td_hire : nat -> HireDraws
}.

(** The state of [process_annual_changes]. *)
Record AnnualState := mkAnnualState {
  ann_reg : TeacherRegistry;
  retirements : list Teacher.t;
  resignations : list Teacher.t;
  new_hires : list Teacher.t
}.

(** One departure; [del self.active_teachers[...]] raises [KeyError] on an
    absent key, which is [None]. *)
Definition depart_one (year : Z) (retire_draw : nat -> Q)
    (st : option AnnualState) (item : nat * Teacher.t) : option AnnualState :=
  st ← st;
  let '(i, teacher) := item in
  let reg := ann_reg st in
  let tid := Teacher.teacher_id teacher in
  let retires :=
    (25 <=? Teacher.years_experience teacher)
    || (if Qlt_le_dec (retire_draw i) (3 # 10) then true else false) in
  if PyDict.mem (active_teachers reg) tid then
    Some
      (if retires then
         mkAnnualState
           (mkTeacherRegistry
              (PyDict.del (active_teachers reg) tid)
              (PyDict.set (retired_teachers reg) tid
                 (Teacher.with_retirement_year teacher year))
              (former_teachers reg)
              (teacher_id_counter reg))
           (retirements st ++ [teacher]) (resignations st) (new_hires st)
       else
         mkAnnualState
           (mkTeacherRegistry
              (PyDict.del (active_teachers reg) tid)
              (retired_teachers reg)
              (PyDict.set (former_teachers reg) tid
                 (Teacher.with_departure_year teacher year))
              (teacher_id_counter reg))
           (retirements st) (resignations st ++ [teacher]) (new_hires st))
  else None.

Definition hire_one (year : Z) (department_needs : dict Z Q)
    (draws : nat -> HireDraws) (st : AnnualState) (i : nat) : AnnualState :=
  let reg := ann_reg st in
  let d := draws i in
  let department_id :=
    default 1 (PyRandom.choices (PyDict.keys department_needs)
                 (PyDict.values department_needs) (hd_department_draw d)) in
  let teacher :=
    Teacher.mk (teacher_id_counter reg) (hd_first_name d) (hd_last_name d)
      department_id year (PyRandom.randint 0 5 (hd_experience_pick d))
      "Teacher" None None in
  mkAnnualState
    (mkTeacherRegistry
       (PyDict.set (active_teachers reg) (teacher_id_counter reg) teacher)
       (retired_teachers reg)
       (former_teachers reg)
       (teacher_id_counter reg + 1))
    (retirements st) (resignations st) (new_hires st ++ [teacher]).

(** The last loop: every active teacher gains a year.  The objects of
    [new_hires] are the ones stored in the registry, so the returned list
    shows them aged as well. *)
Definition age_teachers (st : AnnualState) : AnnualState :=
  let reg := ann_reg st in
  mkAnnualState
    (mkTeacherRegistry
       (prod_map id Teacher.aged <$> active_teachers reg)
       (retired_teachers reg)
       (former_teachers reg)
       (teacher_id_counter reg))
    (retirements st) (resignations st) (Teacher.aged <$> new_hires st).

(** The departures of [process_annual_changes], for a given value of
    [expected_departures]. *)
Definition process_departures (year expected_departures : Z)
    (retire_draw : nat -> Q) (reg : TeacherRegistry) : option AnnualState :=
  let departure_candidates :=
    sort_by_experience_desc (PyDict.values (active_teachers reg)) in
  let n :=
    Z.to_nat (Z.min expected_departures
                    (Z.of_nat (length departure_candidates))) in
  foldl (depart_one year retire_draw) (Some (mkAnnualState reg [] [] []))
        (zip (seq 0 n) (take n departure_candidates)).

(** The hires of [process_annual_changes] and the ageing loop. *)
Definition process_hires (year target_teacher_count : Z)
    (draws : nat -> HireDraws) (st : AnnualState) : AnnualState :=
  let new_hire_count :=
    target_teacher_count - Z.of_nat (length (active_teachers (ann_reg st))) in
  let department_needs := _assess_department_needs (ann_reg st) in
  age_teachers
    (foldl (hire_one year department_needs draws) st
           (seq 0 (Z.to_nat (Z.max 0 new_hire_count)))).

(** [TeacherRegistry.process_annual_changes].  In
    [int(current_count * turnover_rate)] the count is converted to a
    float, the product is the binary64 product and [int] truncates it;
    [turnover_rate] is the float the caller holds ([Float.lit (8 # 100)]
    for the literal [0.08]).  The function is modelled for the operands
    of [Float.int_product_defined]; for others the code raises
    [OverflowError]. *)
Definition process_annual_changes (year target_teacher_count : Z)
    (turnover_rate : Q) (draws : TeacherDraws) (reg : TeacherRegistry)
    : option AnnualState :=
  let current_count := Z.of_nat (length (active_teachers reg)) in
  let expected_departures :=
    Py.int (Float.mul (Float.of_int current_count) turnover_rate) in
  st ← process_departures year expected_departures (td_retire_draw draws) reg;
  Some (process_hires year target_teacher_count (td_hire draws) st).

(** ** The decade generator *)

(** The numeric fields of [SchoolYearConfig] (the lists of event names
    only feed the yearly summary). *)
Record SchoolYearConfig := mkSchoolYearConfig {
  cfg_year : Z;
  enrollment_target : Z;
  graduation_count : Z;
  new_kindergarten_count : Z;
  teacher_turnover_rate : Q
}.

(** [LuminosityDecadeGenerator._load_year_configurations]. *)
Definition year_configs : dict Z SchoolYearConfig :=
  [ (2016, mkSchoolYearConfig 2016 505 38 42 (8 # 100));
    (2017, mkSchoolYearConfig 2017 510 41 39 (7 # 100));
    (2018, mkSchoolYearConfig 2018 515 37 44 (9 # 100));
    (2019, mkSchoolYearConfig 2019 525 39 48 (6 # 100));
    (2020, mkSchoolYearConfig 2020 495 42 35 (12 # 100));
    (2021, mkSchoolYearConfig 2021 540 35 52 (8 # 100));
    (2022, mkSchoolYearConfig 2022 555 45 48 (7 # 100));
    (2023, mkSchoolYearConfig 2023 570 47 49 (6 # 100));
    (2024, mkSchoolYearConfig 2024 580 48 50 (5 # 100));
    (2025, mkSchoolYearConfig 2025 585 50 51 (5 # 100)) ].

(** The draws of step 1 of [generate_school_year]. *)
Record TransitionDraws := mkTransitionDraws {
  yd_kinder : nat -> KinderDraws;
  yd_transfer_in_pick : nat;      (* random.randint(3, 8) *)
  yd_transfer_out_pick : nat;     (* random.randint(2, 7) *)
  yd_transfers : TransferDraws
}.

(** Step 1 of [generate_school_year], "Process student transitions":
    [advance_grade_levels], [enroll_new_kindergarteners] and
    [process_transfers] in this order.  [self.year_configs[year]] raises
    [KeyError] for a year without configuration. *)
Definition student_transitions (year : Z) (draws : TransitionDraws)
    (reg : StudentRegistry) (guardian_registry : GuardianRegistry)
    : option TransferState :=
  config ← PyDict.get year_configs year;
  let adv := advance_grade_levels year reg in
  let enr :=
    enroll_new_kindergarteners year (new_kindergarten_count config)
      (yd_kinder draws) (adv_reg adv) in
  Some (process_transfers year
          (PyRandom.randint 3 8 (yd_transfer_in_pick draws))
          (PyRandom.randint 2 7 (yd_transfer_out_pick draws))
          (yd_transfers draws) (enr_reg enr) guardian_registry).

(** ** Attendance *)

Module Attendance.
Record t := mk {
  attendance_id : string;
  student_id : Z;
  date : string;
  status : string
}.
End Attendance.

(** [f"ATT{attendance_id:06d}"]: at least six digits, zero padded. *)
Definition att_id (attendance_id : Z) : string :=
  let digits := pretty attendance_id in
  "ATT" +:+ string_of_list_ascii
               (replicate (6 - String.length digits) "0"%char)
        +:+ digits.

(** The draws made for one student of [_generate_attendance]. *)
Record AttendanceDraws := mkAttendanceDraws {
  absence_picks : list nat;   (* random.sample(school_days, ...) *)
  tardy_picks : list nat;     (* random.sample(remaining_days, ...) *)
  status_picks : list nat     (* random.choice(["Absent", "Excused"]), one
                                 per absence day met *)
}.

Definition absence_count (school_days : list string) : Z :=
  Py.int (inject_Z (Z.of_nat (length school_days)) * (5 # 100)).

Definition tardy_count (school_days : list string) : Z :=
  Py.int (inject_Z (Z.of_nat (length school_days)) * (3 # 100)).

Definition absence_days (school_days : list string) (d : AttendanceDraws)
    : list string :=
  PyRandom.sample school_days
    (Z.to_nat (Z.min (absence_count school_days)
                     (Z.of_nat (length school_days))))
    (absence_picks d).

Definition remaining_days (school_days : list string) (d : AttendanceDraws)
    : list string :=
  filter (fun day => day ∉ absence_days school_days d) school_days.

Definition tardy_days (school_days : list string) (d : AttendanceDraws)
    : list string :=
  PyRandom.sample (remaining_days school_days d)
    (Z.to_nat (Z.min (tardy_count school_days)
                     (Z.of_nat (length (remaining_days school_days d)))))
    (tardy_picks d).

(** The state of the [for day in school_days] loop: the rows so far, the
    running [attendance_id] and the draws of [random.choice] not yet
    consumed. *)
Record DayState := mkDayState {
  rows : list Attendance.t;
  next_id : Z;
  picks_left : list nat
}.

Definition attend_day (student_id : Z) (absences tardies : list string)
    (st : DayState) (day : string) : DayState :=
  let '(status, picks) :=
    if bool_decide (day ∈ absences) then
      (default "Absent"
         (PyRandom.choice ["Absent"; "Excused"] (hd O (picks_left st))),
       tl (picks_left st))
    else if bool_decide (day ∈ tardies) then ("Tardy", picks_left st)
    else ("Present", picks_left st) in
  mkDayState
    (rows st ++ [Attendance.mk (att_id (next_id st)) student_id day status])
    (next_id st + 1)
    picks.

(** The body of the [for student in ...] loop of [_generate_attendance]:
    the rows of one student, numbered from [attendance_id]. *)
Definition student_attendance (school_days : list string) (student_id : Z)
    (d : AttendanceDraws) (attendance_id : Z) : list Attendance.t :=
  rows (foldl (attend_day student_id (absence_days school_days d)
                          (tardy_days school_days d))
              (mkDayState [] attendance_id (status_picks d))
              school_days).

Definition attend_student (school_days : list string)
    (draws : Z -> AttendanceDraws) (st : list Attendance.t * Z)
    (student : Student.t) : list Attendance.t * Z :=
  let student_id := Student.student_id student in
  let block :=
    student_attendance school_days student_id (draws student_id) (snd st) in
  (fst st ++ block, snd st + Z.of_nat (length block)).

(** [_generate_attendance(year)] of [complete_decade_generator.py]; the
    copy in [decade_generator.py] differs only in how the calendar is
    truncated to 180 days.  [draws s] are the draws made for student
    [s]. *)
Definition _generate_attendance (year : Z) (draws : Z -> AttendanceDraws)
    (reg : StudentRegistry) : option (list Attendance.t) :=
  school_days ← Calendar._get_school_days year;
  Some (fst (foldl (attend_student school_days draws) ([], 1)
                   (PyDict.values (active_students reg)))).

(** ** Invariants and observations of the registries *)

(** What holds of every student registry the program builds: a key is
    stored once, and the id counter is above every key in use. *)
Definition student_registry_ok (reg : StudentRegistry) : Prop :=
  PyDict.wf (active_students reg)
  /\ forall k, k ∈ PyDict.keys (active_students reg) -> k < student_id_counter reg.

(** The same for teachers, whose deletion goes through the ["teacher_id"]
    field of the stored object: the field is the key. *)
Definition teacher_registry_ok (reg : TeacherRegistry) : Prop :=
  PyDict.wf (active_teachers reg)
  /\ (forall k x, (k, x) ∈ active_teachers reg -> Teacher.teacher_id x = k)
  /\ forall k, k ∈ PyDict.keys (active_teachers reg) -> k < teacher_id_counter reg.

(** The number of active students at a grade level. *)
Definition count_at_grade (g : Z) (reg : StudentRegistry) : nat :=
  length (filter (fun s => Student.grade_level_id s = g)
                 (PyDict.values (active_students reg))).

(** What [advance_grade_levels] leaves of a dictionary of students: the
    entries below grade 13, one grade up, in their order. *)
Definition promote_entry (item : Z * Student.t) : option (Z * Student.t) :=
  if 13 <=? Student.grade_level_id (snd item) then None
  else Some (fst item,
             Student.with_grade (snd item)
               (Student.grade_level_id (snd item) + 1)).

Definition graduate_entry (year : Z) (gs : dict Z Student.t)
    (item : Z * Student.t) : dict Z Student.t :=
  if 13 <=? Student.grade_level_id (snd item)
  then PyDict.set gs (fst item) (Student.with_graduation_year (snd item) year)
  else gs.

(** The entries a loop of enrolments appends: one per iteration, under
    consecutive fresh ids starting at the counter. *)
Definition appended_from (c : Z) (news : dict Z Student.t) : Prop :=
  PyDict.keys news = seqZ c (Z.of_nat (length news))
  /\ Forall (fun item => Student.student_id (snd item) = fst item) news.

(** The entries a loop of hires appends to the teachers. *)
Definition hired_from (c : Z) (news : dict Z Teacher.t) : Prop :=
  PyDict.keys news = seqZ c (Z.of_nat (length news))
  /\ Forall (fun item => Teacher.teacher_id (snd item) = fst item) news.

(** The label [random.choice(["Absent", "Excused"])] gives for a raw
    draw: the first for an even draw, the second for an odd one. *)
Definition absence_label (pick : nat) : string :=
  default "Absent" (PyRandom.choice ["Absent"; "Excused"] pick).

(** The statuses of the rows the day loop writes, in the order of the
    days: each absence day consumes one draw. *)
Fixpoint statuses (absences tardies : list string) (picks : list nat)
    (days : list string) : list string :=
  match days with
  | [] => []
  | day :: days' =>
      if bool_decide (day ∈ absences) then
        absence_label (hd O picks) :: statuses absences tardies (tl picks) days'
      else if bool_decide (day ∈ tardies) then
        "Tardy" :: statuses absences tardies picks days'
      else "Present" :: statuses absences tardies picks days'
  end.

(** The rows of a block that carry a given status. *)
Definition rows_with (status : string) (block : list Attendance.t)
    : list Attendance.t :=
  filter (fun r => Attendance.status r = status) block.

(** All sequences of [n] fair coin flips, as raw draws 0 and 1. *)
Fixpoint coin_sequences (n : nat) : list (list nat) :=
  match n with
  | O => [[]]
  | S n' =>
      (cons 0%nat <$> coin_sequences n') ++ (cons 1%nat <$> coin_sequences n')
  end.

(** The draws of a student with the coin flips replaced. *)
Definition with_status_picks (d : AttendanceDraws) (picks : list nat)
    : AttendanceDraws :=
  mkAttendanceDraws (absence_picks d) (tardy_picks d) picks.

(** The check run on the calendar of a year: the two generators agree
    on 180 distinct school days. *)
Definition calendar_check (year : Z) : bool :=
  match Calendar._get_school_days year with
  | Some school_days =>
      bool_decide (Calendar._get_school_days_truncating year = Some school_days)
      && (length school_days =? 180)%nat
      && bool_decide (NoDup school_days)
  | None => false
  end.

(** The blocks of rows of a table, one per student, each numbered from
    where the one before stopped. *)
Fixpoint attendance_blocks (school_days : list string)
    (draws : Z -> AttendanceDraws) (attendance_id : Z)
    (students : list Student.t) : list (list Attendance.t) :=
  match students with
  | [] => []
  | student :: students' =>
      let student_id := Student.student_id student in
      let block :=
        student_attendance school_days student_id (draws student_id)
          attendance_id in
      block :: attendance_blocks school_days draws
                 (attendance_id + Z.of_nat (length block)) students'
  end.

(** ** Sample inputs *)

(** A baseline frame of [n] students with ids 1..n, spread over the
    grades 1..13. *)
Definition baseline_rows (n : Z) : list StudentRow :=
  (fun i => mkStudentRow i "Ada" "Lovelace" "F" "2008-03-14" (i mod 13 + 1))
    <$> seqZ 1 n.

Definition baseline_500 : StudentRegistry :=
  load_baseline_students (baseline_rows 500) StudentRegistry_init.

Definition baseline_3 : StudentRegistry :=
  load_baseline_students
    [ mkStudentRow 3 "Ada" "Lovelace" "F" "1998-03-14" 13;
      mkStudentRow 4 "Alan" "Lovelace" "M" "1999-06-23" 12;
      mkStudentRow 5 "Grace" "Hopper" "F" "2010-12-09" 1 ]
    StudentRegistry_init.

Definition sample_grade_draws : GradeDraws := mkGradeDraws (1 # 2) (1 # 4) (1 # 1).

Definition sample_kinder_draws (_ : nat) : KinderDraws :=
  mkKinderDraws "2011-02-01" 1 "Edsger" (1 # 2) 0 "Dijkstra".

(** Three baseline teachers and the draws of one annual change. *)
Definition teachers_3 : TeacherRegistry :=
  load_baseline_teachers
    [ mkTeacherRow 1 "Emmy" "Noether" 1;
      mkTeacherRow 2 "Kurt" "Goedel" 1;
      mkTeacherRow 7 "Alonzo" "Church" 4 ]
    (fun i => mkBaselineTeacherDraws i (7 * i) i)
    TeacherRegistry_init.

(** A staff of 100 baseline teachers, with the ids 1..100. *)
Definition teachers_100 : TeacherRegistry :=
  load_baseline_teachers
    ((fun i => mkTeacherRow i "Emmy" "Noether" (i mod 9 + 1)) <$> seqZ 1 100)
    (fun i => mkBaselineTeacherDraws i (7 * i) i)
    TeacherRegistry_init.

Definition sample_teacher_draws : TeacherDraws :=
  mkTeacherDraws
    (fun _ => 1 # 2)
    (fun i => mkHireDraws (1 # 3) i "Haskell" "Curry" i).

(** Two siblings of the baseline (ids 3 and 4 share [FAM1]) and draws
    that make the first one a child of a two-parent family. *)
Definition sibling_a : Student.t :=
  Student.mk 3 "Ada" "Lovelace" "F" "2008-03-14" 5 2015 (fam 3) None None None.

Definition sibling_b : Student.t :=
  Student.mk 4 "Alan" "Lovelace" "M" "2009-06-23" 4 2015 (fam 4) None None None.

Definition two_parent_draws (_ : Z) : GuardianDraws :=
  mkGuardianDraws (1 # 2) (3 # 10) 0
    (mkFakePerson "Mary" "Shelley" "mary@example.org" "555-0101")
    (mkFakePerson "Percy" "Shelley" "percy@example.org" "555-0102")
    (mkFakePerson "Jane" "Austen" "jane@example.org" "555-0103").

(** The registry once the two siblings have been processed, in this
    order, from an empty registry. *)
Definition siblings_registry : GuardianRegistry :=
  gen_reg (generate_guardians_for_students [sibling_a; sibling_b]
             two_parent_draws GuardianRegistry_init).

(** The registry once the first sibling alone has been processed. *)
Definition only_child_registry : GuardianRegistry :=
  gen_reg (generate_guardians_for_students [sibling_a]
             two_parent_draws GuardianRegistry_init).

(** ** Observations used by the further properties *)

(** What holds of an entry [enroll_new_kindergarteners] adds in [year],
    [before] being the active students at that moment: a kindergartener
    under its own id, in a family of its own or in the family, and with
    the surname, of a student already active. *)
Definition kinder_entry_ok (year : Z) (before : dict Z Student.t)
    (item : Z * Student.t) : Prop :=
  Student.student_id (snd item) = fst item
  /\ Student.grade_level_id (snd item) = 1
  /\ Student.enrollment_year (snd item) = year
  /\ Student.is_transfer (snd item) = None
  /\ (Student.family_id (snd item) = fam (fst item)
      \/ exists s', s' ∈ PyDict.values before
           /\ Student.family_id s' = Student.family_id (snd item)
           /\ Student.last_name s' = Student.last_name (snd item)).

(** Draws for one year of student transitions. *)
Definition sample_transfer_draws : TransferDraws :=
  mkTransferDraws [0%nat; 1%nat]
    (fun _ => mkTransferInDraws 3 "2012-05-05" 0 "Barbara" "Liskov"
                (mkGuardianDraws (1 # 2) (3 # 10) 0
                   (mkFakePerson "Mary" "Shelley" "mary@example.org" "555-0101")
                   (mkFakePerson "Percy" "Shelley" "percy@example.org" "555-0102")
                   (mkFakePerson "Jane" "Austen" "jane@example.org" "555-0103"))).

Definition sample_transition_draws : TransitionDraws :=
  mkTransitionDraws
    (fun _ => mkKinderDraws "2011-02-01" 1 "Edsger" (1 # 2) 0 "Dijkstra")
    0 0 sample_transfer_draws.

(** A list of teachers in descending order of experience. *)
Fixpoint sorted_desc (l : list Teacher.t) : Prop :=
  match l with
  | [] => True
  | x :: r =>
      Forall (fun y => Teacher.years_experience y <= Teacher.years_experience x) r
      /\ sorted_desc r
  end.

(** The number of active teachers of a department. *)
Definition department_size (reg : TeacherRegistry) (dept_id : Z) : Z :=
  Z.of_nat (length (filter (fun x => Teacher.department_id x = dept_id)
                           (PyDict.values (active_teachers reg)))).

(** The keys [generate_guardians_for_students] files a row under: the
    student's id, or one of the strings made from it. *)
Definition sg_key_ok (key : SGKey) (sg : StudentGuardian.t) : Prop :=
  key = IntKey (StudentGuardian.student_id sg)
  \/ key = sg_str_key (StudentGuardian.student_id sg) 1
  \/ key = sg_str_key (StudentGuardian.student_id sg) 2.

(** What holds of a guardian registry the program has built: the
    dictionaries have one entry per key, the id counter is above every
    guardian id issued, every relationship is filed under a key of its
    student, and the guardian it names is a current or a transferred
    guardian. *)
Definition guardian_registry_ok (reg : GuardianRegistry) : Prop :=
  PyDict.wf (guardians reg)
  /\ PyDict.wf (student_guardians reg)
  /\ (forall k, k ∈ PyDict.keys (guardians reg) -> k < guardian_id_counter reg)
  /\ (forall k, k ∈ PyDict.keys (transferred_guardians reg) ->
                k < guardian_id_counter reg)
  /\ (forall key sg, (key, sg) ∈ student_guardians reg -> sg_key_ok key sg)
  /\ (forall key sg, (key, sg) ∈ student_guardians reg ->
        StudentGuardian.guardian_id sg ∈ PyDict.keys (guardians reg)
        \/ StudentGuardian.guardian_id sg
           ∈ PyDict.keys (transferred_guardians reg)).

(** How a run of [generate_guardians_for_students] over [students] moves
    the state on: the guardians it adds get the next ids and are stored
    under them, the guardians there were are untouched, every row it
    returns is a row of one of the students, and a student who had a row
    still has one. *)
Definition gen_extends (students : list Student.t) (st st' : GenState) : Prop :=
  (exists gs,
      new_guardians st' = new_guardians st ++ gs
      /\ Guardian.guardian_id <$> gs
         = seqZ (guardian_id_counter (gen_reg st)) (Z.of_nat (length gs))
      /\ guardian_id_counter (gen_reg st')
         = guardian_id_counter (gen_reg st) + Z.of_nat (length gs)
      /\ forall g, g ∈ gs ->
           PyDict.get (guardians (gen_reg st')) (Guardian.guardian_id g) = Some g)
  /\ (forall k, k < guardian_id_counter (gen_reg st) ->
        PyDict.get (guardians (gen_reg st')) k
        = PyDict.get (guardians (gen_reg st)) k)
  /\ transferred_guardians (gen_reg st') = transferred_guardians (gen_reg st)
  /\ (exists rs,
        new_student_guardians st' = new_student_guardians st ++ rs
        /\ forall sg, sg ∈ rs ->
             exists s, s ∈ students
               /\ StudentGuardian.student_id sg = Student.student_id s
               /\ StudentGuardian.family_id sg = Student.family_id s)
  /\ (forall key sg, (key, sg) ∈ student_guardians (gen_reg st) ->
        exists key' sg',
          (key', sg') ∈ student_guardians (gen_reg st')
          /\ StudentGuardian.student_id sg' = StudentGuardian.student_id sg).

(** ** CurriculumManager *)

Module Subject.
Record t := mk {
  subject_id : Z;
  name : string;
  department_id : Z;
  introduced_year : Z;
  is_core : bool
}.

(** [subject["name"] = new_name]. *)
Definition with_name (s : t) (new_name : string) : t :=
  mk (subject_id s) new_name (department_id s) (introduced_year s) (is_core s).

#[global] Instance subject_eq_dec : EqDecision t.
Proof. solve_decision. Defined.
End Subject.

Record CurriculumManager := mkCurriculumManager {
  active_subjects : dict Z Subject.t;
  historical_subjects : dict Z Subject.t;
  subject_id_counter : Z
}.

(** [CurriculumManager.__init__]. *)
Definition CurriculumManager_init : CurriculumManager :=
  mkCurriculumManager [] [] 1.

(** A row of the baseline [subjects.csv]; the department column is read
    under the header [" department_id"], then under ["department_id"];
    [None] stands for a frame without that column (an empty cell of a
    column that exists is not modelled). *)
Record SubjectRow := mkSubjectRow {
  row_subject_id : Z;
  row_subject_name : string;
  row_department_spaced : option Z;
  row_department_plain : option Z
}.

Definition load_baseline_subject (cm : CurriculumManager) (subject : SubjectRow)
    : CurriculumManager :=
  mkCurriculumManager
    (PyDict.set (active_subjects cm) (row_subject_id subject)
       (Subject.mk (row_subject_id subject) (row_subject_name subject)
          (default (default 1 (row_department_plain subject))
                   (row_department_spaced subject))
          2015
          (bool_decide (row_subject_name subject
                        ∈ ["Mathematics"; "English"; "Science";
                           "Social Studies"]))))
    (historical_subjects cm)
    (Z.max (subject_id_counter cm) (row_subject_id subject + 1)).

(** [CurriculumManager.load_baseline_subjects]. *)
Definition load_baseline_subjects (subjects_df : list SubjectRow)
    (cm : CurriculumManager) : CurriculumManager :=
  foldl load_baseline_subject cm subjects_df.

(** [CurriculumManager._add_subject]; [now_year] is
    [datetime.now().year], the year of the wall clock when the program
    runs. *)
Definition _add_subject (now_year : Z) (name : string) (department_id : Z)
    (reason : string) (cm : CurriculumManager) : CurriculumManager * string :=
  let subject :=
    Subject.mk (subject_id_counter cm) name department_id now_year false in
  (mkCurriculumManager
     (PyDict.set (active_subjects cm) (subject_id_counter cm) subject)
     (historical_subjects cm)
     (subject_id_counter cm + 1),
   "Added: " +:+ name +:+ " (" +:+ reason +:+ ")").

(** The loop of [_modify_subject]: the first subject of that name, in the
    order of the dictionary, is renamed. *)
Fixpoint rename_first (subjects : dict Z Subject.t) (old_name new_name : string)
    : option (dict Z Subject.t) :=
  match subjects with
  | [] => None
  | (k, subject) :: rest =>
      if decide (Subject.name subject = old_name)
      then Some ((k, Subject.with_name subject new_name) :: rest)
      else (fun rest' => (k, subject) :: rest')
             <$> rename_first rest old_name new_name
  end.

(** [CurriculumManager._modify_subject]. *)
Definition _modify_subject (old_name new_name reason : string)
    (cm : CurriculumManager) : CurriculumManager * string :=
  match rename_first (active_subjects cm) old_name new_name with
  | Some subjects =>
      (mkCurriculumManager subjects (historical_subjects cm)
         (subject_id_counter cm),
       "Modified: " +:+ old_name +:+ " → " +:+ new_name
       +:+ " (" +:+ reason +:+ ")")
  | None => (cm, "Could not find subject: " +:+ old_name)
  end.

(** Two changes, made one after the other as the list that holds their
    messages is built. *)
Definition two_changes
    (first second : CurriculumManager -> CurriculumManager * string)
    (cm : CurriculumManager) : CurriculumManager * list string :=
  let '(cm1, m1) := first cm in
  let '(cm2, m2) := second cm1 in
  (cm2, [m1; m2]).

(** [CurriculumManager.evolve_curriculum]. *)
Definition evolve_curriculum (now_year year : Z) (cm : CurriculumManager)
    : CurriculumManager * list string :=
  if year =? 2016 then
    two_changes
      (_add_subject now_year "Digital Literacy" 7 "Technology integration begins")
      (_modify_subject "Old World History" "World History"
         "Curriculum consolidation") cm
  else if year =? 2017 then
    two_changes
      (_add_subject now_year "AP Calculus" 1 "Advanced mathematics option")
      (_add_subject now_year "Environmental Science" 2 "STEM expansion") cm
  else if year =? 2019 then
    two_changes
      (_add_subject now_year "Robotics" 7 "STEM Academy launch")
      (_add_subject now_year "Mandarin Chinese" 8 "Language diversity") cm
  else if year =? 2022 then
    two_changes
      (_add_subject now_year "Cybersecurity" 7 "Modern technology focus")
      (_add_subject now_year "Data Science" 1 "21st century mathematics") cm
  else if year =? 2023 then
    two_changes
      (_add_subject now_year "International Baccalaureate" 9 "Global curriculum")
      (_add_subject now_year "Dual Enrollment Math" 1 "College partnership") cm
  else (cm, []).

(** What holds of a curriculum the program has built. *)
Definition curriculum_ok (cm : CurriculumManager) : Prop :=
  PyDict.wf (active_subjects cm)
  /\ forall k, k ∈ PyDict.keys (active_subjects cm) -> k < subject_id_counter cm.

(** The number of subjects [evolve_curriculum] adds in a year. *)
Definition subjects_added (year : Z) : Z :=
  if decide (year = 2016) then 1
  else if decide (year ∈ [2017; 2019; 2022; 2023]) then 2
  else 0.

Definition sample_subjects : CurriculumManager :=
  load_baseline_subjects
    [ mkSubjectRow 1 "Mathematics" (Some 1) None;
      mkSubjectRow 2 "Old World History" None (Some 4);
      mkSubjectRow 5 "Old World History" None None ]
    CurriculumManager_init.

(** ** Classes, enrolments, assignments and grades *)

Module SchoolClass.
Record t := mk {
  class_id : Z;
  name : string;
  grade_level_id : Z;
  teacher_id : Z;
  classroom_id : Z;
  period_id : Z;
  term_id : Z
}.
End SchoolClass.

(** The draws made for one class. *)
Record ClassDraws := mkClassDraws {
  cd_teacher_pick : nat;     (* random.choice(available_teachers) *)
  cd_classroom_pick : nat;   (* random.randint(1, 20) *)
  cd_term_pick : nat         (* random.randint(1, 4) *)
}.

(** [grade_distribution[grade] = grade_distribution.get(grade, 0) + 1]. *)
Definition count_grade (grade_distribution : dict Z Z) (student : Student.t)
    : dict Z Z :=
  let grade := Student.grade_level_id student in
  PyDict.set grade_distribution grade
    (default 0 (PyDict.get grade_distribution grade) + 1).

(** The subjects taught at a grade level. *)
Definition subjects_for (grade_level : Z) : list string :=
  if grade_level <=? 6 then
    ["Homeroom"; "Mathematics"; "Reading"; "Science"; "Social Studies"]
  else if grade_level <=? 9 then
    ["Mathematics"; "English Language Arts"; "Science"; "Social Studies";
     "Art"; "Physical Education"; "Technology"]
  else if grade_level =? 10 then
    ["Algebra I"; "Biology"; "Physical Education"; "English"; "Geography";
     "Spanish I"; "Computer Science"]
  else if grade_level =? 11 then
    ["Geometry"; "Life Science"; "Physical Education"; "American Literature";
     "Old World History"; "Spanish II"; "Visual Arts"]
  else if grade_level =? 12 then
    ["Algebra II"; "Chemistry"; "Physical Education"; "English Literature";
     "New World History"; "Leadership"; "Music Performance"]
  else
    ["Calculus"; "Psychology"; "Physical Education"; "World Literature";
     "Government/Economics"].

(** The list of classes and the [class_id] counter. *)
Record ClassState := mkClassState {
  class_rows : list SchoolClass.t;
  next_class_id : Z
}.

(** One class: the body of the loop over [enumerate(subjects, 1)];
    [draws i] are the draws for the [i]-th class made. *)
Definition add_class (teachers : TeacherRegistry) (draws : nat -> ClassDraws)
    (grade_level : Z) (st : ClassState) (item : nat * string) : ClassState :=
  let '(period, subject) := item in
  let d := draws (length (class_rows st)) in
  let available_teachers := PyDict.keys (active_teachers teachers) in
  let teacher_id :=
    match available_teachers with
    | [] => 1
    | _ :: _ =>
        default 1 (PyRandom.choice available_teachers (cd_teacher_pick d))
    end in
  mkClassState
    (class_rows st
     ++ [SchoolClass.mk (next_class_id st) subject grade_level teacher_id
           (PyRandom.randint 1 20 (cd_classroom_pick d)) (Z.of_nat period)
           (PyRandom.randint 1 4 (cd_term_pick d))])
    (next_class_id st + 1).

Definition add_section (teachers : TeacherRegistry) (draws : nat -> ClassDraws)
    (grade_level : Z) (subjects : list string) (st : ClassState) (section : nat)
    : ClassState :=
  foldl (add_class teachers draws grade_level) st
        (zip (seq 1 (length subjects)) subjects).

Definition add_grade_level (teachers : TeacherRegistry)
    (draws : nat -> ClassDraws) (st : ClassState) (item : Z * Z) : ClassState :=
  let '(grade_level, student_count) := item in
  let sections_needed := Z.max 1 (student_count / 25) in
  let subjects := subjects_for grade_level in
  foldl (add_section teachers draws grade_level subjects) st
        (seq 0 (Z.to_nat sections_needed)).

(** [_generate_classes]. *)
Definition _generate_classes (students : StudentRegistry)
    (teachers : TeacherRegistry) (draws : nat -> ClassDraws)
    : list SchoolClass.t :=
  let grade_distribution :=
    foldl count_grade [] (PyDict.values (active_students students)) in
  class_rows
    (foldl (add_grade_level teachers draws) (mkClassState [] 1)
           grade_distribution).

Module Enrollment.
Record t := mk {
  enrollment_id : string;
  student_id : Z;
  class_id : Z
}.
End Enrollment.

(** [f"{n:06d}"] for a natural number: six digits, zero padded, or all
    the digits of a longer number. *)
Definition format_06d (n : Z) : string :=
  if n <? 1000000 then PyDate.zero_pad 6 n else pretty n.

Record EnrollmentState := mkEnrollmentState {
  enrollment_rows : list Enrollment.t;
  next_enrollment_id : Z
}.

Definition add_enrollment (class_id : Z) (st : EnrollmentState)
    (student : Student.t) : EnrollmentState :=
  mkEnrollmentState
    (enrollment_rows st
     ++ [Enrollment.mk ("ENR" +:+ format_06d (next_enrollment_id st))
           (Student.student_id student) class_id])
    (next_enrollment_id st + 1).

Definition add_class_enrollments (students : StudentRegistry)
    (st : EnrollmentState) (class_record : SchoolClass.t) : EnrollmentState :=
  let grade_level := SchoolClass.grade_level_id class_record in
  let grade_students :=
    filter (fun s => Student.grade_level_id s = grade_level)
           (PyDict.values (active_students students)) in
  foldl (add_enrollment (SchoolClass.class_id class_record)) st grade_students.

(** [_generate_enrollments]. *)
Definition _generate_enrollments (students : StudentRegistry)
    (classes_df : list SchoolClass.t) : list Enrollment.t :=
  enrollment_rows
    (foldl (add_class_enrollments students) (mkEnrollmentState [] 1) classes_df).

Module Assignment.
Record t := mk {
  assignment_id : Z;
  class_id : Z;
  title : string;
  due_date : string;
  points_possible : Z;
  category : string;
  term_id : Z
}.
End Assignment.

(** The draws made for one assignment: the category, one value of points
    for each of the five categories, the due date and the term. *)
Record AssignmentDraws := mkAssignmentDraws {
  ad_category_pick : nat;
  ad_homework_pick : nat;
  ad_quiz_pick : nat;
  ad_test_pick : nat;
  ad_project_pick : nat;
  ad_participation_pick : nat;
  ad_due_date : PyDate.date;   (* fake.date_between(start_date, end_date) *)
  ad_term_pick : nat
}.

Definition assignment_categories : list string :=
  ["Homework"; "Quiz"; "Test"; "Project"; "Participation"].

Definition points_mapping (d : AssignmentDraws) : dict string Z :=
  [ ("Homework", PyRandom.randint 10 25 (ad_homework_pick d));
    ("Quiz", PyRandom.randint 25 50 (ad_quiz_pick d));
    ("Test", PyRandom.randint 75 100 (ad_test_pick d));
    ("Project", PyRandom.randint 50 100 (ad_project_pick d));
    ("Participation", PyRandom.randint 5 15 (ad_participation_pick d)) ].

Record AssignmentState := mkAssignmentState {
  assignment_rows : list Assignment.t;
  next_assignment_id : Z
}.

(** One assignment of a class; [draws n] are the draws for the [n]-th
    assignment made.  A category missing from [points_mapping] would be
    a [KeyError]; it stands as 0 points here, which no category has. *)
Definition add_assignment (class_id : Z) (draws : nat -> AssignmentDraws)
    (st : AssignmentState) (i : nat) : AssignmentState :=
  let d := draws (length (assignment_rows st)) in
  let category :=
    default "Homework" (PyRandom.choice assignment_categories (ad_category_pick d)) in
  let points := default 0 (PyDict.get (points_mapping d) category) in
  mkAssignmentState
    (assignment_rows st
     ++ [Assignment.mk (next_assignment_id st) class_id
           (category +:+ " " +:+ pretty (Z.of_nat i + 1))
           (PyDate.strftime (ad_due_date d)) points category
           (PyRandom.randint 1 4 (ad_term_pick d))])
    (next_assignment_id st + 1).

(** The assignments of one class; [count_pick j] is the draw of
    [random.randint(65, 75)] for the [j]-th class. *)
Definition add_class_assignments (count_pick : nat -> nat)
    (draws : nat -> AssignmentDraws) (st : AssignmentState)
    (item : nat * SchoolClass.t) : AssignmentState :=
  let '(j, class_record) := item in
  let assignments_per_class := PyRandom.randint 65 75 (count_pick j) in
  foldl (add_assignment (SchoolClass.class_id class_record) draws) st
        (seq 0 (Z.to_nat assignments_per_class)).

(** [_generate_assignments].  The two ends of the school year are built
    for every assignment, so with at least one class a year outside the
    calendar raises [ValueError]. *)
Definition _generate_assignments (year : Z) (classes_df : list SchoolClass.t)
    (count_pick : nat -> nat) (draws : nat -> AssignmentDraws)
    : option (list Assignment.t) :=
  match classes_df with
  | [] => Some []
  | _ :: _ =>
      start_date ← PyDate.make year 8 26;
      end_date ← PyDate.make (year + 1) 6 6;
      Some (assignment_rows
              (foldl (add_class_assignments count_pick draws)
                     (mkAssignmentState [] 1)
                     (zip (seq 0 (length classes_df)) classes_df)))
  end.

Module Grade.
Record t := mk {
  grade_id : Z;
  student_id : Z;
  assignment_id : Z;
  score : Z;
  submitted_on : string;
  term_id : Z
}.
End Grade.

Record GradeState := mkGradeState {
  grade_rows : list Grade.t;
  next_grade_id : Z
}.

Definition add_grade (assignment : Assignment.t) (draws : nat -> GradeDraws)
    (st : GradeState) (student_id : Z) : GradeState :=
  let score :=
    CompleteDecade._generate_realistic_grade
      (Assignment.points_possible assignment)
      (draws (length (grade_rows st))) in
  mkGradeState
    (grade_rows st
     ++ [Grade.mk (next_grade_id st) student_id
           (Assignment.assignment_id assignment) score
           (Assignment.due_date assignment) (Assignment.term_id assignment)])
    (next_grade_id st + 1).

Definition enrolled_students (enrollments_df : list Enrollment.t) (class_id : Z)
    : list Z :=
  Enrollment.student_id <$>
    filter (fun e => Enrollment.class_id e = class_id) enrollments_df.

Definition add_assignment_grades (enrollments_df : list Enrollment.t)
    (draws : nat -> GradeDraws) (st : GradeState) (assignment : Assignment.t)
    : GradeState :=
  foldl (add_grade assignment draws) st
        (enrolled_students enrollments_df (Assignment.class_id assignment)).

(** [_generate_grades]; [draws n] are the draws for the [n]-th grade.
    The frame of enrolments is a list of rows: a frame built from no row
    has no column, and for it [enrollments_df["class_id"]] raises
    [KeyError] at the first assignment.  The function is modelled where
    it returns, with an enrolment or without an assignment, which is
    what [_generate_enrollments] and [_generate_assignments] hand it. *)
Definition _generate_grades (assignments_df : list Assignment.t)
    (enrollments_df : list Enrollment.t) (draws : nat -> GradeDraws)
    : list Grade.t :=
  grade_rows
    (foldl (add_assignment_grades enrollments_df draws) (mkGradeState [] 1)
           assignments_df).

(** The number of sections [_generate_classes] opens for a grade level
    with that many students. *)
Definition sections_for (student_count : Z) : Z := Z.max 1 (student_count / 25).

(** The range of points of a category. *)
Definition points_range (category : string) : option (Z * Z) :=
  PyDict.get
    [ ("Homework", (10, 25)); ("Quiz", (25, 50)); ("Test", (75, 100));
      ("Project", (50, 100)); ("Participation", (5, 15)) ] category.

Definition sample_class_draws (i : nat) : ClassDraws := mkClassDraws i (3 * i) i.

Definition sample_assignment_draws (n : nat) : AssignmentDraws :=
  mkAssignmentDraws n n (2 * n) (3 * n) n (5 * n) (PyDate.mkDate 2016 10 3) n.

(** [grade_distribution] of [_generate_classes]: the number of active
    students per grade level, in the order the grades are first met. *)
Definition grade_distribution (students : StudentRegistry) : dict Z Z :=
  foldl count_grade [] (PyDict.values (active_students students)).

(** What holds of every class [_generate_classes] makes. *)
Definition class_ok (teachers : TeacherRegistry) (c : SchoolClass.t) : Prop :=
  1 <= SchoolClass.period_id c
  /\ subjects_for (SchoolClass.grade_level_id c)
       !! Z.to_nat (SchoolClass.period_id c - 1)
     = Some (SchoolClass.name c)
  /\ 1 <= SchoolClass.classroom_id c <= 20
  /\ 1 <= SchoolClass.term_id c <= 4
  /\ (SchoolClass.teacher_id c ∈ PyDict.keys (active_teachers teachers)
      \/ (active_teachers teachers = [] /\ SchoolClass.teacher_id c = 1)).

(** What holds of every assignment [_generate_assignments] makes: the
    category is one of the five, the points lie in the range of the
    category, and the term is between 1 and 4. *)
Definition assignment_ok (a : Assignment.t) : Prop :=
  Assignment.category a ∈ assignment_categories
  /\ (exists lo hi,
        points_range (Assignment.category a) = Some (lo, hi)
        /\ lo <= Assignment.points_possible a <= hi)
  /\ 1 <= Assignment.term_id a <= 4.

Definition sample_classes : list SchoolClass.t :=
  _generate_classes baseline_3 teachers_3 sample_class_draws.

(** The draws of the academic tables of one year. *)
Record AcademicDraws := mkAcademicDraws {
  ac_class : nat -> ClassDraws;
  ac_count : nat -> nat;
  ac_assignment : nat -> AssignmentDraws;
  ac_grade : nat -> GradeDraws
}.

Record AcademicData := mkAcademicData {
  data_classes : list SchoolClass.t;
  data_enrollments : list Enrollment.t;
  data_assignments : list Assignment.t;
  data_grades : list Grade.t
}.

(** Step 6 of [generate_school_year]: the classes, the enrolments in
    them, the assignments of the classes and the grades of the
    enrolled students. *)
Definition academic_data (year : Z) (students : StudentRegistry)
    (teachers : TeacherRegistry) (draws : AcademicDraws) : option AcademicData :=
  let classes := _generate_classes students teachers (ac_class draws) in
  let enrollments := _generate_enrollments students classes in
  assignments ←
    _generate_assignments year classes (ac_count draws) (ac_assignment draws);
  let grades := _generate_grades assignments enrollments (ac_grade draws) in
  Some (mkAcademicData classes enrollments assignments grades).

Definition sample_academic_draws : AcademicDraws :=
  mkAcademicDraws sample_class_draws (fun j => j) sample_assignment_draws
    (fun _ => sample_grade_draws).

(** ** The school calendar table *)

#[global] Instance date_eq_dec : EqDecision PyDate.date.
Proof. solve_decision. Defined.

Module CalendarDay.
Record t := mk {
  calendar_date : string;
  is_school_day : bool;
  is_holiday : bool;
  holiday_name : string;
  comment : string;
  day_type : string;
  label : string
}.
End CalendarDay.

(** The [holidays] dictionary of [_generate_school_calendar]. *)
Definition calendar_holidays (year : Z) : option (dict PyDate.date string) :=
  d1 ← PyDate.make year 9 2;
  d2 ← PyDate.make year 10 14;
  d3 ← PyDate.make year 11 11;
  d4 ← PyDate.make year 11 28;
  d5 ← PyDate.make year 11 29;
  d6 ← PyDate.make (year + 1) 1 20;
  d7 ← PyDate.make (year + 1) 2 17;
  d8 ← PyDate.make (year + 1) 5 26;
  Some [ (d1, "Labor Day"); (d2, "Columbus Day"); (d3, "Veterans Day");
         (d4, "Thanksgiving"); (d5, "Thanksgiving Break");
         (d6, "Martin Luther King Jr. Day"); (d7, "Presidents Day");
         (d8, "Memorial Day") ].

(** The [breaks] list. *)
Definition calendar_breaks (year : Z)
    : option (list (PyDate.date * PyDate.date * string)) :=
  a1 ← PyDate.make year 12 23;
  b1 ← PyDate.make (year + 1) 1 3;
  a2 ← PyDate.make (year + 1) 3 17;
  b2 ← PyDate.make (year + 1) 3 21;
  Some [ (a1, b1, "Christmas Break"); (a2, b2, "Spring Break") ].

Definition in_break (current_date : PyDate.date)
    (b : PyDate.date * PyDate.date * string) : bool :=
  PyDate.le b.1.1 current_date && PyDate.le current_date b.1.2.

(** The row of one day.  [holidays[current_date]] and [next(...)] are
    reached only when the date is a holiday, or in a break. *)
Definition calendar_day (holidays : dict PyDate.date string)
    (breaks : list (PyDate.date * PyDate.date * string))
    (current_date : PyDate.date) : CalendarDay.t :=
  let is_weekend := 5 <=? PyDate.weekday current_date in
  let is_holiday := PyDict.mem holidays current_date in
  let is_break := existsb (in_break current_date) breaks in
  let is_school_day := negb (is_weekend || is_holiday || is_break) in
  let calendar_date := PyDate.strftime current_date in
  if is_weekend then
    CalendarDay.mk calendar_date is_school_day is_holiday "" "Weekend"
      "weekend" "Weekend"
  else if is_holiday then
    let holiday_name := default "" (PyDict.get holidays current_date) in
    CalendarDay.mk calendar_date is_school_day is_holiday holiday_name
      holiday_name "holiday" holiday_name
  else if is_break then
    let break_name :=
      default "" (snd <$> List.find (in_break current_date) breaks) in
    CalendarDay.mk calendar_date is_school_day is_holiday "" break_name
      "break" break_name
  else
    CalendarDay.mk calendar_date is_school_day is_holiday "" "" "school_day" "".

(** The [while] loop of [_generate_school_calendar]; [fuel] bounds the
    iterations. *)
Fixpoint school_calendar_loop (fuel : nat) (holidays : dict PyDate.date string)
    (breaks : list (PyDate.date * PyDate.date * string))
    (current_date end_date : PyDate.date) (calendar_data : list CalendarDay.t)
    : option (list CalendarDay.t) :=
  if PyDate.le current_date end_date then
    match fuel with
    | O => None
    | S fuel' =>
        school_calendar_loop fuel' holidays breaks (PyDate.next_day current_date)
          end_date (calendar_data ++ [calendar_day holidays breaks current_date])
    end
  else Some calendar_data.

(** [_generate_school_calendar(year)]. *)
Definition _generate_school_calendar (year : Z) : option (list CalendarDay.t) :=
  start_date ← PyDate.make year 8 26;
  end_date ← PyDate.make (year + 1) 6 6;
  holidays ← calendar_holidays year;
  breaks ← calendar_breaks year;
  school_calendar_loop 366 holidays breaks start_date end_date [].

(** A row of the calendar is consistent: the day is a school day exactly
    if its type says so, the label repeats the comment, and a holiday
    name is given exactly to the days of type ["holiday"]. *)
Definition calendar_row_ok (r : CalendarDay.t) : Prop :=
  (CalendarDay.is_school_day r = true <-> CalendarDay.day_type r = "school_day")
  /\ CalendarDay.day_type r ∈ ["weekend"; "holiday"; "break"; "school_day"]
  /\ CalendarDay.label r = CalendarDay.comment r
  /\ (CalendarDay.day_type r = "holiday" -> CalendarDay.is_holiday r = true)
  /\ (CalendarDay.day_type r <> "holiday" -> CalendarDay.holiday_name r = "").

(** Whether the calendar holds a row for the day that is not a school
    day. *)
Definition off_calendar (calendar_data : list CalendarDay.t) (s : string) : bool :=
  existsb (fun r => bool_decide (CalendarDay.calendar_date r = s)
                    && negb (CalendarDay.is_school_day r)) calendar_data.

(** The days on which attendance is taken although the calendar of the
    same year does not list them as school days. *)
Definition attendance_off_calendar (year : Z) : list string :=
  match Calendar._get_school_days year, _generate_school_calendar year with
  | Some school_days, Some calendar_data =>
      List.filter (off_calendar calendar_data) school_days
  | _, _ => []
  end.

(** What is checked of the calendar of a year by evaluation. *)
Definition school_calendar_check (year : Z) : bool :=
  match _generate_school_calendar year with
  | Some calendar_data =>
      (length calendar_data
       =? (if PyDate.is_leap (year + 1) then 286 else 285))%nat
      && bool_decide (NoDup (CalendarDay.calendar_date <$> calendar_data))
      && (let n := length (attendance_off_calendar year) in
          (6 <=? n)%nat && (n <=? 13)%nat)
  | None => false
  end.

(** ** Terms *)

Module Term.
Record t := mk {
  term_id : Z;
  label : string;
  start_date : string;
  end_date : string;
  school_year_id : Z
}.
End Term.

(** [_create_terms_records(year)]. *)
Definition _create_terms_records (year : Z) : list Term.t :=
  let base_id := (year - 2015) * 4 + 1 in
  [ Term.mk base_id "Q1" (pretty year +:+ "-08-26") (pretty year +:+ "-10-25")
      (year - 2014);
    Term.mk (base_id + 1) "Q2" (pretty year +:+ "-10-28")
      (pretty year +:+ "-12-20") (year - 2014);
    Term.mk (base_id + 2) "Q3" (pretty (year + 1) +:+ "-01-06")
      (pretty (year + 1) +:+ "-03-14") (year - 2014);
    Term.mk (base_id + 3) "Q4" (pretty (year + 1) +:+ "-03-17")
      (pretty (year + 1) +:+ "-06-06") (year - 2014) ].

(** ** Standardized tests *)

Module StandardizedTest.
Record t := mk {
  test_id : string;
  student_id : Z;
  test_name : string;
  test_date : string;
  score : Z;
  subject : string;
  percentile : Z
}.
End StandardizedTest.

(** [needle in hay] on strings. *)
Definition contains (needle hay : string) : bool :=
  bool_decide (is_Some (String.index 0 needle hay)).

(** The tests of a student; [ap_draw] is the draw of [random.random()]
    made for a student of grade level 11 or more. *)
Definition tests_for (grade_level : Z) (ap_draw : Q) : list string :=
  (if 3 <=? grade_level
   then ["State Math Assessment"; "State Reading Assessment"] else [])
  ++ (if 10 <=? grade_level then ["PSAT"; "SAT"] else [])
  ++ (if 11 <=? grade_level
      then (if Qlt_le_dec ap_draw (3 # 10) then ["AP Exam"] else [])
      else []).

(** The draws made for one test. *)
Record TestDraws := mkTestDraws {
  tst_date : PyDate.date;      (* fake.date_between(start_date, end_date) *)
  tst_score_pick : nat;        (* random.randint(...) for the score *)
  tst_percentile_pick : nat    (* random.randint(1, 99) *)
}.

Record TestState := mkTestState {
  test_rows : list StandardizedTest.t;
  next_test_id : Z
}.

(** The score and the percentile of a test, by its name. *)
Definition test_score (test_name : string) (d : TestDraws) : Z * Z :=
  if contains "SAT" test_name then
    let score := PyRandom.randint 400 1600 (tst_score_pick d) in
    (score, Z.min 99 (Z.max 1 (Py.int (inject_Z (score - 400) / 12))))
  else if contains "PSAT" test_name then
    let score := PyRandom.randint 320 1520 (tst_score_pick d) in
    (score, Z.min 99 (Z.max 1 (Py.int (inject_Z (score - 320) / 12))))
  else
    (PyRandom.randint 150 300 (tst_score_pick d),
     PyRandom.randint 1 99 (tst_percentile_pick d)).

(** One test of a student; the two ends of the testing season are built
    for every test. *)
Definition add_test (year : Z) (draws : nat -> TestDraws) (student_id : Z)
    (st : option TestState) (test_name : string) : option TestState :=
  st ← st;
  start_date ← PyDate.make year 3 1;
  end_date ← PyDate.make year 5 31;
  let d := draws (length (test_rows st)) in
  let '(score, percentile) := test_score test_name d in
  let subject :=
    if contains "Math" test_name then "Mathematics" else "Reading" in
  Some (mkTestState
          (test_rows st
           ++ [StandardizedTest.mk ("TEST" +:+ format_06d (next_test_id st))
                 student_id test_name (PyDate.strftime (tst_date d)) score
                 subject percentile])
          (next_test_id st + 1)).

Definition add_student_tests (year : Z) (ap_draw : nat -> Q)
    (draws : nat -> TestDraws) (st : option TestState) (item : nat * Student.t)
    : option TestState :=
  let '(j, student) := item in
  foldl (add_test year draws (Student.student_id student)) st
        (tests_for (Student.grade_level_id student) (ap_draw j)).

(** [_generate_standardized_tests]; [ap_draw j] belongs to the [j]-th
    active student, [draws n] to the [n]-th test. *)
Definition _generate_standardized_tests (year : Z) (students : StudentRegistry)
    (ap_draw : nat -> Q) (draws : nat -> TestDraws)
    : option (list StandardizedTest.t) :=
  let active := PyDict.values (active_students students) in
  test_rows <$>
    foldl (add_student_tests year ap_draw draws) (Some (mkTestState [] 1))
          (zip (seq 0 (length active)) active).

(** What holds of every row of test results. *)
Definition test_ok (r : StandardizedTest.t) : Prop :=
  1 <= StandardizedTest.percentile r <= 99
  /\ (StandardizedTest.test_name r ∈ ["PSAT"; "SAT"] ->
      400 <= StandardizedTest.score r <= 1600
      /\ StandardizedTest.percentile r
         = Z.min 99 (Z.max 1 ((StandardizedTest.score r - 400) / 12)))
  /\ (StandardizedTest.test_name r ∉ ["PSAT"; "SAT"] ->
      150 <= StandardizedTest.score r <= 300)
  /\ StandardizedTest.subject r
     = (if decide (StandardizedTest.test_name r = "State Math Assessment")
        then "Mathematics" else "Reading").

Definition sample_test_draws (n : nat) : TestDraws :=
  mkTestDraws (PyDate.mkDate 2017 4 3) (7 * n) n.

(** ** Payments *)

Module Payment.
Record t := mk {
  payment_id : string;
  guardian_id : Z;
  fee_type_id : Z;
  amount_paid : Z;
  payment_date : string
}.
End Payment.

(** The draws made for one family. *)
Record PaymentDraws := mkPaymentDraws {
  pay_plan_draw : Q;     (* random.choices([...], weights=[10, 70, 20]) *)
  pay_tech_draw : Q;     (* random.random() < 0.8, tech fee *)
  pay_tech_day : nat;    (* random.randint(10, 30) *)
  pay_trip_draw : Q;     (* random.random() < 0.8, field trip fund *)
  pay_trip_day : nat     (* random.randint(10, 30) *)
}.

(** The list of payments, the [payment_id] counter and the set
    [families_processed]. *)
Record PaymentState := mkPaymentState {
  payment_rows : list Payment.t;
  next_payment_id : Z;
  families_processed : list string
}.

Definition add_payment (guardian_id fee_type_id amount_paid : Z)
    (payment_date : string) (st : PaymentState) : PaymentState :=
  mkPaymentState
    (payment_rows st
     ++ [Payment.mk ("PAY" +:+ format_06d (next_payment_id st)) guardian_id
           fee_type_id amount_paid payment_date])
    (next_payment_id st + 1)
    (families_processed st).

(** One monthly payment of a plan: month 0 is August. *)
Definition add_installment (year guardian_id : Z) (monthly_amount : Q)
    (st : option PaymentState) (month : Z) : option PaymentState :=
  st ← st;
  let payment_month := if month <? 5 then 8 + month else month - 4 in
  let payment_year := if month <? 5 then year else year + 1 in
  payment_date ← PyDate.make payment_year payment_month 15;
  Some (add_payment guardian_id 4 (Py.int monthly_amount)
          (PyDate.strftime payment_date) st).

(** An optional fee: paid with probability 0.8, on a day of August. *)
Definition add_other_fee (year guardian_id : Z) (st : PaymentState)
    (fee : Z * Z * Q * nat) : PaymentState :=
  let '(fee_type_id, amount, draw, day_pick) := fee in
  if Qlt_le_dec draw (8 # 10) then
    add_payment guardian_id fee_type_id amount
      (pretty year +:+ "-08-" +:+ pretty (PyRandom.randint 10 30 day_pick)) st
  else st.

(** The body of the loop over [student_guardians.values()];
    [draws k] are the draws for the [k]-th family billed. *)
Definition pay_family (year : Z) (draws : nat -> PaymentDraws)
    (st : option PaymentState) (student_guardian : StudentGuardian.t)
    : option PaymentState :=
  st ← st;
  let family_id := StudentGuardian.family_id student_guardian in
  if bool_decide (family_id ∈ families_processed st) then Some st
  else
    let d := draws (length (families_processed st)) in
    let st0 :=
      mkPaymentState (payment_rows st) (next_payment_id st)
        (families_processed st ++ [family_id]) in
    let guardian_id := StudentGuardian.guardian_id student_guardian in
    let tuition_amount := 8000 in
    let payment_plan :=
      default "annual"
        (PyRandom.choices ["annual"; "9_month"; "12_month"] [10; 70; 20]%Q
           (pay_plan_draw d)) in
    st1 ←
      (if decide (payment_plan = "annual") then
         Some (add_payment guardian_id 4 tuition_amount
                 (pretty year +:+ "-08-15") st0)
       else if decide (payment_plan = "9_month") then
         foldl (add_installment year guardian_id (inject_Z tuition_amount / 9))
               (Some st0) (seqZ 0 9)
       else
         foldl (add_installment year guardian_id (inject_Z tuition_amount / 12))
               (Some st0) (seqZ 0 12));
    Some (foldl (add_other_fee year guardian_id) st1
            [ (1, 100, pay_tech_draw d, pay_tech_day d);
              (2, 50, pay_trip_draw d, pay_trip_day d) ]).

(** [_generate_payments]. *)
Definition _generate_payments (year : Z) (guardians : GuardianRegistry)
    (draws : nat -> PaymentDraws) : option (list Payment.t) :=
  payment_rows <$>
    foldl (pay_family year draws) (Some (mkPaymentState [] 1 []))
          (PyDict.values (student_guardians guardians)).

(** The first row of every family, in the order of the rows. *)
Fixpoint first_of_family (seen : list string) (rows : list StudentGuardian.t)
    : list StudentGuardian.t :=
  match rows with
  | [] => []
  | sg :: rest =>
      if bool_decide (StudentGuardian.family_id sg ∈ seen)
      then first_of_family seen rest
      else sg :: first_of_family (seen ++ [StudentGuardian.family_id sg]) rest
  end.

(** The dates of the instalments of a plan of [n] months. *)
Definition installment_dates (year : Z) (n : Z) : list string :=
  (fun month =>
     PyDate.strftime
       (if month <? 5 then PyDate.mkDate year (8 + month) 15
        else PyDate.mkDate (year + 1) (month - 4) 15)) <$> seqZ 0 n.

(** The payments of one family: all billed to the guardian of the
    family's first row; the tuition, fee type 4, is one payment of 8000,
    or 9 of 888, or 12 of 666, on the 15th of the months from August on;
    then at most the tech fee of 100 and the field trip fund of 50. *)
Definition family_block_ok (year : Z) (sg : StudentGuardian.t)
    (block : list Payment.t) : Prop :=
  Forall (fun p => Payment.guardian_id p = StudentGuardian.guardian_id sg) block
  /\ exists tuition others,
       block = tuition ++ others
       /\ Forall (fun p => Payment.fee_type_id p = 4) tuition
       /\ ((Payment.amount_paid <$> tuition = [8000]
            /\ Payment.payment_date <$> tuition = [pretty year +:+ "-08-15"])
           \/ (Payment.amount_paid <$> tuition = replicate 9 888
               /\ Payment.payment_date <$> tuition = installment_dates year 9)
           \/ (Payment.amount_paid <$> tuition = replicate 12 666
               /\ Payment.payment_date <$> tuition = installment_dates year 12))
       /\ sublist ((fun p => (Payment.fee_type_id p, Payment.amount_paid p))
                     <$> others)
                  [(1, 100); (2, 50)].

Definition sample_payment_draws (k : nat) : PaymentDraws :=
  mkPaymentDraws (Z.of_nat k # 3) (1 # 2) k (9 # 10) k.

(** ** The patcher: grades and assignments of one year *)

(** [assignments_lookup[assignment["assignment_id"]] =
    assignment["points_possible"]]. *)
Definition record_points (assignments_lookup : dict Z Z) (a : Assignment.t)
    : dict Z Z :=
  PyDict.set assignments_lookup (Assignment.assignment_id a)
    (Assignment.points_possible a).

(** [fixed_grades.at[idx, "score"] = new_score]. *)
Definition with_score (g : Grade.t) (new_score : Z) : Grade.t :=
  Grade.mk (Grade.grade_id g) (Grade.student_id g) (Grade.assignment_id g)
    new_score (Grade.submitted_on g) (Grade.term_id g).

(** [LuminosityDataPatcher._fix_grades_for_year]; [assignments_df] is
    [None] when the year has no assignments file, and [draws idx] are
    the draws for row [idx]. *)
Definition _fix_grades_for_year (grades_df : list Grade.t)
    (assignments_df : option (list Assignment.t)) (draws : nat -> GradeDraws)
    : list Grade.t :=
  let assignments_lookup :=
    match assignments_df with
    | Some df => foldl record_points [] df
    | None => []
    end in
  imap (fun idx grade =>
          let points_possible :=
            default 100 (PyDict.get assignments_lookup (Grade.assignment_id grade)) in
          with_score grade
            (Patch._generate_policy_compliant_score points_possible (draws idx)))
       grades_df.

Definition points_by_category : dict string (Z * Z) :=
  [ ("Homework", (10, 25)); ("Quiz", (25, 50)); ("Test", (75, 100));
    ("Project", (50, 100)); ("Participation", (5, 20)); ("Final", (100, 200)) ].

(** [fixed_assignments.at[idx, "points_possible"] = new_points]. *)
Definition with_points (a : Assignment.t) (new_points : Z) : Assignment.t :=
  Assignment.mk (Assignment.assignment_id a) (Assignment.class_id a)
    (Assignment.title a) (Assignment.due_date a) new_points
    (Assignment.category a) (Assignment.term_id a).

(** [LuminosityDataPatcher._fix_assignments_for_year]; the frames the
    generator writes carry the column ["category"]; [picks idx] is the
    draw of [random.randint] for row [idx]. *)
Definition _fix_assignments_for_year (assignments_df : list Assignment.t)
    (picks : nat -> nat) : list Assignment.t :=
  imap (fun idx assignment =>
          match PyDict.get points_by_category (Assignment.category assignment) with
          | Some (min_points, max_points) =>
              with_points assignment
                (PyRandom.randint min_points max_points (picks idx))
          | None => assignment
          end)
       assignments_df.

(** The body of the loop of [patch_grade_distributions] for a year whose
    two files exist: the grades are fixed against the assignments as
    read, then the assignments are given new points. *)
Definition patch_year (grades_df : list Grade.t)
    (assignments_df : list Assignment.t) (fix_assignments : bool)
    (draws : nat -> GradeDraws) (picks : nat -> nat)
    : list Grade.t * list Assignment.t :=
  let fixed_grades := _fix_grades_for_year grades_df (Some assignments_df) draws in
  (fixed_grades,
   if fix_assignments then _fix_assignments_for_year assignments_df picks
   else assignments_df).

(** A year with one test of 100 points and one grade for it. *)
Definition one_test : list Assignment.t :=
  [Assignment.mk 1 1 "Test 1" "2016-10-03" 100 "Test" 1].

Definition one_grade : list Grade.t := [Grade.mk 1 7 1 80 "2016-10-03" 1].

(** ** Rounding away from ties *)

(** [x] keeps a distance of more than [eps] from the half-integers, the
    points where [round] changes its value. *)
Definition away_from_tie (eps x : Q) : Prop :=
  let r := (x - inject_Z (Qfloor x))%Q in
  (r + eps < 1 # 2)%Q \/ ((1 # 2) + eps < r)%Q.

(* ================================================================== *)
(** * Properties *)

(** *** Rounding lemmas *)






(** At a tie the binary64 product decides: 45 points at the lower clamp
    0.70 are 31.5 exactly and round to the even 32, while the float
    product is 31.499999999999996 and rounds to 31. *)
Remark round_at_a_tie :
  Py.round (inject_Z 45 * (70 # 100)) = 32
  /\ Py.round (Float.mul (Float.of_int 45) (Float.lit (70 # 100))) = 31
  /\ ~ away_from_tie 0 (inject_Z 45 * (70 # 100)).
Proof.
  split; [vm_compute; reflexivity|]. split; [vm_compute; reflexivity|].
  unfold away_from_tie. cbv zeta.
  change (Qfloor (inject_Z 45 * (70 # 100))) with 31.
  intros [H|H]; vm_compute in H; discriminate H.
Qed.

(** [random.random()] returns a multiple of [2^-53].  None lies between
    0.03 or 0.08 and the float that the literal denotes, so on the draws
    the comparison with the exact threshold is the comparison the code
    makes. *)
Remark grade_thresholds_exact (k : Z) :
  let u := (k # 2 ^ 53)%Q in
  ((u < Float.lit (3 # 100))%Q <-> (u < 3 # 100)%Q)
  /\ ((u < Float.lit (8 # 100))%Q <-> (u < 8 # 100)%Q).
Proof.
  cbv zeta.
  set (a := Float.lit (3 # 100)). set (b := Float.lit (8 # 100)).
  vm_compute in a, b. subst a b. unfold Qlt. cbn [Qnum Qden].
  change (Z.pos (2 ^ 53)) with 9007199254740992.
  split; lia.
Qed.

(** ** Grade scores *)

Lemma py_min_spec (a b : Q) :
  (Py.min a b <= a)%Q /\ (Py.min a b <= b)%Q
  /\ (Py.min a b = a \/ Py.min a b = b).
Proof. unfold Py.min. destruct (Qlt_le_dec b a); repeat split; auto; lra. Qed.

Lemma py_max_spec (a b : Q) :
  (a <= Py.max a b)%Q /\ (b <= Py.max a b)%Q
  /\ (Py.max a b = a \/ Py.max a b = b).
Proof. unfold Py.max. destruct (Qlt_le_dec a b); repeat split; auto; lra. Qed.





(** C2.  Whatever the draws, each grade generator returns a score between
    0 and [points_possible]: the rounded product is clamped into that
    range. *)
Theorem grade_score_bounds (points_possible : Z) (d : GradeDraws) :
  0 <= points_possible ->
  0 <= CompleteDecade._generate_realistic_grade points_possible d <= points_possible
  /\ 0 <= Hotfix.generate_proper_grade points_possible d <= points_possible
  /\ 0 <= Patch._generate_policy_compliant_score points_possible d <= points_possible.
Proof.
  intros Hpp.
  unfold CompleteDecade._generate_realistic_grade,
    Hotfix.generate_proper_grade, Patch._generate_policy_compliant_score.
  cbv zeta. lia.
Qed.

Lemma grade_score_bounds_witness :
  0 <= CompleteDecade._generate_realistic_grade 25 sample_grade_draws <= 25
  /\ 0 <= Hotfix.generate_proper_grade 25 sample_grade_draws <= 25
  /\ 0 <= Patch._generate_policy_compliant_score 25 sample_grade_draws <= 25.
Proof. apply (grade_score_bounds 25 sample_grade_draws). lia. Defined.

(** C3.  The hotfix and the generator are different functions: on the
    same draws, taken in the normal branch of both, and the same
    [points_possible] they return different scores, both for a draw at the
    mean (85 against 87 of 100 points) and for a draw far above it (the
    clamp at 94 against the clamp at 100).  The patcher differs from the
    generator as well, in where its failing branch ends. *)
Theorem grade_mixtures_differ :
  (exists (points_possible : Z) (d : GradeDraws),
      0 <= points_possible
      /\ unit_draw (rand d) /\ unit_draw (unif d)
      /\ CompleteDecade.branch d = Passing
      /\ Hotfix.percentage d = Py.max 70 (Py.min 94 (Py.normal 85 5 (gauss d)))
      /\ Hotfix.generate_proper_grade points_possible d = 85
      /\ CompleteDecade._generate_realistic_grade points_possible d = 87)
  /\ (exists (points_possible : Z) (d : GradeDraws),
      CompleteDecade.branch d = Passing
      /\ Hotfix.generate_proper_grade points_possible d = 94
      /\ CompleteDecade._generate_realistic_grade points_possible d = 100)
  /\ Hotfix.generate_proper_grade <> CompleteDecade._generate_realistic_grade
  /\ Patch._generate_policy_compliant_score
       <> CompleteDecade._generate_realistic_grade.
Proof.
  split; [|split; [|split]].
  - exists 100, (mkGradeDraws (1 # 2) (1 # 2) 0).
    repeat split; try (vm_compute; congruence).
  - exists 100, (mkGradeDraws (1 # 2) (1 # 2) 5).
    repeat split; vm_compute; congruence.
  - intros Heq.
    apply (f_equal (fun f => f 100 (mkGradeDraws (1 # 2) (1 # 2) 0))) in Heq.
    vm_compute in Heq. discriminate.
  - intros Heq.
    apply (f_equal (fun f => f 100 (mkGradeDraws (75 # 1000) (1 # 2) 0))) in Heq.
    vm_compute in Heq. discriminate.
Qed.

(** ** Dictionaries *)

Section dict_facts.
Context {K V : Type} `{EqDecision K}.
Implicit Types (d : list (K * V)) (k : K) (v : V).

Lemma get_None_keys d k : PyDict.get d k = None <-> k ∉ PyDict.keys d.
Proof.
  unfold PyDict.keys. induction d as [|[k' v'] d IH]; simpl.
  - split; [intros _; apply not_elem_of_nil | done].
  - rewrite not_elem_of_cons. destruct (decide (k = k')); [|tauto].
    split; [done | tauto].
Qed.

Lemma get_Some_keys d k : is_Some (PyDict.get d k) <-> k ∈ PyDict.keys d.
Proof.
  rewrite <- not_eq_None_Some, get_None_keys.
  destruct (decide (k ∈ PyDict.keys d)); tauto.
Qed.

Lemma get_Some_elem d k v : PyDict.get d k = Some v -> (k, v) ∈ d.
Proof.
  induction d as [|[k' v'] d IH]; simpl; [done|].
  destruct (decide (k = k')) as [->|]; intros Hg.
  - injection Hg as ->. apply elem_of_cons; auto.
  - apply elem_of_cons; auto.
Qed.

Lemma elem_get_Some d k v :
  PyDict.wf d -> (k, v) ∈ d -> PyDict.get d k = Some v.
Proof.
  unfold PyDict.wf, PyDict.keys.
  induction d as [|[k' v'] d IH]; simpl; intros Hnd Hin.
  - by apply elem_of_nil in Hin.
  - apply NoDup_cons in Hnd as [Hk' Hnd].
    apply elem_of_cons in Hin as [Heq|Hin].
    + injection Heq as -> ->. by rewrite decide_True.
    + destruct (decide (k = k')) as [->|]; [|by apply IH].
      exfalso. apply Hk'. apply list_elem_of_fmap. by exists (k', v).
Qed.

Lemma mem_true d k : PyDict.mem d k = true <-> is_Some (PyDict.get d k).
Proof. unfold PyDict.mem. apply bool_decide_eq_true. Qed.

Lemma mem_false d k : PyDict.mem d k = false <-> PyDict.get d k = None.
Proof.
  unfold PyDict.mem. rewrite bool_decide_eq_false, <- eq_None_not_Some. done.
Qed.

Lemma get_set_eq d k v : PyDict.get (PyDict.set d k v) k = Some v.
Proof.
  induction d as [|[k' v'] d IH]; simpl.
  - by rewrite decide_True.
  - destruct (decide (k = k')) as [->|Hne]; simpl.
    + by rewrite decide_True.
    + by rewrite decide_False.
Qed.

Lemma get_set_ne d k k' v :
  k <> k' -> PyDict.get (PyDict.set d k v) k' = PyDict.get d k'.
Proof.
  intros Hne. induction d as [|[k0 v0] d IH]; simpl.
  - by rewrite decide_False.
  - destruct (decide (k = k0)) as [->|]; simpl.
    + by rewrite !decide_False.
    + destruct (decide (k' = k0)); [done | apply IH].
Qed.

Lemma get_del_ne d k k' :
  k <> k' -> PyDict.get (PyDict.del d k) k' = PyDict.get d k'.
Proof.
  intros Hne. induction d as [|[k0 v0] d IH]; simpl; [done|].
  destruct (decide (k = k0)) as [->|]; simpl.
  - by rewrite decide_False.
  - destruct (decide (k' = k0)); [done | apply IH].
Qed.

Lemma keys_del_notin d k : k ∉ PyDict.keys d -> PyDict.del d k = d.
Proof.
  unfold PyDict.keys. induction d as [|[k0 v0] d IH]; simpl; [done|].
  rewrite not_elem_of_cons. intros [Hne Hnin].
  rewrite decide_False by done. by rewrite IH.
Qed.

Lemma get_del_eq d k : PyDict.wf d -> PyDict.get (PyDict.del d k) k = None.
Proof.
  unfold PyDict.wf, PyDict.keys.
  induction d as [|[k0 v0] d IH]; simpl; [done|].
  intros [Hk0 Hnd]%NoDup_cons. destruct (decide (k = k0)) as [->|Hne].
  - by apply get_None_keys.
  - simpl. rewrite decide_False by done. by apply IH.
Qed.

Lemma keys_set_fresh d k v :
  PyDict.get d k = None -> PyDict.keys (PyDict.set d k v) = PyDict.keys d ++ [k].
Proof.
  unfold PyDict.keys. induction d as [|[k0 v0] d IH]; simpl; [done|].
  destruct (decide (k = k0)); [done|]. intros Hg. simpl. f_equal. by apply IH.
Qed.

Lemma keys_set_present d k v :
  is_Some (PyDict.get d k) -> PyDict.keys (PyDict.set d k v) = PyDict.keys d.
Proof.
  unfold PyDict.keys. induction d as [|[k0 v0] d IH]; simpl.
  - by intros [? ?].
  - destruct (decide (k = k0)); [done|]. intros Hg. simpl. f_equal. by apply IH.
Qed.

Lemma length_set_fresh d k v :
  PyDict.get d k = None -> length (PyDict.set d k v) = S (length d).
Proof.
  induction d as [|[k0 v0] d IH]; simpl; [done|].
  destruct (decide (k = k0)); [done|]. intros Hg. simpl. by rewrite IH.
Qed.

Lemma length_del_present d k :
  is_Some (PyDict.get d k) -> S (length (PyDict.del d k)) = length d.
Proof.
  induction d as [|[k0 v0] d IH]; simpl.
  - by intros [? ?].
  - destruct (decide (k = k0)); [done|]. intros Hg. simpl. by rewrite IH.
Qed.

Lemma keys_del_subseteq d k : PyDict.keys (PyDict.del d k) ⊆ PyDict.keys d.
Proof.
  unfold PyDict.keys. induction d as [|[k0 v0] d IH]; simpl; [done|].
  destruct (decide (k = k0)); simpl.
  - intros x Hx. apply elem_of_cons; auto.
  - intros x [->|Hx]%elem_of_cons; apply elem_of_cons; auto.
Qed.

Lemma wf_set d k v : PyDict.wf d -> PyDict.wf (PyDict.set d k v).
Proof.
  intros Hwf. unfold PyDict.wf.
  destruct (PyDict.get d k) eqn:Hg.
  - by rewrite keys_set_present.
  - rewrite keys_set_fresh by done. apply NoDup_app. repeat split.
    + done.
    + intros x Hx ->%list_elem_of_singleton. by apply get_None_keys in Hg.
    + apply NoDup_singleton.
Qed.

Lemma wf_del d k : PyDict.wf d -> PyDict.wf (PyDict.del d k).
Proof.
  unfold PyDict.wf, PyDict.keys.
  induction d as [|[k0 v0] d IH]; simpl; [done|].
  intros [Hk0 Hnd]%NoDup_cons. destruct (decide (k = k0)); [done|].
  simpl. apply NoDup_cons. split; [|by apply IH].
  intros Hin. apply Hk0. by apply (keys_del_subseteq d k).
Qed.

(** Writing to, or deleting, the key of the entry a loop is visiting,
    when the entries before it hold other keys. *)
Lemma set_middle (pre post : list (K * V)) k v v' :
  k ∉ PyDict.keys pre ->
  PyDict.set (pre ++ (k, v) :: post) k v' = pre ++ (k, v') :: post.
Proof.
  unfold PyDict.keys. induction pre as [|[k0 v0] pre IH]; simpl.
  - intros _. by rewrite decide_True.
  - rewrite not_elem_of_cons. intros [Hne Hnin].
    rewrite decide_False by done. by rewrite IH.
Qed.

Lemma del_middle (pre post : list (K * V)) k v :
  k ∉ PyDict.keys pre ->
  PyDict.del (pre ++ (k, v) :: post) k = pre ++ post.
Proof.
  unfold PyDict.keys. induction pre as [|[k0 v0] pre IH]; simpl.
  - intros _. by rewrite decide_True.
  - rewrite not_elem_of_cons. intros [Hne Hnin].
    rewrite decide_False by done. by rewrite IH.
Qed.

End dict_facts.

(** ** StudentRegistry: grade advancement *)

Lemma promote_entry_Some (k k' : Z) (s s' : Student.t) :
  promote_entry (k, s) = Some (k', s') ->
  k' = k /\ Student.grade_level_id s < 13
  /\ s' = Student.with_grade s (Student.grade_level_id s + 1).
Proof.
  unfold promote_entry. simpl.
  destruct (Z.leb_spec 13 (Student.grade_level_id s)); [done|].
  intros [= <- <-]. auto.
Qed.

Lemma promote_entry_None (k : Z) (s : Student.t) :
  promote_entry (k, s) = None -> 13 <= Student.grade_level_id s.
Proof.
  unfold promote_entry. simpl.
  by destruct (Z.leb_spec 13 (Student.grade_level_id s)).
Qed.

Lemma keys_omap_promote (l : dict Z Student.t) :
  PyDict.keys (omap promote_entry l) ⊆ PyDict.keys l
  /\ (PyDict.wf l -> PyDict.wf (omap promote_entry l)).
Proof.
  unfold PyDict.wf, PyDict.keys. induction l as [|[k s] l [IH1 IH2]].
  - split; [done | auto].
  - cbn [omap list_omap]. fold (omap promote_entry l).
    destruct (promote_entry (k, s)) as [[k' s']|] eqn:E.
    + apply promote_entry_Some in E as (-> & _ & _). rewrite !fmap_cons. simpl.
      split.
      * intros x [->|Hx]%elem_of_cons; apply elem_of_cons; auto.
      * intros [Hk Hnd]%NoDup_cons. apply NoDup_cons. split; [|by apply IH2].
        intros Hin. apply Hk. by apply IH1.
    + rewrite fmap_cons. split.
      * intros x Hx. apply elem_of_cons. right. by apply IH1.
      * intros [_ Hnd]%NoDup_cons. by apply IH2.
Qed.

(** The loop of [advance_grade_levels], entry by entry: [pre] are the
    entries already visited, as the loop left them. *)
Lemma advance_fold (year : Z) (l pre : dict Z Student.t)
    (gs tr : dict Z Student.t) (c : Z) (gl al : list Student.t) :
  PyDict.wf (pre ++ l) ->
  foldl (advance_one year)
        (mkAdvanceState (mkStudentRegistry (pre ++ l) gs tr c) gl al) l
  = mkAdvanceState
      (mkStudentRegistry (pre ++ omap promote_entry l)
         (foldl (graduate_entry year) gs l) tr c)
      (gl ++ filter (fun s => 13 <= Student.grade_level_id s) (PyDict.values l))
      (al ++ ((fun s => Student.with_grade s (Student.grade_level_id s + 1))
                <$> filter (fun s => Student.grade_level_id s < 13)
                           (PyDict.values l))).
Proof.
  revert pre gs gl al. induction l as [|[k s] l IH]; intros pre gs gl al Hwf.
  - simpl. by rewrite !app_nil_r.
  - assert (Hk : k ∉ PyDict.keys pre).
    { unfold PyDict.wf, PyDict.keys in *. rewrite fmap_app in Hwf.
      apply NoDup_app in Hwf as (_ & Hdisj & _).
      intros Hin. apply (Hdisj k Hin). simpl. apply elem_of_cons; auto. }
    assert (Hwf1 : PyDict.wf (pre ++ l)).
    { unfold PyDict.wf, PyDict.keys in *. rewrite fmap_app in *.
      simpl in Hwf. apply NoDup_app in Hwf as (H1 & H2 & H3).
      apply NoDup_cons in H3 as [_ H3]. apply NoDup_app. repeat split; auto.
      intros x Hx Hx'. apply (H2 x Hx). apply elem_of_cons; auto. }
    assert (Hwf2 : forall s', PyDict.wf ((pre ++ [(k, s')]) ++ l)).
    { intros s'. rewrite <- app_assoc. simpl.
      unfold PyDict.wf, PyDict.keys in *. by rewrite fmap_app in *. }
    cbn [foldl].
    replace (advance_one year
               (mkAdvanceState (mkStudentRegistry (pre ++ (k, s) :: l) gs tr c)
                  gl al) (k, s))
      with (if 13 <=? Student.grade_level_id s then
              mkAdvanceState
                (mkStudentRegistry (pre ++ l)
                   (PyDict.set gs k (Student.with_graduation_year s year)) tr c)
                (gl ++ [s]) al
            else
              mkAdvanceState
                (mkStudentRegistry
                   ((pre ++ [(k, Student.with_grade s
                                   (Student.grade_level_id s + 1))]) ++ l)
                   gs tr c)
                gl (al ++ [Student.with_grade s (Student.grade_level_id s + 1)])).
    2:{ unfold advance_one. simpl.
        destruct (13 <=? Student.grade_level_id s).
        - by rewrite del_middle.
        - rewrite set_middle by done. by rewrite <- app_assoc. }
    unfold PyDict.values. rewrite fmap_cons. cbn [snd].
    unfold graduate_entry at 2. cbn [fst snd omap list_omap].
    fold (omap promote_entry l).
    unfold promote_entry at 1. cbn [fst snd].
    destruct (Z.leb_spec 13 (Student.grade_level_id s)) as [Hge|Hlt].
    + rewrite IH by done.
      rewrite filter_cons_True by done.
      rewrite (filter_cons_False (fun s => Student.grade_level_id s < 13))
        by (simpl; lia).
      by rewrite <- app_assoc.
    + rewrite IH by done.
      rewrite filter_cons_False by (simpl; lia).
      rewrite filter_cons_True by done.
      rewrite fmap_cons. by rewrite <- !app_assoc.
Qed.

(** [advance_grade_levels] in closed form. *)
Lemma advance_grade_levels_eq (year : Z) (reg : StudentRegistry) :
  PyDict.wf (active_students reg) ->
  advance_grade_levels year reg
  = mkAdvanceState
      (mkStudentRegistry (omap promote_entry (active_students reg))
         (foldl (graduate_entry year) (graduated_students reg)
                (active_students reg))
         (transferred_students reg) (student_id_counter reg))
      (filter (fun s => 13 <= Student.grade_level_id s)
              (PyDict.values (active_students reg)))
      ((fun s => Student.with_grade s (Student.grade_level_id s + 1))
         <$> filter (fun s => Student.grade_level_id s < 13)
                    (PyDict.values (active_students reg))).
Proof.
  intros Hwf. unfold advance_grade_levels. destruct reg as [a g t c]. simpl in *.
  exact (advance_fold year a [] g t c [] [] Hwf).
Qed.

Lemma get_promoted (l : dict Z Student.t) (k : Z) :
  PyDict.wf l ->
  PyDict.get (omap promote_entry l) k
  = PyDict.get l k ≫= fun s => snd <$> promote_entry (k, s).
Proof.
  induction l as [|[k0 s0] l IH]; intros Hwf; [done|].
  assert (Hwf' : PyDict.wf l).
  { unfold PyDict.wf, PyDict.keys in *. simpl in Hwf.
    by apply NoDup_cons in Hwf as [_ ?]. }
  assert (Hk0 : k0 ∉ PyDict.keys l).
  { unfold PyDict.wf, PyDict.keys in *. simpl in Hwf.
    by apply NoDup_cons in Hwf as [? _]. }
  cbn [omap list_omap PyDict.get]. fold (omap promote_entry l).
  destruct (promote_entry (k0, s0)) as [[k' s']|] eqn:E.
  - apply promote_entry_Some in E as (-> & Hlt & ->).
    cbn [PyDict.get]. destruct (decide (k = k0)) as [->|Hne]; [|by apply IH].
    simpl. unfold promote_entry. simpl.
    by destruct (Z.leb_spec 13 (Student.grade_level_id s0)); [lia|].
  - apply promote_entry_None in E.
    destruct (decide (k = k0)) as [->|Hne]; [|by apply IH].
    simpl. unfold promote_entry. simpl.
    destruct (Z.leb_spec 13 (Student.grade_level_id s0)); [|lia].
    simpl. apply get_None_keys. intros Hin. apply Hk0.
    by apply (proj1 (keys_omap_promote l)).
Qed.

Lemma get_graduated_other (year : Z) (l gs : dict Z Student.t) (k : Z) :
  k ∉ PyDict.keys l ->
  PyDict.get (foldl (graduate_entry year) gs l) k = PyDict.get gs k.
Proof.
  revert gs. induction l as [|[k0 s0] l IH]; intros gs Hk; [done|].
  unfold PyDict.keys in Hk. simpl in Hk. apply not_elem_of_cons in Hk as [Hne Hk].
  simpl. rewrite IH by done. unfold graduate_entry. simpl.
  destruct (13 <=? Student.grade_level_id s0); [|done].
  by rewrite get_set_ne.
Qed.

Lemma get_graduated (year : Z) (l gs : dict Z Student.t) (k : Z) (s : Student.t) :
  PyDict.wf l ->
  PyDict.get l k = Some s ->
  13 <= Student.grade_level_id s ->
  PyDict.get (foldl (graduate_entry year) gs l) k
  = Some (Student.with_graduation_year s year).
Proof.
  revert gs. induction l as [|[k0 s0] l IH]; intros gs Hwf Hg Hge; [done|].
  unfold PyDict.wf, PyDict.keys in Hwf. simpl in Hwf.
  apply NoDup_cons in Hwf as [Hk0 Hwf].
  simpl in Hg. simpl. destruct (decide (k = k0)) as [->|Hne].
  - injection Hg as ->. rewrite get_graduated_other by done.
    unfold graduate_entry. simpl.
    destruct (Z.leb_spec 13 (Student.grade_level_id s)); [|lia].
    apply get_set_eq.
  - by apply IH.
Qed.

(** ** StudentRegistry: new students *)

Lemma set_fresh {K V} `{EqDecision K} (d : list (K * V)) (k : K) (v : V) :
  PyDict.get d k = None -> PyDict.set d k v = d ++ [(k, v)].
Proof.
  induction d as [|[k0 v0] d IH]; simpl; [done|].
  destruct (decide (k = k0)); [done|]. intros Hg. f_equal. by apply IH.
Qed.

Lemma counter_fresh (reg : StudentRegistry) :
  student_registry_ok reg ->
  PyDict.get (active_students reg) (student_id_counter reg) = None.
Proof.
  intros [_ Hlt]. apply get_None_keys. intros Hin. apply Hlt in Hin. lia.
Qed.

Lemma appended_from_snoc (c : Z) (news : dict Z Student.t) (s : Student.t) :
  appended_from c news ->
  Student.student_id s = c + Z.of_nat (length news) ->
  appended_from c (news ++ [(c + Z.of_nat (length news), s)]).
Proof.
  intros [Hk Hf] Hs. split.
  - unfold PyDict.keys in *. rewrite fmap_app, Hk, length_app. simpl.
    replace (Z.of_nat (length news + 1)) with (Z.of_nat (length news) + 1) by lia.
    rewrite seqZ_app by lia. f_equal.
  - apply Forall_app. split; [done|]. by apply Forall_singleton.
Qed.

Lemma ok_append (a : dict Z Student.t) (g t : dict Z Student.t) (c : Z)
    (news : dict Z Student.t) :
  student_registry_ok (mkStudentRegistry a g t c) ->
  appended_from c news ->
  student_registry_ok
    (mkStudentRegistry (a ++ news) g t (c + Z.of_nat (length news))).
Proof.
  intros [Hwf Hlt] [Hk _]. unfold student_registry_ok, PyDict.wf, PyDict.keys in *.
  simpl in *. rewrite fmap_app, Hk. split.
  - apply NoDup_app. repeat split; [done| |apply NoDup_seqZ].
    intros x Hx Hx'. apply Hlt in Hx. apply elem_of_seqZ in Hx'. lia.
  - intros k [Hin|Hin]%elem_of_app.
    + apply Hlt in Hin. lia.
    + apply elem_of_seqZ in Hin. lia.
Qed.

(** The loop of [enroll_new_kindergarteners] appends its new students. *)
Lemma enroll_fold (year : Z) (draws : nat -> KinderDraws) (idx : list nat)
    (reg : StudentRegistry) (ns : list Student.t) :
  student_registry_ok reg ->
  exists news,
    foldl (enroll_one year draws) (mkEnrollState reg ns) idx
    = mkEnrollState
        (mkStudentRegistry (active_students reg ++ news)
           (graduated_students reg) (transferred_students reg)
           (student_id_counter reg + Z.of_nat (length news)))
        (ns ++ PyDict.values news)
    /\ length news = length idx
    /\ appended_from (student_id_counter reg) news
    /\ Forall (fun item => Student.grade_level_id (snd item) = 1) news.
Proof.
  destruct reg as [a g t c].
  cbn [active_students graduated_students transferred_students
       student_id_counter].
  intros Hok.
  cut (forall news0,
    appended_from c news0 ->
    Forall (fun item => Student.grade_level_id (snd item) = 1) news0 ->
    exists news,
      foldl (enroll_one year draws)
        (mkEnrollState
           (mkStudentRegistry (a ++ news0) g t (c + Z.of_nat (length news0)))
           (ns ++ PyDict.values news0)) idx
      = mkEnrollState
          (mkStudentRegistry (a ++ news) g t (c + Z.of_nat (length news)))
          (ns ++ PyDict.values news)
      /\ length news = (length news0 + length idx)%nat
      /\ appended_from c news
      /\ Forall (fun item => Student.grade_level_id (snd item) = 1) news).
  { intros Hgen. destruct (Hgen []) as (news & Heq & Hlen & Happ & Hg1).
    - split; [done | constructor].
    - constructor.
    - exists news. simpl in Heq. rewrite app_nil_r, Z.add_0_r in Heq.
      unfold PyDict.values in Heq at 1. simpl in Heq. rewrite app_nil_r in Heq.
      done. }
  induction idx as [|i idx IH]; intros news0 Happ Hg1.
  - exists news0. simpl. split; [done|]. split; [lia|]. split; done.
  - cbn [foldl].
    pose proof (ok_append _ _ _ _ news0 Hok Happ) as Hok1.
    set (c1 := c + Z.of_nat (length news0)) in *.
    set (reg1 := mkStudentRegistry (a ++ news0) g t c1) in *.
    unfold enroll_one at 2. cbn [enr_reg new_students].
    destruct (kinder_family reg1 (draws i)) as [family_id last_name].
    set (student := Student.mk _ _ _ _ _ _ _ _ _ _ _).
    cbn [active_students graduated_students transferred_students
         student_id_counter reg1].
    rewrite set_fresh by (apply (counter_fresh reg1 Hok1)).
    destruct (IH (news0 ++ [(c1, student)])) as (news & Heq & Hlen & Happ' & Hg1').
    + by apply appended_from_snoc.
    + apply Forall_app. split; [done|]. by apply Forall_singleton.
    + exists news. rewrite length_app in Hlen. simpl in Hlen.
      split; [|split; [cbn [length]; lia|split; done]].
      rewrite <- Heq. rewrite length_app. simpl.
      unfold PyDict.values. rewrite fmap_app. simpl.
      rewrite <- !app_assoc. do 3 f_equal. unfold c1. lia.
Qed.

Lemma get_app {K V} `{EqDecision K} (d1 d2 : list (K * V)) (k : K) :
  PyDict.get (d1 ++ d2) k
  = match PyDict.get d1 k with
    | Some v => Some v
    | None => PyDict.get d2 k
    end.
Proof.
  induction d1 as [|[k0 v0] d1 IH]; simpl; [done|].
  by destruct (decide (k = k0)).
Qed.

Lemma get_appended (c k : Z) (news : dict Z Student.t) :
  appended_from c news -> k < c -> PyDict.get news k = None.
Proof.
  intros [Hk _] Hlt. apply get_None_keys. rewrite Hk.
  intros Hin%elem_of_seqZ. lia.
Qed.

(** The loop of transfers in appends its new students, at grades 1..12. *)
Lemma transfer_in_fold (year : Z) (draws : nat -> TransferInDraws)
    (idx : list nat) (reg : StudentRegistry) (gr : GuardianRegistry)
    (tin tout : list Student.t) :
  student_registry_ok reg ->
  exists news gr',
    foldl (transfer_in_one year draws) (mkTransferState reg gr tin tout) idx
    = mkTransferState
        (mkStudentRegistry (active_students reg ++ news)
           (graduated_students reg) (transferred_students reg)
           (student_id_counter reg + Z.of_nat (length news)))
        gr' (tin ++ PyDict.values news) tout
    /\ length news = length idx
    /\ appended_from (student_id_counter reg) news
    /\ Forall (fun item => 1 <= Student.grade_level_id (snd item) <= 12) news.
Proof.
  destruct reg as [a g t c].
  cbn [active_students graduated_students transferred_students
       student_id_counter].
  intros Hok.
  cut (forall news0 gr0,
    appended_from c news0 ->
    Forall (fun item => 1 <= Student.grade_level_id (snd item) <= 12) news0 ->
    exists news gr',
      foldl (transfer_in_one year draws)
        (mkTransferState
           (mkStudentRegistry (a ++ news0) g t (c + Z.of_nat (length news0)))
           gr0 (tin ++ PyDict.values news0) tout) idx
      = mkTransferState
          (mkStudentRegistry (a ++ news) g t (c + Z.of_nat (length news)))
          gr' (tin ++ PyDict.values news) tout
      /\ length news = (length news0 + length idx)%nat
      /\ appended_from c news
      /\ Forall (fun item => 1 <= Student.grade_level_id (snd item) <= 12) news).
  { intros Hgen. destruct (Hgen [] gr) as (news & gr' & Heq & Hlen & Happ & Hg).
    - split; [done | constructor].
    - constructor.
    - exists news, gr'. simpl in Heq. rewrite app_nil_r, Z.add_0_r in Heq.
      unfold PyDict.values in Heq at 1. simpl in Heq. rewrite app_nil_r in Heq.
      done. }
  induction idx as [|i idx IH]; intros news0 gr0 Happ Hg.
  - exists news0, gr0. simpl. split; [done|]. split; [lia|]. split; done.
  - cbn [foldl].
    pose proof (ok_append _ _ _ _ news0 Hok Happ) as Hok1.
    set (c1 := c + Z.of_nat (length news0)) in *.
    set (reg1 := mkStudentRegistry (a ++ news0) g t c1) in *.
    unfold transfer_in_one at 2.
    cbn [tr_reg tr_guardians transfers_in transfers_out].
    set (student := Student.mk _ _ _ _ _ _ _ _ _ _ _).
    cbn [active_students graduated_students transferred_students
         student_id_counter reg1].
    rewrite set_fresh by (apply (counter_fresh reg1 Hok1)).
    set (gr1 := gen_reg _).
    destruct (IH (news0 ++ [(c1, student)]) gr1)
      as (news & gr' & Heq & Hlen & Happ' & Hg').
    + by apply appended_from_snoc.
    + apply Forall_app. split; [done|]. apply Forall_singleton.
      unfold student. cbn [snd Student.grade_level_id]. unfold PyRandom.randint.
      pose proof (Z.mod_pos_bound (Z.of_nat (ti_grade_pick (draws i)))
                    (12 - 1 + 1) ltac:(lia)). lia.
    + exists news, gr'. rewrite length_app in Hlen. simpl in Hlen.
      split; [|split; [cbn [length]; lia|split; done]].
      rewrite <- Heq. rewrite length_app. simpl.
      unfold PyDict.values. rewrite fmap_app. simpl.
      rewrite <- !app_assoc. do 3 f_equal. unfold c1. lia.
Qed.

(** The loop of transfers out only removes entries. *)
Lemma transfer_out_fold (year : Z) (ids : list Z) (st : TransferState) :
  PyDict.wf (active_students (tr_reg st)) ->
  let st' := foldl (transfer_out_one year) st ids in
  PyDict.wf (active_students (tr_reg st'))
  /\ student_id_counter (tr_reg st') = student_id_counter (tr_reg st)
  /\ graduated_students (tr_reg st') = graduated_students (tr_reg st)
  /\ (forall k s, PyDict.get (active_students (tr_reg st')) k = Some s ->
                  PyDict.get (active_students (tr_reg st)) k = Some s).
Proof.
  revert st. induction ids as [|id ids IH]; intros st Hwf; [by simpl|].
  cbn [foldl]. cbv zeta.
  assert (Hstep :
    PyDict.wf (active_students (tr_reg (transfer_out_one year st id)))
    /\ student_id_counter (tr_reg (transfer_out_one year st id))
       = student_id_counter (tr_reg st)
    /\ graduated_students (tr_reg (transfer_out_one year st id))
       = graduated_students (tr_reg st)
    /\ (forall k s,
          PyDict.get (active_students (tr_reg (transfer_out_one year st id))) k
          = Some s ->
          PyDict.get (active_students (tr_reg st)) k = Some s)).
  { unfold transfer_out_one.
    destruct (PyDict.get (active_students (tr_reg st)) id) eqn:Hg; [|done].
    simpl. split; [by apply wf_del|]. split; [done|]. split; [done|].
    intros k s. destruct (decide (id = k)) as [->|Hne].
    - by rewrite get_del_eq.
    - by rewrite get_del_ne. }
  destruct Hstep as (Hwf1 & Hc1 & Hg1 & Hget1).
  destruct (IH _ Hwf1) as (Hwf2 & Hc2 & Hg2 & Hget2).
  split; [done|]. split; [congruence|]. split; [congruence|]. auto.
Qed.

Lemma keys_set {K V} `{EqDecision K} (d : list (K * V)) (k k0 : K) (v : V) :
  k ∈ PyDict.keys (PyDict.set d k0 v) <-> k = k0 \/ k ∈ PyDict.keys d.
Proof.
  rewrite <- !get_Some_keys. destruct (decide (k0 = k)) as [->|Hne].
  - rewrite get_set_eq. split; [auto | by eexists].
  - rewrite get_set_ne by done. split; [auto | intros [?|?]; congruence].
Qed.

(** The invariant holds of the empty registry and is kept by the baseline
    load, by the promotion and by every enrolment. *)
Lemma init_ok : student_registry_ok StudentRegistry_init.
Proof.
  split; [apply NoDup_nil_2 | intros k Hk; by apply elem_of_nil in Hk].
Qed.

Lemma load_baseline_students_ok (students_df : list StudentRow)
    (reg : StudentRegistry) :
  student_registry_ok reg ->
  student_registry_ok (load_baseline_students students_df reg).
Proof.
  unfold load_baseline_students. revert reg.
  induction students_df as [|row df IH]; intros reg Hok; [done|].
  cbn [foldl]. apply IH. destruct Hok as [Hwf Hlt].
  unfold load_baseline_student, student_registry_ok. simpl. split.
  - by apply wf_set.
  - intros k [->|Hin]%keys_set; [lia|]. apply Hlt in Hin. lia.
Qed.

Lemma advance_ok (year : Z) (reg : StudentRegistry) :
  student_registry_ok reg ->
  student_registry_ok (adv_reg (advance_grade_levels year reg)).
Proof.
  intros [Hwf Hlt]. rewrite advance_grade_levels_eq by done. simpl.
  split; simpl.
  - by apply keys_omap_promote.
  - intros k Hk. apply Hlt. by apply (proj1 (keys_omap_promote _)).
Qed.

(** The student transitions of a year keep the invariant, and an entry
    that survives them under an id in use before is the entry the
    promotion left there. *)
Lemma student_transitions_inv (year : Z) (draws : TransitionDraws)
    (reg : StudentRegistry) (guardian_registry : GuardianRegistry)
    (st' : TransferState) :
  student_registry_ok reg ->
  student_transitions year draws reg guardian_registry = Some st' ->
  student_registry_ok (tr_reg st')
  /\ forall id s',
       id < student_id_counter reg ->
       PyDict.get (active_students (tr_reg st')) id = Some s' ->
       PyDict.get (active_students (adv_reg (advance_grade_levels year reg))) id
       = Some s'.
Proof.
  intros Hok Htr. pose proof Hok as [Hwf Hlt].
  set (st := advance_grade_levels year reg).
  unfold student_transitions in Htr.
  destruct (PyDict.get year_configs year) as [config|]; [|done].
  cbn [mbind option_bind] in Htr. injection Htr as <-. fold st.
  pose proof (advance_ok year reg Hok) as Hok1. fold st in Hok1.
  assert (Hc1 : student_id_counter (adv_reg st) = student_id_counter reg).
  { subst st. by rewrite advance_grade_levels_eq. }
  unfold enroll_new_kindergarteners.
  destruct (enroll_fold year (yd_kinder draws)
              (seq 0 (Z.to_nat (new_kindergarten_count config)))
              (adv_reg st) [] Hok1) as (news & -> & Hlen & Happ & _).
  cbn [enr_reg]. set (reg2 := mkStudentRegistry _ _ _ _).
  assert (Hok2 : student_registry_ok reg2).
  { pose proof (ok_append (active_students (adv_reg st))
                  (graduated_students (adv_reg st))
                  (transferred_students (adv_reg st))
                  (student_id_counter (adv_reg st)) news) as H.
    apply H; [by destruct (adv_reg st)|done]. }
  unfold process_transfers.
  set (st1 := if 0 <? _ then _ else _).
  assert (Hst1 :
    PyDict.wf (active_students (tr_reg st1))
    /\ student_id_counter (tr_reg st1) = student_id_counter reg2
    /\ graduated_students (tr_reg st1) = graduated_students reg2
    /\ (forall k s0, PyDict.get (active_students (tr_reg st1)) k = Some s0 ->
                     PyDict.get (active_students reg2) k = Some s0)).
  { subst st1. destruct (0 <? _).
    - apply (transfer_out_fold year _
               (mkTransferState reg2 guardian_registry [] [])).
      apply Hok2.
    - simpl. split; [apply Hok2|auto]. }
  destruct Hst1 as (Hwf3 & Hc3 & _ & Hget3).
  assert (Hok3 : student_registry_ok (tr_reg st1)).
  { split; [done|]. intros k [s0 Hk]%get_Some_keys.
    rewrite Hc3. apply Hok2. apply get_Some_keys. exists s0. by apply Hget3. }
  destruct st1 as [reg3 gr3 tin3 tout3]. cbn [tr_reg] in *.
  destruct (transfer_in_fold year (td_in (yd_transfers draws))
              (seq 0 (Z.to_nat (PyRandom.randint 3 8 (yd_transfer_in_pick draws))))
              reg3 gr3 tin3 tout3 Hok3)
    as (news' & gr' & -> & _ & Happ' & _).
  cbn [tr_reg active_students]. split.
  - pose proof (ok_append (active_students reg3) (graduated_students reg3)
                  (transferred_students reg3) (student_id_counter reg3) news')
      as H.
    apply H; [by destruct reg3|done].
  - intros id s' Hid. rewrite get_app.
    rewrite (get_appended _ id _ Happ')
      by (rewrite Hc3; subst reg2; simpl; lia).
    destruct (PyDict.get (active_students reg3) id) eqn:E; [|done].
    intros [= ->]. apply Hget3 in E. subst reg2. simpl in E.
    rewrite get_app in E.
    rewrite (get_appended _ id _ Happ) in E by lia.
    by destruct (PyDict.get (active_students (adv_reg st)) id).
Qed.

(** C4.  [advance_grade_levels(year)] returns the students at grade 13 or
    above as [graduated] and the others, one grade up, as [advanced]; a
    student of the first kind leaves the active set and enters the
    graduated set stamped with the year, a student of the second kind
    stays with [grade_level_id] incremented by exactly 1, and nobody else
    becomes active.  Consequently, across the student transitions of a
    generated year (promotion, kindergarten enrolment, transfers) a
    student active before and after is exactly one grade up, and a student
    at grade 13 is no longer active. *)
Theorem advance_grade_levels_spec (year : Z) (reg : StudentRegistry) :
  student_registry_ok reg ->
  let st := advance_grade_levels year reg in
  let bump := fun s => Student.with_grade s (Student.grade_level_id s + 1) in
  graduated st
    = filter (fun s => 13 <= Student.grade_level_id s)
             (PyDict.values (active_students reg))
  /\ advanced st
    = bump <$> filter (fun s => Student.grade_level_id s < 13)
                      (PyDict.values (active_students reg))
  /\ (forall id s,
        PyDict.get (active_students reg) id = Some s ->
        13 <= Student.grade_level_id s ->
        PyDict.get (active_students (adv_reg st)) id = None
        /\ (exists s',
              PyDict.get (graduated_students (adv_reg st)) id = Some s'
              /\ Student.graduation_year s' = Some year
              /\ Student.student_id s' = Student.student_id s
              /\ Student.grade_level_id s' = Student.grade_level_id s)
        /\ s ∈ graduated st)
  /\ (forall id s,
        PyDict.get (active_students reg) id = Some s ->
        Student.grade_level_id s < 13 ->
        (exists s',
            PyDict.get (active_students (adv_reg st)) id = Some s'
            /\ Student.grade_level_id s' = Student.grade_level_id s + 1
            /\ s' ∈ advanced st))
  /\ (forall id,
        PyDict.get (active_students reg) id = None ->
        PyDict.get (active_students (adv_reg st)) id = None)
  /\ (forall draws guardian_registry st',
        student_transitions year draws reg guardian_registry = Some st' ->
        forall id s,
          PyDict.get (active_students reg) id = Some s ->
          (forall s',
              PyDict.get (active_students (tr_reg st')) id = Some s' ->
              Student.grade_level_id s' = Student.grade_level_id s + 1)
          /\ (13 <= Student.grade_level_id s ->
              PyDict.get (active_students (tr_reg st')) id = None)).
Proof.
  intros Hok st bump. pose proof Hok as [Hwf Hlt].
  assert (Hact : forall id,
    PyDict.get (active_students (adv_reg st)) id
    = PyDict.get (active_students reg) id
        ≫= fun s => snd <$> promote_entry (id, s)).
  { intros id. subst st. rewrite advance_grade_levels_eq by done. simpl.
    by apply get_promoted. }
  split; [subst st; by rewrite advance_grade_levels_eq|].
  split; [subst st; by rewrite advance_grade_levels_eq|].
  split; [|split; [|split]].
  - intros id s Hg Hge. split; [|split].
    + rewrite Hact, Hg. simpl. unfold promote_entry. simpl.
      by destruct (Z.leb_spec 13 (Student.grade_level_id s)); [|lia].
    + exists (Student.with_graduation_year s year). split; [|done].
      subst st. rewrite advance_grade_levels_eq by done. simpl.
      by apply get_graduated.
    + subst st. rewrite advance_grade_levels_eq by done. simpl.
      apply list_elem_of_filter. split; [done|].
      apply list_elem_of_fmap. exists (id, s). split; [done|].
      by apply get_Some_elem.
  - intros id s Hg Hlt13. exists (bump s). split; [|split; [done|]].
    + rewrite Hact, Hg. simpl. unfold promote_entry. simpl.
      by destruct (Z.leb_spec 13 (Student.grade_level_id s)); [lia|].
    + subst st. rewrite advance_grade_levels_eq by done. simpl.
      apply list_elem_of_fmap. exists s. split; [done|].
      apply list_elem_of_filter. split; [done|].
      apply list_elem_of_fmap. exists (id, s). split; [done|].
      by apply get_Some_elem.
  - intros id Hg. by rewrite Hact, Hg.
  - intros draws gr st' Htr id s Hg.
    assert (Hid : id < student_id_counter reg).
    { apply Hlt. apply get_Some_keys. by eexists. }
    destruct (student_transitions_inv year draws reg gr st' Hok Htr)
      as [_ Hinv].
    assert (Hback : forall s',
      PyDict.get (active_students (tr_reg st')) id = Some s' ->
      PyDict.get (active_students (adv_reg st)) id = Some s')
      by (intros s'; by apply Hinv).
    split.
    + intros s' Hs'. apply Hback in Hs'. rewrite Hact, Hg in Hs'. simpl in Hs'.
      destruct (promote_entry (id, s)) as [[k' s'']|] eqn:E; [|done].
      apply promote_entry_Some in E as (_ & _ & ->). simpl in Hs'.
      by injection Hs' as <-.
    + intros Hge.
      apply eq_None_not_Some. intros [s' E].
      apply Hback in E. rewrite Hact, Hg in E. simpl in E.
      unfold promote_entry in E. simpl in E.
      by destruct (Z.leb_spec 13 (Student.grade_level_id s)); [|lia].
Qed.

(** ** One year of promotion and enrolment *)

Lemma length_promoted (l : dict Z Student.t) :
  (length (omap promote_entry l)
   + length (filter (fun s => (13 <= Student.grade_level_id s)%Z)
                    (PyDict.values l)))%nat
  = length l.
Proof.
  unfold PyDict.values. induction l as [|[k s] l IH]; [done|].
  cbn [omap list_omap]. fold (omap promote_entry l). rewrite fmap_cons.
  unfold promote_entry at 1. cbn [fst snd].
  destruct (Z.leb_spec 13 (Student.grade_level_id s)).
  - rewrite filter_cons_True by done. simpl. lia.
  - rewrite filter_cons_False by (simpl; lia). simpl. lia.
Qed.

Lemma count_promoted (g : Z) (l : dict Z Student.t) :
  g <= 13 ->
  length (filter (fun s => Student.grade_level_id s = g)
                 (PyDict.values (omap promote_entry l)))
  = length (filter (fun s => Student.grade_level_id s = g - 1)
                   (PyDict.values l)).
Proof.
  intros Hg. unfold PyDict.values. induction l as [|[k s] l IH]; [done|].
  cbn [omap list_omap]. fold (omap promote_entry l). rewrite fmap_cons.
  unfold promote_entry at 1. cbn [fst snd].
  destruct (Z.leb_spec 13 (Student.grade_level_id s)).
  - rewrite (filter_cons_False _ s) by lia. done.
  - rewrite fmap_cons. cbn [snd].
    destruct (decide (Student.grade_level_id s = g - 1)) as [Heq|Hne].
    + rewrite !filter_cons_True by (simpl; lia). simpl. by rewrite IH.
    + rewrite !filter_cons_False by (simpl; lia). done.
Qed.

Lemma count_geq_13 (l : list Student.t) :
  Forall (fun s => Student.grade_level_id s <= 13) l ->
  filter (fun s => 13 <= Student.grade_level_id s) l
  = filter (fun s => Student.grade_level_id s = 13) l.
Proof.
  induction 1 as [|s l Hs Hl IH]; [done|].
  destruct (decide (Student.grade_level_id s = 13)).
  - rewrite !filter_cons_True by lia. by rewrite IH.
  - rewrite !filter_cons_False by lia. done.
Qed.

Lemma count_none (g : Z) (news : dict Z Student.t) :
  Forall (fun item => Student.grade_level_id (snd item) <> g) news ->
  filter (fun s => Student.grade_level_id s = g) (PyDict.values news) = [].
Proof.
  unfold PyDict.values. induction 1 as [|[k s] l Hs Hl IH]; [done|].
  rewrite fmap_cons. by rewrite filter_cons_False.
Qed.

(** ** Birth windows *)

(** The two dates of a birth window exist for the birth years 2..9999. *)
Lemma birth_window_years (birth_year : Z) :
  is_Some (birth_window birth_year) <-> 2 <= birth_year <= 9999.
Proof.
  unfold birth_window, PyDate.make.
  change (PyDate.days_in_month (birth_year - 1) 9) with 30.
  change (PyDate.days_in_month birth_year 8) with 31.
  destruct (Z.leb_spec 1 (birth_year - 1)), (Z.leb_spec (birth_year - 1) 9999),
    (Z.leb_spec 1 birth_year), (Z.leb_spec birth_year 9999);
    cbn; split; try (intros [? [=]]); try (intros; lia); by eexists.
Qed.

(** A kindergartener of [year] has a birth window in the years 7..10004;
    a transfer in at any of the grades 1..12 has one in the years
    18..10004. *)
Lemma kinder_window_years (year : Z) :
  is_Some (birth_window (year - 5)) <-> 7 <= year <= 10004.
Proof. rewrite birth_window_years. lia. Qed.

Lemma transfer_window_years (year : Z) :
  (forall grade_level, 1 <= grade_level <= 12 ->
     is_Some (birth_window (year - (5 + grade_level - 1))))
  <-> 18 <= year <= 10004.
Proof.
  split.
  - intros H. pose proof (proj1 (birth_window_years _) (H 1 ltac:(lia))).
    pose proof (proj1 (birth_window_years _) (H 12 ltac:(lia))). lia.
  - intros Hy g Hg. apply birth_window_years. lia.
Qed.

(** C5, as the code has it.  In a year from 7 to 10004, where the birth
    window of a kindergartener exists and the enrolment returns: from 500
    active students at grades 1..13, promotion followed by the enrolment
    of 42 kindergarteners leaves
    [500 - (students that were at grade 13) + 42] active students, none of
    the former grade-13 students among them, and as many students at grade
    13 as there were at grade 12: the promoted class, which graduates in
    the following year. *)
Theorem one_year_scenario (year : Z) (draws : nat -> KinderDraws)
    (reg : StudentRegistry) :
  7 <= year <= 10004 ->
  student_registry_ok reg ->
  length (active_students reg) = 500%nat ->
  Forall (fun s => 1 <= Student.grade_level_id s <= 13)
         (PyDict.values (active_students reg)) ->
  let reg' :=
    enr_reg (enroll_new_kindergarteners year 42 draws
               (adv_reg (advance_grade_levels year reg))) in
  Z.of_nat (length (active_students reg'))
    = 500 - Z.of_nat (count_at_grade 13 reg) + 42
  /\ count_at_grade 13 reg' = count_at_grade 12 reg
  /\ (forall id s,
        PyDict.get (active_students reg) id = Some s ->
        Student.grade_level_id s = 13 ->
        PyDict.get (active_students reg') id = None).
Proof.
  intros _ Hok Hlen Hgrades reg'. pose proof Hok as [Hwf Hlt].
  pose proof (advance_ok year reg Hok) as Hok1.
  subst reg'. unfold enroll_new_kindergarteners.
  destruct (enroll_fold year draws (seq 0 (Z.to_nat 42))
              (adv_reg (advance_grade_levels year reg)) [] Hok1)
    as (news & -> & Hnews & Happ & Hg1).
  rewrite length_seq in Hnews. cbn [enr_reg].
  rewrite advance_grade_levels_eq in * by done.
  cbn [adv_reg active_students student_id_counter] in *.
  unfold count_at_grade. cbn [active_students].
  split; [|split].
  - rewrite length_app, Hnews.
    pose proof (length_promoted (active_students reg)) as Hp.
    rewrite count_geq_13 in Hp
      by (eapply Forall_impl; [exact Hgrades | simpl; intros; lia]).
    lia.
  - unfold PyDict.values at 1. rewrite fmap_app, filter_app, length_app.
    fold (PyDict.values news). rewrite (count_none 13 news).
    + fold (PyDict.values (omap promote_entry (active_students reg))).
      rewrite (count_promoted 13) by lia. change (13 - 1) with 12.
      cbn [length]. lia.
    + eapply Forall_impl; [exact Hg1 | simpl; intros; lia].
  - intros id s Hg H13. rewrite get_app, get_promoted, Hg by done. simpl.
    unfold promote_entry. simpl.
    destruct (Z.leb_spec 13 (Student.grade_level_id s)); [|lia]. simpl.
    apply (get_appended _ _ _ Happ). apply Hlt. apply get_Some_keys. by eexists.
Qed.

Lemma baseline_500_ok :
  student_registry_ok baseline_500
  /\ length (active_students baseline_500) = 500%nat
  /\ Forall (fun s => 1 <= Student.grade_level_id s <= 13)
            (PyDict.values (active_students baseline_500)).
Proof.
  split; [|split].
  - apply load_baseline_students_ok, init_ok.
  - vm_compute. reflexivity.
  - refine (bool_decide_unpack _ _). vm_compute. exact I.
Qed.

Lemma one_year_scenario_witness :
  Z.of_nat (length (active_students
              (enr_reg (enroll_new_kindergarteners 2016 42 sample_kinder_draws
                          (adv_reg (advance_grade_levels 2016 baseline_500))))))
  = 500 - Z.of_nat (count_at_grade 13 baseline_500) + 42.
Proof.
  destruct baseline_500_ok as (Hok & Hlen & Hgrades).
  exact (proj1 (one_year_scenario 2016 sample_kinder_draws baseline_500
                  ltac:(lia) Hok Hlen Hgrades)).
Defined.

(** C5 as stated fails: on a baseline of 500 students at grades 1..13 the
    38 students that were at grade 12 are at grade 13 once promoted, so the
    active set is not free of grade 13. *)
Lemma one_year_scenario_counterexample :
  student_registry_ok baseline_500
  /\ length (active_students baseline_500) = 500%nat
  /\ Forall (fun s => 1 <= Student.grade_level_id s <= 13)
            (PyDict.values (active_students baseline_500))
  /\ count_at_grade 13
       (enr_reg (enroll_new_kindergarteners 2016 42 sample_kinder_draws
                   (adv_reg (advance_grade_levels 2016 baseline_500))))
     = 38%nat
  /\ ~ (count_at_grade 13
          (enr_reg (enroll_new_kindergarteners 2016 42 sample_kinder_draws
                      (adv_reg (advance_grade_levels 2016 baseline_500))))
        = 0%nat).
Proof.
  destruct baseline_500_ok as (Hok & Hlen & Hgrades).
  assert (H38 : count_at_grade 13
       (enr_reg (enroll_new_kindergarteners 2016 42 sample_kinder_draws
                   (adv_reg (advance_grade_levels 2016 baseline_500))))
     = 38%nat) by (vm_compute; reflexivity).
  split; [exact Hok|]. split; [exact Hlen|]. split; [exact Hgrades|].
  split; [exact H38|]. rewrite H38. discriminate.
Qed.

Lemma advance_grade_levels_spec_witness :
  PyDict.get (active_students (adv_reg (advance_grade_levels 2016 baseline_3))) 3
  = None
  /\ (exists s',
        PyDict.get (active_students (adv_reg (advance_grade_levels 2016 baseline_3))) 4
        = Some s'
        /\ Student.grade_level_id s' = 13).
Proof.
  assert (Hok : student_registry_ok baseline_3)
    by apply load_baseline_students_ok, init_ok.
  destruct (advance_grade_levels_spec 2016 baseline_3 Hok)
    as (_ & _ & Hgrad & Hadv & _).
  split.
  - eapply Hgrad; [reflexivity | simpl; lia].
  - edestruct (Hadv 4) as (s' & Hs' & Hg & _); [reflexivity | simpl; lia |].
    exists s'. split; [exact Hs' | exact Hg].
Defined.

(** ** TeacherRegistry *)

Lemma elem_of_set {K V} `{EqDecision K} (d : list (K * V)) (k k' : K) (v v' : V) :
  (k', v') ∈ PyDict.set d k v -> (k', v') = (k, v) \/ (k', v') ∈ d.
Proof.
  induction d as [|[k0 v0] d IH]; simpl.
  - intros ->%list_elem_of_singleton. auto.
  - destruct (decide (k = k0)) as [->|Hne].
    + intros [->|Hin]%elem_of_cons; [auto|]. right. apply elem_of_cons; auto.
    + intros [->|Hin]%elem_of_cons.
      * right. apply elem_of_cons; auto.
      * destruct (IH Hin); [auto|]. right. apply elem_of_cons; auto.
Qed.

Lemma elem_of_del {K V} `{EqDecision K} (d : list (K * V)) (k k' : K) (v' : V) :
  (k', v') ∈ PyDict.del d k -> (k', v') ∈ d.
Proof.
  induction d as [|[k0 v0] d IH]; simpl; [done|].
  destruct (decide (k = k0)).
  - intros Hin. apply elem_of_cons; auto.
  - intros [->|Hin]%elem_of_cons; apply elem_of_cons; auto.
Qed.

Lemma insert_desc_perm (x : Teacher.t) (l : list Teacher.t) :
  insert_desc x l ≡ₚ x :: l.
Proof.
  induction l as [|y l IH]; simpl; [done|].
  destruct (_ <? _); [|done]. rewrite IH. apply Permutation_swap.
Qed.

(** Sorting the candidates only reorders them. *)
Lemma sort_by_experience_desc_perm (l : list Teacher.t) :
  sort_by_experience_desc l ≡ₚ l.
Proof.
  unfold sort_by_experience_desc. induction l as [|x l IH]; simpl; [done|].
  by rewrite insert_desc_perm, IH.
Qed.

Lemma teacher_init_ok : teacher_registry_ok TeacherRegistry_init.
Proof.
  split; [apply NoDup_nil_2|]. split.
  - intros k x Hin. by apply elem_of_nil in Hin.
  - intros k Hk. by apply elem_of_nil in Hk.
Qed.

Lemma load_baseline_teachers_ok (teachers_df : list TeacherRow)
    (draws : nat -> BaselineTeacherDraws) (reg : TeacherRegistry) :
  teacher_registry_ok reg ->
  teacher_registry_ok (load_baseline_teachers teachers_df draws reg).
Proof.
  unfold load_baseline_teachers.
  generalize (zip (seq 0 (length teachers_df)) teachers_df). intros items.
  revert reg. induction items as [|[i row] items IH]; intros reg Hok; [done|].
  cbn [foldl]. apply IH. destruct Hok as (Hwf & Hid & Hlt).
  unfold load_baseline_teacher, teacher_registry_ok. simpl.
  split; [by apply wf_set|]. split.
  - intros k x [[= -> ->]|Hin]%elem_of_set; [done | by apply Hid].
  - intros k [->|Hin]%keys_set; [lia|]. apply Hlt in Hin. lia.
Qed.

(** The departures: every candidate is removed from the active teachers,
    nobody else is touched. *)
Lemma depart_fold (year : Z) (retire_draw : nat -> Q)
    (items : list (nat * Teacher.t)) (st : AnnualState) :
  PyDict.wf (active_teachers (ann_reg st)) ->
  NoDup ((fun it => Teacher.teacher_id (snd it)) <$> items) ->
  (forall it, it ∈ items ->
     is_Some (PyDict.get (active_teachers (ann_reg st))
                (Teacher.teacher_id (snd it)))) ->
  exists st',
    foldl (depart_one year retire_draw) (Some st) items = Some st'
    /\ PyDict.wf (active_teachers (ann_reg st'))
    /\ (length (active_teachers (ann_reg st')) + length items)%nat
       = length (active_teachers (ann_reg st))
    /\ teacher_id_counter (ann_reg st') = teacher_id_counter (ann_reg st)
    /\ new_hires st' = new_hires st
    /\ (forall k x, (k, x) ∈ active_teachers (ann_reg st') ->
                    (k, x) ∈ active_teachers (ann_reg st)).
Proof.
  revert st. induction items as [|[i x] items IH]; intros st Hwf Hnd Hin.
  - exists st. simpl. repeat split; auto.
  - cbn [foldl]. rewrite fmap_cons in Hnd. cbn [snd] in Hnd.
    apply NoDup_cons in Hnd as [Hx Hnd].
    assert (Hmem : PyDict.mem (active_teachers (ann_reg st))
                     (Teacher.teacher_id x) = true).
    { apply mem_true. apply (Hin (i, x)). apply elem_of_cons; auto. }
    assert (Hstep : exists st1,
      depart_one year retire_draw (Some st) (i, x) = Some st1
      /\ active_teachers (ann_reg st1)
         = PyDict.del (active_teachers (ann_reg st)) (Teacher.teacher_id x)
      /\ teacher_id_counter (ann_reg st1) = teacher_id_counter (ann_reg st)
      /\ new_hires st1 = new_hires st).
    { unfold depart_one. cbn [mbind option_bind]. rewrite Hmem.
      destruct (_ || _); eexists; repeat split. }
    destruct Hstep as (st1 & -> & Hact & Hc & Hnh).
    destruct (IH st1) as (st' & Heq & Hwf' & Hlen & Hc' & Hnh' & Hsub).
    + rewrite Hact. by apply wf_del.
    + done.
    + intros it Hit. rewrite Hact. rewrite get_del_ne.
      * apply Hin. apply elem_of_cons; auto.
      * intros Heq. apply Hx. rewrite Heq.
        apply list_elem_of_fmap. by exists it.
    + exists st'. split; [done|]. split; [done|].
      split; [|split; [congruence|split; [congruence|]]].
      * rewrite Hact in Hlen. cbn [length].
        pose proof (length_del_present (active_teachers (ann_reg st))
                      (Teacher.teacher_id x)
                      (proj1 (mem_true _ _) Hmem)). lia.
      * intros k y Hy. apply Hsub in Hy. rewrite Hact in Hy.
        by apply elem_of_del in Hy.
Qed.

Lemma teacher_ids_are_keys (reg : TeacherRegistry) :
  teacher_registry_ok reg ->
  Teacher.teacher_id <$> PyDict.values (active_teachers reg)
  = PyDict.keys (active_teachers reg).
Proof.
  intros (_ & Hid & _). unfold PyDict.values, PyDict.keys.
  induction (active_teachers reg) as [|[k x] l IH]; [done|].
  rewrite !fmap_cons. cbn [fst snd]. f_equal.
  - apply Hid. apply elem_of_cons; auto.
  - apply IH. intros k' x' Hin. apply Hid. apply elem_of_cons; auto.
Qed.

(** [process_departures] removes exactly
    [min(expected_departures, len(candidates))] teachers, none when that
    is negative. *)
Lemma process_departures_spec (year expected : Z) (retire_draw : nat -> Q)
    (reg : TeacherRegistry) :
  teacher_registry_ok reg ->
  exists st1,
    process_departures year expected retire_draw reg = Some st1
    /\ PyDict.wf (active_teachers (ann_reg st1))
    /\ Z.of_nat (length (active_teachers (ann_reg st1)))
       = Z.of_nat (length (active_teachers reg))
         - Z.max 0 (Z.min expected (Z.of_nat (length (active_teachers reg))))
    /\ teacher_id_counter (ann_reg st1) = teacher_id_counter reg
    /\ new_hires st1 = []
    /\ (forall k x, (k, x) ∈ active_teachers (ann_reg st1) ->
                    (k, x) ∈ active_teachers reg).
Proof.
  intros Hok. pose proof Hok as (Hwf & Hid & Hlt).
  unfold process_departures. cbv zeta.
  set (cands := sort_by_experience_desc (PyDict.values (active_teachers reg))).
  assert (Hperm : cands ≡ₚ PyDict.values (active_teachers reg))
    by apply sort_by_experience_desc_perm.
  assert (Hlenc : length cands = length (active_teachers reg)).
  { rewrite Hperm. unfold PyDict.values. by rewrite length_fmap. }
  set (n := Z.to_nat (Z.min expected (Z.of_nat (length cands)))).
  assert (Hn : (n <= length cands)%nat) by lia.
  assert (Hsnd : (zip (seq 0 n) (take n cands)).*2 = take n cands).
  { apply snd_zip. rewrite length_seq, length_take. lia. }
  destruct (depart_fold year retire_draw (zip (seq 0 n) (take n cands))
              (mkAnnualState reg [] [] []))
    as (st1 & Heq & Hwf1 & Hlen1 & Hc1 & Hnh1 & Hsub1).
  - done.
  - replace ((fun it : nat * Teacher.t => Teacher.teacher_id (snd it))
               <$> zip (seq 0 n) (take n cands))
      with (Teacher.teacher_id <$> (zip (seq 0 n) (take n cands)).*2)
      by (by rewrite <- list_fmap_compose).
    rewrite Hsnd.
    rewrite fmap_take. eapply sublist_NoDup; [|apply sublist_take].
    rewrite Hperm, teacher_ids_are_keys by done. apply Hwf.
  - intros it Hit. cbn [ann_reg]. apply get_Some_keys.
    rewrite <- teacher_ids_are_keys by done.
    apply list_elem_of_fmap. exists (snd it). split; [done|].
    rewrite <- Hperm. eapply elem_of_sublist; [|apply (sublist_take _ n)].
    rewrite <- Hsnd. apply list_elem_of_fmap. by exists it.
  - exists st1. cbn [ann_reg new_hires] in *.
    split; [done|]. split; [done|]. split; [|auto].
    rewrite length_zip, length_seq, length_take in Hlen1. lia.
Qed.

Lemma teacher_counter_fresh (reg : TeacherRegistry) :
  (forall k, k ∈ PyDict.keys (active_teachers reg) -> k < teacher_id_counter reg) ->
  PyDict.get (active_teachers reg) (teacher_id_counter reg) = None.
Proof.
  intros Hlt. apply get_None_keys. intros Hin. apply Hlt in Hin. lia.
Qed.

Lemma hired_from_snoc (c : Z) (news : dict Z Teacher.t) (x : Teacher.t) :
  hired_from c news ->
  Teacher.teacher_id x = c + Z.of_nat (length news) ->
  hired_from c (news ++ [(c + Z.of_nat (length news), x)]).
Proof.
  intros [Hk Hf] Hs. split.
  - unfold PyDict.keys in *. rewrite fmap_app, Hk, length_app. simpl.
    replace (Z.of_nat (length news + 1)) with (Z.of_nat (length news) + 1) by lia.
    rewrite seqZ_app by lia. f_equal.
  - apply Forall_app. split; [done|]. by apply Forall_singleton.
Qed.

(** The hiring loop appends the new teachers under fresh ids. *)
Lemma hire_fold (year : Z) (needs : dict Z Q) (draws : nat -> HireDraws)
    (idx : list nat) (a r f : dict Z Teacher.t) (c : Z)
    (rs gs : list Teacher.t) :
  (forall k, k ∈ PyDict.keys a -> k < c) ->
  forall news0,
    hired_from c news0 ->
    exists news,
      foldl (hire_one year needs draws)
        (mkAnnualState
           (mkTeacherRegistry (a ++ news0) r f (c + Z.of_nat (length news0)))
           rs gs (PyDict.values news0)) idx
      = mkAnnualState
          (mkTeacherRegistry (a ++ news) r f (c + Z.of_nat (length news)))
          rs gs (PyDict.values news)
      /\ length news = (length news0 + length idx)%nat
      /\ hired_from c news.
Proof.
  intros Hlt. induction idx as [|i idx IH]; intros news0 Happ.
  - exists news0. simpl. split; [done|]. split; [lia|done].
  - cbn [foldl]. unfold hire_one at 2.
    cbn [ann_reg retirements resignations new_hires active_teachers
         retired_teachers former_teachers teacher_id_counter].
    set (x := Teacher.mk _ _ _ _ _ _ _ _ _).
    rewrite set_fresh.
    2:{ apply get_None_keys. unfold PyDict.keys. rewrite fmap_app.
        intros [Hin|Hin]%elem_of_app.
        - apply Hlt in Hin. lia.
        - destruct Happ as [Hk _]. unfold PyDict.keys in Hk. rewrite Hk in Hin.
          apply elem_of_seqZ in Hin. lia. }
    destruct (IH (news0 ++ [(c + Z.of_nat (length news0), x)]))
      as (news & Heq & Hlen & Happ').
    + by apply hired_from_snoc.
    + exists news. rewrite length_app in Hlen. simpl in Hlen.
      split; [|split; [cbn [length]; lia|done]].
      rewrite <- Heq. rewrite length_app. simpl.
      unfold PyDict.values. rewrite fmap_app. simpl.
      rewrite <- !app_assoc. do 3 f_equal. lia.
Qed.

Lemma get_aged (d : dict Z Teacher.t) (k : Z) :
  PyDict.get (prod_map id Teacher.aged <$> d) k = Teacher.aged <$> PyDict.get d k.
Proof.
  induction d as [|[k0 x0] d IH]; [done|].
  rewrite fmap_cons. simpl. by destruct (decide (k = k0)).
Qed.

Lemma keys_aged (d : dict Z Teacher.t) :
  PyDict.keys (prod_map id Teacher.aged <$> d) = PyDict.keys d.
Proof.
  unfold PyDict.keys. rewrite <- list_fmap_compose.
  apply list_fmap_ext. by intros i [k x] _.
Qed.

(** [process_hires]: the active teachers are the survivors followed by
    [max(0, target - survivors)] new hires, everyone a year older. *)
Lemma process_hires_spec (year target : Z) (draws : nat -> HireDraws)
    (st1 : AnnualState) :
  (forall k, k ∈ PyDict.keys (active_teachers (ann_reg st1)) ->
             k < teacher_id_counter (ann_reg st1)) ->
  new_hires st1 = [] ->
  exists news,
    active_teachers (ann_reg (process_hires year target draws st1))
    = prod_map id Teacher.aged <$> (active_teachers (ann_reg st1) ++ news)
    /\ teacher_id_counter (ann_reg (process_hires year target draws st1))
       = teacher_id_counter (ann_reg st1) + Z.of_nat (length news)
    /\ Z.of_nat (length news)
       = Z.max 0 (target - Z.of_nat (length (active_teachers (ann_reg st1))))
    /\ hired_from (teacher_id_counter (ann_reg st1)) news.
Proof.
  destruct st1 as [[a r f c] rs gs nh].
  cbn [ann_reg new_hires active_teachers teacher_id_counter].
  intros Hlt ->. unfold process_hires.
  cbn [ann_reg active_teachers].
  set (needs := _assess_department_needs _).
  set (idx := seq 0 _).
  destruct (hire_fold year needs draws idx a r f c rs gs Hlt [])
    as (news & Heq & Hlen & Happ).
  { split; [done | constructor]. }
  cbn [length PyDict.values fmap list_fmap] in Heq.
  rewrite app_nil_r, Z.add_0_r in Heq. rewrite Heq.
  exists news. unfold age_teachers.
  cbn [ann_reg active_teachers teacher_id_counter].
  split; [done|]. split; [done|]. split; [|done].
  subst idx. rewrite length_seq in Hlen. simpl in Hlen. lia.
Qed.

(** C7.  On a registry the program has built and for a float
    [turnover_rate] whose product with the head count is defined,
    [process_annual_changes] returns (no [KeyError]); it first removes [min(int(active_count * turnover_rate), active_count)]
    teachers (none if that is negative), the product being the binary64
    product the code truncates; whenever the count that remains is at
    most [target_teacher_count], the final count of active teachers is
    exactly [target_teacher_count]; and every teacher active before and
    after the call has [years_experience] incremented by exactly 1. *)
Theorem process_annual_changes_spec (year target_teacher_count : Z)
    (turnover_rate : Q) (draws : TeacherDraws) (reg : TeacherRegistry) :
  teacher_registry_ok reg ->
  Float.int_product_defined (Z.of_nat (length (active_teachers reg)))
    turnover_rate = true ->
  let current_count := Z.of_nat (length (active_teachers reg)) in
  let expected_departures :=
    Py.int (Float.mul (Float.of_int current_count) turnover_rate) in
  exists st1 st,
    process_departures year expected_departures (td_retire_draw draws) reg
      = Some st1
    /\ process_annual_changes year target_teacher_count turnover_rate draws reg
      = Some st
    /\ Z.of_nat (length (active_teachers (ann_reg st1)))
       = current_count - Z.max 0 (Z.min expected_departures current_count)
    /\ (Z.of_nat (length (active_teachers (ann_reg st1))) <= target_teacher_count ->
        Z.of_nat (length (active_teachers (ann_reg st))) = target_teacher_count)
    /\ (forall id x x',
          PyDict.get (active_teachers reg) id = Some x ->
          PyDict.get (active_teachers (ann_reg st)) id = Some x' ->
          Teacher.years_experience x' = Teacher.years_experience x + 1)
    /\ teacher_registry_ok (ann_reg st).
Proof.
  intros Hok _ current_count expected_departures.
  pose proof Hok as (Hwf & Hid & Hlt).
  destruct (process_departures_spec year expected_departures
              (td_retire_draw draws) reg Hok)
    as (st1 & Hdep & Hwf1 & Hlen1 & Hc1 & Hnh1 & Hsub1).
  assert (Hlt1 : forall k, k ∈ PyDict.keys (active_teachers (ann_reg st1)) ->
                           k < teacher_id_counter (ann_reg st1)).
  { intros k [x Hk]%get_Some_keys. rewrite Hc1. apply Hlt.
    apply get_Some_keys. exists x.
    apply elem_get_Some; [done|]. apply Hsub1. by apply get_Some_elem. }
  destruct (process_hires_spec year target_teacher_count (td_hire draws)
              st1 Hlt1 Hnh1) as (news & Hact & Hc & Hlen & Happ).
  exists st1, (process_hires year target_teacher_count (td_hire draws) st1).
  split; [exact Hdep|]. split.
  { unfold process_annual_changes. cbv zeta.
    fold current_count. fold expected_departures. by rewrite Hdep. }
  split; [exact Hlen1|]. split; [|split].
  - intros Hle. rewrite Hact, length_fmap, length_app. lia.
  - intros id x x' Hg Hg'. rewrite Hact, get_aged, get_app in Hg'.
    assert (Hnone : PyDict.get news id = None).
    { apply get_None_keys. destruct Happ as [Hk _]. rewrite Hk.
      intros Hin%elem_of_seqZ.
      assert (id < teacher_id_counter reg)
        by (apply Hlt; apply get_Some_keys; by eexists).
      lia. }
    rewrite Hnone in Hg'.
    destruct (PyDict.get (active_teachers (ann_reg st1)) id) as [y|] eqn:E;
      [|done].
    injection Hg' as <-.
    apply get_Some_elem, Hsub1, (elem_get_Some _ _ _ Hwf) in E.
    rewrite Hg in E. injection E as <-. done.
  - unfold teacher_registry_ok. rewrite Hact. split; [|split].
    + unfold PyDict.wf. rewrite keys_aged. unfold PyDict.keys.
      rewrite fmap_app. apply NoDup_app. split; [exact Hwf1|]. split.
      * intros k Hk Hk'. apply Hlt1 in Hk. destruct Happ as [Hkn _].
        unfold PyDict.keys in Hkn. rewrite Hkn in Hk'.
        apply elem_of_seqZ in Hk'. lia.
      * destruct Happ as [Hkn _]. unfold PyDict.keys in Hkn. rewrite Hkn.
        apply NoDup_seqZ.
    + intros k x Hin. apply list_elem_of_fmap in Hin as ([k0 x0] & [= -> ->] & Hin).
      simpl. apply elem_of_app in Hin as [Hin|Hin].
      * apply Hid. by apply Hsub1.
      * destruct Happ as [_ Hf]. rewrite Forall_forall in Hf.
        apply (Hf (k0, x0) Hin).
    + rewrite Hc. intros k Hk. rewrite keys_aged in Hk.
      unfold PyDict.keys in Hk. rewrite fmap_app in Hk.
      apply elem_of_app in Hk as [Hk|Hk].
      * apply Hlt1 in Hk. lia.
      * destruct Happ as [Hkn _]. unfold PyDict.keys in Hkn. rewrite Hkn in Hk.
        apply elem_of_seqZ in Hk. lia.
Qed.

(** With 100 teachers and a turnover rate of 0.29 the float product is
    28.999999999999996: 28 teachers leave, and a target of 72 is met
    without a hire. *)
Lemma process_annual_changes_spec_witness :
  exists st1 st,
    process_departures 2016 28 (td_retire_draw sample_teacher_draws) teachers_100
    = Some st1
    /\ process_annual_changes 2016 72 (Float.lit (29 # 100))
         sample_teacher_draws teachers_100
       = Some st
    /\ Z.of_nat (length (active_teachers (ann_reg st1))) = 72
    /\ Z.of_nat (length (active_teachers (ann_reg st))) = 72.
Proof.
  assert (Hok : teacher_registry_ok teachers_100)
    by apply load_baseline_teachers_ok, teacher_init_ok.
  assert (Hfl : Float.int_product_defined
                  (Z.of_nat (length (active_teachers teachers_100)))
                  (Float.lit (29 # 100)) = true)
    by (vm_compute; reflexivity).
  destruct (process_annual_changes_spec 2016 72 (Float.lit (29 # 100))
              sample_teacher_draws teachers_100 Hok Hfl)
    as (st1 & st & Hst1 & Hst & Hlen1 & Htarget & _).
  assert (H72 : Z.of_nat (length (active_teachers (ann_reg st1))) = 72).
  { rewrite Hlen1. vm_compute. reflexivity. }
  exists st1, st. split; [exact Hst1|]. split; [exact Hst|].
  split; [exact H72|]. apply Htarget. rewrite H72. discriminate.
Defined.

(** ** GuardianRegistry *)

(** The defect behind both evaluations, in general.  Re-using a family's
    rows for a sibling leaves the sibling one row, the one made from the
    family's last row. *)
Lemma reuse_keeps_last_row (student_id : Z) (family_id : string)
    (existing : list StudentGuardian.t) (last_sg : StudentGuardian.t)
    (st : GenState) :
  last existing = Some last_sg ->
  PyDict.get
    (student_guardians
       (gen_reg (foldl (reuse_family_guardian student_id family_id) st existing)))
    (IntKey student_id)
  = Some (StudentGuardian.mk student_id
            (StudentGuardian.guardian_id last_sg)
            (StudentGuardian.guardian_type_id last_sg) family_id).
Proof.
  intros [pre ->]%last_Some. rewrite foldl_app. simpl.
  unfold reuse_family_guardian at 1. simpl. apply get_set_eq.
Qed.

(** A row stored under a string key survives every removal. *)
Lemma remove_keeps_string_keys (student_id : Z) (reg : GuardianRegistry)
    (key : string) :
  PyDict.get (student_guardians (remove_student_guardians student_id reg))
             (StrKey key)
  = PyDict.get (student_guardians reg) (StrKey key).
Proof.
  unfold remove_student_guardians.
  generalize (filter (fun sg => StudentGuardian.student_id sg = student_id)
                     (PyDict.values (student_guardians reg))).
  intros rels. revert reg. induction rels as [|rel rels IH]; intros reg; [done|].
  cbn [foldl]. rewrite IH. unfold remove_relationship.
  set (reg1 := match filter _ _ with [] => _ | _ :: _ => _ end).
  assert (Hsg : student_guardians reg1 = student_guardians reg).
  { subst reg1. destruct (filter _ _); [|done].
    by destruct (PyDict.get (guardians reg) _). }
  destruct (PyDict.mem (student_guardians reg1) (IntKey student_id)).
  - simpl. rewrite get_del_ne by done. by rewrite Hsg.
  - by rewrite Hsg.
Qed.

(** C8, evaluated on the code.  Two siblings are processed from an empty
    registry and the first one draws a two-parent family: the parents are
    stored under the keys ["3_1"] and ["3_2"]; the sibling's two
    relationships are both written under the one key [4], so the second
    overwrites the first.  The registry relates the first sibling to the
    guardians 1 and 2 and the second to the guardian 2 alone, although the
    list returned to the caller holds both relationships of the sibling. *)
Theorem sibling_guardians_diverge :
  Student.family_id sibling_a = Student.family_id sibling_b
  /\ student_guardians siblings_registry
     = [ (StrKey "3_1", StudentGuardian.mk 3 1 1 "FAM1");
         (StrKey "3_2", StudentGuardian.mk 3 2 2 "FAM1");
         (IntKey 4, StudentGuardian.mk 4 2 2 "FAM1") ]
  /\ new_student_guardians
       (generate_guardians_for_students [sibling_a; sibling_b]
          two_parent_draws GuardianRegistry_init)
     = [ StudentGuardian.mk 3 1 1 "FAM1"; StudentGuardian.mk 3 2 2 "FAM1";
         StudentGuardian.mk 4 1 1 "FAM1"; StudentGuardian.mk 4 2 2 "FAM1" ]
  /\ guardian_ids_of siblings_registry 3 = {[ 1; 2 ]}
  /\ guardian_ids_of siblings_registry 4 = {[ 2 ]}
  /\ guardian_ids_of siblings_registry 3 <> guardian_ids_of siblings_registry 4.
Proof.
  assert (H3 : guardian_ids_of siblings_registry 3 = {[ 1; 2 ]})
    by (vm_compute; reflexivity).
  assert (H4 : guardian_ids_of siblings_registry 4 = {[ 2 ]})
    by (vm_compute; reflexivity).
  split; [vm_compute; reflexivity|]. split; [vm_compute; reflexivity|].
  split; [vm_compute; reflexivity|]. split; [exact H3|]. split; [exact H4|].
  rewrite H3, H4. intros Heq.
  assert (Hin : (1 : Z) ∈ ({[ 2 ]} : gset Z)) by (rewrite <- Heq; set_solver).
  set_solver.
Qed.

(** C9, evaluated on the code.  A student of a two-parent family is
    removed: both guardians are archived, but the student's two
    relationship rows, stored under ["3_1"] and ["3_2"], are not found by
    the deletion, which looks up the integer key [3]; they stay in
    [student_guardians]. *)
Theorem removed_student_keeps_rows :
  let reg := remove_student_guardians 3 only_child_registry in
  student_guardians only_child_registry
  = [ (StrKey "3_1", StudentGuardian.mk 3 1 1 "FAM1");
      (StrKey "3_2", StudentGuardian.mk 3 2 2 "FAM1") ]
  /\ student_guardians reg = student_guardians only_child_registry
  /\ filter (fun sg => StudentGuardian.student_id sg = 3)
            (PyDict.values (student_guardians reg))
     = [ StudentGuardian.mk 3 1 1 "FAM1"; StudentGuardian.mk 3 2 2 "FAM1" ]
  /\ guardians reg = []
  /\ PyDict.keys (transferred_guardians reg) = [1; 2]
  /\ relationship_count reg 1 = 1%nat
  /\ relationship_count reg 2 = 1%nat.
Proof. cbv zeta. repeat split; vm_compute; reflexivity. Qed.

(** ** Sampling without replacement *)

Section sample_facts.
Context {A : Type}.
Implicit Types (pool : list A) (picks : list nat).

(** A step of the selection takes one element out of the pool. *)
Lemma sample_step_perm pool pick x pool' :
  PyRandom.sample_step pool pick = Some (x, pool') -> x :: pool' ≡ₚ pool.
Proof.
  unfold PyRandom.sample_step. cbv zeta.
  destruct (pool !! (pick `mod` length pool)%nat) as [x0|] eqn:Hx; [|done].
  destruct (last pool) as [y|] eqn:Hy; [|done].
  intros [= <- <-].
  apply last_Some in Hy as [pre ->].
  rewrite length_app in *. simpl in *.
  set (j := (pick `mod` (length pre + 1))%nat) in *.
  replace (length pre + 1 - 1)%nat with (length pre) by lia.
  destruct (decide (j < length pre)%nat) as [Hlt|Hge].
  - rewrite lookup_app_l in Hx by done.
    rewrite insert_app_l by done.
    rewrite take_app_length' by (by rewrite length_insert).
    apply list_elem_of_split_length in Hx as (l1 & l2 & -> & Hj).
    rewrite Hj. rewrite insert_app_r_alt by lia.
    replace (length l1 - length l1)%nat with 0%nat by lia. simpl.
    rewrite <- Permutation_middle. rewrite <- app_assoc. simpl.
    rewrite <- (Permutation_middle l1 (l2 ++ [y]) x0).
    apply perm_skip. rewrite (Permutation_app_comm l2 [y]). simpl.
    by rewrite Permutation_middle.
  - assert (Hj : j = length pre).
    { pose proof (lookup_lt_Some _ _ _ Hx) as Hlt.
      rewrite length_app in Hlt. simpl in Hlt. lia. }
    rewrite Hj in *. rewrite list_lookup_middle in Hx by done.
    injection Hx as <-.
    rewrite insert_app_r_alt by lia.
    replace (length pre - length pre)%nat with 0%nat by lia. simpl.
    rewrite take_app_length. by rewrite Permutation_cons_append.
Qed.

Lemma sample_step_Some pool pick :
  (0 < length pool)%nat -> is_Some (PyRandom.sample_step pool pick).
Proof.
  intros Hlen. unfold PyRandom.sample_step. cbv zeta.
  destruct (lookup_lt_is_Some_2 pool (pick `mod` length pool)%nat) as [x ->].
  { apply Nat.mod_upper_bound. lia. }
  destruct (last pool) eqn:Hl; [by eexists|].
  apply last_None in Hl. subst. simpl in Hlen. lia.
Qed.

(** [random.sample(pool, k)] draws [k] elements out of the pool: what it
    returns, together with what it leaves, is the pool. *)
Lemma sample_perm pool k picks :
  (k <= length pool)%nat ->
  length (PyRandom.sample pool k picks) = k
  /\ exists rest, PyRandom.sample pool k picks ++ rest ≡ₚ pool.
Proof.
  revert pool picks. induction k as [|k IH]; intros pool picks Hk.
  - split; [done|]. by exists pool.
  - cbn [PyRandom.sample].
    destruct (sample_step_Some pool (hd 0%nat picks)) as [[x pool'] Hs]; [lia|].
    rewrite Hs. pose proof (sample_step_perm _ _ _ _ Hs) as Hp.
    destruct (IH pool' (tl picks)) as (Hlen & rest & Hrest).
    { apply Permutation_length in Hp. simpl in Hp. lia. }
    split; [simpl; by rewrite Hlen|].
    exists rest. simpl. by rewrite Hrest.
Qed.

Lemma sample_length pool k picks :
  (k <= length pool)%nat -> length (PyRandom.sample pool k picks) = k.
Proof. intros Hk. by apply sample_perm. Qed.

Lemma sample_subseteq pool k picks x :
  (k <= length pool)%nat -> x ∈ PyRandom.sample pool k picks -> x ∈ pool.
Proof.
  intros Hk Hx. destruct (sample_perm pool k picks Hk) as (_ & rest & Hp).
  rewrite <- Hp. apply elem_of_app; auto.
Qed.

Lemma sample_NoDup pool k picks :
  (k <= length pool)%nat -> NoDup pool -> NoDup (PyRandom.sample pool k picks).
Proof.
  intros Hk Hnd. destruct (sample_perm pool k picks Hk) as (_ & rest & Hp).
  rewrite <- Hp in Hnd. by apply NoDup_app in Hnd as (? & _ & _).
Qed.

End sample_facts.

(** ** Attendance *)

(** The day loop writes one row per day, in order, for the one student. *)
Lemma attend_fold (student_id : Z) (absences tardies days : list string)
    (st : DayState) :
  let st' := foldl (attend_day student_id absences tardies) st days in
  Attendance.status <$> rows st'
    = (Attendance.status <$> rows st)
      ++ statuses absences tardies (picks_left st) days
  /\ Attendance.date <$> rows st' = (Attendance.date <$> rows st) ++ days
  /\ Attendance.student_id <$> rows st'
     = (Attendance.student_id <$> rows st)
       ++ replicate (length days) student_id.
Proof.
  revert st. induction days as [|day days IH]; intros st.
  - simpl. by rewrite !app_nil_r.
  - cbn [foldl]. cbv zeta.
    specialize (IH (attend_day student_id absences tardies st day)).
    cbv zeta in IH. destruct IH as (IH1 & IH2 & IH3).
    rewrite IH1, IH2, IH3. clear IH1 IH2 IH3.
    unfold attend_day. cbn [statuses].
    destruct (bool_decide (day ∈ absences));
      [|destruct (bool_decide (day ∈ tardies))];
      cbn [rows picks_left next_id];
      rewrite !fmap_app; cbn [fmap list_fmap Attendance.status Attendance.date
                                Attendance.student_id length replicate];
      by rewrite <- !app_assoc.
Qed.

Lemma student_attendance_spec (school_days : list string) (student_id : Z)
    (d : AttendanceDraws) (attendance_id : Z) :
  let block := student_attendance school_days student_id d attendance_id in
  Attendance.status <$> block
    = statuses (absence_days school_days d) (tardy_days school_days d)
               (status_picks d) school_days
  /\ Attendance.date <$> block = school_days
  /\ Forall (fun r => Attendance.student_id r = student_id) block.
Proof.
  cbv zeta. unfold student_attendance.
  destruct (attend_fold student_id (absence_days school_days d)
              (tardy_days school_days d) school_days
              (mkDayState [] attendance_id (status_picks d)))
    as (H1 & H2 & H3).
  cbn [rows picks_left fmap list_fmap app] in *.
  split; [done|]. split; [done|].
  apply (Forall_fmap Attendance.student_id (fun x => x = student_id)).
  rewrite H3. by apply Forall_replicate.
Qed.

Lemma absence_label_cases (pick : nat) :
  absence_label pick
  = if (pick `mod` 2 =? 0)%nat then "Absent" else "Excused".
Proof.
  unfold absence_label, PyRandom.choice. cbn [length].
  pose proof (Nat.mod_upper_bound pick 2 ltac:(lia)) as Hlt.
  destruct (pick `mod` 2)%nat as [|[|n]]; [done | done | lia].
Qed.

Lemma statuses_length (absences tardies : list string) (picks : list nat)
    (days : list string) :
  length (statuses absences tardies picks days) = length days.
Proof.
  revert picks. induction days as [|day days IH]; intros picks; [done|].
  cbn [statuses].
  destruct (bool_decide _); [|destruct (bool_decide _)]; simpl; by rewrite IH.
Qed.

(** Every status is one of the four labels. *)
Lemma statuses_four (absences tardies : list string) (picks : list nat)
    (days : list string) :
  Forall (fun s => s ∈ ["Present"; "Tardy"; "Absent"; "Excused"])
         (statuses absences tardies picks days).
Proof.
  revert picks. induction days as [|day days IH]; intros picks; [constructor|].
  cbn [statuses].
  destruct (bool_decide _); [|destruct (bool_decide _)];
    (constructor; [|apply IH]).
  - rewrite absence_label_cases. destruct (_ =? _)%nat; set_solver.
  - set_solver.
  - set_solver.
Qed.

(** A row is labelled "Absent" or "Excused" exactly on an absence day, and
    "Tardy" exactly on a tardy day that is not an absence day. *)
Lemma statuses_by_day (absences tardies : list string) (picks : list nat)
    (days : list string) :
  Forall2 (fun day s =>
             (day ∈ absences <-> s = "Absent" \/ s = "Excused")
             /\ ((day ∉ absences) /\ day ∈ tardies <-> s = "Tardy"))
          days (statuses absences tardies picks days).
Proof.
  revert picks. induction days as [|day days IH]; intros picks; [constructor|].
  cbn [statuses].
  destruct (bool_decide (day ∈ absences)) eqn:Ha;
    [|destruct (bool_decide (day ∈ tardies)) eqn:Ht];
    (constructor; [|apply IH]).
  - apply bool_decide_eq_true in Ha. rewrite absence_label_cases.
    destruct (_ =? _)%nat; split; split; try tauto; try (intros [? ?]; tauto);
      intros; try done; auto.
  - apply bool_decide_eq_false in Ha. apply bool_decide_eq_true in Ht.
    split; split; try tauto; try done. by intros [?|?].
  - apply bool_decide_eq_false in Ha. apply bool_decide_eq_false in Ht.
    split; split; try tauto; try done. by intros [?|?].
Qed.

(** The counts of the labels, in terms of the days. *)
Lemma statuses_counts (absences tardies : list string) (picks : list nat)
    (days : list string) :
  let sts := statuses absences tardies picks days in
  (length (filter (fun s => s = "Absent") sts)
   + length (filter (fun s => s = "Excused") sts))%nat
  = length (filter (fun day => day ∈ absences) days)
  /\ length (filter (fun s => s = "Tardy") sts)
     = length (filter (fun day => (day ∉ absences) /\ day ∈ tardies) days).
Proof.
  cbv zeta. revert picks.
  induction days as [|day days IH]; intros picks; [done|].
  cbn [statuses]. destruct (IH picks) as [IH1 IH2].
  destruct (IH (tl picks)) as [IH1' IH2'].
  destruct (bool_decide (day ∈ absences)) eqn:Ha;
    [|destruct (bool_decide (day ∈ tardies)) eqn:Ht].
  - apply bool_decide_eq_true in Ha.
    rewrite (filter_cons_True (fun day => day ∈ absences)) by done.
    rewrite (filter_cons_False (fun day => (day ∉ absences) /\ _)) by tauto.
    rewrite absence_label_cases. destruct (_ =? _)%nat.
    + rewrite (filter_cons_True (fun s => s = "Absent")) by done.
      rewrite !filter_cons_False by done. cbn [length]. split; lia.
    + rewrite (filter_cons_True (fun s => s = "Excused")) by done.
      rewrite !filter_cons_False by done. cbn [length]. split; lia.
  - apply bool_decide_eq_false in Ha. apply bool_decide_eq_true in Ht.
    rewrite (filter_cons_False (fun day => day ∈ absences)) by done.
    rewrite (filter_cons_True (fun day => (day ∉ absences) /\ _)) by tauto.
    rewrite (filter_cons_True (fun s => s = "Tardy")) by done.
    rewrite !filter_cons_False by done. cbn [length]. split; lia.
  - apply bool_decide_eq_false in Ha. apply bool_decide_eq_false in Ht.
    rewrite (filter_cons_False (fun day => day ∈ absences)) by done.
    rewrite (filter_cons_False (fun day => (day ∉ absences) /\ _)) by tauto.
    rewrite !filter_cons_False by done. split; lia.
Qed.

(** The rows labelled "Absent" are the absence days whose coin came up
    even. *)
Lemma statuses_absent (absences tardies : list string) (picks : list nat)
    (days : list string) :
  (length (filter (fun day => day ∈ absences) days) <= length picks)%nat ->
  length (filter (fun s => s = "Absent") (statuses absences tardies picks days))
  = length (filter (fun p => (p `mod` 2 = 0)%nat)
                   (take (length (filter (fun day => day ∈ absences) days))
                         picks)).
Proof.
  revert picks. induction days as [|day days IH]; intros picks Hlen; [done|].
  cbn [statuses].
  destruct (bool_decide (day ∈ absences)) eqn:Ha;
    [|destruct (bool_decide (day ∈ tardies)) eqn:Ht].
  - apply bool_decide_eq_true in Ha.
    rewrite (filter_cons_True (fun day => day ∈ absences)) in * by done.
    cbn [length] in *. destruct picks as [|p picks]; [simpl in Hlen; lia|].
    cbn [hd tl take]. rewrite absence_label_cases.
    simpl in Hlen. destruct (Nat.eqb_spec (p `mod` 2) 0) as [Hp|Hp].
    + rewrite !filter_cons_True by done. cbn [length]. rewrite IH; [done|lia].
    + rewrite !filter_cons_False by done. rewrite IH; [done|lia].
  - apply bool_decide_eq_false in Ha.
    rewrite (filter_cons_False (fun day => day ∈ absences)) in * by done.
    rewrite filter_cons_False by done. by apply IH.
  - apply bool_decide_eq_false in Ha.
    rewrite (filter_cons_False (fun day => day ∈ absences)) in * by done.
    rewrite filter_cons_False by done. by apply IH.
Qed.

Lemma filter_elem_of_perm (days chosen : list string) :
  NoDup days -> NoDup chosen -> (forall x, x ∈ chosen -> x ∈ days) ->
  filter (fun day => day ∈ chosen) days ≡ₚ chosen.
Proof.
  intros Hd Hc Hsub. apply NoDup_Permutation; [by apply NoDup_filter | done |].
  intros x. rewrite list_elem_of_filter. split; [tauto | auto].
Qed.

(** The samples of one student, for a calendar without repeated days. *)
Lemma attendance_samples (school_days : list string) (d : AttendanceDraws) :
  NoDup school_days ->
  let n := length school_days in
  let absences := absence_days school_days d in
  let tardies := tardy_days school_days d in
  length absences = Z.to_nat (Z.min (absence_count school_days) (Z.of_nat n))
  /\ NoDup absences
  /\ (forall day, day ∈ absences -> day ∈ school_days)
  /\ length tardies
     = Z.to_nat (Z.min (tardy_count school_days)
                       (Z.of_nat (n - length absences)))
  /\ NoDup tardies
  /\ (forall day, day ∈ tardies -> day ∈ school_days /\ day ∉ absences).
Proof.
  intros Hnd n absences tardies.
  assert (Hka : (Z.to_nat (Z.min (absence_count school_days) (Z.of_nat n))
                 <= length school_days)%nat) by (subst n; lia).
  assert (Hla : length absences
                = Z.to_nat (Z.min (absence_count school_days) (Z.of_nat n)))
    by (by apply sample_length).
  assert (Hna : NoDup absences) by (by apply sample_NoDup).
  assert (Hsa : forall day, day ∈ absences -> day ∈ school_days)
    by (intros day; by apply sample_subseteq).
  assert (Hlr : length (remaining_days school_days d) = (n - length absences)%nat).
  { unfold remaining_days. fold absences.
    pose proof (filter_app_complement (fun day => day ∈ absences) school_days) as Hp.
    apply Permutation_length in Hp. rewrite length_app in Hp.
    rewrite (filter_elem_of_perm _ _ Hnd Hna Hsa) in Hp. subst n. lia. }
  assert (Hkt : (Z.to_nat (Z.min (tardy_count school_days)
                    (Z.of_nat (length (remaining_days school_days d))))
                 <= length (remaining_days school_days d))%nat) by lia.
  split; [done|]. split; [done|]. split; [done|]. split; [|split].
  - subst tardies. unfold tardy_days. rewrite sample_length by done.
    by rewrite Hlr.
  - apply sample_NoDup; [done|]. by apply NoDup_filter.
  - intros day Hday. apply sample_subseteq in Hday; [|done].
    unfold remaining_days in Hday. apply list_elem_of_filter in Hday.
    fold absences in Hday. tauto.
Qed.

Lemma length_rows_with (status : string) (block : list Attendance.t) :
  length (rows_with status block)
  = length (filter (fun s => s = status) (Attendance.status <$> block)).
Proof.
  unfold rows_with. induction block as [|r block IH]; [done|].
  rewrite fmap_cons. destruct (decide (Attendance.status r = status)).
  - rewrite !filter_cons_True by done. simpl. by rewrite IH.
  - rewrite !filter_cons_False by done. done.
Qed.

(** The rows of one student, by label. *)
Lemma attendance_rows (school_days : list string) (student_id : Z)
    (d : AttendanceDraws) (attendance_id : Z) :
  NoDup school_days ->
  let block := student_attendance school_days student_id d attendance_id in
  length block = length school_days
  /\ (length (rows_with "Absent" block) + length (rows_with "Excused" block))%nat
     = length (absence_days school_days d)
  /\ length (rows_with "Tardy" block) = length (tardy_days school_days d)
  /\ Forall (fun r => Attendance.status r
                      ∈ ["Present"; "Tardy"; "Absent"; "Excused"]) block.
Proof.
  intros Hnd block.
  destruct (student_attendance_spec school_days student_id d attendance_id)
    as (Hst & Hdate & _). fold block in Hst, Hdate.
  destruct (attendance_samples school_days d Hnd)
    as (_ & Hna & Hsa & _ & Hnt & Hst').
  pose proof (statuses_counts (absence_days school_days d)
                (tardy_days school_days d) (status_picks d) school_days)
    as [Hc1 Hc2]. cbv zeta in Hc1, Hc2.
  split; [|split; [|split]].
  - rewrite <- (length_fmap Attendance.date), Hdate. done.
  - rewrite !length_rows_with, Hst, Hc1.
    by rewrite (filter_elem_of_perm _ _ Hnd Hna Hsa).
  - rewrite length_rows_with, Hst, Hc2.
    apply Permutation_length.
    apply NoDup_Permutation; [by apply NoDup_filter | done |].
    intros x. rewrite list_elem_of_filter. split; [tauto|].
    intros Hx. destruct (Hst' x Hx). tauto.
  - apply (Forall_fmap Attendance.status
             (fun s => s ∈ ["Present"; "Tardy"; "Absent"; "Excused"])).
    rewrite Hst. apply statuses_four.
Qed.

(** The calendar of every configured year: both generators produce the
    same 180 distinct school days. *)
Lemma configured_calendar (year : Z) :
  is_Some (PyDict.get year_configs year) ->
  exists school_days,
    Calendar._get_school_days year = Some school_days
    /\ Calendar._get_school_days_truncating year = Some school_days
    /\ length school_days = 180%nat
    /\ NoDup school_days.
Proof.
  intros Hy%get_Some_keys.
  assert (Hall : forallb calendar_check (PyDict.keys year_configs) = true)
    by (vm_compute; reflexivity).
  rewrite forallb_forall in Hall. apply list_elem_of_In in Hy.
  specialize (Hall year Hy). unfold calendar_check in Hall.
  destruct (Calendar._get_school_days year) as [ds|]; [|done].
  apply andb_prop in Hall as [Hall Hnd]. apply andb_prop in Hall as [Htr Hlen].
  exists ds. split; [done|]. split; [by apply bool_decide_eq_true in Htr|].
  split; [by apply Nat.eqb_eq|by apply bool_decide_eq_true in Hnd].
Qed.

(** On a calendar of 180 distinct days a student has 9 absence days and 5
    tardy days. *)
Lemma samples_on_180_days (school_days : list string) (d : AttendanceDraws) :
  NoDup school_days ->
  length school_days = 180%nat ->
  length (absence_days school_days d) = 9%nat
  /\ length (tardy_days school_days d) = 5%nat.
Proof.
  intros Hnd Hlen.
  destruct (attendance_samples school_days d Hnd) as (Hla & _ & _ & Hlt & _).
  unfold absence_count, tardy_count in Hla, Hlt. rewrite Hlen in Hla, Hlt.
  assert (Ha9 : length (absence_days school_days d) = 9%nat)
    by (rewrite Hla; vm_compute; done).
  split; [done|]. rewrite Hlt, Ha9. vm_compute. done.
Qed.

(** The table is the concatenation of the students' blocks. *)
Lemma generate_attendance_blocks (school_days : list string)
    (draws : Z -> AttendanceDraws) (students : list Student.t)
    (st : list Attendance.t * Z) :
  fst (foldl (attend_student school_days draws) st students)
  = fst st ++ concat (attendance_blocks school_days draws (snd st) students).
Proof.
  revert st. induction students as [|s students IH]; intros st.
  - simpl. by rewrite app_nil_r.
  - cbn [foldl attendance_blocks concat]. rewrite IH.
    unfold attend_student. cbn [fst snd]. by rewrite <- app_assoc.
Qed.

(** C6.  In every configured school year both generators build the same
    calendar, and for every student the number of absence days is
    [int(0.05 * total_school_days)] and the number of tardy days is
    [int(0.03 * (total_school_days - absence_count))]; the tardy days are
    drawn without repetition among the school days that are not absence
    days, and the rows of the student carry these counts: as many rows
    labelled "Absent" or "Excused" as absence days, as many labelled
    "Tardy" as tardy days.  The table is the concatenation of the
    students' rows. *)
Theorem attendance_counts (year : Z) :
  is_Some (PyDict.get year_configs year) ->
  exists school_days,
    Calendar._get_school_days year = Some school_days
    /\ Calendar._get_school_days_truncating year = Some school_days
    /\ NoDup school_days
    /\ (forall draws reg,
          _generate_attendance year draws reg
          = Some (concat (attendance_blocks school_days draws 1
                            (PyDict.values (active_students reg)))))
    /\ forall (student_id : Z) (d : AttendanceDraws) (attendance_id : Z),
        let total := Z.of_nat (length school_days) in
        let absences := absence_days school_days d in
        let tardies := tardy_days school_days d in
        let block :=
          student_attendance school_days student_id d attendance_id in
        Z.of_nat (length absences) = Py.int ((5 # 100) * inject_Z total)
        /\ Z.of_nat (length tardies)
           = Py.int ((3 # 100) * inject_Z (total - Z.of_nat (length absences)))
        /\ NoDup absences
        /\ (forall day, day ∈ absences -> day ∈ school_days)
        /\ NoDup tardies
        /\ (forall day, day ∈ tardies -> day ∈ school_days /\ day ∉ absences)
        /\ Z.of_nat (length (rows_with "Absent" block)
                     + length (rows_with "Excused" block))
           = Py.int ((5 # 100) * inject_Z total)
        /\ Z.of_nat (length (rows_with "Tardy" block))
           = Py.int ((3 # 100) * inject_Z (total - Z.of_nat (length absences))).
Proof.
  intros Hy.
  destruct (configured_calendar year Hy) as (days & Hcal & Htr & Hlen & Hnd).
  exists days. split; [done|]. split; [done|]. split; [done|]. split.
  { intros draws reg. unfold _generate_attendance. rewrite Hcal.
    cbn [mbind option_bind]. f_equal.
    apply (generate_attendance_blocks days draws _ ([], 1)). }
  intros student_id d attendance_id total absences tardies block.
  destruct (attendance_samples days d Hnd)
    as (Hla & Hna & Hsa & Hlt & Hnt & Hst).
  destruct (attendance_rows days student_id d attendance_id Hnd)
    as (_ & Hra & Hrt & _).
  destruct (samples_on_180_days days d Hnd Hlen) as [Ha9 Ht5].
  fold absences in Hla, Hna, Hsa, Hlt, Hst, Hra, Ha9.
  fold tardies in Hlt, Hnt, Hst, Hrt, Ht5. fold block in Hra, Hrt.
  subst total. rewrite Hra, Hrt, Ha9, Ht5, Hlen.
  repeat split; try done; try apply Hst; try (vm_compute; done).
Qed.

Lemma attendance_counts_witness :
  exists school_days,
    Calendar._get_school_days 2016 = Some school_days
    /\ Z.of_nat (length (tardy_days school_days (mkAttendanceDraws [] [] [])))
       = Py.int ((3 # 100)
                 * inject_Z (Z.of_nat (length school_days)
                             - Z.of_nat (length (absence_days school_days
                                                   (mkAttendanceDraws [] [] []))))).
Proof.
  assert (Hy : is_Some (PyDict.get year_configs 2016)) by (by eexists).
  destruct (attendance_counts 2016 Hy) as (days & Hcal & _ & _ & _ & H).
  exists days. split; [exact Hcal|].
  exact (proj1 (proj2 (H 0 (mkAttendanceDraws [] [] []) 1))).
Defined.

(** The formula of the code, [int(total_days * 0.03)], is taken on all the
    school days; it agrees with 3% of the days that remain after the
    absences on the 180-day calendar, not on every calendar: on 200 days
    it gives 6, where 3% of the 190 remaining days gives 5. *)
Remark tardy_count_on_200_days :
  let school_days := PyDate.zero_pad 3 <$> seqZ 0 200 in
  length school_days = 200%nat
  /\ tardy_count school_days = 6
  /\ Py.int ((3 # 100)
             * inject_Z (Z.of_nat (length school_days)
                         - absence_count school_days)) = 5.
Proof. cbv zeta. repeat split; vm_compute; reflexivity. Qed.

Lemma Forall2_fmap_diag {A B C} (f : A -> B) (g : A -> C)
    (P : B -> C -> Prop) (l : list A) :
  Forall2 P (f <$> l) (g <$> l) -> Forall (fun x => P (f x) (g x)) l.
Proof.
  induction l as [|x l IH]; [constructor|].
  rewrite !fmap_cons. intros H. apply Forall2_cons in H as [H1 H2].
  constructor; auto.
Qed.

Lemma attend_students_Forall (P : Attendance.t -> Prop)
    (school_days : list string) (draws : Z -> AttendanceDraws)
    (students : list Student.t) (st : list Attendance.t * Z) :
  Forall P (fst st) ->
  (forall student_id d attendance_id,
     Forall P (student_attendance school_days student_id d attendance_id)) ->
  Forall P (fst (foldl (attend_student school_days draws) st students)).
Proof.
  intros Hst Hblock. revert st Hst.
  induction students as [|s students IH]; intros st Hst; [done|].
  cbn [foldl]. apply IH. unfold attend_student. cbn [fst].
  apply Forall_app. split; [done | apply Hblock].
Qed.

Lemma sum_list_with_ext_in {A} (f g : A -> nat) (l : list A) :
  (forall x, x ∈ l -> f x = g x) -> sum_list_with f l = sum_list_with g l.
Proof.
  induction l as [|x l IH]; intros Hfg; [done|]. simpl.
  rewrite (Hfg x) by (apply elem_of_cons; auto).
  rewrite IH; [done|]. intros y Hy. apply Hfg. apply elem_of_cons; auto.
Qed.

Lemma sum_list_with_fmap {A B} (f : B -> nat) (g : A -> B) (l : list A) :
  sum_list_with f (g <$> l) = sum_list_with (fun x => f (g x)) l.
Proof. induction l as [|x l IH]; csimpl; [done|]. by rewrite IH. Qed.

Lemma sum_list_with_S {A} (f : A -> nat) (l : list A) :
  sum_list_with (fun x => S (f x)) l = (length l + sum_list_with f l)%nat.
Proof. induction l as [|x l IH]; [done|]. simpl. rewrite IH. lia. Qed.

(** Over all sequences of [n] fair coins, the coins that come up even are
    half of all the coins flipped. *)
Lemma coin_sequences_spec (n : nat) :
  length (coin_sequences n) = (2 ^ n)%nat
  /\ Forall (fun cs => length cs = n) (coin_sequences n)
  /\ (2 * sum_list_with
            (fun cs => length (filter (fun p => (p `mod` 2 = 0)%nat) cs))
            (coin_sequences n))%nat
     = (n * length (coin_sequences n))%nat.
Proof.
  induction n as [|n (IHl & IHf & IHs)]; [repeat split; repeat constructor|].
  cbn [coin_sequences]. split; [|split].
  - rewrite length_app, !length_fmap, IHl. simpl. lia.
  - apply Forall_app. split; apply Forall_fmap;
      (eapply Forall_impl; [exact IHf|]); simpl; intros cs ->; done.
  - rewrite sum_list_with_app, !sum_list_with_fmap, length_app, !length_fmap.
    rewrite (sum_list_with_ext_in _
               (fun cs => S (length (filter (fun p => (p `mod` 2 = 0)%nat) cs)))).
    2:{ intros cs _. by rewrite filter_cons_True. }
    rewrite (sum_list_with_ext_in
               (fun cs => length (filter _ (1%nat :: cs)))
               (fun cs => length (filter (fun p => (p `mod` 2 = 0)%nat) cs))).
    2:{ intros cs _. by rewrite filter_cons_False. }
    rewrite sum_list_with_S. lia.
Qed.

(** The rows labelled "Absent" of a student, as a function of the coins. *)
Lemma absent_rows_by_coin (school_days : list string) (student_id : Z)
    (d : AttendanceDraws) (attendance_id : Z) (picks : list nat) :
  NoDup school_days ->
  (length (absence_days school_days d) <= length picks)%nat ->
  length (rows_with "Absent"
            (student_attendance school_days student_id
               (with_status_picks d picks) attendance_id))
  = length (filter (fun p => (p `mod` 2 = 0)%nat)
                   (take (length (absence_days school_days d)) picks)).
Proof.
  intros Hnd Hlen.
  destruct (student_attendance_spec school_days student_id
              (with_status_picks d picks) attendance_id) as (Hst & _ & _).
  destruct (attendance_samples school_days d Hnd) as (_ & Hna & Hsa & _).
  rewrite length_rows_with, Hst.
  change (absence_days school_days (with_status_picks d picks))
    with (absence_days school_days d).
  cbn [status_picks with_status_picks].
  pose proof (Permutation_length
                (filter_elem_of_perm _ _ Hnd Hna Hsa)) as Hm.
  rewrite statuses_absent by (by rewrite Hm). by rewrite Hm.
Qed.

(** The blocks of a table are the rows of its students, in their order,
    each made with the draws of its student. *)
Lemma attendance_blocks_students (school_days : list string)
    (draws : Z -> AttendanceDraws) (attendance_id : Z)
    (students : list Student.t) :
  Forall2 (fun s block =>
             exists attendance_id',
               block = student_attendance school_days (Student.student_id s)
                         (draws (Student.student_id s)) attendance_id')
          students
          (attendance_blocks school_days draws attendance_id students).
Proof.
  revert attendance_id. induction students as [|s students IH];
    intros attendance_id; cbn [attendance_blocks]; constructor.
  - by exists attendance_id.
  - apply IH.
Qed.

(** C10.  The attendance table of a configured year is made of one block
    of rows for each active student, the rows [student_attendance] makes
    with the draws of that student, and every row has one of the four
    statuses.  In such a block a row is labelled "Absent" or "Excused"
    exactly when its day is one of the student's absence days, the label
    being "Absent" for an even draw and "Excused" for an odd one; so the
    two labels together cover the [int(0.05 * total)] absence days, the
    rows labelled "Absent" are those whose coin came up even, and over
    all equally likely sequences of coins they are half of the absence
    days. *)
Theorem attendance_labels (year : Z) (draws : Z -> AttendanceDraws)
    (reg : StudentRegistry) :
  is_Some (PyDict.get year_configs year) ->
  exists school_days table,
    Calendar._get_school_days year = Some school_days
    /\ _generate_attendance year draws reg = Some table
    /\ (let blocks :=
          attendance_blocks school_days draws 1
            (PyDict.values (active_students reg)) in
        table = concat blocks
        /\ Forall2 (fun s block =>
                      exists attendance_id,
                        block = student_attendance school_days
                                  (Student.student_id s)
                                  (draws (Student.student_id s)) attendance_id)
                   (PyDict.values (active_students reg)) blocks)
    /\ Forall (fun r => Attendance.status r
                        ∈ ["Present"; "Tardy"; "Absent"; "Excused"]) table
    /\ (forall pick,
          absence_label pick
          = if (pick `mod` 2 =? 0)%nat then "Absent" else "Excused")
    /\ forall (student_id : Z) (d : AttendanceDraws) (attendance_id : Z),
        let absences := absence_days school_days d in
        let block :=
          student_attendance school_days student_id d attendance_id in
        let absent_rows := fun picks =>
          length (rows_with "Absent"
                    (student_attendance school_days student_id
                       (with_status_picks d picks) attendance_id)) in
        Forall (fun r =>
                  Attendance.date r ∈ absences
                  <-> Attendance.status r = "Absent"
                      \/ Attendance.status r = "Excused") block
        /\ Z.of_nat (length absences)
           = Py.int ((5 # 100) * inject_Z (Z.of_nat (length school_days)))
        /\ (length (rows_with "Absent" block)
            + length (rows_with "Excused" block))%nat = length absences
        /\ (forall picks,
              (length absences <= length picks)%nat ->
              absent_rows picks
              = length (filter (fun p => (p `mod` 2 = 0)%nat)
                               (take (length absences) picks)))
        /\ (2 * sum_list_with absent_rows (coin_sequences (length absences)))%nat
           = (length absences * length (coin_sequences (length absences)))%nat.
Proof.
  intros Hy.
  destruct (configured_calendar year Hy) as (days & Hcal & _ & Hlen & Hnd).
  exists days. eexists. split; [exact Hcal|].
  split; [unfold _generate_attendance; rewrite Hcal; reflexivity|].
  split.
  { cbv zeta. split; [|apply attendance_blocks_students].
    apply (generate_attendance_blocks days draws _ ([], 1)). }
  split; [|split; [exact absence_label_cases|]].
  - apply attend_students_Forall; [constructor|].
    intros student_id d attendance_id.
    destruct (student_attendance_spec days student_id d attendance_id)
      as (Hst & _ & _).
    apply (Forall_fmap Attendance.status
             (fun s => s ∈ ["Present"; "Tardy"; "Absent"; "Excused"])).
    rewrite Hst. apply statuses_four.
  - intros student_id d attendance_id absences block absent_rows.
    subst absences block absent_rows. cbv beta.
    destruct (student_attendance_spec days student_id d attendance_id)
      as (Hst & Hdate & _).
    assert (Hca : Z.of_nat (length (absence_days days d))
                  = Py.int ((5 # 100) * inject_Z (Z.of_nat (length days)))).
    { destruct (samples_on_180_days days d Hnd Hlen) as [-> _].
      rewrite Hlen. vm_compute. done. }
    destruct (attendance_rows days student_id d attendance_id Hnd)
      as (_ & Hra & _).
    split; [|split; [exact Hca|split; [exact Hra|split]]].
    + pose proof (statuses_by_day (absence_days days d) (tardy_days days d)
                    (status_picks d) days) as Hby.
      rewrite <- Hst in Hby. rewrite <- Hdate in Hby at 1.
      apply Forall2_fmap_diag in Hby.
      eapply Forall_impl; [exact Hby|]. simpl. intros r [H _]. exact H.
    + intros picks Hpicks. by apply absent_rows_by_coin.
    + destruct (coin_sequences_spec (length (absence_days days d)))
        as (_ & Hf & Hsum).
      rewrite <- Hsum. f_equal. apply sum_list_with_ext_in.
      intros cs Hcs. rewrite Forall_forall in Hf. specialize (Hf cs Hcs).
      rewrite absent_rows_by_coin by (done || lia).
      rewrite <- Hf. by rewrite firstn_all.
Qed.

Lemma attendance_labels_witness :
  exists school_days table,
    _generate_attendance 2016 (fun _ => mkAttendanceDraws [] [] [])
      baseline_3 = Some table
    /\ table
       = concat (attendance_blocks school_days
                   (fun _ => mkAttendanceDraws [] [] []) 1
                   (PyDict.values (active_students baseline_3)))
    /\ Forall (fun r => Attendance.status r
                        ∈ ["Present"; "Tardy"; "Absent"; "Excused"]) table.
Proof.
  assert (Hy : is_Some (PyDict.get year_configs 2016)) by (by eexists).
  destruct (attendance_labels 2016 (fun _ => mkAttendanceDraws [] [] [])
              baseline_3 Hy)
    as (days & table & _ & Htable & [Hblocks _] & Hfour & _).
  exists days, table. split; [exact Htable|].
  split; [exact Hblocks | exact Hfour].
Defined.

(** * Further properties of the registries *)

(** ** StudentRegistry: the baseline load *)

Lemma load_baseline_students_cons (row : StudentRow) (df : list StudentRow)
    (reg : StudentRegistry) :
  load_baseline_students (row :: df) reg
  = load_baseline_students df (load_baseline_student reg row).
Proof. done. Qed.

Lemma load_baseline_students_keys_fresh (df : list StudentRow)
    (reg : StudentRegistry) :
  NoDup (row_student_id <$> df) ->
  (forall k, k ∈ row_student_id <$> df -> k ∉ PyDict.keys (active_students reg)) ->
  PyDict.keys (active_students (load_baseline_students df reg))
  = PyDict.keys (active_students reg) ++ (row_student_id <$> df).
Proof.
  revert reg. induction df as [|row df IH]; intros reg Hnd Hfresh.
  - simpl. by rewrite app_nil_r.
  - rewrite load_baseline_students_cons. rewrite fmap_cons in Hnd, Hfresh.
    apply NoDup_cons in Hnd as [Hrow Hnd].
    assert (Hk : PyDict.keys (active_students (load_baseline_student reg row))
                 = PyDict.keys (active_students reg) ++ [row_student_id row]).
    { unfold load_baseline_student. simpl. apply keys_set_fresh.
      apply get_None_keys. apply Hfresh. apply elem_of_cons; auto. }
    rewrite IH; [|done|].
    + rewrite Hk, fmap_cons, <- app_assoc. done.
    + intros k Hin. rewrite Hk. intros [Hin'|Hin']%elem_of_app.
      * apply (Hfresh k); [apply elem_of_cons; auto | done].
      * apply list_elem_of_singleton in Hin'. by subst.
Qed.

Lemma load_baseline_students_get_other (df : list StudentRow)
    (reg : StudentRegistry) (k : Z) :
  k ∉ row_student_id <$> df ->
  PyDict.get (active_students (load_baseline_students df reg)) k
  = PyDict.get (active_students reg) k.
Proof.
  revert reg. induction df as [|row df IH]; intros reg Hk; [done|].
  rewrite load_baseline_students_cons. rewrite fmap_cons in Hk.
  apply not_elem_of_cons in Hk as [Hne Hk]. rewrite IH by done.
  unfold load_baseline_student. simpl. by rewrite get_set_ne.
Qed.

(** X1.  Loading a baseline frame whose student ids are distinct into the
    empty registry gives one active student per row, in the order of the
    rows and with the row's data, enrolled in 2015 in the family
    [FAM{id // 3}]; keys are unique and the id counter is above every id
    (and at least 1). *)
Theorem load_baseline_students_spec (students_df : list StudentRow) :
  NoDup (row_student_id <$> students_df) ->
  let reg := load_baseline_students students_df StudentRegistry_init in
  student_registry_ok reg
  /\ PyDict.keys (active_students reg) = row_student_id <$> students_df
  /\ length (active_students reg) = length students_df
  /\ (forall row, row ∈ students_df ->
        PyDict.get (active_students reg) (row_student_id row)
        = Some (Student.mk (row_student_id row) (row_first_name row)
                  (row_last_name row) (row_gender row) (row_date_of_birth row)
                  (row_grade_level_id row) 2015 (fam (row_student_id row))
                  None None None))
  /\ 1 <= student_id_counter reg
  /\ graduated_students reg = [] /\ transferred_students reg = [].
Proof.
  intros Hnd reg.
  assert (Hkeys : PyDict.keys (active_students reg) = row_student_id <$> students_df).
  { subst reg. rewrite load_baseline_students_keys_fresh; [done|done|].
    intros k _ Hin. by apply elem_of_nil in Hin. }
  split; [apply load_baseline_students_ok, init_ok|].
  split; [done|]. split.
  { rewrite <- (length_fmap fst (active_students reg)).
    change (fst <$> active_students reg) with (PyDict.keys (active_students reg)).
    by rewrite Hkeys, length_fmap. }
  split; [|split; [|split]].
  - subst reg. clear Hkeys. generalize StudentRegistry_init.
    induction students_df as [|r df IH]; intros reg0 row Hrow.
    { by apply elem_of_nil in Hrow. }
    rewrite load_baseline_students_cons. rewrite fmap_cons in Hnd.
    apply NoDup_cons in Hnd as [Hr Hnd].
    apply elem_of_cons in Hrow as [->|Hrow].
    + rewrite load_baseline_students_get_other by done.
      unfold load_baseline_student. simpl. apply get_set_eq.
    + by apply IH.
  - subst reg. clear. assert (H1 : 1 <= student_id_counter StudentRegistry_init) by done.
    revert H1. generalize StudentRegistry_init.
    induction students_df as [|r df IH]; intros reg0 H1; [done|].
    rewrite load_baseline_students_cons. apply IH.
    unfold load_baseline_student. simpl. lia.
  - subst reg. clear.
    assert (H1 : graduated_students StudentRegistry_init = []) by done.
    revert H1. generalize StudentRegistry_init.
    induction students_df as [|r df IH]; intros reg0 H1; [done|].
    rewrite load_baseline_students_cons. by apply IH.
  - subst reg. clear.
    assert (H1 : transferred_students StudentRegistry_init = []) by done.
    revert H1. generalize StudentRegistry_init.
    induction students_df as [|r df IH]; intros reg0 H1; [done|].
    rewrite load_baseline_students_cons. by apply IH.
Qed.

Lemma load_baseline_students_spec_witness :
  PyDict.keys (active_students
                 (load_baseline_students (baseline_rows 5) StudentRegistry_init))
  = [1; 2; 3; 4; 5].
Proof.
  refine (proj1 (proj2 (load_baseline_students_spec (baseline_rows 5) _))).
  refine (bool_decide_unpack _ _). vm_compute. exact I.
Defined.

(** ** StudentRegistry: kindergarten enrolment *)

Lemma kinder_family_spec (reg : StudentRegistry) (d : KinderDraws) :
  (kinder_family reg d = (fam (student_id_counter reg), kd_last_name d))
  \/ exists s', s' ∈ PyDict.values (active_students reg)
       /\ Student.family_id s' = fst (kinder_family reg d)
       /\ Student.last_name s' = snd (kinder_family reg d).
Proof.
  unfold kinder_family. destruct (Qlt_le_dec _ _); [|by left].
  destruct (PyRandom.choice _ _) as [family_id|] eqn:Hc; [|by left].
  right. unfold PyRandom.choice in Hc.
  apply list_elem_of_lookup_2 in Hc.
  apply list_elem_of_fmap in Hc as (s0 & Hf & Hs0).
  destruct (filter (fun s => Student.family_id s = family_id)
              (PyDict.values (active_students reg))) as [|s1 rest] eqn:Hfl.
  - assert (Hin : s0 ∈ filter (fun s => Student.family_id s = family_id)
                         (PyDict.values (active_students reg)))
      by (apply list_elem_of_filter; auto).
    rewrite Hfl in Hin. by apply elem_of_nil in Hin.
  - assert (Hin : s1 ∈ filter (fun s => Student.family_id s = family_id)
                         (PyDict.values (active_students reg)))
      by (rewrite Hfl; apply elem_of_cons; auto).
    apply list_elem_of_filter in Hin as [Hf1 Hin1].
    exists s1. simpl. auto.
Qed.

(** The loop of enrolments, with what each new entry carries. *)
Lemma enroll_fold_full (year : Z) (draws : nat -> KinderDraws) (idx : list nat)
    (a g t : dict Z Student.t) (c : Z) (ns : list Student.t) :
  student_registry_ok (mkStudentRegistry a g t c) ->
  forall news0,
    appended_from c news0 ->
    (forall i item, news0 !! i = Some item ->
                    kinder_entry_ok year (a ++ take i news0) item) ->
    exists news,
      foldl (enroll_one year draws)
        (mkEnrollState
           (mkStudentRegistry (a ++ news0) g t (c + Z.of_nat (length news0)))
           (ns ++ PyDict.values news0)) idx
      = mkEnrollState
          (mkStudentRegistry (a ++ news) g t (c + Z.of_nat (length news)))
          (ns ++ PyDict.values news)
      /\ length news = (length news0 + length idx)%nat
      /\ appended_from c news
      /\ (forall i item, news !! i = Some item ->
                         kinder_entry_ok year (a ++ take i news) item).
Proof.
  intros Hok. induction idx as [|i idx IH]; intros news0 Happ Hent.
  - exists news0. simpl. split; [done|]. split; [lia|]. split; done.
  - cbn [foldl].
    pose proof (ok_append _ _ _ _ news0 Hok Happ) as Hok1.
    set (c1 := c + Z.of_nat (length news0)) in *.
    set (reg1 := mkStudentRegistry (a ++ news0) g t c1) in *.
    unfold enroll_one at 2. cbn [enr_reg new_students].
    pose proof (kinder_family_spec reg1 (draws i)) as Hfam.
    destruct (kinder_family reg1 (draws i)) as [family_id last_name].
    set (student := Student.mk _ _ _ _ _ _ _ _ _ _ _).
    cbn [active_students graduated_students transferred_students
         student_id_counter reg1].
    rewrite set_fresh by (apply (counter_fresh reg1 Hok1)).
    destruct (IH (news0 ++ [(c1, student)])) as (news & Heq & Hlen & Happ' & Hent').
    + by apply appended_from_snoc.
    + intros j item Hj.
      destruct (decide (j < length news0)%nat) as [Hlt|Hge].
      * rewrite lookup_app_l in Hj by done.
        rewrite take_app_le by lia. by apply Hent.
      * assert (j = length news0) as ->.
        { apply lookup_lt_Some in Hj. rewrite length_app in Hj. simpl in Hj. lia. }
        rewrite list_lookup_middle in Hj by done. injection Hj as <-.
        rewrite take_app_length.
        unfold kinder_entry_ok, student. cbn [fst snd Student.student_id
          Student.grade_level_id Student.enrollment_year Student.is_transfer
          Student.family_id Student.last_name].
        split; [done|]. split; [done|]. split; [done|]. split; [done|].
        destruct Hfam as [[= -> ->]|(s' & Hs' & Hf & Hl)]; [by left|].
        right. exists s'. simpl in Hf, Hl. subst reg1. simpl in Hs'. auto.
    + exists news. rewrite length_app in Hlen. simpl in Hlen.
      split; [|split; [cbn [length]; lia|split; done]].
      rewrite <- Heq. rewrite length_app. simpl.
      unfold PyDict.values. rewrite fmap_app. simpl.
      rewrite <- !app_assoc. do 3 f_equal. unfold c1. lia.
Qed.

(** X2.  In a year from 7 to 10004, where the birth window of a
    kindergartener exists, or for a count that is not positive,
    [enroll_new_kindergarteners(year, count)] appends exactly
    [max(count, 0)] students to the active ones, under the consecutive
    ids that start at the counter, and leaves everything else alone: each
    is at grade 1, enrolled in [year], in a fresh family [FAM{id // 3}] or
    in the family and with the surname of a student active before it; the
    returned list is these students, the counter moves by their number
    and the registry invariant is kept. *)
Theorem enroll_new_kindergarteners_spec (year count : Z)
    (draws : nat -> KinderDraws) (reg : StudentRegistry) :
  count <= 0 \/ 7 <= year <= 10004 ->
  student_registry_ok reg ->
  let st := enroll_new_kindergarteners year count draws reg in
  exists news,
    active_students (enr_reg st) = active_students reg ++ news
    /\ new_students st = PyDict.values news
    /\ Z.of_nat (length news) = Z.max count 0
    /\ PyDict.keys news
       = seqZ (student_id_counter reg) (Z.of_nat (length news))
    /\ (forall i item, news !! i = Some item ->
          kinder_entry_ok year (active_students reg ++ take i news) item)
    /\ student_id_counter (enr_reg st)
       = student_id_counter reg + Z.max count 0
    /\ graduated_students (enr_reg st) = graduated_students reg
    /\ transferred_students (enr_reg st) = transferred_students reg
    /\ student_registry_ok (enr_reg st).
Proof.
  destruct reg as [a g t c]. intros _ Hok st. subst st.
  unfold enroll_new_kindergarteners.
  destruct (enroll_fold_full year draws (seq 0 (Z.to_nat count)) a g t c []
              Hok []) as (news & Heq & Hlen & Happ & Hent).
  { split; [done | constructor]. }
  { intros i item Hi. by rewrite lookup_nil in Hi. }
  cbn [length PyDict.values fmap list_fmap app] in Heq.
  rewrite app_nil_r, Z.add_0_r in Heq. rewrite Heq.
  cbn [enr_reg new_students active_students graduated_students
       transferred_students student_id_counter].
  rewrite length_seq in Hlen. simpl in Hlen.
  exists news. split; [done|]. split; [done|]. split; [lia|].
  split; [apply Happ|]. split; [done|]. split; [lia|].
  split; [done|]. split; [done|].
  by apply ok_append.
Qed.

Lemma enroll_new_kindergarteners_spec_witness :
  exists news,
    active_students
      (enr_reg (enroll_new_kindergarteners 2016 2 sample_kinder_draws baseline_3))
    = active_students baseline_3 ++ news
    /\ Z.of_nat (length news) = 2.
Proof.
  assert (Hok : student_registry_ok baseline_3)
    by apply load_baseline_students_ok, init_ok.
  destruct (enroll_new_kindergarteners_spec 2016 2 sample_kinder_draws
              baseline_3 ltac:(right; lia) Hok) as (news & Hact & _ & Hlen & _).
  exists news. split; [exact Hact | exact Hlen].
Defined.

(** ** StudentRegistry: transfers *)

(** The loop of transfers out over distinct ids of active students. *)
Lemma transfer_out_fold_count (year : Z) (ids : list Z) (st : TransferState) :
  PyDict.wf (active_students (tr_reg st)) ->
  NoDup ids ->
  (forall id, id ∈ ids -> is_Some (PyDict.get (active_students (tr_reg st)) id)) ->
  let st' := foldl (transfer_out_one year) st ids in
  PyDict.wf (active_students (tr_reg st'))
  /\ (length (active_students (tr_reg st')) + length ids)%nat
     = length (active_students (tr_reg st))
  /\ student_id_counter (tr_reg st') = student_id_counter (tr_reg st)
  /\ graduated_students (tr_reg st') = graduated_students (tr_reg st)
  /\ transfers_in st' = transfers_in st
  /\ length (transfers_out st') = (length (transfers_out st) + length ids)%nat
  /\ (forall s, s ∈ transfers_out st -> s ∈ transfers_out st')
  /\ (forall k, k ∉ ids ->
        PyDict.get (active_students (tr_reg st')) k
        = PyDict.get (active_students (tr_reg st)) k)
  /\ (forall k, k ∉ ids ->
        PyDict.get (transferred_students (tr_reg st')) k
        = PyDict.get (transferred_students (tr_reg st)) k)
  /\ (forall id, id ∈ ids ->
        PyDict.get (active_students (tr_reg st')) id = None
        /\ exists s,
             PyDict.get (active_students (tr_reg st)) id = Some s
             /\ s ∈ transfers_out st'
             /\ PyDict.get (transferred_students (tr_reg st')) id
                = Some (Student.with_transfer_year s year)).
Proof.
  revert st. induction ids as [|id ids IH]; intros st Hwf Hnd Hin.
  - simpl. split; [done|]. split; [lia|]. do 4 (split; [done|]).
    split; [done|]. split; [done|]. split; [done|].
    intros x Hx. by apply elem_of_nil in Hx.
  - cbn [foldl]. cbv zeta. apply NoDup_cons in Hnd as [Hid Hnd].
    destruct (Hin id) as [s Hs]; [apply elem_of_cons; auto|].
    set (st1 := transfer_out_one year st id).
    assert (Hst1 :
      active_students (tr_reg st1) = PyDict.del (active_students (tr_reg st)) id
      /\ transferred_students (tr_reg st1)
         = PyDict.set (transferred_students (tr_reg st)) id
             (Student.with_transfer_year s year)
      /\ student_id_counter (tr_reg st1) = student_id_counter (tr_reg st)
      /\ graduated_students (tr_reg st1) = graduated_students (tr_reg st)
      /\ transfers_in st1 = transfers_in st
      /\ transfers_out st1 = transfers_out st ++ [s]).
    { subst st1. unfold transfer_out_one. rewrite Hs. simpl. done. }
    destruct Hst1 as (Ha1 & Ht1 & Hc1 & Hg1 & Hi1 & Ho1).
    destruct (IH st1) as (Hwf' & Hlen' & Hc' & Hg' & Hi' & Ho' & Hkeep' & Hoth' & Htr' & Hids').
    + rewrite Ha1. by apply wf_del.
    + done.
    + intros id' Hid'. rewrite Ha1. rewrite get_del_ne.
      * apply Hin. apply elem_of_cons; auto.
      * intros ->. done.
    + split; [done|]. split.
      { rewrite Ha1 in Hlen'. cbn [length].
        pose proof (length_del_present (active_students (tr_reg st)) id
                      ltac:(by eexists)). lia. }
      split; [congruence|]. split; [congruence|]. split; [congruence|].
      split; [rewrite Ho', Ho1, length_app; cbn [length]; lia|].
      split.
      { intros s0 Hs0. apply Hkeep'. rewrite Ho1. apply elem_of_app; auto. }
      split.
      { intros k Hk. apply not_elem_of_cons in Hk as [Hne Hk].
        rewrite Hoth' by done. rewrite Ha1. by rewrite get_del_ne. }
      split.
      { intros k Hk. apply not_elem_of_cons in Hk as [Hne Hk].
        rewrite Htr' by done. rewrite Ht1. by rewrite get_set_ne. }
      intros id' [->|Hid']%elem_of_cons.
      * split.
        { rewrite Hoth' by done. rewrite Ha1. by apply get_del_eq. }
        exists s. split; [done|]. split.
        { apply Hkeep'. rewrite Ho1. apply elem_of_app. right.
          by apply list_elem_of_singleton. }
        rewrite Htr' by done. rewrite Ht1. apply get_set_eq.
      * destruct (Hids' id' Hid') as (Hnone & s' & Hs' & Hins' & Htrs').
        split; [done|]. exists s'. split; [|done].
        rewrite Ha1 in Hs'. rewrite get_del_ne in Hs'; [done|].
        intros ->. done.
Qed.

(** What every transfer-in carries. *)
Lemma transfer_in_fields (year : Z) (draws : nat -> TransferInDraws)
    (idx : list nat) (st : TransferState) :
  let ok := fun s =>
    1 <= Student.grade_level_id s <= 12
    /\ Student.is_transfer s = Some true
    /\ Student.enrollment_year s = year
    /\ Student.family_id s = fam (Student.student_id s) in
  Forall ok (transfers_in st) ->
  Forall ok (transfers_in (foldl (transfer_in_one year draws) st idx)).
Proof.
  intros ok. revert st. induction idx as [|i idx IH]; intros st Hst; [done|].
  cbn [foldl]. apply IH. unfold transfer_in_one. cbn [transfers_in].
  apply Forall_app. split; [done|]. apply Forall_singleton.
  unfold ok. cbn [Student.grade_level_id Student.is_transfer
                  Student.enrollment_year Student.family_id Student.student_id].
  split; [|done]. unfold PyRandom.randint.
  pose proof (Z.mod_pos_bound (Z.of_nat (ti_grade_pick (draws i)))
                (12 - 1 + 1) ltac:(lia)). lia.
Qed.

(** [process_transfers], out and in. *)
Lemma process_transfers_facts (year transfer_in_count transfer_out_count : Z)
    (draws : TransferDraws) (reg : StudentRegistry)
    (guardian_registry : GuardianRegistry) :
  student_registry_ok reg ->
  let st :=
    process_transfers year transfer_in_count transfer_out_count draws reg
      guardian_registry in
  let available := Z.of_nat (length (active_students reg)) in
  let out :=
    if 0 <? transfer_out_count then Z.min transfer_out_count available else 0 in
  exists ids,
    NoDup ids
    /\ Z.of_nat (length ids) = out
    /\ Z.of_nat (length (transfers_out st)) = out
    /\ Z.of_nat (length (transfers_in st)) = Z.max transfer_in_count 0
    /\ Z.of_nat (length (active_students (tr_reg st)))
       = available - out + Z.max transfer_in_count 0
    /\ (forall id, id ∈ ids ->
          PyDict.get (active_students (tr_reg st)) id = None
          /\ exists s,
               PyDict.get (active_students reg) id = Some s
               /\ s ∈ transfers_out st
               /\ PyDict.get (transferred_students (tr_reg st)) id
                  = Some (Student.with_transfer_year s year))
    /\ (forall id s, PyDict.get (active_students reg) id = Some s ->
          id ∉ ids -> PyDict.get (active_students (tr_reg st)) id = Some s)
    /\ Forall (fun s =>
                 1 <= Student.grade_level_id s <= 12
                 /\ Student.is_transfer s = Some true
                 /\ Student.enrollment_year s = year
                 /\ Student.family_id s = fam (Student.student_id s))
              (transfers_in st)
    /\ student_registry_ok (tr_reg st).
Proof.
  intros Hok st available out. pose proof Hok as [Hwf Hlt].
  set (n := Z.to_nat (Z.min transfer_out_count
                        (Z.of_nat (length (PyDict.keys (active_students reg)))))).
  set (ids := if 0 <? transfer_out_count
              then PyRandom.sample (PyDict.keys (active_students reg)) n
                     (td_out_picks draws)
              else []).
  assert (Hklen : length (PyDict.keys (active_students reg))
                  = length (active_students reg))
    by (unfold PyDict.keys; apply length_fmap).
  assert (Hn : (n <= length (PyDict.keys (active_students reg)))%nat) by lia.
  assert (Hnd : NoDup ids).
  { subst ids. destruct (0 <? _); [|constructor]. by apply sample_NoDup. }
  assert (Hsub : forall id, id ∈ ids ->
                   is_Some (PyDict.get (active_students reg) id)).
  { subst ids. destruct (0 <? _).
    - intros id Hid. apply get_Some_keys. by apply sample_subseteq in Hid.
    - intros id Hid. by apply elem_of_nil in Hid. }
  assert (Hlen : Z.of_nat (length ids) = out).
  { subst ids out available. destruct (Z.ltb_spec 0 transfer_out_count).
    - rewrite sample_length by done. subst n. rewrite Hklen. lia.
    - done. }
  set (st0 := mkTransferState reg guardian_registry [] []).
  set (st1 := foldl (transfer_out_one year) st0 ids).
  assert (Hst : st = foldl (transfer_in_one year (td_in draws)) st1
                       (seq 0 (Z.to_nat transfer_in_count))).
  { subst st st1 ids. unfold process_transfers. fold st0.
    by destruct (0 <? transfer_out_count). }
  destruct (transfer_out_fold_count year ids st0 Hwf Hnd Hsub)
    as (Hwf1 & Hlen1 & Hc1 & _ & Hi1 & Ho1 & _ & Hoth1 & _ & Hids1).
  fold st1 in Hwf1, Hlen1, Hc1, Hi1, Ho1, Hoth1, Hids1.
  cbn [tr_reg st0 transfers_in transfers_out length] in *.
  assert (Hok1 : student_registry_ok (tr_reg st1)).
  { split; [done|]. intros k [s Hk]%get_Some_keys. rewrite Hc1.
    apply Hlt. apply get_Some_keys.
    destruct (decide (k ∈ ids)) as [Hin|Hnin].
    - destruct (Hids1 k Hin) as [Hnone _]. congruence.
    - rewrite Hoth1 in Hk by done. by eexists. }
  destruct st1 as [reg1 gr1 tin1 tout1] eqn:Est1. cbn [tr_reg transfers_in
    transfers_out] in *.
  destruct (transfer_in_fold year (td_in draws)
              (seq 0 (Z.to_nat transfer_in_count)) reg1 gr1 tin1 tout1 Hok1)
    as (news & gr' & Heq & Hnews & Happ & _).
  pose proof (transfer_in_fields year (td_in draws)
                (seq 0 (Z.to_nat transfer_in_count))
                (mkTransferState reg1 gr1 tin1 tout1)) as Hfields.
  cbv zeta in Hfields. rewrite <- Hst in Hfields. rewrite Heq in Hst.
  rewrite length_seq in Hnews.
  exists ids. split; [done|]. split; [done|].
  rewrite Hst. cbn [tr_reg transfers_in transfers_out active_students
                   transferred_students].
  split; [lia|]. split.
  { subst tin1. rewrite length_app. unfold PyDict.values.
    rewrite length_fmap. simpl. lia. }
  split; [rewrite length_app; subst available; lia|].
  split; [|split; [|split]].
  - intros id Hid. destruct (Hids1 id Hid) as (Hnone & s & Hs & Hin & Htr).
    split; [|by exists s].
    rewrite get_app, Hnone. apply (get_appended _ _ _ Happ).
    rewrite Hc1. apply Hlt. apply get_Some_keys. by eexists.
  - intros id s Hs Hnin. rewrite get_app, Hoth1, Hs by done. done.
  - rewrite Hst in Hfields. cbn [transfers_in] in Hfields.
    apply Hfields. subst tin1. constructor.
  - pose proof (ok_append (active_students reg1) (graduated_students reg1)
                  (transferred_students reg1) (student_id_counter reg1) news)
      as H.
    apply H; [by destruct reg1 | done].
Qed.

(** The transfers in take the ids from the counter on. *)
Lemma process_transfers_ids (year transfer_in_count transfer_out_count : Z)
    (draws : TransferDraws) (reg : StudentRegistry)
    (guardian_registry : GuardianRegistry) :
  student_registry_ok reg ->
  let st :=
    process_transfers year transfer_in_count transfer_out_count draws reg
      guardian_registry in
  Student.student_id <$> transfers_in st
  = seqZ (student_id_counter reg) (Z.max transfer_in_count 0)
  /\ student_id_counter (tr_reg st)
     = student_id_counter reg + Z.max transfer_in_count 0
  /\ (forall s, s ∈ transfers_in st ->
        PyDict.get (active_students reg) (Student.student_id s) = None
        /\ PyDict.get (active_students (tr_reg st)) (Student.student_id s)
           = Some s).
Proof.
  intros Hok st. pose proof Hok as [Hwf Hlt].
  set (n := Z.to_nat (Z.min transfer_out_count
                        (Z.of_nat (length (PyDict.keys (active_students reg)))))).
  set (ids := if 0 <? transfer_out_count
              then PyRandom.sample (PyDict.keys (active_students reg)) n
                     (td_out_picks draws)
              else []).
  assert (Hn : (n <= length (PyDict.keys (active_students reg)))%nat) by lia.
  assert (Hnd : NoDup ids).
  { subst ids. destruct (0 <? _); [|constructor]. by apply sample_NoDup. }
  assert (Hsub : forall id, id ∈ ids ->
                   is_Some (PyDict.get (active_students reg) id)).
  { subst ids. destruct (0 <? _).
    - intros id Hid. apply get_Some_keys. by apply sample_subseteq in Hid.
    - intros id Hid. by apply elem_of_nil in Hid. }
  set (st0 := mkTransferState reg guardian_registry [] []).
  set (st1 := foldl (transfer_out_one year) st0 ids).
  assert (Hst : st = foldl (transfer_in_one year (td_in draws)) st1
                       (seq 0 (Z.to_nat transfer_in_count))).
  { subst st st1 ids. unfold process_transfers. fold st0.
    by destruct (0 <? transfer_out_count). }
  destruct (transfer_out_fold_count year ids st0 Hwf Hnd Hsub)
    as (Hwf1 & _ & Hc1 & _ & Hi1 & _ & _ & Hoth1 & _ & Hids1).
  fold st1 in Hwf1, Hc1, Hi1, Hoth1, Hids1.
  cbn [tr_reg st0 transfers_in transfers_out length] in *.
  assert (Hok1 : student_registry_ok (tr_reg st1)).
  { split; [done|]. intros k [s Hk]%get_Some_keys. rewrite Hc1.
    apply Hlt. apply get_Some_keys.
    destruct (decide (k ∈ ids)) as [Hin|Hnin].
    - destruct (Hids1 k Hin) as [Hnone _]. congruence.
    - rewrite Hoth1 in Hk by done. by eexists. }
  destruct st1 as [reg1 gr1 tin1 tout1] eqn:Est1. cbn [tr_reg transfers_in
    transfers_out] in *.
  destruct (transfer_in_fold year (td_in draws)
              (seq 0 (Z.to_nat transfer_in_count)) reg1 gr1 tin1 tout1 Hok1)
    as (news & gr' & Heq & Hnews & [Hkeys Hfield] & _).
  rewrite Heq in Hst. rewrite length_seq in Hnews.
  rewrite Hst. cbn [tr_reg transfers_in active_students student_id_counter].
  subst tin1. cbn [app].
  assert (Hsid : Student.student_id <$> PyDict.values news = PyDict.keys news).
  { unfold PyDict.values, PyDict.keys. rewrite <- list_fmap_compose.
    apply Forall_fmap_ext_1. eapply Forall_impl; [exact Hfield|].
    intros [k s] Hks. exact Hks. }
  assert (Hlen : Z.of_nat (length news) = Z.max transfer_in_count 0) by lia.
  split; [|split].
  - rewrite Hsid, Hkeys, Hc1, Hlen. done.
  - rewrite Hc1. lia.
  - intros s Hs. unfold PyDict.values in Hs.
    apply list_elem_of_fmap in Hs as ([k s'] & -> & Hin). cbn [snd].
    assert (Hk : Student.student_id s' = k).
    { rewrite Forall_forall in Hfield. apply (Hfield (k, s') Hin). }
    rewrite Hk.
    assert (Hge : student_id_counter reg <= k).
    { assert (Hkin : k ∈ PyDict.keys news).
      { unfold PyDict.keys. apply list_elem_of_fmap. by exists (k, s'). }
      rewrite Hkeys in Hkin. apply elem_of_seqZ in Hkin. lia. }
    split.
    + apply get_None_keys. intros Hin'. apply Hlt in Hin'. lia.
    + rewrite get_app.
      replace (PyDict.get (active_students reg1) k) with (@None Student.t).
      * apply elem_get_Some; [|done]. unfold PyDict.wf. rewrite Hkeys.
        apply NoDup_seqZ.
      * symmetry. apply get_None_keys. intros Hin'.
        destruct Hok1 as [_ Hlt1]. apply Hlt1 in Hin'. lia.
Qed.

(** X3.  In a year from 18 to 10004, where a transfer in at any grade has
    a birth window, or without transfers in: [process_transfers] removes
    [min(transfer_out_count, active)] students when [transfer_out_count]
    is positive (never more than there are) and none otherwise; each is
    taken out of the active set, listed in [transfers_out] and archived
    in [transferred_students] stamped with [transfer_year = year]; every
    other student is untouched.  It then appends [max(transfer_in_count,
    0)] students, each at a grade 1..12, flagged as a transfer, enrolled
    in [year], in a family of its own; they take the consecutive ids
    from the counter on, ids no active student had, are stored under
    them, and the counter ends past the last.  The registry invariant is
    kept. *)
Theorem process_transfers_spec (year transfer_in_count transfer_out_count : Z)
    (draws : TransferDraws) (reg : StudentRegistry)
    (guardian_registry : GuardianRegistry) :
  transfer_in_count <= 0 \/ 18 <= year <= 10004 ->
  student_registry_ok reg ->
  let st :=
    process_transfers year transfer_in_count transfer_out_count draws reg
      guardian_registry in
  let available := Z.of_nat (length (active_students reg)) in
  let out :=
    if 0 <? transfer_out_count then Z.min transfer_out_count available else 0 in
  exists ids,
    NoDup ids
    /\ Z.of_nat (length ids) = out
    /\ Z.of_nat (length (transfers_out st)) = out
    /\ Z.of_nat (length (transfers_in st)) = Z.max transfer_in_count 0
    /\ Z.of_nat (length (active_students (tr_reg st)))
       = available - out + Z.max transfer_in_count 0
    /\ (forall id, id ∈ ids ->
          PyDict.get (active_students (tr_reg st)) id = None
          /\ exists s,
               PyDict.get (active_students reg) id = Some s
               /\ s ∈ transfers_out st
               /\ PyDict.get (transferred_students (tr_reg st)) id
                  = Some (Student.with_transfer_year s year))
    /\ (forall id s, PyDict.get (active_students reg) id = Some s ->
          id ∉ ids -> PyDict.get (active_students (tr_reg st)) id = Some s)
    /\ Forall (fun s =>
                 1 <= Student.grade_level_id s <= 12
                 /\ Student.is_transfer s = Some true
                 /\ Student.enrollment_year s = year
                 /\ Student.family_id s = fam (Student.student_id s))
              (transfers_in st)
    /\ Student.student_id <$> transfers_in st
       = seqZ (student_id_counter reg) (Z.max transfer_in_count 0)
    /\ (forall s, s ∈ transfers_in st ->
          PyDict.get (active_students reg) (Student.student_id s) = None
          /\ PyDict.get (active_students (tr_reg st)) (Student.student_id s)
             = Some s)
    /\ student_id_counter (tr_reg st)
       = student_id_counter reg + Z.max transfer_in_count 0
    /\ student_registry_ok (tr_reg st).
Proof.
  intros _ Hok st available out.
  destruct (process_transfers_facts year transfer_in_count transfer_out_count
              draws reg guardian_registry Hok)
    as (ids & H1 & H2 & H3 & H4 & H5 & H6 & H7 & H8 & H9).
  destruct (process_transfers_ids year transfer_in_count transfer_out_count
              draws reg guardian_registry Hok) as (I1 & I2 & I3).
  exists ids. split; [exact H1|]. split; [exact H2|]. split; [exact H3|].
  split; [exact H4|]. split; [exact H5|]. split; [exact H6|].
  split; [exact H7|]. split; [exact H8|]. split; [exact I1|].
  split; [exact I3|]. split; [exact I2 | exact H9].
Qed.

Lemma process_transfers_spec_witness :
  Z.of_nat (length (active_students
              (tr_reg (process_transfers 2016 2 5 sample_transfer_draws
                         baseline_3 GuardianRegistry_init))))
  = 3 - 3 + 2
  /\ Student.student_id
       <$> transfers_in (process_transfers 2016 2 5 sample_transfer_draws
                           baseline_3 GuardianRegistry_init)
     = [6; 7].
Proof.
  assert (Hok : student_registry_ok baseline_3)
    by apply load_baseline_students_ok, init_ok.
  destruct (process_transfers_spec 2016 2 5 sample_transfer_draws
              baseline_3 GuardianRegistry_init ltac:(right; lia) Hok)
    as (ids & _ & _ & _ & _ & Hlen & _ & _ & _ & Hids & _).
  split; [exact Hlen | exact Hids].
Defined.

(** ** The student transitions of a year *)

(** X4.  Step 1 of [generate_school_year] composes to a net enrolment:
    the active students after it are those before, minus the graduates
    (grade 13 or above), plus the configured number of kindergarteners,
    minus the transfers out (2 to 7 of them, never more than are
    enrolled), plus the transfers in (3 to 8).  The registry invariant
    holds again afterwards, so it holds in every year of a decade. *)
Theorem student_transitions_spec (year : Z) (draws : TransitionDraws)
    (reg : StudentRegistry) (guardian_registry : GuardianRegistry)
    (st' : TransferState) :
  student_registry_ok reg ->
  student_transitions year draws reg guardian_registry = Some st' ->
  exists config,
    PyDict.get year_configs year = Some config
    /\ let before := Z.of_nat (length (active_students reg)) in
       let graduates :=
         Z.of_nat (length (filter (fun s => 13 <= Student.grade_level_id s)
                                  (PyDict.values (active_students reg)))) in
       let kinder := Z.max (new_kindergarten_count config) 0 in
       let tin := PyRandom.randint 3 8 (yd_transfer_in_pick draws) in
       let tout := PyRandom.randint 2 7 (yd_transfer_out_pick draws) in
       3 <= tin <= 8 /\ 2 <= tout <= 7
       /\ Z.of_nat (length (active_students (tr_reg st')))
          = before - graduates + kinder
            - Z.min tout (before - graduates + kinder) + tin
       /\ Z.of_nat (length (transfers_in st')) = tin
       /\ Z.of_nat (length (transfers_out st'))
          = Z.min tout (before - graduates + kinder)
       /\ student_registry_ok (tr_reg st').
Proof.
  intros Hok Htr. pose proof Hok as [Hwf Hlt].
  unfold student_transitions in Htr.
  destruct (PyDict.get year_configs year) as [config|]; [|done].
  cbn [mbind option_bind] in Htr. injection Htr as <-.
  exists config. split; [done|]. cbv zeta.
  assert (Hin : 3 <= PyRandom.randint 3 8 (yd_transfer_in_pick draws) <= 8).
  { unfold PyRandom.randint.
    pose proof (Z.mod_pos_bound (Z.of_nat (yd_transfer_in_pick draws))
                  (8 - 3 + 1) ltac:(lia)). lia. }
  assert (Hout : 2 <= PyRandom.randint 2 7 (yd_transfer_out_pick draws) <= 7).
  { unfold PyRandom.randint.
    pose proof (Z.mod_pos_bound (Z.of_nat (yd_transfer_out_pick draws))
                  (7 - 2 + 1) ltac:(lia)). lia. }
  split; [done|]. split; [done|].
  pose proof (advance_ok year reg Hok) as Hok1.
  pose proof (length_promoted (active_students reg)) as Hprom.
  unfold enroll_new_kindergarteners.
  destruct (enroll_fold year (yd_kinder draws)
              (seq 0 (Z.to_nat (new_kindergarten_count config)))
              (adv_reg (advance_grade_levels year reg)) [] Hok1)
    as (news & -> & Hnews & Happ & _).
  rewrite length_seq in Hnews. cbn [enr_reg].
  set (reg2 := mkStudentRegistry _ _ _ _).
  assert (Hok2 : student_registry_ok reg2).
  { pose proof (ok_append
                  (active_students (adv_reg (advance_grade_levels year reg)))
                  (graduated_students (adv_reg (advance_grade_levels year reg)))
                  (transferred_students (adv_reg (advance_grade_levels year reg)))
                  (student_id_counter (adv_reg (advance_grade_levels year reg)))
                  news) as H.
    apply H; [by destruct (adv_reg (advance_grade_levels year reg))|done]. }
  assert (Hlen2 : Z.of_nat (length (active_students reg2))
                  = Z.of_nat (length (active_students reg))
                    - Z.of_nat (length (filter
                         (fun s => 13 <= Student.grade_level_id s)
                         (PyDict.values (active_students reg))))
                    + Z.max (new_kindergarten_count config) 0).
  { subst reg2. cbn [active_students]. rewrite length_app.
    rewrite advance_grade_levels_eq by done. cbn [adv_reg active_students]. lia. }
  destruct (process_transfers_facts year
              (PyRandom.randint 3 8 (yd_transfer_in_pick draws))
              (PyRandom.randint 2 7 (yd_transfer_out_pick draws))
              (yd_transfers draws) reg2 guardian_registry Hok2)
    as (ids & _ & _ & Hlo & Hli & Hla & _ & _ & _ & Hok3).
  assert (Hpos : (0 <? PyRandom.randint 2 7 (yd_transfer_out_pick draws)) = true)
    by (apply Z.ltb_lt; lia).
  rewrite Hpos in Hlo, Hla.
  split; [lia|]. split; [lia|]. split; [lia|]. exact Hok3.
Qed.

Lemma student_transitions_spec_witness :
  exists st',
    student_transitions 2016 sample_transition_draws baseline_3
      GuardianRegistry_init = Some st'
    /\ student_registry_ok (tr_reg st').
Proof.
  assert (Hok : student_registry_ok baseline_3)
    by apply load_baseline_students_ok, init_ok.
  destruct (student_transitions 2016 sample_transition_draws baseline_3
              GuardianRegistry_init) as [st'|] eqn:E;
    [|vm_compute in E; discriminate].
  exists st'. split; [reflexivity|].
  destruct (student_transitions_spec 2016 sample_transition_draws baseline_3
              GuardianRegistry_init st' Hok E)
    as (config & _ & _ & _ & _ & _ & _ & H).
  exact H.
Defined.

(** ** TeacherRegistry: who leaves *)

Lemma insert_desc_sorted (x : Teacher.t) (l : list Teacher.t) :
  sorted_desc l -> sorted_desc (insert_desc x l).
Proof.
  induction l as [|y l IH]; intros Hs; [by split|].
  destruct Hs as [Hy Hs]. cbn [insert_desc].
  destruct (Z.ltb_spec (Teacher.years_experience x) (Teacher.years_experience y)).
  - split; [|by apply IH].
    rewrite insert_desc_perm. constructor; [lia | done].
  - split; [|by split].
    constructor; [done|].
    eapply Forall_impl; [exact Hy|]. simpl. intros; lia.
Qed.

Lemma sort_by_experience_desc_sorted (l : list Teacher.t) :
  sorted_desc (sort_by_experience_desc l).
Proof.
  unfold sort_by_experience_desc. induction l as [|x l IH]; [done|].
  simpl. by apply insert_desc_sorted.
Qed.

Lemma sorted_desc_take_drop (l : list Teacher.t) (n : nat) (x y : Teacher.t) :
  sorted_desc l -> x ∈ take n l -> y ∈ drop n l ->
  Teacher.years_experience y <= Teacher.years_experience x.
Proof.
  revert n. induction l as [|z l IH]; intros n Hs Hx Hy.
  - rewrite take_nil in Hx. by apply elem_of_nil in Hx.
  - destruct n as [|n]; [by apply elem_of_nil in Hx|].
    destruct Hs as [Hz Hs]. cbn [take drop] in Hx, Hy.
    apply elem_of_cons in Hx as [->|Hx].
    + rewrite Forall_forall in Hz. apply Hz.
      eapply elem_of_sublist; [exact Hy | apply sublist_drop].
    + by apply (IH n).
Qed.

(** Equal experience keeps the order of the registry: the sort is
    stable. *)
Lemma insert_desc_filter (P : Teacher.t -> Prop) `{forall x, Decision (P x)}
    (x : Teacher.t) (l : list Teacher.t) :
  (forall y, y ∈ l -> P y -> P x ->
             Teacher.years_experience y = Teacher.years_experience x) ->
  filter P (insert_desc x l) = filter P (x :: l).
Proof.
  induction l as [|y l IH]; intros Heq; [done|].
  cbn [insert_desc].
  destruct (Z.ltb_spec (Teacher.years_experience x) (Teacher.years_experience y));
    [|done].
  destruct (decide (P x)) as [Hx|Hnx].
  - destruct (decide (P y)) as [Hy|Hny].
    + specialize (Heq y ltac:(apply elem_of_cons; auto) Hy Hx). lia.
    + rewrite (filter_cons_False _ y) by done.
      rewrite IH; [|intros z Hz; apply Heq; apply elem_of_cons; auto].
      rewrite !(filter_cons_True _ x) by done.
      by rewrite (filter_cons_False _ y).
  - rewrite (filter_cons_False _ x (y :: l)) by done.
    destruct (decide (P y)).
    + rewrite !(filter_cons_True _ y) by done. f_equal.
      rewrite IH; [|intros z Hz; apply Heq; apply elem_of_cons; auto].
      by rewrite filter_cons_False.
    + rewrite !(filter_cons_False _ y) by done.
      rewrite IH; [|intros z Hz; apply Heq; apply elem_of_cons; auto].
      by rewrite filter_cons_False.
Qed.

(** X5.  [list.sort(key=years_experience, reverse=True)], as the
    departure candidates are ordered: the result is a rearrangement of
    the list in descending experience, and teachers of equal experience
    keep the order they had. *)
Theorem sort_by_experience_desc_spec (l : list Teacher.t) :
  sort_by_experience_desc l ≡ₚ l
  /\ sorted_desc (sort_by_experience_desc l)
  /\ forall e,
       filter (fun x => Teacher.years_experience x = e)
              (sort_by_experience_desc l)
       = filter (fun x => Teacher.years_experience x = e) l.
Proof.
  split; [apply sort_by_experience_desc_perm|].
  split; [apply sort_by_experience_desc_sorted|].
  intros e. unfold sort_by_experience_desc.
  induction l as [|x l IH]; [done|]. cbn [foldr].
  rewrite insert_desc_filter.
  - destruct (decide (Teacher.years_experience x = e)).
    + rewrite !filter_cons_True by done. by rewrite IH.
    + rewrite !filter_cons_False by done. by rewrite IH.
  - intros y _ Hy Hx. simpl in *. congruence.
Qed.

(** The departure loop in full: who is put on which list, and what the
    three dictionaries hold afterwards. *)
Lemma depart_fold_lists (year : Z) (retire_draw : nat -> Q)
    (items : list (nat * Teacher.t)) (st : AnnualState) :
  PyDict.wf (active_teachers (ann_reg st)) ->
  NoDup (Teacher.teacher_id <$> items.*2) ->
  (forall x, x ∈ items.*2 ->
     is_Some (PyDict.get (active_teachers (ann_reg st)) (Teacher.teacher_id x))) ->
  exists st',
    foldl (depart_one year retire_draw) (Some st) items = Some st'
    /\ retirements st' ++ resignations st'
       ≡ₚ (retirements st ++ resignations st) ++ items.*2
    /\ (forall x, x ∈ retirements st' ->
          x ∈ retirements st
          \/ (x ∈ items.*2
              /\ PyDict.get (retired_teachers (ann_reg st')) (Teacher.teacher_id x)
                 = Some (Teacher.with_retirement_year x year)))
    /\ (forall x, x ∈ resignations st' ->
          x ∈ resignations st
          \/ (x ∈ items.*2
              /\ Teacher.years_experience x < 25
              /\ PyDict.get (former_teachers (ann_reg st')) (Teacher.teacher_id x)
                 = Some (Teacher.with_departure_year x year)))
    /\ (forall k,
          PyDict.get (active_teachers (ann_reg st')) k
          = if decide (k ∈ Teacher.teacher_id <$> items.*2) then None
            else PyDict.get (active_teachers (ann_reg st)) k)
    /\ (forall k, k ∉ Teacher.teacher_id <$> items.*2 ->
          PyDict.get (retired_teachers (ann_reg st')) k
          = PyDict.get (retired_teachers (ann_reg st)) k
          /\ PyDict.get (former_teachers (ann_reg st')) k
             = PyDict.get (former_teachers (ann_reg st)) k).
Proof.
  revert st. induction items as [|[i x] items IH]; intros st Hwf Hnd Hin.
  - exists st. cbn [foldl fmap list_fmap]. rewrite app_nil_r.
    split; [done|]. split; [done|]. split; [auto|]. split; [auto|].
    split; [|done]. intros k. rewrite decide_False; [done|].
    by intros ?%elem_of_nil.
  - cbn [foldl]. rewrite !fmap_cons in Hnd. cbn [snd] in Hnd.
    apply NoDup_cons in Hnd as [Hx Hnd].
    assert (Hmem : PyDict.mem (active_teachers (ann_reg st))
                     (Teacher.teacher_id x) = true).
    { apply mem_true. apply Hin. rewrite fmap_cons. apply elem_of_cons; auto. }
    set (retires := (25 <=? Teacher.years_experience x)
                    || (if Qlt_le_dec (retire_draw i) (3 # 10) then true else false)).
    assert (Hstep : exists st1,
      depart_one year retire_draw (Some st) (i, x) = Some st1
      /\ active_teachers (ann_reg st1)
         = PyDict.del (active_teachers (ann_reg st)) (Teacher.teacher_id x)
      /\ (if retires then
            retirements st1 = retirements st ++ [x]
            /\ resignations st1 = resignations st
            /\ retired_teachers (ann_reg st1)
               = PyDict.set (retired_teachers (ann_reg st)) (Teacher.teacher_id x)
                   (Teacher.with_retirement_year x year)
            /\ former_teachers (ann_reg st1) = former_teachers (ann_reg st)
          else
            retirements st1 = retirements st
            /\ resignations st1 = resignations st ++ [x]
            /\ Teacher.years_experience x < 25
            /\ retired_teachers (ann_reg st1) = retired_teachers (ann_reg st)
            /\ former_teachers (ann_reg st1)
               = PyDict.set (former_teachers (ann_reg st)) (Teacher.teacher_id x)
                   (Teacher.with_departure_year x year))).
    { unfold depart_one. cbn [mbind option_bind]. rewrite Hmem.
      fold retires. destruct retires eqn:Er; eexists; repeat split.
      subst retires. apply orb_false_iff in Er as [Er _].
      apply Z.leb_gt in Er. exact Er. }
    destruct Hstep as (st1 & -> & Hact & Hlists).
    destruct (IH st1) as (st' & Heq & Hperm & HR & HS & HA & HD).
    + rewrite Hact. by apply wf_del.
    + done.
    + intros y Hy. rewrite Hact. rewrite get_del_ne.
      * apply Hin. rewrite fmap_cons. apply elem_of_cons; auto.
      * intros Heq. apply Hx. rewrite Heq. apply list_elem_of_fmap. by exists y.
    + exists st'. split; [done|].
      rewrite !fmap_cons. cbn [snd].
      destruct (HD _ Hx) as [HDr HDf].
      split; [|split; [|split; [|split]]].
      * rewrite Hperm. destruct retires.
        -- destruct Hlists as (-> & -> & _).
           transitivity (x :: (retirements st ++ resignations st) ++ items.*2);
             [|apply Permutation_middle].
           rewrite (Permutation_app_comm (retirements st) [x]). done.
        -- destruct Hlists as (-> & -> & _).
           rewrite (app_assoc (retirements st)).
           by rewrite <- (app_assoc (retirements st ++ resignations st)).
      * intros y Hy. destruct (HR y Hy) as [Hold|[Hnew Hg]].
        -- destruct retires.
           ++ destruct Hlists as (Hr & _ & Hrt & _). rewrite Hr in Hold.
              apply elem_of_app in Hold as [Hold|Hnew]; [by left|].
              apply list_elem_of_singleton in Hnew as ->.
              right. split; [apply elem_of_cons; auto|].
              rewrite HDr, Hrt. apply get_set_eq.
           ++ destruct Hlists as (Hr & _). rewrite Hr in Hold. by left.
        -- right. split; [apply elem_of_cons; auto | done].
      * intros y Hy. destruct (HS y Hy) as [Hold|(Hnew & Hexp & Hg)].
        -- destruct retires.
           ++ destruct Hlists as (_ & Hr & _). rewrite Hr in Hold. by left.
           ++ destruct Hlists as (_ & Hr & Hexp & _ & Hft). rewrite Hr in Hold.
              apply elem_of_app in Hold as [Hold|Hnew]; [by left|].
              apply list_elem_of_singleton in Hnew as ->.
              right. split; [apply elem_of_cons; auto|]. split; [done|].
              rewrite HDf, Hft. apply get_set_eq.
        -- right. split; [apply elem_of_cons; auto | done].
      * intros k. rewrite HA, Hact.
        destruct (decide (k = Teacher.teacher_id x)) as [->|Hne].
        -- rewrite (decide_True (P := _ ∈ _ :: _)) by (apply elem_of_cons; auto).
           destruct (decide _); [done|]. by apply get_del_eq.
        -- rewrite get_del_ne by done.
           destruct (decide (k ∈ Teacher.teacher_id <$> items.*2)).
           ++ by rewrite decide_True by (apply elem_of_cons; auto).
           ++ rewrite decide_False; [done|].
              by intros [?|?]%elem_of_cons.
      * intros k Hk. apply not_elem_of_cons in Hk as [Hne Hk].
        destruct (HD k Hk) as [-> ->].
        destruct retires.
        -- destruct Hlists as (_ & _ & -> & ->).
           by rewrite get_set_ne.
        -- destruct Hlists as (_ & _ & _ & -> & ->).
           by rewrite get_set_ne.
Qed.

(** [process_hires], as a state: the survivors followed by the new
    hires, all a year older; nothing else is touched. *)
Lemma process_hires_eq (year target : Z) (draws : nat -> HireDraws)
    (st1 : AnnualState) :
  (forall k, k ∈ PyDict.keys (active_teachers (ann_reg st1)) ->
             k < teacher_id_counter (ann_reg st1)) ->
  new_hires st1 = [] ->
  exists news,
    process_hires year target draws st1
    = mkAnnualState
        (mkTeacherRegistry
           (prod_map id Teacher.aged <$> (active_teachers (ann_reg st1) ++ news))
           (retired_teachers (ann_reg st1)) (former_teachers (ann_reg st1))
           (teacher_id_counter (ann_reg st1) + Z.of_nat (length news)))
        (retirements st1) (resignations st1)
        (Teacher.aged <$> PyDict.values news)
    /\ Z.of_nat (length news)
       = Z.max 0 (target - Z.of_nat (length (active_teachers (ann_reg st1))))
    /\ hired_from (teacher_id_counter (ann_reg st1)) news
    /\ PyDict.values news
       = new_hires (foldl (hire_one year (_assess_department_needs (ann_reg st1)) draws)
                      st1 (seq 0 (length news))).
Proof.
  destruct st1 as [[a r f c] rs gs nh].
  cbn [ann_reg new_hires active_teachers teacher_id_counter retired_teachers
       former_teachers retirements resignations].
  intros Hlt ->. unfold process_hires.
  cbn [ann_reg active_teachers].
  set (needs := _assess_department_needs _).
  set (idx := seq 0 _).
  destruct (hire_fold year needs draws idx a r f c rs gs Hlt [])
    as (news & Heq & Hlen & Happ).
  { split; [done | constructor]. }
  cbn [length PyDict.values fmap list_fmap] in Heq.
  rewrite app_nil_r, Z.add_0_r in Heq.
  assert (Hidx : idx = seq 0 (length news)).
  { subst idx. rewrite length_seq in Hlen. simpl in Hlen. by rewrite Hlen. }
  exists news. split; [by rewrite Heq|]. split; [|split; [done|]].
  - subst idx. rewrite length_seq in Hlen. simpl in Hlen. lia.
  - rewrite <- Hidx, Heq. done.
Qed.

Lemma process_departures_lists (year expected : Z) (retire_draw : nat -> Q)
    (reg : TeacherRegistry) :
  teacher_registry_ok reg ->
  let cands := sort_by_experience_desc (PyDict.values (active_teachers reg)) in
  let n := Z.to_nat (Z.min expected (Z.of_nat (length (active_teachers reg)))) in
  exists st1,
    process_departures year expected retire_draw reg = Some st1
    /\ retirements st1 ++ resignations st1 ≡ₚ take n cands
    /\ NoDup (Teacher.teacher_id <$> take n cands)
    /\ (forall x, x ∈ retirements st1 ->
          PyDict.get (retired_teachers (ann_reg st1)) (Teacher.teacher_id x)
          = Some (Teacher.with_retirement_year x year))
    /\ (forall x, x ∈ resignations st1 ->
          Teacher.years_experience x < 25
          /\ PyDict.get (former_teachers (ann_reg st1)) (Teacher.teacher_id x)
             = Some (Teacher.with_departure_year x year))
    /\ (forall k,
          PyDict.get (active_teachers (ann_reg st1)) k
          = if decide (k ∈ Teacher.teacher_id <$> take n cands) then None
            else PyDict.get (active_teachers reg) k)
    /\ (forall k, k ∉ Teacher.teacher_id <$> take n cands ->
          PyDict.get (retired_teachers (ann_reg st1)) k
          = PyDict.get (retired_teachers reg) k
          /\ PyDict.get (former_teachers (ann_reg st1)) k
             = PyDict.get (former_teachers reg) k).
Proof.
  intros Hok cands n. pose proof Hok as (Hwf & Hid & Hlt).
  assert (Hperm : cands ≡ₚ PyDict.values (active_teachers reg))
    by apply sort_by_experience_desc_perm.
  assert (Hlenc : length cands = length (active_teachers reg)).
  { rewrite Hperm. unfold PyDict.values. by rewrite length_fmap. }
  assert (Hsnd : (zip (seq 0 n) (take n cands)).*2 = take n cands).
  { apply snd_zip. rewrite length_seq, length_take. lia. }
  assert (Hnd : NoDup (Teacher.teacher_id <$> take n cands)).
  { rewrite fmap_take. eapply sublist_NoDup; [|apply sublist_take].
    rewrite Hperm, teacher_ids_are_keys by done. apply Hwf. }
  destruct (depart_fold_lists year retire_draw (zip (seq 0 n) (take n cands))
              (mkAnnualState reg [] [] []))
    as (st1 & Heq & Hp & HR & HS & HA & HD).
  - done.
  - by rewrite Hsnd.
  - intros x Hx. rewrite Hsnd in Hx. cbn [ann_reg]. apply get_Some_keys.
    rewrite <- teacher_ids_are_keys by done.
    apply list_elem_of_fmap. exists x. split; [done|].
    rewrite <- Hperm. eapply elem_of_sublist; [exact Hx | apply sublist_take].
  - rewrite Hsnd in Hp, HR, HS, HA, HD.
    cbn [ann_reg retirements resignations app] in Hp, HR, HS, HA, HD.
    exists st1. split.
    { unfold process_departures. cbv zeta. fold cands. rewrite Hlenc.
      fold n. exact Heq. }
    split; [exact Hp|]. split; [exact Hnd|].
    split; [|split; [|split; [exact HA | exact HD]]].
    + intros x Hx. destruct (HR x Hx) as [[]%elem_of_nil|[_ Hg]]. exact Hg.
    + intros x Hx. destruct (HS x Hx) as [[]%elem_of_nil|(_ & He & Hg)]. done.
Qed.

(** X6.  Who leaves in [process_annual_changes], on a registry the
    program has built and for a float [turnover_rate] whose product
    with the head count is defined.  The teachers on the two returned
    lists are
    [min(int(active_count * turnover_rate), active_count)] distinct
    teachers who were active and are no longer, the product being the
    binary64 product the code truncates; nobody who stays had
    more experience than anybody who leaves; a teacher who resigns has
    less than 25 years of experience and is filed under
    [former_teachers] with [departure_year = year], a teacher who
    retires is filed under [retired_teachers] with
    [retirement_year = year]. *)
Theorem departures_most_experienced (year target_teacher_count : Z)
    (turnover_rate : Q) (draws : TeacherDraws) (reg : TeacherRegistry) :
  teacher_registry_ok reg ->
  Float.int_product_defined (Z.of_nat (length (active_teachers reg)))
    turnover_rate = true ->
  let current_count := Z.of_nat (length (active_teachers reg)) in
  let expected_departures :=
    Py.int (Float.mul (Float.of_int current_count) turnover_rate) in
  exists st,
    process_annual_changes year target_teacher_count turnover_rate draws reg
      = Some st
    /\ Z.of_nat (length (retirements st ++ resignations st))
       = Z.max 0 (Z.min expected_departures current_count)
    /\ NoDup (Teacher.teacher_id <$> retirements st ++ resignations st)
    /\ (forall x, x ∈ retirements st ++ resignations st ->
          PyDict.get (active_teachers reg) (Teacher.teacher_id x) = Some x
          /\ PyDict.get (active_teachers (ann_reg st)) (Teacher.teacher_id x)
             = None)
    /\ (forall x y,
          x ∈ retirements st ++ resignations st ->
          y ∈ PyDict.values (active_teachers reg) ->
          y ∉ retirements st ++ resignations st ->
          Teacher.years_experience y <= Teacher.years_experience x)
    /\ (forall x, x ∈ resignations st ->
          Teacher.years_experience x < 25
          /\ PyDict.get (former_teachers (ann_reg st)) (Teacher.teacher_id x)
             = Some (Teacher.with_departure_year x year))
    /\ (forall x, x ∈ retirements st ->
          PyDict.get (retired_teachers (ann_reg st)) (Teacher.teacher_id x)
          = Some (Teacher.with_retirement_year x year)).
Proof.
  intros Hok _ current_count expected_departures.
  pose proof Hok as (Hwf & Hid & Hlt).
  destruct (process_departures_spec year expected_departures
              (td_retire_draw draws) reg Hok)
    as (st1 & Hdep & Hwf1 & Hlen1 & Hc1 & Hnh1 & Hsub1).
  destruct (process_departures_lists year expected_departures
              (td_retire_draw draws) reg Hok)
    as (st1' & Hdep' & Hp & Hnd & HR & HS & HA & HD).
  rewrite Hdep in Hdep'. injection Hdep' as <-.
  set (cands := sort_by_experience_desc (PyDict.values (active_teachers reg)))
    in *.
  set (n := Z.to_nat (Z.min expected_departures
                        (Z.of_nat (length (active_teachers reg))))) in *.
  assert (Hperm : cands ≡ₚ PyDict.values (active_teachers reg))
    by apply sort_by_experience_desc_perm.
  assert (Hlenc : length cands = length (active_teachers reg)).
  { rewrite Hperm. unfold PyDict.values. by rewrite length_fmap. }
  assert (Hlt1 : forall k, k ∈ PyDict.keys (active_teachers (ann_reg st1)) ->
                           k < teacher_id_counter (ann_reg st1)).
  { intros k [x Hk]%get_Some_keys. rewrite Hc1. apply Hlt.
    apply get_Some_keys. exists x.
    apply elem_get_Some; [done|]. apply Hsub1. by apply get_Some_elem. }
  destruct (process_hires_eq year target_teacher_count (td_hire draws)
              st1 Hlt1 Hnh1) as (news & Hst & Hlen & Happ & _).
  exists (process_hires year target_teacher_count (td_hire draws) st1).
  split.
  { unfold process_annual_changes. cbv zeta.
    fold current_count. fold expected_departures. by rewrite Hdep. }
  rewrite Hst.
  cbn [ann_reg retirements resignations active_teachers retired_teachers
       former_teachers].
  assert (Hcand : forall x, x ∈ take n cands ->
            PyDict.get (active_teachers reg) (Teacher.teacher_id x) = Some x).
  { intros x Hx. apply elem_get_Some; [done|].
    assert (Hv : x ∈ PyDict.values (active_teachers reg)).
    { rewrite <- Hperm. eapply elem_of_sublist; [exact Hx | apply sublist_take]. }
    apply list_elem_of_fmap in Hv as ([k x'] & -> & Hin). cbn [snd].
    by rewrite (Hid k x' Hin). }
  split; [|split; [|split; [|split; [|split]]]].
  - rewrite Hp, length_take. subst n current_count. lia.
  - by rewrite Hp.
  - intros x Hx. rewrite Hp in Hx. split; [by apply Hcand|].
    rewrite get_aged, get_app, HA.
    rewrite decide_True by (apply list_elem_of_fmap; by exists x).
    replace (PyDict.get news (Teacher.teacher_id x)) with (@None Teacher.t);
      [done|].
    symmetry. apply get_None_keys. destruct Happ as [Hk _]. rewrite Hk.
    intros Hin%elem_of_seqZ.
    assert (Teacher.teacher_id x < teacher_id_counter reg).
    { apply Hlt. apply get_Some_keys. exists x. by apply Hcand. }
    lia.
  - intros x y Hx Hy Hny. rewrite Hp in Hx, Hny.
    apply (sorted_desc_take_drop cands n).
    + apply sort_by_experience_desc_sorted.
    + done.
    + rewrite <- Hperm in Hy. rewrite <- (take_drop n cands) in Hy.
      by apply elem_of_app in Hy as [Hy|Hy].
  - exact HS.
  - exact HR.
Qed.

Lemma departures_most_experienced_witness :
  exists st,
    process_annual_changes 2016 71 (Float.lit (29 # 100)) sample_teacher_draws
      teachers_100
    = Some st
    /\ Z.of_nat (length (retirements st ++ resignations st)) = 28.
Proof.
  assert (Hok : teacher_registry_ok teachers_100)
    by apply load_baseline_teachers_ok, teacher_init_ok.
  assert (Hfl : Float.int_product_defined
                  (Z.of_nat (length (active_teachers teachers_100)))
                  (Float.lit (29 # 100)) = true)
    by (vm_compute; reflexivity).
  destruct (departures_most_experienced 2016 71 (Float.lit (29 # 100))
              sample_teacher_draws teachers_100 Hok Hfl) as (st & Hst & Hlen & _).
  exists st. split; [exact Hst|]. rewrite Hlen. vm_compute. reflexivity.
Defined.

(** ** TeacherRegistry: department weights and new hires *)

Lemma count_department_get (vals : list Teacher.t) (acc : dict Z Z) (d : Z) :
  default 0 (PyDict.get (foldl count_department acc vals) d)
  = default 0 (PyDict.get acc d)
    + Z.of_nat (length (filter (fun x => Teacher.department_id x = d) vals)).
Proof.
  revert acc. induction vals as [|x vals IH]; intros acc.
  - simpl. lia.
  - cbn [foldl]. rewrite IH. unfold count_department.
    destruct (decide (Teacher.department_id x = d)) as [Hd|Hd].
    + rewrite filter_cons_True by done. rewrite Hd, get_set_eq.
      cbn [default length id]. lia.
    + rewrite filter_cons_False by done. by rewrite get_set_ne.
Qed.

Lemma sum_values_set (acc : dict Z Z) (k v : Z) :
  foldr Z.add 0 (PyDict.values (PyDict.set acc k v))
  = foldr Z.add 0 (PyDict.values acc) - default 0 (PyDict.get acc k) + v.
Proof.
  induction acc as [|[k0 v0] acc IH].
  - simpl. lia.
  - cbn [PyDict.get PyDict.set].
    destruct (decide (k = k0)) as [->|Hne].
    + unfold PyDict.values. rewrite !fmap_cons. cbn [foldr snd default id]. lia.
    + unfold PyDict.values in *. rewrite !fmap_cons. cbn [foldr snd].
      rewrite IH. lia.
Qed.

Lemma count_department_total (vals : list Teacher.t) (acc : dict Z Z) :
  foldr Z.add 0 (PyDict.values (foldl count_department acc vals))
  = foldr Z.add 0 (PyDict.values acc) + Z.of_nat (length vals).
Proof.
  revert acc. induction vals as [|x vals IH]; intros acc.
  - simpl. lia.
  - cbn [foldl]. rewrite IH. unfold count_department.
    rewrite sum_values_set. cbn [length]. lia.
Qed.

Lemma get_fmap_pair {V} (f : Z -> V) (l : list Z) (k : Z) :
  PyDict.get ((fun d => (d, f d)) <$> l) k
  = if decide (k ∈ l) then Some (f k) else None.
Proof.
  induction l as [|d l IH]; [done|].
  rewrite fmap_cons. cbn [PyDict.get].
  destruct (decide (k = d)) as [->|Hne].
  - by rewrite decide_True by (apply elem_of_cons; auto).
  - rewrite IH. destruct (decide (k ∈ l)).
    + by rewrite decide_True by (apply elem_of_cons; auto).
    + rewrite decide_False; [done|]. by intros [?|?]%elem_of_cons.
Qed.

Lemma assess_department_needs_facts (reg : TeacherRegistry) :
  PyDict.keys (_assess_department_needs reg) = seqZ 1 9
  /\ (forall d,
        PyDict.get (_assess_department_needs reg) d
        = if decide (1 <= d <= 9) then
            Some (Py.max 1
                    (inject_Z (Z.of_nat (length (active_teachers reg))) / 9
                     - inject_Z (department_size reg d)))
          else None)
  /\ (forall d w, PyDict.get (_assess_department_needs reg) d = Some w ->
                  (1 <= w)%Q).
Proof.
  assert (Hget : forall d,
        PyDict.get (_assess_department_needs reg) d
        = if decide (1 <= d <= 9) then
            Some (Py.max 1
                    (inject_Z (Z.of_nat (length (active_teachers reg))) / 9
                     - inject_Z (department_size reg d)))
          else None).
  { intros d. unfold _assess_department_needs. cbv zeta.
    rewrite (get_fmap_pair
               (fun dept_id =>
                  Py.max 1
                    (inject_Z
                       (foldr Z.add 0
                          (PyDict.values
                             (foldl count_department []
                                (PyDict.values (active_teachers reg))))) / 9
                     - inject_Z
                         (default 0
                            (PyDict.get
                               (foldl count_department []
                                  (PyDict.values (active_teachers reg)))
                               dept_id))))).
    destruct (decide (1 <= d <= 9)) as [Hd|Hd].
    - rewrite decide_True by (apply elem_of_seqZ; lia).
      rewrite count_department_total, count_department_get.
      unfold department_size, PyDict.values at 2. rewrite length_fmap.
      cbn [PyDict.get default PyDict.values fmap list_fmap foldr].
      by rewrite !Z.add_0_l.
    - rewrite decide_False; [done|]. intros Hin%elem_of_seqZ. lia. }
  split; [|split; [exact Hget|]].
  - unfold _assess_department_needs, PyDict.keys. cbv zeta.
    rewrite <- list_fmap_compose. by rewrite list_fmap_id.
  - intros d w. rewrite Hget. destruct (decide _); [|done].
    intros [= <-]. apply py_max_spec.
Qed.

(** X7.  [_assess_department_needs] gives a weight to the departments
    1 to 9 and to no other: department [d] gets
    [max(1, n / 9 - n_d)], where [n] is the number of active teachers
    (of any department) and [n_d] the number of those of department [d].
    So every weight is at least 1. *)
Theorem assess_department_needs_spec (reg : TeacherRegistry) :
  PyDict.keys (_assess_department_needs reg) = seqZ 1 9
  /\ (forall d,
        PyDict.get (_assess_department_needs reg) d
        = if decide (1 <= d <= 9) then
            Some (Py.max 1
                    (inject_Z (Z.of_nat (length (active_teachers reg))) / 9
                     - inject_Z (department_size reg d)))
          else None)
  /\ (forall d w, PyDict.get (_assess_department_needs reg) d = Some w ->
                  (1 <= w)%Q).
Proof. apply assess_department_needs_facts. Qed.

Lemma choices_elem {A} (population : list A) (weights : list Q) (u : Q) (x : A) :
  PyRandom.choices population weights u = Some x -> x ∈ population.
Proof. unfold PyRandom.choices. apply list_elem_of_lookup_2. Qed.

(** With a weight per element, [random.choices] picks an element of a
    population that is not empty. *)
Lemma choices_is_Some {A} (population : list A) (weights : list Q) (u : Q) :
  population <> [] ->
  is_Some (PyRandom.choices population weights u).
Proof.
  intros Hne. unfold PyRandom.choices, PyRandom.bisect.
  apply lookup_lt_is_Some.
  eapply Nat.le_lt_trans; [apply List.filter_length_le|].
  rewrite length_take. destruct population; [done|]. simpl. lia.
Qed.

(** What the hiring loop makes of a teacher, before the ageing loop. *)
Lemma hire_fold_fields (year : Z) (needs : dict Z Q) (draws : nat -> HireDraws)
    (P : Teacher.t -> Prop) (idx : list nat) (st : AnnualState) :
  (forall c d dept,
      (dept ∈ PyDict.keys needs \/ dept = 1) ->
      P (Teacher.mk c (hd_first_name d) (hd_last_name d) dept year
           (PyRandom.randint 0 5 (hd_experience_pick d)) "Teacher" None None)) ->
  Forall P (new_hires st) ->
  Forall P (new_hires (foldl (hire_one year needs draws) st idx)).
Proof.
  intros HP. revert st. induction idx as [|i idx IH]; intros st Hst; [done|].
  cbn [foldl]. apply IH. unfold hire_one. cbn [new_hires].
  apply Forall_app. split; [done|]. apply Forall_singleton. apply HP.
  destruct (PyRandom.choices _ _ _) as [dept|] eqn:E; [left|by right].
  by apply choices_elem in E.
Qed.

Lemma randint_range (a b : Z) (pick : nat) :
  a <= b -> a <= PyRandom.randint a b pick <= b.
Proof.
  intros Hab. unfold PyRandom.randint.
  pose proof (Z.mod_pos_bound (Z.of_nat pick) (b - a + 1)). lia.
Qed.

(** X8.  The new hires of [process_annual_changes], on a registry the
    program has built and for a float [turnover_rate] whose product with
    the head count is defined: there are
    [max(0, target_teacher_count - survivors)] of them, the survivors
    being the teachers left by the
    [min(int(active_count * turnover_rate), active_count)] departures of
    the binary64 product; the [i]-th has
    the id [teacher_id_counter + i], [hire_year = year], the position
    ["Teacher"], a department from 1 to 9 and, after the ageing loop,
    between 1 and 6 years of experience; the returned list shows the
    very entries of [active_teachers]; the counter ends past the last
    of them. *)
Theorem new_hires_spec (year target_teacher_count : Z)
    (turnover_rate : Q) (draws : TeacherDraws) (reg : TeacherRegistry) :
  teacher_registry_ok reg ->
  Float.int_product_defined (Z.of_nat (length (active_teachers reg)))
    turnover_rate = true ->
  let current_count := Z.of_nat (length (active_teachers reg)) in
  let expected_departures :=
    Py.int (Float.mul (Float.of_int current_count) turnover_rate) in
  let survivors := current_count - Z.max 0 (Z.min expected_departures current_count) in
  exists st,
    process_annual_changes year target_teacher_count turnover_rate draws reg
      = Some st
    /\ Z.of_nat (length (new_hires st))
       = Z.max 0 (target_teacher_count - survivors)
    /\ teacher_id_counter (ann_reg st)
       = teacher_id_counter reg + Z.of_nat (length (new_hires st))
    /\ (forall (i : nat) x, new_hires st !! i = Some x ->
          Teacher.teacher_id x = teacher_id_counter reg + Z.of_nat i
          /\ Teacher.hire_year x = year
          /\ Teacher.position_level x = "Teacher"
          /\ 1 <= Teacher.department_id x <= 9
          /\ 1 <= Teacher.years_experience x <= 6
          /\ Teacher.retirement_year x = None
          /\ Teacher.departure_year x = None
          /\ PyDict.get (active_teachers reg) (Teacher.teacher_id x) = None
          /\ PyDict.get (active_teachers (ann_reg st)) (Teacher.teacher_id x)
             = Some x).
Proof.
  intros Hok _ current_count expected_departures survivors.
  pose proof Hok as (Hwf & Hid & Hlt).
  destruct (process_departures_spec year expected_departures
              (td_retire_draw draws) reg Hok)
    as (st1 & Hdep & Hwf1 & Hlen1 & Hc1 & Hnh1 & Hsub1).
  assert (Hlt1 : forall k, k ∈ PyDict.keys (active_teachers (ann_reg st1)) ->
                           k < teacher_id_counter (ann_reg st1)).
  { intros k [x Hk]%get_Some_keys. rewrite Hc1. apply Hlt.
    apply get_Some_keys. exists x.
    apply elem_get_Some; [done|]. apply Hsub1. by apply get_Some_elem. }
  destruct (process_hires_eq year target_teacher_count (td_hire draws)
              st1 Hlt1 Hnh1) as (news & Hst & Hlen & [Hkeys Hfield] & Hvals).
  exists (process_hires year target_teacher_count (td_hire draws) st1).
  split.
  { unfold process_annual_changes. cbv zeta.
    fold current_count. fold expected_departures. by rewrite Hdep. }
  rewrite Hst. cbn [ann_reg new_hires active_teachers teacher_id_counter].
  assert (Hlenv : length (Teacher.aged <$> PyDict.values news) = length news).
  { unfold PyDict.values. by rewrite !length_fmap. }
  rewrite Hlenv.
  split; [subst survivors; fold current_count in Hlen1; lia|].
  split; [by rewrite Hc1|].
  intros i x Hx.
  apply list_lookup_fmap_Some_1 in Hx as (x0 & -> & Hx0).
  unfold PyDict.values in Hx0.
  apply list_lookup_fmap_Some_1 in Hx0 as ([k x0'] & Heq0 & Hkx).
  cbn [snd] in Heq0. subst x0'.
  assert (Hk : k = teacher_id_counter reg + Z.of_nat i).
  { assert (Hki : PyDict.keys news !! i = Some k).
    { unfold PyDict.keys. rewrite list_lookup_fmap, Hkx. done. }
    rewrite Hkeys in Hki. apply lookup_seqZ in Hki as [-> _]. by rewrite Hc1. }
  assert (Hin : (k, x0) ∈ news) by (by eapply list_elem_of_lookup_2).
  assert (Htid : Teacher.teacher_id x0 = k).
  { rewrite Forall_forall in Hfield. apply (Hfield (k, x0) Hin). }
  assert (HP : Forall (fun y =>
              Teacher.hire_year y = year
              /\ Teacher.position_level y = "Teacher"
              /\ 1 <= Teacher.department_id y <= 9
              /\ 0 <= Teacher.years_experience y <= 5
              /\ Teacher.retirement_year y = None
              /\ Teacher.departure_year y = None) (PyDict.values news)).
  { rewrite Hvals. apply hire_fold_fields; [|by rewrite Hnh1].
    intros c d dept Hdept. cbn.
    split; [done|]. split; [done|]. split.
    - destruct Hdept as [Hdept| ->]; [|lia].
      rewrite (proj1 (assess_department_needs_facts _)) in Hdept.
      apply elem_of_seqZ in Hdept. lia.
    - split; [by apply randint_range|done]. }
  rewrite Forall_forall in HP.
  destruct (HP x0) as (Hy & Hpos & Hdept & Hexp & Hret & Hdp).
  { apply list_elem_of_fmap. by exists (k, x0). }
  assert (Hnone1 : PyDict.get (active_teachers (ann_reg st1)) k = None).
  { apply get_None_keys. intros Hin'. apply Hlt1 in Hin'.
    rewrite Hc1 in Hin'. lia. }
  assert (Hnews : PyDict.get news k = Some x0).
  { apply elem_get_Some; [|done]. unfold PyDict.wf. rewrite Hkeys.
    apply NoDup_seqZ. }
  cbn [Teacher.aged Teacher.teacher_id Teacher.hire_year Teacher.position_level
       Teacher.department_id Teacher.years_experience Teacher.retirement_year
       Teacher.departure_year].
  rewrite Htid.
  split; [done|]. split; [done|]. split; [done|]. split; [done|].
  split; [lia|]. split; [done|]. split; [done|]. split.
  - apply get_None_keys. intros Hin'. apply Hlt in Hin'. lia.
  - by rewrite get_aged, get_app, Hnone1, Hnews.
Qed.

(** With 100 teachers and a turnover rate of 0.29, 72 teachers stay: a
    target of 72 hires nobody, a target of 74 hires two. *)
Lemma new_hires_spec_witness :
  (exists st,
     process_annual_changes 2016 72 (Float.lit (29 # 100)) sample_teacher_draws
       teachers_100
     = Some st
     /\ Z.of_nat (length (new_hires st)) = 0)
  /\ (exists st,
        process_annual_changes 2016 74 (Float.lit (29 # 100))
          sample_teacher_draws teachers_100
        = Some st
        /\ Z.of_nat (length (new_hires st)) = 2).
Proof.
  assert (Hok : teacher_registry_ok teachers_100)
    by apply load_baseline_teachers_ok, teacher_init_ok.
  assert (Hfl : Float.int_product_defined
                  (Z.of_nat (length (active_teachers teachers_100)))
                  (Float.lit (29 # 100)) = true)
    by (vm_compute; reflexivity).
  split.
  - destruct (new_hires_spec 2016 72 (Float.lit (29 # 100)) sample_teacher_draws
                teachers_100 Hok Hfl) as (st & Hst & Hlen & _).
    exists st. split; [exact Hst|]. rewrite Hlen. vm_compute. reflexivity.
  - destruct (new_hires_spec 2016 74 (Float.lit (29 # 100)) sample_teacher_draws
                teachers_100 Hok Hfl) as (st & Hst & Hlen & _).
    exists st. split; [exact Hst|]. rewrite Hlen. vm_compute. reflexivity.
Defined.

(** X9.  [process_annual_changes] never dismisses anybody to come down
    to the target: for a float [turnover_rate] whose product with the
    head count is defined, when more teachers stay
    after the [min(int(active_count * turnover_rate), active_count)]
    departures of the binary64 product than [target_teacher_count],
    nobody is hired, the id counter does not move and the staff is the
    teachers who stay. *)
Theorem no_hires_above_target (year target_teacher_count : Z)
    (turnover_rate : Q) (draws : TeacherDraws) (reg : TeacherRegistry) :
  teacher_registry_ok reg ->
  Float.int_product_defined (Z.of_nat (length (active_teachers reg)))
    turnover_rate = true ->
  let current_count := Z.of_nat (length (active_teachers reg)) in
  let expected_departures :=
    Py.int (Float.mul (Float.of_int current_count) turnover_rate) in
  let survivors := current_count - Z.max 0 (Z.min expected_departures current_count) in
  target_teacher_count < survivors ->
  exists st,
    process_annual_changes year target_teacher_count turnover_rate draws reg
      = Some st
    /\ new_hires st = []
    /\ Z.of_nat (length (active_teachers (ann_reg st))) = survivors
    /\ teacher_id_counter (ann_reg st) = teacher_id_counter reg.
Proof.
  intros Hok _ current_count expected_departures survivors Hgt.
  pose proof Hok as (Hwf & Hid & Hlt).
  destruct (process_departures_spec year expected_departures
              (td_retire_draw draws) reg Hok)
    as (st1 & Hdep & Hwf1 & Hlen1 & Hc1 & Hnh1 & Hsub1).
  assert (Hlt1 : forall k, k ∈ PyDict.keys (active_teachers (ann_reg st1)) ->
                           k < teacher_id_counter (ann_reg st1)).
  { intros k [x Hk]%get_Some_keys. rewrite Hc1. apply Hlt.
    apply get_Some_keys. exists x.
    apply elem_get_Some; [done|]. apply Hsub1. by apply get_Some_elem. }
  destruct (process_hires_eq year target_teacher_count (td_hire draws)
              st1 Hlt1 Hnh1) as (news & Hst & Hlen & _).
  exists (process_hires year target_teacher_count (td_hire draws) st1).
  split.
  { unfold process_annual_changes. cbv zeta.
    fold current_count. fold expected_departures. by rewrite Hdep. }
  assert (Hnil : news = []).
  { apply length_zero_iff_nil. fold current_count in Hlen1.
    subst survivors. lia. }
  rewrite Hst, Hnil. cbn [ann_reg new_hires active_teachers teacher_id_counter].
  split; [done|]. rewrite app_nil_r, length_fmap. cbn [length].
  split; [subst survivors; fold current_count in Hlen1; lia | lia].
Qed.

(** With 100 teachers, a turnover rate of 0.29 and a target of 71, the
    28 departures leave a staff of 72. *)
Lemma no_hires_above_target_witness :
  exists st,
    process_annual_changes 2016 71 (Float.lit (29 # 100)) sample_teacher_draws
      teachers_100
    = Some st
    /\ new_hires st = []
    /\ Z.of_nat (length (active_teachers (ann_reg st))) = 72.
Proof.
  assert (Hok : teacher_registry_ok teachers_100)
    by apply load_baseline_teachers_ok, teacher_init_ok.
  assert (Hfl : Float.int_product_defined
                  (Z.of_nat (length (active_teachers teachers_100)))
                  (Float.lit (29 # 100)) = true)
    by (vm_compute; reflexivity).
  destruct (no_hires_above_target 2016 71 (Float.lit (29 # 100))
              sample_teacher_draws teachers_100 Hok Hfl)
    as (st & Hst & Hnil & Hlen & _).
  { vm_compute. reflexivity. }
  exists st. split; [exact Hst|]. split; [exact Hnil|].
  rewrite Hlen. vm_compute. reflexivity.
Defined.

(** ** GuardianRegistry: what the two methods keep *)

Lemma elem_of_set_ne {K V} `{EqDecision K} (d : list (K * V)) (k k' : K) (v v' : V) :
  k' <> k -> (k', v') ∈ d -> (k', v') ∈ PyDict.set d k v.
Proof.
  intros Hne. induction d as [|[k0 v0] d IH]; simpl.
  - by intros ?%elem_of_nil.
  - destruct (decide (k = k0)) as [->|Hne0].
    + intros [[= ? ?]|Hin]%elem_of_cons; [congruence|].
      apply elem_of_cons; auto.
    + intros [->|Hin]%elem_of_cons; apply elem_of_cons; auto.
Qed.

Lemma elem_of_set_new {K V} `{EqDecision K} (d : list (K * V)) (k : K) (v : V) :
  (k, v) ∈ PyDict.set d k v.
Proof.
  induction d as [|[k0 v0] d IH]; simpl.
  - by apply list_elem_of_singleton.
  - destruct (decide (k = k0)) as [->|Hne]; apply elem_of_cons; auto.
Qed.

Lemma keys_set_incl {K V} `{EqDecision K} (d : list (K * V)) (k k' : K) (v : V) :
  k' ∈ PyDict.keys d -> k' ∈ PyDict.keys (PyDict.set d k v).
Proof.
  unfold PyDict.keys. induction d as [|[k0 v0] d IH]; simpl.
  - by intros ?%elem_of_nil.
  - destruct (decide (k = k0)) as [->|Hne]; [done|].
    simpl. intros [->|Hin]%elem_of_cons; apply elem_of_cons; auto.
Qed.

Lemma keys_set_new {K V} `{EqDecision K} (d : list (K * V)) (k : K) (v : V) :
  k ∈ PyDict.keys (PyDict.set d k v).
Proof.
  replace k with (fst (k, v)) at 1 by done. unfold PyDict.keys.
  apply list_elem_of_fmap_2. apply elem_of_set_new.
Qed.

(** Two keys made from student ids are equal only for the same student. *)
Lemma append_two_inj (s1 s2 : string) (a b a' b' : ascii) :
  s1 +:+ String a (String b "") = s2 +:+ String a' (String b' "") ->
  s1 = s2.
Proof.
  revert s2. induction s1 as [|c s1 IH]; intros [|c' s2]; simpl.
  - done.
  - intros [= _ H]. destruct s2 as [|d [|e s2]]; simpl in H; discriminate.
  - intros [= _ H]. destruct s1 as [|d [|e s1]]; simpl in H; discriminate.
  - intros [= -> H]. f_equal. by apply IH.
Qed.

Lemma sg_str_key_inj (a b i j : Z) :
  (i = 1 \/ i = 2) -> (j = 1 \/ j = 2) ->
  sg_str_key a i = sg_str_key b j -> a = b.
Proof.
  unfold sg_str_key. intros Hi Hj [= H].
  apply (inj pretty).
  destruct Hi as [-> | ->], Hj as [-> | ->];
    by apply append_two_inj in H.
Qed.

Lemma sg_key_ok_inj (key : SGKey) (sg sg' : StudentGuardian.t) :
  sg_key_ok key sg -> sg_key_ok key sg' ->
  StudentGuardian.student_id sg = StudentGuardian.student_id sg'.
Proof.
  intros [->|[->| ->]] [H|[H|H]]; try discriminate H.
  - by injection H.
  - apply sg_str_key_inj in H; auto.
  - apply sg_str_key_inj in H; auto.
  - apply sg_str_key_inj in H; auto.
  - apply sg_str_key_inj in H; auto.
Qed.

Lemma gen_extends_refl (students : list Student.t) (st : GenState) :
  gen_extends students st st.
Proof.
  split; [|split; [done|split; [done|split]]].
  - exists []. rewrite app_nil_r. split; [done|]. split; [done|].
    split; [simpl; lia|]. by intros g ?%elem_of_nil.
  - exists []. rewrite app_nil_r. split; [done|]. by intros g ?%elem_of_nil.
  - intros key sg Hin. by exists key, sg.
Qed.

Lemma gen_extends_mono (l l' : list Student.t) (st st' : GenState) :
  l ⊆ l' -> gen_extends l st st' -> gen_extends l' st st'.
Proof.
  intros Hsub (Hg & Hold & Htr & (rs & Hrs & Hrows) & Hkeep).
  split; [done|]. split; [done|]. split; [done|]. split; [|done].
  exists rs. split; [done|]. intros sg Hsg.
  destruct (Hrows sg Hsg) as (s & Hs & Heq). exists s. split; [by apply Hsub | done].
Qed.

Lemma gen_extends_trans (l1 l2 : list Student.t) (st st1 st2 : GenState) :
  gen_extends l1 st st1 -> gen_extends l2 st1 st2 ->
  gen_extends (l1 ++ l2) st st2.
Proof.
  intros ((gs1 & Hn1 & Hid1 & Hc1 & Hget1) & Hold1 & Htr1
          & (rs1 & Hrs1 & Hrows1) & Hkeep1)
         ((gs2 & Hn2 & Hid2 & Hc2 & Hget2) & Hold2 & Htr2
          & (rs2 & Hrs2 & Hrows2) & Hkeep2).
  split; [|split; [|split; [|split]]].
  - exists (gs1 ++ gs2). rewrite Hn2, Hn1, <- app_assoc. split; [done|].
    rewrite fmap_app, Hid1, Hid2, Hc1, length_app, Nat2Z.inj_add.
    split; [by rewrite seqZ_app by lia|]. split; [rewrite Hc2, Hc1; lia|].
    intros g [Hg|Hg]%elem_of_app; [|by apply Hget2].
    rewrite Hold2; [by apply Hget1|].
    assert (Hin : Guardian.guardian_id g ∈ Guardian.guardian_id <$> gs1)
      by (by apply list_elem_of_fmap_2).
    rewrite Hid1 in Hin. apply elem_of_seqZ in Hin. lia.
  - intros k Hk. rewrite Hold2 by lia. by apply Hold1.
  - congruence.
  - exists (rs1 ++ rs2). rewrite Hrs2, Hrs1, <- app_assoc. split; [done|].
    intros sg [Hsg|Hsg]%elem_of_app.
    + destruct (Hrows1 sg Hsg) as (s & Hs & Heq). exists s.
      split; [apply elem_of_app; auto | done].
    + destruct (Hrows2 sg Hsg) as (s & Hs & Heq). exists s.
      split; [apply elem_of_app; auto | done].
  - intros key sg Hin. destruct (Hkeep1 key sg Hin) as (key1 & sg1 & Hin1 & Heq1).
    destruct (Hkeep2 key1 sg1 Hin1) as (key2 & sg2 & Hin2 & Heq2).
    exists key2, sg2. split; [done | congruence].
Qed.

(** Filing a row under a key of its student: the rows there were stay,
    or are replaced by a row of the same student. *)
Lemma set_row_keeps (sgs : dict SGKey StudentGuardian.t) (key : SGKey)
    (row : StudentGuardian.t) :
  (forall key0 sg0, (key0, sg0) ∈ sgs -> sg_key_ok key0 sg0) ->
  sg_key_ok key row ->
  forall key0 sg0, (key0, sg0) ∈ sgs ->
    exists key' sg',
      (key', sg') ∈ PyDict.set sgs key row
      /\ StudentGuardian.student_id sg' = StudentGuardian.student_id sg0.
Proof.
  intros Hkeys Hrow key0 sg0 Hin.
  destruct (decide (key0 = key)) as [->|Hne].
  - exists key, row. split; [apply elem_of_set_new|].
    eapply sg_key_ok_inj; [exact Hrow | by apply Hkeys].
  - exists key0, sg0. split; [by apply elem_of_set_ne | done].
Qed.

Lemma add_guardian_ok (key : SGKey) (s : Student.t)
    (first_name last_name email phone : string) (guardian_type_id : Z)
    (st : GenState) :
  guardian_registry_ok (gen_reg st) ->
  (key = IntKey (Student.student_id s)
   \/ key = sg_str_key (Student.student_id s) 1
   \/ key = sg_str_key (Student.student_id s) 2) ->
  let st' := add_guardian key (Student.student_id s) (Student.family_id s)
               first_name last_name email phone guardian_type_id st in
  guardian_registry_ok (gen_reg st')
  /\ gen_extends [s] st st'
  /\ exists key' sg',
       (key', sg') ∈ student_guardians (gen_reg st')
       /\ StudentGuardian.student_id sg' = Student.student_id s.
Proof.
  intros (Hwg & Hws & Hlt & Hltt & Hkeys & Hclosed) Hkey st'.
  destruct st as [[gds sgs c tr] ng nsg]. subst st'. unfold add_guardian.
  cbv zeta.
  cbn [gen_reg guardians student_guardians guardian_id_counter
       transferred_guardians new_guardians new_student_guardians] in *.
  set (g := Guardian.mk c first_name last_name email phone).
  set (row := StudentGuardian.mk (Student.student_id s) c guardian_type_id
                (Student.family_id s)).
  assert (Hrow : sg_key_ok key row) by exact Hkey.
  split; [|split].
  - unfold guardian_registry_ok.
    cbn [gen_reg guardians student_guardians guardian_id_counter
         transferred_guardians].
    split; [by apply wf_set|]. split; [by apply wf_set|].
    split; [|split; [|split]].
    + intros k [->|Hk]%keys_set; [lia|]. apply Hlt in Hk. lia.
    + intros k Hk. apply Hltt in Hk. lia.
    + intros key0 sg0 [[= -> ->]|Hin]%elem_of_set; [done | by apply Hkeys].
    + intros key0 sg0 [[= -> ->]|Hin]%elem_of_set.
      * left. apply keys_set. by left.
      * destruct (Hclosed key0 sg0 Hin) as [Hg|Hg]; [left | by right].
        apply keys_set. by right.
  - unfold gen_extends.
    cbn [gen_reg guardians student_guardians guardian_id_counter
         transferred_guardians new_guardians new_student_guardians].
    split; [|split; [|split; [done|split]]].
    + exists [g]. split; [done|]. split; [done|]. split; [done|].
      intros g' ->%list_elem_of_singleton. apply get_set_eq.
    + intros k Hk. apply get_set_ne. lia.
    + exists [row]. split; [done|].
      intros sg ->%list_elem_of_singleton. exists s.
      split; [by apply list_elem_of_singleton | done].
    + by apply set_row_keeps.
  - exists key, row. split; [apply elem_of_set_new | done].
Qed.

(** The loop that links a sibling to the rows of the family. *)
Lemma reuse_fold_ok (s : Student.t) (existing : list StudentGuardian.t)
    (st : GenState) :
  guardian_registry_ok (gen_reg st) ->
  (forall sg, sg ∈ existing ->
     StudentGuardian.guardian_id sg ∈ PyDict.keys (guardians (gen_reg st))
     \/ StudentGuardian.guardian_id sg
        ∈ PyDict.keys (transferred_guardians (gen_reg st))) ->
  let st' := foldl (reuse_family_guardian (Student.student_id s)
                      (Student.family_id s)) st existing in
  guardian_registry_ok (gen_reg st')
  /\ gen_extends [s] st st'
  /\ new_guardians st' = new_guardians st
  /\ guardians (gen_reg st') = guardians (gen_reg st)
  /\ (existing <> [] ->
      exists key' sg',
        (key', sg') ∈ student_guardians (gen_reg st')
        /\ StudentGuardian.student_id sg' = Student.student_id s).
Proof.
  revert st. induction existing as [|e existing IH]; intros st Hok Hex.
  - cbn [foldl]. split; [done|]. split; [apply gen_extends_refl|]. done.
  - cbn [foldl].
    set (st1 := reuse_family_guardian (Student.student_id s)
                  (Student.family_id s) st e).
    set (row := StudentGuardian.mk (Student.student_id s)
                  (StudentGuardian.guardian_id e)
                  (StudentGuardian.guardian_type_id e) (Student.family_id s)).
    pose proof Hok as (Hwg & Hws & Hlt & Hltt & Hkeys & Hclosed).
    assert (Hrow : sg_key_ok (IntKey (Student.student_id s)) row) by (by left).
    assert (Hok1 : guardian_registry_ok (gen_reg st1)).
    { subst st1. unfold reuse_family_guardian, guardian_registry_ok.
      cbn [gen_reg guardians student_guardians guardian_id_counter
           transferred_guardians].
      split; [done|]. split; [by apply wf_set|].
      split; [done|]. split; [done|]. split.
      - intros key0 sg0 [[= -> ->]|Hin]%elem_of_set; [done | by apply Hkeys].
      - intros key0 sg0 [[= -> ->]|Hin]%elem_of_set; [|by apply (Hclosed key0)].
        apply (Hex e). apply elem_of_cons; auto. }
    assert (Hext1 : gen_extends [s] st st1).
    { subst st1. unfold reuse_family_guardian, gen_extends.
      cbn [gen_reg guardians student_guardians guardian_id_counter
           transferred_guardians new_guardians new_student_guardians].
      split; [|split; [done|split; [done|split]]].
      - exists []. rewrite app_nil_r. split; [done|]. split; [done|].
        split; [simpl; lia|]. by intros g ?%elem_of_nil.
      - exists [row]. split; [done|].
        intros sg ->%list_elem_of_singleton. exists s.
        split; [by apply list_elem_of_singleton | done].
      - by apply set_row_keeps. }
    destruct (IH st1 Hok1) as (Hok' & Hext' & Hng' & Hgd' & Hrow').
    { intros sg Hsg. apply Hex. apply elem_of_cons; auto. }
    split; [done|]. split.
    { eapply gen_extends_mono; [|eapply gen_extends_trans; [exact Hext1 | exact Hext']].
      intros x [Hx|Hx]%elem_of_app; done. }
    split; [by rewrite Hng'|]. split; [by rewrite Hgd'|].
    intros _. destruct Hext' as (_ & _ & _ & _ & Hkeep).
    destruct (Hkeep (IntKey (Student.student_id s)) row) as (key' & sg' & Hin & Heq).
    { subst st1. unfold reuse_family_guardian. cbn [gen_reg student_guardians].
      apply elem_of_set_new. }
    exists key', sg'. split; [done|]. by rewrite Heq.
Qed.

(** One student of the loop of [generate_guardians_for_students]. *)
Lemma generate_for_student_ok (draws : Z -> GuardianDraws) (st : GenState)
    (s : Student.t) :
  guardian_registry_ok (gen_reg st) ->
  let st' := generate_for_student draws st s in
  guardian_registry_ok (gen_reg st')
  /\ gen_extends [s] st st'
  /\ exists key' sg',
       (key', sg') ∈ student_guardians (gen_reg st')
       /\ StudentGuardian.student_id sg' = Student.student_id s.
Proof.
  intros Hok st'. subst st'. unfold generate_for_student. cbv zeta.
  pose proof Hok as (Hwg & Hws & Hlt & Hltt & Hkeys & Hclosed).
  destruct (PyDict.mem (student_guardians (gen_reg st))
              (IntKey (Student.student_id s))) eqn:Hmem.
  { split; [done|]. split; [apply gen_extends_refl|].
    apply mem_true in Hmem as [sg Hsg]. apply get_Some_elem in Hsg.
    exists (IntKey (Student.student_id s)), sg. split; [done|].
    destruct (Hkeys _ _ Hsg) as [[= H]|[H|H]]; [done|discriminate H..]. }
  destruct (filter _ (PyDict.values (student_guardians (gen_reg st))))
    as [|e existing] eqn:Hfam.
  - destruct (Qlt_le_dec (shares_draw _) _).
    + destruct (Qlt_le_dec (structure_draw _) (60 # 100)).
      * match goal with
        | |- context [add_guardian _ _ _ _ _ _ _ 2 ?x] => set (st1 := x)
        end.
        destruct (add_guardian_ok (sg_str_key (Student.student_id s) 1) s
                    (fake_first_name (fake_mother (draws (Student.student_id s))))
                    (Student.last_name s)
                    (fake_email (fake_mother (draws (Student.student_id s))))
                    (fake_phone (fake_mother (draws (Student.student_id s))))
                    1 st Hok) as (Hok1 & Hext1 & _); [auto|].
        fold st1 in Hok1, Hext1.
        destruct (add_guardian_ok (sg_str_key (Student.student_id s) 2) s
                    (fake_first_name (fake_father (draws (Student.student_id s))))
                    (Student.last_name s)
                    (fake_email (fake_father (draws (Student.student_id s))))
                    (fake_phone (fake_father (draws (Student.student_id s))))
                    2 st1 Hok1) as (Hok2 & Hext2 & Hrow2); [auto|].
        split; [done|]. split; [|done].
        eapply gen_extends_mono;
          [|eapply gen_extends_trans; [exact Hext1 | exact Hext2]].
        intros x [Hx|Hx]%elem_of_app; done.
      * destruct (Qlt_le_dec (structure_draw _) (95 # 100));
          apply add_guardian_ok; auto.
    + apply add_guardian_ok; auto.
  - destruct (reuse_fold_ok s (e :: existing) st Hok)
      as (Hok' & Hext' & _ & _ & Hrow').
    { intros sg Hsg. rewrite <- Hfam in Hsg.
      apply list_elem_of_filter in Hsg as [_ Hsg].
      apply list_elem_of_fmap in Hsg as ([key0 sg0] & -> & Hin).
      by apply (Hclosed key0). }
    split; [done|]. split; [done|]. by apply Hrow'.
Qed.

Lemma generate_fold_ok (draws : Z -> GuardianDraws) (students : list Student.t)
    (st : GenState) :
  guardian_registry_ok (gen_reg st) ->
  let st' := foldl (generate_for_student draws) st students in
  guardian_registry_ok (gen_reg st')
  /\ gen_extends students st st'
  /\ forall s, s ∈ students ->
       exists key' sg',
         (key', sg') ∈ student_guardians (gen_reg st')
         /\ StudentGuardian.student_id sg' = Student.student_id s.
Proof.
  revert st. induction students as [|s students IH]; intros st Hok.
  - cbn [foldl]. split; [done|]. split; [apply gen_extends_refl|].
    by intros s ?%elem_of_nil.
  - cbn [foldl].
    destruct (generate_for_student_ok draws st s Hok) as (Hok1 & Hext1 & Hrow1).
    destruct (IH _ Hok1) as (Hok' & Hext' & Hrows').
    split; [done|]. split.
    { apply (gen_extends_trans [s] students _ _ _ Hext1 Hext'). }
    intros s' [->|Hs']%elem_of_cons; [|by apply Hrows'].
    destruct Hrow1 as (key1 & sg1 & Hin1 & Heq1).
    destruct Hext' as (_ & _ & _ & _ & Hkeep).
    destruct (Hkeep key1 sg1 Hin1) as (key' & sg' & Hin & Heq).
    exists key', sg'. split; [done | congruence].
Qed.

Lemma guardian_init_ok : guardian_registry_ok GuardianRegistry_init.
Proof.
  unfold guardian_registry_ok, GuardianRegistry_init. simpl.
  split; [constructor|]. split; [constructor|].
  split; [by intros k ?%elem_of_nil|]. split; [by intros k ?%elem_of_nil|].
  split; by intros key sg ?%elem_of_nil.
Qed.

(** X10.  [generate_guardians_for_students] on a registry the program
    has built: the guardians it returns carry the consecutive ids from
    the old value of [guardian_id_counter] on, each is stored in
    [guardians] under its id, and the counter ends past the last of
    them; the guardians there were and [transferred_guardians] are left
    as they are; the registry stays well formed. *)
Theorem generate_guardians_spec (students : list Student.t)
    (draws : Z -> GuardianDraws) (reg : GuardianRegistry) :
  guardian_registry_ok reg ->
  let st := generate_guardians_for_students students draws reg in
  guardian_registry_ok (gen_reg st)
  /\ Guardian.guardian_id <$> new_guardians st
     = seqZ (guardian_id_counter reg) (Z.of_nat (length (new_guardians st)))
  /\ guardian_id_counter (gen_reg st)
     = guardian_id_counter reg + Z.of_nat (length (new_guardians st))
  /\ (forall g, g ∈ new_guardians st ->
        PyDict.get (guardians reg) (Guardian.guardian_id g) = None
        /\ PyDict.get (guardians (gen_reg st)) (Guardian.guardian_id g) = Some g)
  /\ (forall k, k < guardian_id_counter reg ->
        PyDict.get (guardians (gen_reg st)) k = PyDict.get (guardians reg) k)
  /\ transferred_guardians (gen_reg st) = transferred_guardians reg.
Proof.
  intros Hok st.
  destruct (generate_fold_ok draws students (mkGenState reg [] []) Hok)
    as (Hok' & ((gs & Hgs & Hids & Hc & Hget) & Hold & Htr & _) & _).
  fold (generate_guardians_for_students students draws reg) in Hok', Hgs, Hc,
    Hget, Hold, Htr.
  fold st in Hok', Hgs, Hc, Hget, Hold, Htr.
  cbn [gen_reg new_guardians app] in *. rewrite Hgs.
  split; [done|]. split; [done|]. split; [done|]. split; [|done].
  intros g Hg. split; [|by apply Hget].
  apply get_None_keys. intros Hin.
  destruct Hok as (_ & _ & Hlt & _). apply Hlt in Hin.
  assert (Hin' : Guardian.guardian_id g ∈ Guardian.guardian_id <$> gs)
    by (by apply list_elem_of_fmap_2).
  rewrite Hids in Hin'. apply elem_of_seqZ in Hin'. lia.
Qed.

Lemma generate_guardians_spec_witness :
  Guardian.guardian_id <$>
    new_guardians (generate_guardians_for_students [sibling_a; sibling_b]
                     two_parent_draws GuardianRegistry_init)
  = [1; 2].
Proof.
  destruct (generate_guardians_spec [sibling_a; sibling_b] two_parent_draws
              GuardianRegistry_init guardian_init_ok) as (_ & Hids & _).
  rewrite Hids. vm_compute. reflexivity.
Defined.

(** X11.  After [generate_guardians_for_students], on a registry the
    program has built, every student of the list has a relationship row
    in [student_guardians], and the guardian of every row is a current
    or a transferred guardian; each returned row is a row of a student
    of the list, with the student's family; and a student who had a row
    before still has one. *)
Theorem every_student_has_guardian (students : list Student.t)
    (draws : Z -> GuardianDraws) (reg : GuardianRegistry) :
  guardian_registry_ok reg ->
  let st := generate_guardians_for_students students draws reg in
  (forall s, s ∈ students ->
     exists key sg,
       PyDict.get (student_guardians (gen_reg st)) key = Some sg
       /\ StudentGuardian.student_id sg = Student.student_id s)
  /\ (forall key sg,
        PyDict.get (student_guardians (gen_reg st)) key = Some sg ->
        is_Some (PyDict.get (guardians (gen_reg st))
                   (StudentGuardian.guardian_id sg))
        \/ is_Some (PyDict.get (transferred_guardians (gen_reg st))
                      (StudentGuardian.guardian_id sg)))
  /\ (forall sg, sg ∈ new_student_guardians st ->
        exists s, s ∈ students
          /\ StudentGuardian.student_id sg = Student.student_id s
          /\ StudentGuardian.family_id sg = Student.family_id s)
  /\ (forall key sg,
        PyDict.get (student_guardians reg) key = Some sg ->
        exists key' sg',
          PyDict.get (student_guardians (gen_reg st)) key' = Some sg'
          /\ StudentGuardian.student_id sg' = StudentGuardian.student_id sg).
Proof.
  intros Hok st.
  destruct (generate_fold_ok draws students (mkGenState reg [] []) Hok)
    as (Hok' & (_ & _ & _ & (rs & Hrs & Hrows) & Hkeep) & Hall).
  fold (generate_guardians_for_students students draws reg) in Hok', Hrs,
    Hkeep, Hall.
  fold st in Hok', Hrs, Hkeep, Hall.
  cbn [gen_reg new_student_guardians app] in *.
  pose proof Hok' as (_ & Hws' & _ & _ & _ & Hclosed').
  split; [|split; [|split]].
  - intros s Hs. destruct (Hall s Hs) as (key & sg & Hin & Heq).
    exists key, sg. split; [by apply elem_get_Some | done].
  - intros key sg Hg. apply get_Some_elem in Hg.
    destruct (Hclosed' key sg Hg) as [H|H]; [left|right];
      by apply get_Some_keys.
  - rewrite Hrs. exact Hrows.
  - intros key sg Hg. apply get_Some_elem in Hg.
    destruct (Hkeep key sg Hg) as (key' & sg' & Hin & Heq).
    exists key', sg'. split; [by apply elem_get_Some | done].
Qed.

Lemma every_student_has_guardian_witness :
  exists key sg,
    PyDict.get (student_guardians siblings_registry) key = Some sg
    /\ StudentGuardian.student_id sg = Student.student_id sibling_b.
Proof.
  destruct (every_student_has_guardian [sibling_a; sibling_b] two_parent_draws
              GuardianRegistry_init guardian_init_ok) as (Hall & _).
  apply (Hall sibling_b). apply elem_of_cons. right. apply elem_of_cons. by left.
Defined.

Lemma filter_values_del {K V} `{EqDecision K} (P : V -> Prop)
    `{forall v, Decision (P v)} (d : list (K * V)) (k : K) :
  (forall v, PyDict.get d k = Some v -> ~ P v) ->
  filter P (PyDict.values (PyDict.del d k)) = filter P (PyDict.values d).
Proof.
  unfold PyDict.values. induction d as [|[k0 v0] d IH]; [done|].
  cbn [PyDict.get PyDict.del]. intros Hk.
  destruct (decide (k = k0)) as [->|Hne].
  - rewrite fmap_cons. cbn [snd]. rewrite filter_cons_False; [done|].
    by apply Hk.
  - rewrite !fmap_cons. cbn [snd].
    destruct (decide (P v0)).
    + rewrite !filter_cons_True by done. f_equal. by apply IH.
    + rewrite !filter_cons_False by done. by apply IH.
Qed.

(** One relationship of the loop of [remove_student_guardians]. *)
Lemma remove_relationship_ok (student_id : Z) (reg : GuardianRegistry)
    (rel : StudentGuardian.t) :
  guardian_registry_ok reg ->
  let reg' := remove_relationship student_id reg rel in
  let k0 := StudentGuardian.guardian_id rel in
  let others k :=
    filter (fun sg => StudentGuardian.guardian_id sg = k
                      /\ StudentGuardian.student_id sg <> student_id)
           (PyDict.values (student_guardians reg)) in
  guardian_registry_ok reg'
  /\ guardian_id_counter reg' = guardian_id_counter reg
  /\ (forall key, key <> IntKey student_id ->
        PyDict.get (student_guardians reg') key
        = PyDict.get (student_guardians reg) key)
  /\ PyDict.get (student_guardians reg') (IntKey student_id) = None
  /\ (forall k,
        filter (fun sg => StudentGuardian.guardian_id sg = k
                          /\ StudentGuardian.student_id sg <> student_id)
               (PyDict.values (student_guardians reg'))
        = others k)
  /\ (forall k,
        (PyDict.get (guardians reg') k = PyDict.get (guardians reg) k
         /\ PyDict.get (transferred_guardians reg') k
            = PyDict.get (transferred_guardians reg) k)
        \/ (k = k0 /\ others k = []
            /\ is_Some (PyDict.get (guardians reg) k)
            /\ PyDict.get (guardians reg') k = None
            /\ PyDict.get (transferred_guardians reg') k
               = PyDict.get (guardians reg) k))
  /\ (others k0 = [] -> PyDict.get (guardians reg') k0 = None).
Proof.
  intros Hok reg' k0 others.
  pose proof Hok as (Hwg & Hws & Hlt & Hltt & Hkeys & Hclosed).
  set (reg1 :=
    match others k0 with
    | [] =>
        match PyDict.get (guardians reg) k0 with
        | Some g =>
            mkGuardianRegistry (PyDict.del (guardians reg) k0)
              (student_guardians reg) (guardian_id_counter reg)
              (PyDict.set (transferred_guardians reg) k0 g)
        | None => reg
        end
    | _ :: _ => reg
    end).
  assert (Hreg' : reg' =
    if PyDict.mem (student_guardians reg1) (IntKey student_id) then
      mkGuardianRegistry (guardians reg1)
        (PyDict.del (student_guardians reg1) (IntKey student_id))
        (guardian_id_counter reg1) (transferred_guardians reg1)
    else reg1) by done.
  assert (Hsg1 : student_guardians reg1 = student_guardians reg).
  { subst reg1. destruct (others k0); [|done].
    by destruct (PyDict.get (guardians reg) k0). }
  assert (Hc1 : guardian_id_counter reg1 = guardian_id_counter reg).
  { subst reg1. destruct (others k0); [|done].
    by destruct (PyDict.get (guardians reg) k0). }
  assert (Hmove : forall k,
        (PyDict.get (guardians reg1) k = PyDict.get (guardians reg) k
         /\ PyDict.get (transferred_guardians reg1) k
            = PyDict.get (transferred_guardians reg) k)
        \/ (k = k0 /\ others k = []
            /\ is_Some (PyDict.get (guardians reg) k)
            /\ PyDict.get (guardians reg1) k = None
            /\ PyDict.get (transferred_guardians reg1) k
               = PyDict.get (guardians reg) k)).
  { intros k. subst reg1. destruct (others k0) eqn:Ho; [|by left].
    destruct (PyDict.get (guardians reg) k0) as [g|] eqn:Hg; [|by left].
    cbn [guardians transferred_guardians].
    destruct (decide (k = k0)) as [->|Hne].
    - right. rewrite Hg, get_del_eq, get_set_eq by done. by eauto.
    - left. by rewrite get_del_ne, get_set_ne by done. }
  assert (Hgone : others k0 = [] -> PyDict.get (guardians reg1) k0 = None).
  { intros Ho. subst reg1. rewrite Ho.
    destruct (PyDict.get (guardians reg) k0) as [g|] eqn:Hg; [|done].
    cbn [guardians]. by apply get_del_eq. }
  assert (Hok1 : PyDict.wf (guardians reg1)
                 /\ (forall k, k ∈ PyDict.keys (guardians reg1) ->
                               k < guardian_id_counter reg)
                 /\ (forall k, k ∈ PyDict.keys (transferred_guardians reg1) ->
                               k < guardian_id_counter reg)
                 /\ (forall key sg, (key, sg) ∈ student_guardians reg ->
                       StudentGuardian.guardian_id sg ∈ PyDict.keys (guardians reg1)
                       \/ StudentGuardian.guardian_id sg
                          ∈ PyDict.keys (transferred_guardians reg1))).
  { subst reg1. destruct (others k0) eqn:Ho; [|done].
    destruct (PyDict.get (guardians reg) k0) as [g|] eqn:Hg; [|done].
    cbn [guardians transferred_guardians].
    split; [by apply wf_del|]. split; [|split].
    - intros k Hk. apply Hlt. by eapply keys_del_subseteq.
    - intros k [->|Hk]%keys_set; [|by apply Hltt].
      apply Hlt. apply get_Some_keys. by eexists.
    - intros key sg Hin.
      destruct (decide (StudentGuardian.guardian_id sg = k0)) as [->|Hne].
      + right. apply keys_set. by left.
      + destruct (Hclosed key sg Hin) as [Hk|Hk].
        * left. apply get_Some_keys. rewrite get_del_ne by done.
          by apply get_Some_keys.
        * right. apply keys_set. by right. }
  destruct Hok1 as (Hwg1 & Hlt1 & Hltt1 & Hclosed1).
  assert (Hint : forall v,
            PyDict.get (student_guardians reg) (IntKey student_id) = Some v ->
            StudentGuardian.student_id v = student_id).
  { intros v Hv. apply get_Some_elem in Hv.
    destruct (Hkeys _ _ Hv) as [[= H]|[H|H]]; [done|discriminate H..]. }
  rewrite Hreg'. rewrite Hsg1.
  destruct (PyDict.mem (student_guardians reg) (IntKey student_id)) eqn:Hmem.
  - unfold guardian_registry_ok.
    cbn [guardians student_guardians guardian_id_counter transferred_guardians].
    rewrite Hc1.
    split; [|split; [done|split; [|split; [|split; [|split; [exact Hmove|exact Hgone]]]]]].
    + split; [done|]. split; [by apply wf_del|].
      split; [done|]. split; [done|]. split.
      * intros key sg Hin%elem_of_del. by apply Hkeys.
      * intros key sg Hin%elem_of_del. by apply (Hclosed1 key).
    + intros key Hne. by apply get_del_ne.
    + by apply get_del_eq.
    + intros k. apply filter_values_del. intros v Hv [_ Hne].
      by apply Hne, Hint.
  - apply mem_false in Hmem.
    split; [|split; [done|split; [|split; [|split; [|split; [exact Hmove|exact Hgone]]]]]].
    + unfold guardian_registry_ok. rewrite Hsg1, Hc1. done.
    + intros key _. by rewrite Hsg1.
    + by rewrite Hsg1.
    + intros k. by rewrite Hsg1.
Qed.

Lemma remove_fold_ok (student_id : Z) (rels : list StudentGuardian.t)
    (reg : GuardianRegistry) :
  guardian_registry_ok reg ->
  let reg' := foldl (remove_relationship student_id) reg rels in
  let others k :=
    filter (fun sg => StudentGuardian.guardian_id sg = k
                      /\ StudentGuardian.student_id sg <> student_id)
           (PyDict.values (student_guardians reg)) in
  guardian_registry_ok reg'
  /\ guardian_id_counter reg' = guardian_id_counter reg
  /\ (forall key, key <> IntKey student_id ->
        PyDict.get (student_guardians reg') key
        = PyDict.get (student_guardians reg) key)
  /\ (rels <> [] ->
      PyDict.get (student_guardians reg') (IntKey student_id) = None)
  /\ (forall k,
        filter (fun sg => StudentGuardian.guardian_id sg = k
                          /\ StudentGuardian.student_id sg <> student_id)
               (PyDict.values (student_guardians reg'))
        = others k)
  /\ (forall k,
        (PyDict.get (guardians reg') k = PyDict.get (guardians reg) k
         /\ PyDict.get (transferred_guardians reg') k
            = PyDict.get (transferred_guardians reg) k)
        \/ (k ∈ StudentGuardian.guardian_id <$> rels
            /\ others k = []
            /\ is_Some (PyDict.get (guardians reg) k)
            /\ PyDict.get (guardians reg') k = None
            /\ PyDict.get (transferred_guardians reg') k
               = PyDict.get (guardians reg) k))
  /\ (forall k, k ∈ StudentGuardian.guardian_id <$> rels -> others k = [] ->
        PyDict.get (guardians reg') k = None).
Proof.
  revert reg. induction rels as [|rel rels IH]; intros reg Hok.
  - cbn [foldl]. split; [done|]. split; [done|]. split; [done|].
    split; [done|]. split; [done|]. split; [by left|].
    by intros k ?%elem_of_nil.
  - cbn [foldl]. cbv zeta.
    destruct (remove_relationship_ok student_id reg rel Hok)
      as (Hok1 & Hc1 & Hkeep1 & Hint1 & Hoth1 & Hmove1 & Hgone1).
    destruct (IH _ Hok1) as (Hok' & Hc' & Hkeep' & Hint' & Hoth' & Hmove' & Hgone').
    clear IH.
    set (reg1 := remove_relationship student_id reg rel) in *.
    set (reg' := foldl (remove_relationship student_id) reg1 rels) in *.
    split; [done|]. split; [congruence|].
    split; [intros key Hne; by rewrite Hkeep', Hkeep1|].
    split.
    { intros _. destruct rels as [|rel' rels]; [exact Hint1|].
      by apply Hint'. }
    split; [intros k; by rewrite Hoth', Hoth1|].
    assert (Hfinal : forall k,
        (PyDict.get (guardians reg') k = PyDict.get (guardians reg) k
         /\ PyDict.get (transferred_guardians reg') k
            = PyDict.get (transferred_guardians reg) k)
        \/ (k ∈ StudentGuardian.guardian_id <$> rel :: rels
            /\ filter (fun sg => StudentGuardian.guardian_id sg = k
                          /\ StudentGuardian.student_id sg <> student_id)
                 (PyDict.values (student_guardians reg)) = []
            /\ is_Some (PyDict.get (guardians reg) k)
            /\ PyDict.get (guardians reg') k = None
            /\ PyDict.get (transferred_guardians reg') k
               = PyDict.get (guardians reg) k)).
    { intros k. rewrite fmap_cons.
      destruct (Hmove1 k) as [[Hg1 Ht1]|(Hk & Ho & Hs & Hg1 & Ht1)];
        destruct (Hmove' k) as [[Hg' Ht']|(Hk' & Ho' & Hs' & Hg' & Ht')].
      - left. split; congruence.
      - right. rewrite Hoth1 in Ho'. rewrite Hg1 in Hs', Ht'.
        split; [apply elem_of_cons; auto|]. done.
      - right. split; [apply elem_of_cons; auto|].
        split; [done|]. split; [done|]. split; congruence.
      - rewrite Hg1 in Hs'. by destruct Hs'. }
    split; [exact Hfinal|].
    intros k Hk Ho. rewrite fmap_cons in Hk.
    assert (Hnone1 : k ∈ StudentGuardian.guardian_id <$> rels
                     \/ PyDict.get (guardians reg1) k = None).
    { apply elem_of_cons in Hk as [->|Hk]; [right; by apply Hgone1 | by left]. }
    destruct Hnone1 as [Hin|Hnone1].
    + apply Hgone'; [done|]. by rewrite Hoth1.
    + destruct (Hmove' k) as [[Hg' _]|(_ & _ & _ & Hg' & _)]; congruence.
Qed.

(** X12.  [remove_student_guardians] on a registry the program has
    built.  A guardian is taken out of [guardians] only if one of the
    student's rows names the guardian and no row of another student
    does, and is then kept, unchanged, in [transferred_guardians]; every
    such guardian of the student is taken out; all other guardians stay
    as they are.  Of the relationship rows only the one filed under the
    student's integer id is deleted: every other key keeps its row.
    The id counter does not move and the registry stays well formed. *)
Theorem remove_student_guardians_spec (student_id : Z) (reg : GuardianRegistry) :
  guardian_registry_ok reg ->
  let reg' := remove_student_guardians student_id reg in
  let mine :=
    filter (fun sg => StudentGuardian.student_id sg = student_id)
           (PyDict.values (student_guardians reg)) in
  let others k :=
    filter (fun sg => StudentGuardian.guardian_id sg = k
                      /\ StudentGuardian.student_id sg <> student_id)
           (PyDict.values (student_guardians reg)) in
  guardian_registry_ok reg'
  /\ guardian_id_counter reg' = guardian_id_counter reg
  /\ (forall key, key <> IntKey student_id ->
        PyDict.get (student_guardians reg') key
        = PyDict.get (student_guardians reg) key)
  /\ PyDict.get (student_guardians reg') (IntKey student_id) = None
  /\ (forall k,
        (PyDict.get (guardians reg') k = PyDict.get (guardians reg) k
         /\ PyDict.get (transferred_guardians reg') k
            = PyDict.get (transferred_guardians reg) k)
        \/ (k ∈ StudentGuardian.guardian_id <$> mine
            /\ others k = []
            /\ is_Some (PyDict.get (guardians reg) k)
            /\ PyDict.get (guardians reg') k = None
            /\ PyDict.get (transferred_guardians reg') k
               = PyDict.get (guardians reg) k))
  /\ (forall k, k ∈ StudentGuardian.guardian_id <$> mine -> others k = [] ->
        PyDict.get (guardians reg') k = None).
Proof.
  intros Hok reg' mine others.
  destruct (remove_fold_ok student_id mine reg Hok)
    as (Hok' & Hc' & Hkeep' & Hint' & _ & Hmove' & Hgone').
  fold (remove_student_guardians student_id reg) in Hok', Hc', Hkeep', Hint',
    Hmove', Hgone'.
  fold reg' in Hok', Hc', Hkeep', Hint', Hmove', Hgone'.
  split; [done|]. split; [done|]. split; [done|].
  split; [|split; [exact Hmove' | exact Hgone']].
  destruct (decide (mine = [])) as [Hmine|Hmine]; [|by apply Hint'].
  assert (Hreg' : reg' = foldl (remove_relationship student_id) reg mine)
    by done.
  rewrite Hreg', Hmine. cbn [foldl].
  destruct (PyDict.get (student_guardians reg) (IntKey student_id))
    as [sg|] eqn:Hsg; [|done].
  exfalso. pose proof Hok as (_ & _ & _ & _ & Hkeys & _).
  assert (Hin : sg ∈ mine).
  { apply list_elem_of_filter. split.
    - apply get_Some_elem in Hsg.
      destruct (Hkeys _ _ Hsg) as [[= H]|[H|H]]; [done|discriminate H..].
    - apply list_elem_of_fmap. exists (IntKey student_id, sg).
      split; [done | by apply get_Some_elem]. }
  rewrite Hmine in Hin. by apply elem_of_nil in Hin.
Qed.

Lemma remove_student_guardians_spec_witness :
  PyDict.get (student_guardians (remove_student_guardians 4 siblings_registry))
    (IntKey 4) = None.
Proof.
  assert (Hok : guardian_registry_ok siblings_registry).
  { apply (generate_fold_ok two_parent_draws [sibling_a; sibling_b]
             (mkGenState GuardianRegistry_init [] []) guardian_init_ok). }
  by destruct (remove_student_guardians_spec 4 siblings_registry Hok)
    as (_ & _ & _ & Hnone & _).
Defined.

(** ** The school-day calendar *)

Lemma make_Some (y m d : Z) (x : PyDate.date) :
  PyDate.make y m d = Some x ->
  x = PyDate.mkDate y m d
  /\ 1 <= y <= 9999 /\ 1 <= m <= 12 /\ 1 <= d <= PyDate.days_in_month y m.
Proof.
  unfold PyDate.make.
  destruct (_ && _) eqn:E; [|done]. intros [= <-].
  repeat (apply andb_prop in E as [E ?]).
  split; [done|]. lia.
Qed.

Lemma make_fixed (y m d : Z) :
  1 <= y <= 9999 -> 1 <= m <= 12 -> 1 <= d <= 28 ->
  PyDate.make y m d = Some (PyDate.mkDate y m d).
Proof.
  intros Hy Hm Hd. unfold PyDate.make.
  assert (Hdim : 28 <= PyDate.days_in_month y m).
  { unfold PyDate.days_in_month.
    destruct (m =? 2); [destruct (PyDate.is_leap y); lia|].
    destruct (_ || _); lia. }
  replace (_ && _) with true; [done|]. symmetry.
  repeat (apply andb_true_intro; split); lia.
Qed.

Lemma is_holiday_facts (y m d : Z) (x : PyDate.date) :
  PyDate.make y m d = Some x ->
  (y < 9999 ->
   Calendar._is_holiday x
   = Some (((m =? 11) && (25 <=? d) && (d <=? 29))
           || ((m =? 12) && (23 <=? d))))
  /\ (y = 9999 -> Calendar._is_holiday x = None).
Proof.
  intros (-> & Hy & Hm & Hd)%make_Some.
  unfold Calendar._is_holiday, Calendar.holiday_periods.
  cbn [PyDate.year]. split.
  - intros Hlt.
    rewrite (make_fixed y 11 25), (make_fixed y 12 23),
      (make_fixed (y + 1) 1 3), (make_fixed (y + 1) 3 15),
      (make_fixed (y + 1) 3 22) by lia.
    assert (H1129 : PyDate.make y 11 29 = Some (PyDate.mkDate y 11 29)).
    { unfold PyDate.make, PyDate.days_in_month. cbn.
      replace (_ && _) with true; [done|]. symmetry.
      repeat (apply andb_true_intro; split); lia. }
    rewrite H1129. cbn [mbind option_bind existsb fst snd]. f_equal.
    unfold PyDate.le. cbn [PyDate.year PyDate.month PyDate.day].
    rewrite Z.ltb_irrefl, Z.eqb_refl.
    replace (y + 1 <? y) with false by (symmetry; apply Z.ltb_ge; lia).
    replace (y + 1 =? y) with false by (symmetry; apply Z.eqb_neq; lia).
    replace (y <? y + 1) with true by (symmetry; apply Z.ltb_lt; lia).
    cbn [orb andb].
    destruct (Z.eqb_spec m 11) as [->|H11].
    + cbn. reflexivity.
    + destruct (Z.eqb_spec m 12) as [->|H12].
      * cbn. by rewrite andb_true_r, orb_false_r.
      * replace (12 <? m) with false by (symmetry; apply Z.ltb_ge; lia).
        replace (12 =? m) with false by (symmetry; apply Z.eqb_neq; lia).
        replace (11 =? m) with false by (symmetry; apply Z.eqb_neq; lia).
        cbn [orb andb].
        destruct (11 <? m) eqn:E1; [|done].
        replace (m <? 11) with false by (symmetry; apply Z.ltb_ge; lia).
        done.
  - intros ->.
    rewrite (make_fixed 9999 11 25), (make_fixed 9999 12 23) by lia.
    reflexivity.
Qed.

(** X13.  [_is_holiday] builds its three periods from the year of the
    date it checks, so for a date of the years 1 to 9998 it answers
    [True] exactly from 25 to 29 November and from 23 to 31 December:
    the January days of the winter break and the spring break of March
    are never holidays.  For a date of the year 9999 the periods cannot
    be built ([ValueError]). *)
Theorem is_holiday_spec (y m d : Z) (x : PyDate.date) :
  PyDate.make y m d = Some x ->
  (y < 9999 ->
   Calendar._is_holiday x
   = Some (((m =? 11) && (25 <=? d) && (d <=? 29))
           || ((m =? 12) && (23 <=? d))))
  /\ (y < 9999 -> m <= 10 -> Calendar._is_holiday x = Some false)
  /\ (y = 9999 -> Calendar._is_holiday x = None).
Proof.
  intros Hx. destruct (is_holiday_facts y m d x Hx) as [Hh Hraise].
  split; [exact Hh|]. split; [|exact Hraise].
  intros Hy Hm. rewrite Hh by done.
  replace (m =? 11) with false by (symmetry; apply Z.eqb_neq; lia).
  replace (m =? 12) with false by (symmetry; apply Z.eqb_neq; lia).
  done.
Qed.

Lemma is_holiday_spec_witness :
  Calendar._is_holiday (PyDate.mkDate 2017 3 16) = Some false.
Proof.
  destruct (is_holiday_spec 2017 3 16 (PyDate.mkDate 2017 3 16) eq_refl)
    as (_ & H & _).
  apply H; lia.
Defined.

Lemma date_le_trans (a b c : PyDate.date) :
  PyDate.le a b = true -> PyDate.le b c = true -> PyDate.le a c = true.
Proof.
  unfold PyDate.le. destruct a as [ya ma da], b as [yb mb db], c as [yc mc dc].
  cbn [PyDate.year PyDate.month PyDate.day]. intros Hab Hbc.
  apply orb_prop in Hab. apply orb_prop in Hbc. apply orb_true_iff.
  rewrite andb_true_iff, orb_true_iff, andb_true_iff in *.
  rewrite !Z.ltb_lt, !Z.eqb_eq, !Z.leb_le in *. lia.
Qed.

Lemma date_le_next_day (d : PyDate.date) :
  PyDate.le d (PyDate.next_day d) = true.
Proof.
  unfold PyDate.next_day, PyDate.le. destruct d as [y m dd].
  cbn [PyDate.year PyDate.month PyDate.day].
  destruct (dd <? PyDate.days_in_month y m);
    [|destruct (Z.ltb_spec m 12)];
    cbn [PyDate.year PyDate.month PyDate.day];
    apply orb_true_iff;
    rewrite andb_true_iff, orb_true_iff, andb_true_iff;
    rewrite !Z.ltb_lt, !Z.eqb_eq, !Z.leb_le; lia.
Qed.

(** One day of either loop: what is appended, if anything. *)
Lemma school_day_step (cur : PyDate.date) (acc acc' : list string) :
  (if PyDate.weekday cur <? 5 then
     h ← Calendar._is_holiday cur;
     Some (if h : bool then acc else acc ++ [PyDate.strftime cur])
   else Some acc) = Some acc' ->
  acc' = acc
  \/ (acc' = acc ++ [PyDate.strftime cur]
      /\ PyDate.weekday cur < 5
      /\ Calendar._is_holiday cur = Some false).
Proof.
  destruct (Z.ltb_spec (PyDate.weekday cur) 5) as [Hw|Hw];
    [|intros [= <-]; by left].
  destruct (Calendar._is_holiday cur) as [[|]|]; cbn; [| |done].
  - intros [= <-]. by left.
  - intros [= <-]. by right.
Qed.

Lemma school_days_loop_inv (start end_date : PyDate.date) (fuel : nat)
    (cur : PyDate.date) (acc out : list string) :
  Calendar.school_days_loop fuel cur end_date acc = Some out ->
  PyDate.le start cur = true ->
  exists new,
    out = acc ++ new
    /\ (length out <= Nat.max 180 (length acc))%nat
    /\ Forall (fun s => exists d,
                 s = PyDate.strftime d
                 /\ PyDate.weekday d < 5
                 /\ Calendar._is_holiday d = Some false
                 /\ PyDate.le start d = true
                 /\ PyDate.le d end_date = true) new.
Proof.
  revert cur acc. induction fuel as [|fuel IH]; intros cur acc Hloop Hstart.
  - cbn [Calendar.school_days_loop] in Hloop.
    destruct (_ && _); [done|]. injection Hloop as <-.
    exists []. rewrite app_nil_r. split; [done|]. split; [lia | constructor].
  - cbn [Calendar.school_days_loop] in Hloop.
    destruct (PyDate.le cur end_date && (length acc <? 180)%nat) eqn:Hc.
    2:{ injection Hloop as <-. exists []. rewrite app_nil_r.
        split; [done|]. split; [lia | constructor]. }
    apply andb_prop in Hc as [Hle Hlen]. apply Nat.ltb_lt in Hlen.
    destruct (if PyDate.weekday cur <? 5 then _ else _) as [acc'|] eqn:Hstep;
      [|done].
    cbn [mbind option_bind] in Hloop.
    destruct (IH (PyDate.next_day cur) acc' Hloop) as (new & -> & Hlen' & Hall).
    { eapply date_le_trans; [exact Hstart | apply date_le_next_day]. }
    apply school_day_step in Hstep as [->|(-> & Hw & Hh)].
    + exists new. split; [done|]. split; [lia | done].
    + exists (PyDate.strftime cur :: new). rewrite <- app_assoc.
      split; [done|]. rewrite !length_app in Hlen'. cbn [length] in Hlen'.
      cbn [app]. rewrite length_app. cbn [length].
      split; [lia|]. constructor; [|done]. by exists cur.
Qed.

Lemma school_days_loop_all_prefix (fuel : nat) (cur end_date : PyDate.date)
    (acc out : list string) :
  Calendar.school_days_loop_all fuel cur end_date acc = Some out ->
  exists new, out = acc ++ new.
Proof.
  revert cur acc. induction fuel as [|fuel IH]; intros cur acc Hloop.
  - cbn [Calendar.school_days_loop_all] in Hloop.
    destruct (PyDate.le cur end_date); [done|]. injection Hloop as <-.
    exists []. by rewrite app_nil_r.
  - cbn [Calendar.school_days_loop_all] in Hloop.
    destruct (PyDate.le cur end_date).
    2:{ injection Hloop as <-. exists []. by rewrite app_nil_r. }
    destruct (if PyDate.weekday cur <? 5 then _ else _) as [acc'|] eqn:Hstep;
      [|done].
    cbn [mbind option_bind] in Hloop.
    destruct (IH _ _ Hloop) as (new & ->).
    apply school_day_step in Hstep as [->|(-> & _)].
    + by exists new.
    + exists (PyDate.strftime cur :: new). by rewrite <- app_assoc.
Qed.

(** Cutting the list at 180 afterwards gives what the capped loop
    gives. *)
Lemma school_days_loops_agree (fuel : nat) (cur end_date : PyDate.date)
    (acc out : list string) :
  Calendar.school_days_loop_all fuel cur end_date acc = Some out ->
  (length acc <= 180)%nat ->
  Calendar.school_days_loop fuel cur end_date acc = Some (take 180 out).
Proof.
  revert cur acc. induction fuel as [|fuel IH]; intros cur acc Hloop Hlen.
  - cbn [Calendar.school_days_loop_all] in Hloop.
    cbn [Calendar.school_days_loop].
    destruct (PyDate.le cur end_date); [done|]. injection Hloop as <-.
    cbn [andb]. by rewrite take_ge by lia.
  - pose proof (school_days_loop_all_prefix _ _ _ _ _ Hloop) as (new & Hout).
    cbn [Calendar.school_days_loop_all] in Hloop.
    cbn [Calendar.school_days_loop].
    destruct (PyDate.le cur end_date).
    2:{ injection Hloop as <-. cbn [andb]. by rewrite take_ge by lia. }
    cbn [andb].
    destruct (Nat.ltb_spec (length acc) 180) as [Hlt|Hge].
    2:{ rewrite Hout. rewrite take_app_le by lia. by rewrite take_ge by lia. }
    destruct (if PyDate.weekday cur <? 5 then _ else _) as [acc'|] eqn:Hstep;
      [|done].
    cbn [mbind option_bind] in *. apply IH; [done|].
    apply school_day_step in Hstep as [->|(-> & _)]; [lia|].
    rewrite length_app. simpl. lia.
Qed.

(** X14.  The calendars of the two generators agree: whenever the loop
    of [decade_generator._get_school_days], which runs to the end date
    and cuts the list at 180 afterwards, gives a list, the loop of
    [complete_decade_generator._get_school_days], which stops at 180
    days, gives the same list. *)
Theorem school_days_agree (year : Z) (school_days : list string) :
  Calendar._get_school_days_truncating year = Some school_days ->
  Calendar._get_school_days year = Some school_days.
Proof.
  unfold Calendar._get_school_days_truncating, Calendar._get_school_days.
  destruct (PyDate.make year 8 26) as [start_date|]; [|done].
  destruct (PyDate.make (year + 1) 6 6) as [end_date|]; [|done].
  cbn [mbind option_bind].
  destruct (Calendar.school_days_loop_all 366 start_date end_date [])
    as [out|] eqn:Hall; [|done].
  intros [= <-]. apply school_days_loops_agree; [done | simpl; lia].
Qed.

Lemma school_days_agree_witness :
  exists school_days,
    Calendar._get_school_days 2016 = Some school_days
    /\ length school_days = 180%nat.
Proof.
  destruct (configured_calendar 2016) as (days & _ & Htr & Hlen & _).
  { vm_compute. by eexists. }
  exists days. split; [|exact Hlen].
  apply (school_days_agree 2016 days). exact Htr.
Defined.

(** X15.  The school days of a configured year: [_get_school_days]
    returns 180 distinct days, each the ISO form of a weekday between
    26 August and 6 June of the next year for which [_is_holiday]
    answers [False]. *)
Theorem school_days_spec (year : Z) :
  is_Some (PyDict.get year_configs year) ->
  exists school_days,
    Calendar._get_school_days year = Some school_days
    /\ length school_days = 180%nat
    /\ NoDup school_days
    /\ forall s, s ∈ school_days ->
         exists d,
           s = PyDate.strftime d
           /\ PyDate.weekday d < 5
           /\ Calendar._is_holiday d = Some false
           /\ PyDate.le (PyDate.mkDate year 8 26) d = true
           /\ PyDate.le d (PyDate.mkDate (year + 1) 6 6) = true.
Proof.
  intros Hy. destruct (configured_calendar year Hy) as (days & Hcal & _ & Hlen & Hnd).
  exists days. split; [done|]. split; [done|]. split; [done|].
  unfold Calendar._get_school_days in Hcal.
  destruct (PyDate.make year 8 26) as [start_date|] eqn:Hs; [|done].
  destruct (PyDate.make (year + 1) 6 6) as [end_date|] eqn:He; [|done].
  apply make_Some in Hs as [-> _]. apply make_Some in He as [-> _].
  cbn [mbind option_bind] in Hcal.
  destruct (school_days_loop_inv (PyDate.mkDate year 8 26) _ _ _ _ _ Hcal)
    as (new & Hout & _ & Hall).
  { unfold PyDate.le. cbn. by rewrite Z.ltb_irrefl, Z.eqb_refl. }
  cbn [app] in Hout. subst new. rewrite Forall_forall in Hall. exact Hall.
Qed.

Lemma school_days_spec_witness :
  exists school_days,
    Calendar._get_school_days 2020 = Some school_days
    /\ NoDup school_days.
Proof.
  destruct (school_days_spec 2020) as (days & Hcal & _ & Hnd & _).
  { vm_compute. by eexists. }
  exists days. split; [exact Hcal | exact Hnd].
Defined.

(** ** CurriculumManager *)

Lemma rename_first_keys (d d' : dict Z Subject.t) (old_name new_name : string) :
  rename_first d old_name new_name = Some d' -> PyDict.keys d' = PyDict.keys d.
Proof.
  revert d'. induction d as [|[k s] d IH]; intros d'; [done|].
  cbn [rename_first]. destruct (decide (Subject.name s = old_name)).
  - by intros [= <-].
  - destruct (rename_first d old_name new_name) as [r|]; [|done].
    intros [= <-]. unfold PyDict.keys in *. rewrite !fmap_cons.
    f_equal. by apply IH.
Qed.

(** A renaming changes the name of one subject and nothing else. *)
Lemma rename_first_get (d d' : dict Z Subject.t) (old_name new_name : string)
    (k : Z) :
  rename_first d old_name new_name = Some d' ->
  match PyDict.get d k, PyDict.get d' k with
  | Some s, Some s' =>
      s' = Subject.with_name s (Subject.name s')
      /\ (Subject.name s' = Subject.name s
          \/ (Subject.name s = old_name /\ Subject.name s' = new_name))
  | None, None => True
  | _, _ => False
  end.
Proof.
  revert d'. induction d as [|[k0 s0] d IH]; intros d'; [done|].
  cbn [rename_first]. destruct (decide (Subject.name s0 = old_name)) as [Hn|Hn].
  - intros [= <-]. cbn [PyDict.get]. destruct (decide (k = k0)).
    + split; [done|]. right. done.
    + destruct (PyDict.get d k) as [s|]; [|done].
      split; [by destruct s | by left].
  - destruct (rename_first d old_name new_name) as [r|]; [|done].
    intros [= <-]. cbn [PyDict.get]. destruct (decide (k = k0)).
    + split; [by destruct s0 | by left].
    + by apply IH.
Qed.

Lemma rename_first_None (d : dict Z Subject.t) (old_name new_name : string) :
  rename_first d old_name new_name = None
  <-> Forall (fun s => Subject.name s <> old_name) (PyDict.values d).
Proof.
  unfold PyDict.values. induction d as [|[k s] d IH]; [by split|].
  cbn [rename_first]. rewrite fmap_cons, Forall_cons. cbn [snd].
  destruct (decide (Subject.name s = old_name)) as [Hn|Hn].
  - split; [done | by intros [? _]].
  - rewrite <- IH. destruct (rename_first d old_name new_name); cbn.
    + split; [done | by intros [_ ?]].
    + split; [done | by intros [_ ?]].
Qed.

(** The first subject of the name is the one renamed. *)
Lemma rename_first_Some (d d' : dict Z Subject.t) (old_name new_name : string) :
  rename_first d old_name new_name = Some d' ->
  exists pre k s post,
    d = pre ++ (k, s) :: post
    /\ Forall (fun s0 => Subject.name s0 <> old_name) (PyDict.values pre)
    /\ Subject.name s = old_name
    /\ d' = pre ++ (k, Subject.with_name s new_name) :: post.
Proof.
  revert d'. induction d as [|[k s] d IH]; intros d'; [done|].
  cbn [rename_first]. destruct (decide (Subject.name s = old_name)) as [Hn|Hn].
  - intros [= <-]. exists [], k, s, d.
    split; [done|]. split; [constructor|]. done.
  - destruct (rename_first d old_name new_name) as [r|]; [|done].
    intros [= <-]. destruct (IH r eq_refl) as (pre & k' & s' & post & -> & Hp & Hs & ->).
    exists ((k, s) :: pre), k', s', post. split; [done|]. split; [|done].
    unfold PyDict.values. rewrite fmap_cons. by constructor.
Qed.

(** What [_add_subject] does to a curriculum the program has built. *)
Lemma add_subject_eq (now_year : Z) (name : string) (department_id : Z)
    (reason : string) (cm : CurriculumManager) :
  curriculum_ok cm ->
  _add_subject now_year name department_id reason cm
  = (mkCurriculumManager
       (active_subjects cm
        ++ [(subject_id_counter cm,
             Subject.mk (subject_id_counter cm) name department_id now_year false)])
       (historical_subjects cm) (subject_id_counter cm + 1),
     "Added: " +:+ name +:+ " (" +:+ reason +:+ ")")
  /\ curriculum_ok (_add_subject now_year name department_id reason cm).1.
Proof.
  intros [Hwf Hlt]. unfold _add_subject. cbv zeta.
  assert (Hfresh : PyDict.get (active_subjects cm) (subject_id_counter cm) = None).
  { apply get_None_keys. intros Hin. apply Hlt in Hin. lia. }
  split; [by rewrite set_fresh|].
  split; cbn [fst active_subjects subject_id_counter].
  - by apply wf_set.
  - intros k [->|Hk]%keys_set; [lia|]. apply Hlt in Hk. lia.
Qed.

Lemma appended_subjects_facts (now_year : Z) (cm : CurriculumManager)
    (news : dict Z Subject.t) :
  curriculum_ok cm ->
  PyDict.keys news = seqZ (subject_id_counter cm) (Z.of_nat (length news)) ->
  Forall (fun it => Subject.subject_id it.2 = it.1
                    /\ Subject.introduced_year it.2 = now_year
                    /\ Subject.is_core it.2 = false) news ->
  (forall k s, PyDict.get (active_subjects cm) k = Some s ->
               PyDict.get (active_subjects cm ++ news) k = Some s)
  /\ (forall k s', subject_id_counter cm <= k ->
        PyDict.get (active_subjects cm ++ news) k = Some s' ->
        Subject.subject_id s' = k
        /\ Subject.introduced_year s' = now_year
        /\ Subject.is_core s' = false).
Proof.
  intros [Hwf Hlt] Hkeys Hnew. split.
  - intros k s Hg. by rewrite get_app, Hg.
  - intros k s' Hk. rewrite get_app.
    destruct (PyDict.get (active_subjects cm) k) eqn:Hg.
    { assert (k < subject_id_counter cm); [|lia].
      apply Hlt, get_Some_keys. by eexists. }
    intros Hin%get_Some_elem. rewrite Forall_forall in Hnew.
    apply (Hnew (k, s') Hin).
Qed.

Lemma two_adds_facts (now_year : Z) (n1 n2 : string) (d1 d2 : Z)
    (r1 r2 : string) (cm : CurriculumManager) :
  curriculum_ok cm ->
  let res := two_changes (_add_subject now_year n1 d1 r1)
               (_add_subject now_year n2 d2 r2) cm in
  curriculum_ok res.1
  /\ PyDict.keys (active_subjects res.1)
     = PyDict.keys (active_subjects cm) ++ seqZ (subject_id_counter cm) 2
  /\ subject_id_counter res.1 = subject_id_counter cm + 2
  /\ historical_subjects res.1 = historical_subjects cm
  /\ length res.2 = 2%nat
  /\ (forall k s, PyDict.get (active_subjects cm) k = Some s ->
                  PyDict.get (active_subjects res.1) k = Some s)
  /\ (forall k s', subject_id_counter cm <= k ->
        PyDict.get (active_subjects res.1) k = Some s' ->
        Subject.subject_id s' = k
        /\ Subject.introduced_year s' = now_year
        /\ Subject.is_core s' = false).
Proof.
  intros Hok res. subst res. unfold two_changes.
  destruct (add_subject_eq now_year n1 d1 r1 cm Hok) as [-> Hok1].
  cbn [fst] in Hok1.
  destruct (add_subject_eq now_year n2 d2 r2 _ Hok1) as [-> Hok2].
  cbn [fst snd active_subjects subject_id_counter historical_subjects] in *.
  rewrite <- app_assoc in *. cbn [app] in *.
  set (news := [(subject_id_counter cm, _); (subject_id_counter cm + 1, _)]) in *.
  assert (Hkn : PyDict.keys news
                = seqZ (subject_id_counter cm) (Z.of_nat (length news))).
  { subst news. unfold PyDict.keys, seqZ. rewrite Nat2Z.id.
    cbn [length seq fmap list_fmap fst]. repeat (f_equal; try lia). }
  destruct (appended_subjects_facts now_year cm news Hok Hkn) as [Hold Hnew].
  { subst news. repeat constructor. }
  split; [done|]. split.
  { unfold PyDict.keys in *. rewrite fmap_app. f_equal; try exact Hkn. }
  split; [lia|]. done.
Qed.

Lemma evolve_2016_facts (now_year : Z) (cm : CurriculumManager) :
  curriculum_ok cm ->
  let res := two_changes
      (_add_subject now_year "Digital Literacy" 7 "Technology integration begins")
      (_modify_subject "Old World History" "World History"
         "Curriculum consolidation") cm in
  curriculum_ok res.1
  /\ PyDict.keys (active_subjects res.1)
     = PyDict.keys (active_subjects cm) ++ seqZ (subject_id_counter cm) 1
  /\ subject_id_counter res.1 = subject_id_counter cm + 1
  /\ historical_subjects res.1 = historical_subjects cm
  /\ length res.2 = 2%nat
  /\ (forall k s, PyDict.get (active_subjects cm) k = Some s ->
        exists s',
          PyDict.get (active_subjects res.1) k = Some s'
          /\ s' = Subject.with_name s (Subject.name s')
          /\ (Subject.name s' = Subject.name s
              \/ (Subject.name s = "Old World History"
                  /\ Subject.name s' = "World History")))
  /\ (forall k s', subject_id_counter cm <= k ->
        PyDict.get (active_subjects res.1) k = Some s' ->
        Subject.subject_id s' = k
        /\ Subject.introduced_year s' = now_year
        /\ Subject.is_core s' = false).
Proof.
  intros Hok res. subst res. unfold two_changes.
  destruct (add_subject_eq now_year "Digital Literacy" 7
              "Technology integration begins" cm Hok) as [-> Hok1].
  cbn [fst] in Hok1.
  set (news := [(subject_id_counter cm,
                 Subject.mk (subject_id_counter cm) "Digital Literacy" 7
                   now_year false)]) in *.
  assert (Hkn : PyDict.keys news
                = seqZ (subject_id_counter cm) (Z.of_nat (length news))).
  { subst news. unfold PyDict.keys, seqZ. rewrite Nat2Z.id.
    cbn [length seq fmap list_fmap fst]. repeat (f_equal; try lia). }
  destruct (appended_subjects_facts now_year cm news Hok Hkn) as [Hold Hnew].
  { subst news. repeat constructor. }
  unfold _modify_subject. cbn [active_subjects historical_subjects
                               subject_id_counter].
  destruct (rename_first (active_subjects cm ++ news) _ _) as [d'|] eqn:Hr.
  - cbn [fst snd active_subjects subject_id_counter historical_subjects].
    pose proof (rename_first_keys _ _ _ _ Hr) as Hkeys.
    split; [|split; [|split; [done|split; [done|split; [done|split]]]]].
    + destruct Hok1 as [Hwf1 Hlt1].
      cbn [active_subjects subject_id_counter] in Hwf1, Hlt1.
      split; cbn [active_subjects subject_id_counter].
      * unfold PyDict.wf. by rewrite Hkeys.
      * intros k Hk. rewrite Hkeys in Hk. by apply Hlt1.
    + rewrite Hkeys. unfold PyDict.keys in *. rewrite fmap_app.
      f_equal; try exact Hkn.
    + intros k s Hg. pose proof (rename_first_get _ _ _ _ k Hr) as Hrel.
      rewrite (Hold k s Hg) in Hrel.
      destruct (PyDict.get d' k) as [s'|]; [|done]. by exists s'.
    + intros k s' Hk Hg. pose proof (rename_first_get _ _ _ _ k Hr) as Hrel.
      rewrite Hg in Hrel.
      destruct (PyDict.get (active_subjects cm ++ news) k) as [s|] eqn:Hgs;
        [|done].
      destruct (Hnew k s Hk Hgs) as (Hid & Hy & Hc).
      destruct Hrel as [-> _]. done.
  - cbn [fst snd active_subjects subject_id_counter historical_subjects].
    split; [done|]. split.
    { unfold PyDict.keys in *. rewrite fmap_app. f_equal; try exact Hkn. }
    split; [done|]. split; [done|]. split; [done|]. split; [|done].
    intros k s Hg. exists s. split; [by apply Hold|].
    split; [by destruct s | by left].
Qed.

(** X16.  [evolve_curriculum] on a curriculum the program has built.
    It adds one subject in 2016, two in 2017, 2019, 2022 and 2023 and
    none in any other year, under the next ids; it reports two changes
    in each of those five years, whether or not the subject to rename
    in 2016 was found.  A subject there was keeps its id, department,
    year and core flag, and its name unless it is an ["Old World
    History"] in 2016; a new subject is not core and carries the year
    of the wall clock, not the school year.  [historical_subjects] is
    never written. *)
Theorem evolve_curriculum_spec (now_year year : Z) (cm : CurriculumManager) :
  curriculum_ok cm ->
  let cm' := (evolve_curriculum now_year year cm).1 in
  let changes := (evolve_curriculum now_year year cm).2 in
  curriculum_ok cm'
  /\ PyDict.keys (active_subjects cm')
     = PyDict.keys (active_subjects cm)
       ++ seqZ (subject_id_counter cm) (subjects_added year)
  /\ subject_id_counter cm' = subject_id_counter cm + subjects_added year
  /\ historical_subjects cm' = historical_subjects cm
  /\ length changes
     = (if decide (year ∈ [2016; 2017; 2019; 2022; 2023]) then 2%nat else 0%nat)
  /\ (forall k s, PyDict.get (active_subjects cm) k = Some s ->
        exists s',
          PyDict.get (active_subjects cm') k = Some s'
          /\ s' = Subject.with_name s (Subject.name s')
          /\ (Subject.name s' = Subject.name s
              \/ (year = 2016
                  /\ Subject.name s = "Old World History"
                  /\ Subject.name s' = "World History")))
  /\ (forall k s', subject_id_counter cm <= k ->
        PyDict.get (active_subjects cm') k = Some s' ->
        Subject.subject_id s' = k
        /\ Subject.introduced_year s' = now_year
        /\ Subject.is_core s' = false).
Proof.
  intros Hok cm' changes. subst cm' changes. unfold evolve_curriculum.
  destruct (Z.eqb_spec year 2016) as [->|H16].
  { destruct (evolve_2016_facts now_year cm Hok)
      as (H1 & H2 & H3 & H4 & H5 & H6 & H7).
    split; [done|]. split; [done|]. split; [done|]. split; [done|].
    split; [done|]. split; [|done].
    intros k s Hg. destruct (H6 k s Hg) as (s' & Hg' & Hw & Hn).
    exists s'. split; [done|]. split; [done|].
    destruct Hn as [Hn|Hn]; [by left | by right]. }
  assert (Hadd2 : forall n1 n2 d1 d2 r1 r2,
    year ∈ [2017; 2019; 2022; 2023] ->
    let res := two_changes (_add_subject now_year n1 d1 r1)
                 (_add_subject now_year n2 d2 r2) cm in
    curriculum_ok res.1
    /\ PyDict.keys (active_subjects res.1)
       = PyDict.keys (active_subjects cm)
         ++ seqZ (subject_id_counter cm) (subjects_added year)
    /\ subject_id_counter res.1 = subject_id_counter cm + subjects_added year
    /\ historical_subjects res.1 = historical_subjects cm
    /\ length res.2
       = (if decide (year ∈ [2016; 2017; 2019; 2022; 2023]) then 2%nat else 0%nat)
    /\ (forall k s, PyDict.get (active_subjects cm) k = Some s ->
          exists s',
            PyDict.get (active_subjects res.1) k = Some s'
            /\ s' = Subject.with_name s (Subject.name s')
            /\ (Subject.name s' = Subject.name s
                \/ (year = 2016
                    /\ Subject.name s = "Old World History"
                    /\ Subject.name s' = "World History")))
    /\ (forall k s', subject_id_counter cm <= k ->
          PyDict.get (active_subjects res.1) k = Some s' ->
          Subject.subject_id s' = k
          /\ Subject.introduced_year s' = now_year
          /\ Subject.is_core s' = false)).
  { intros n1 n2 d1 d2 r1 r2 Hy res.
    destruct (two_adds_facts now_year n1 n2 d1 d2 r1 r2 cm Hok)
      as (H1 & H2 & H3 & H4 & H5 & H6 & H7).
    fold res in H1, H2, H3, H4, H5, H6, H7.
    assert (Hn : subjects_added year = 2).
    { unfold subjects_added. rewrite decide_False by done.
      by rewrite decide_True. }
    rewrite Hn.
    split; [done|]. split; [done|]. split; [done|]. split; [done|].
    split; [|split; [|done]].
    - rewrite decide_True; [done|]. apply elem_of_cons. by right.
    - intros k s Hg. exists s. split; [by apply H6|].
      split; [by destruct s | by left]. }
  destruct (Z.eqb_spec year 2017) as [->|H17];
    [apply Hadd2; repeat constructor|].
  destruct (Z.eqb_spec year 2019) as [->|H19];
    [apply Hadd2; repeat constructor|].
  destruct (Z.eqb_spec year 2022) as [->|H22];
    [apply Hadd2; repeat constructor|].
  destruct (Z.eqb_spec year 2023) as [->|H23];
    [apply Hadd2; repeat constructor|].
  cbn [fst snd].
  assert (Hn : subjects_added year = 0).
  { unfold subjects_added. rewrite decide_False by done.
    rewrite decide_False; [done|]. intros Hin.
    repeat (apply elem_of_cons in Hin as [?|Hin]; [lia|]).
    by apply elem_of_nil in Hin. }
  rewrite Hn, Z.add_0_r. cbn [seqZ]. rewrite app_nil_r.
  split; [done|]. split; [done|]. split; [done|]. split; [done|].
  split.
  { rewrite decide_False; [done|]. intros Hin.
    repeat (apply elem_of_cons in Hin as [?|Hin]; [lia|]).
    by apply elem_of_nil in Hin. }
  split.
  - intros k s Hg. exists s. split; [done|]. split; [by destruct s | by left].
  - intros k s' Hk Hg. destruct Hok as [_ Hlt].
    assert (k < subject_id_counter cm); [|lia].
    apply Hlt, get_Some_keys. by eexists.
Qed.

Lemma load_baseline_subjects_ok (subjects_df : list SubjectRow)
    (cm : CurriculumManager) :
  curriculum_ok cm -> curriculum_ok (load_baseline_subjects subjects_df cm).
Proof.
  unfold load_baseline_subjects. revert cm.
  induction subjects_df as [|row rows IH]; intros cm Hok; [done|].
  cbn [foldl]. apply IH. destruct Hok as [Hwf Hlt].
  split; cbn [load_baseline_subject active_subjects subject_id_counter].
  - by apply wf_set.
  - intros k [->|Hk]%keys_set; [lia|]. apply Hlt in Hk. lia.
Qed.

Lemma evolve_curriculum_spec_witness :
  PyDict.keys (active_subjects (evolve_curriculum 2026 2016 sample_subjects).1)
  = [1; 2; 5; 6].
Proof.
  assert (Hok : curriculum_ok sample_subjects).
  { apply load_baseline_subjects_ok. split; [constructor|].
    by intros k ?%elem_of_nil. }
  destruct (evolve_curriculum_spec 2026 2016 sample_subjects Hok)
    as (_ & Hkeys & _).
  rewrite Hkeys. vm_compute. reflexivity.
Defined.

(** ** Classes *)

Lemma choice_elem {A} (l : list A) (pick : nat) (x : A) :
  PyRandom.choice l pick = Some x -> x ∈ l.
Proof. unfold PyRandom.choice. apply list_elem_of_lookup_2. Qed.

Lemma choice_is_Some {A} (l : list A) (pick : nat) :
  l <> [] -> is_Some (PyRandom.choice l pick).
Proof.
  intros Hne. unfold PyRandom.choice. apply lookup_lt_is_Some.
  apply Nat.mod_upper_bound. by destruct l.
Qed.

Lemma zip_seq_lookup {A} (l : list A) (a p : nat) (x : A) :
  (p, x) ∈ zip (seq a (length l)) l ->
  (a <= p)%nat /\ l !! (p - a)%nat = Some x.
Proof.
  revert a. induction l as [|y l IH]; intros a; cbn [length seq zip zip_with].
  - by intros ?%elem_of_nil.
  - intros [[= -> ->]|Hin]%elem_of_cons.
    + split; [lia|]. by rewrite Nat.sub_diag.
    + apply IH in Hin as [Hle Hl]. split; [lia|].
      replace (p - a)%nat with (S (p - S a)) by lia. done.
Qed.

(** The counts of [grade_distribution]. *)
Lemma count_grade_get (vals : list Student.t) (acc : dict Z Z) (g : Z) :
  default 0 (PyDict.get (foldl count_grade acc vals) g)
  = default 0 (PyDict.get acc g)
    + Z.of_nat (length (filter (fun s => Student.grade_level_id s = g) vals)).
Proof.
  revert acc. induction vals as [|x vals IH]; intros acc.
  - simpl. lia.
  - cbn [foldl]. rewrite IH. unfold count_grade.
    destruct (decide (Student.grade_level_id x = g)) as [Hd|Hd].
    + rewrite filter_cons_True by done. rewrite Hd, get_set_eq.
      cbn [default length id]. lia.
    + rewrite filter_cons_False by done. by rewrite get_set_ne.
Qed.

Lemma count_grade_inv (vals : list Student.t) (acc : dict Z Z) :
  PyDict.wf acc -> (forall g c, (g, c) ∈ acc -> 0 < c) ->
  PyDict.wf (foldl count_grade acc vals)
  /\ forall g c, (g, c) ∈ foldl count_grade acc vals -> 0 < c.
Proof.
  revert acc. induction vals as [|x vals IH]; intros acc Hwf Hpos; [done|].
  cbn [foldl]. apply IH.
  - by apply wf_set.
  - intros g c [[= -> ->]|Hin]%elem_of_set; [|by eapply Hpos].
    destruct (PyDict.get acc (Student.grade_level_id x)) as [c0|] eqn:Hg;
      cbn [default id]; [|lia].
    apply get_Some_elem, Hpos in Hg. lia.
Qed.

Lemma grade_distribution_facts (students : StudentRegistry) :
  PyDict.wf (grade_distribution students)
  /\ forall g c,
       (g, c) ∈ grade_distribution students
       <-> c = Z.of_nat (count_at_grade g students) /\ 0 < c.
Proof.
  destruct (count_grade_inv (PyDict.values (active_students students)) [])
    as [Hwf Hpos].
  { constructor. }
  { by intros g c ?%elem_of_nil. }
  fold (grade_distribution students) in Hwf, Hpos.
  split; [done|]. intros g c.
  pose proof (count_grade_get (PyDict.values (active_students students)) [] g)
    as Hget.
  fold (grade_distribution students) in Hget.
  cbn [PyDict.get default] in Hget. rewrite Z.add_0_l in Hget.
  fold (count_at_grade g students) in Hget. split.
  - intros Hin. pose proof (Hpos g c Hin).
    rewrite (elem_get_Some _ _ _ Hwf Hin) in Hget. cbn [default id] in Hget.
    split; [done|lia].
  - intros [-> Hc].
    destruct (PyDict.get (grade_distribution students) g) as [c|] eqn:Hg;
      cbn [default id] in Hget; [|lia].
    rewrite <- Hget. by apply get_Some_elem.
Qed.

(** The classes of one section. *)
Lemma add_class_fold (teachers : TeacherRegistry) (draws : nat -> ClassDraws)
    (g : Z) (items : list (nat * string)) (st : ClassState) :
  (forall p x, (p, x) ∈ items ->
     (1 <= p)%nat /\ subjects_for g !! (p - 1)%nat = Some x) ->
  let st' := foldl (add_class teachers draws g) st items in
  exists news,
    class_rows st' = class_rows st ++ news
    /\ length news = length items
    /\ next_class_id st' = next_class_id st + Z.of_nat (length items)
    /\ SchoolClass.class_id <$> news
       = seqZ (next_class_id st) (Z.of_nat (length items))
    /\ Forall (fun c => SchoolClass.grade_level_id c = g /\ class_ok teachers c)
              news.
Proof.
  revert st. induction items as [|[p x] items IH]; intros st Hitems.
  - exists []. cbn [foldl length]. rewrite app_nil_r, Z.add_0_r.
    repeat split; constructor.
  - cbn [foldl].
    set (st1 := add_class teachers draws g st (p, x)).
    destruct (IH st1) as (news & Hrows & Hlen & Hnext & Hids & Hall).
    { intros p' x' Hin. apply Hitems. apply elem_of_cons; auto. }
    set (c := SchoolClass.mk (next_class_id st) x g
                match PyDict.keys (active_teachers teachers) with
                | [] => 1
                | _ :: _ =>
                    default 1
                      (PyRandom.choice (PyDict.keys (active_teachers teachers))
                         (cd_teacher_pick (draws (length (class_rows st)))))
                end
                (PyRandom.randint 1 20
                   (cd_classroom_pick (draws (length (class_rows st)))))
                (Z.of_nat p)
                (PyRandom.randint 1 4
                   (cd_term_pick (draws (length (class_rows st)))))).
    assert (Hst1 : class_rows st1 = class_rows st ++ [c]
                   /\ next_class_id st1 = next_class_id st + 1) by done.
    destruct Hst1 as [Hr1 Hn1].
    exists (c :: news). rewrite Hrows, Hr1, <- app_assoc.
    split; [done|]. split; [simpl; lia|].
    split; [rewrite Hnext, Hn1; cbn [length]; lia|]. split.
    + rewrite fmap_cons, Hids, Hn1. cbn [length].
      replace (Z.of_nat (S (length items))) with (1 + Z.of_nat (length items))
        by lia.
      rewrite (seqZ_app _ 1) by lia. done.
    + constructor; [|done]. split; [done|].
      destruct (Hitems p x) as [Hp Hx]; [apply elem_of_cons; auto|].
      unfold class_ok. subst c.
      cbn [SchoolClass.period_id SchoolClass.grade_level_id SchoolClass.name
           SchoolClass.classroom_id SchoolClass.term_id SchoolClass.teacher_id].
      split; [lia|]. split.
      { replace (Z.to_nat (Z.of_nat p - 1)) with (p - 1)%nat by lia. done. }
      split; [by apply randint_range|]. split; [by apply randint_range|].
      unfold PyDict.keys.
      destruct (active_teachers teachers) as [|[k0 t0] rest] eqn:Ha;
        [by right|].
      left. rewrite <- Ha.
      destruct (choice_is_Some (active_teachers teachers).*1
                  (cd_teacher_pick (draws (length (class_rows st)))))
        as [t Ht].
      { by rewrite Ha. }
      rewrite Ha in Ht at 1. cbn [fmap list_fmap] in Ht.
      rewrite Ha. cbn [fmap list_fmap]. rewrite Ht. cbn [default].
      by apply choice_elem in Ht.
Qed.

(** The sections of one grade level. *)
Lemma add_section_fold (teachers : TeacherRegistry) (draws : nat -> ClassDraws)
    (g : Z) (sections : list nat) (st : ClassState) :
  let st' := foldl (add_section teachers draws g (subjects_for g)) st sections in
  exists news,
    class_rows st' = class_rows st ++ news
    /\ length news = (length sections * length (subjects_for g))%nat
    /\ next_class_id st' = next_class_id st + Z.of_nat (length news)
    /\ SchoolClass.class_id <$> news
       = seqZ (next_class_id st) (Z.of_nat (length news))
    /\ Forall (fun c => SchoolClass.grade_level_id c = g /\ class_ok teachers c)
              news.
Proof.
  revert st. induction sections as [|i sections IH]; intros st.
  - exists []. cbn [foldl length]. rewrite app_nil_r, Z.add_0_r.
    repeat split; constructor.
  - cbn [foldl].
    set (st1 := add_section teachers draws g (subjects_for g) st i).
    destruct (add_class_fold teachers draws g
                (zip (seq 1 (length (subjects_for g))) (subjects_for g)) st)
      as (n1 & Hr1 & Hl1 & Hn1 & Hi1 & Ha1).
    { intros p x Hin. by apply zip_seq_lookup in Hin. }
    rewrite length_zip, length_seq, Nat.min_id in Hl1, Hn1, Hi1.
    change (foldl (add_class teachers draws g) st
              (zip (seq 1 (length (subjects_for g))) (subjects_for g)))
      with st1 in Hr1, Hn1.
    destruct (IH st1) as (n2 & Hr2 & Hl2 & Hn2 & Hi2 & Ha2).
    exists (n1 ++ n2). rewrite Hr2, Hr1, <- app_assoc. split; [done|].
    rewrite length_app. split; [cbn [length]; lia|].
    split; [rewrite Hn2, Hn1; lia|]. split.
    + rewrite fmap_app, Hi1, Hi2, Hn1, Nat2Z.inj_add, <- Hl1.
      by rewrite seqZ_app by lia.
    + by apply Forall_app.
Qed.

Lemma filter_Forall_all {A} (P : A -> Prop) `{forall x, Decision (P x)}
    (l : list A) :
  Forall P l -> filter P l = l.
Proof.
  induction 1 as [|x l Hx Hl IH]; [done|].
  rewrite filter_cons_True by done. by rewrite IH.
Qed.

Lemma filter_Forall_none {A} (P : A -> Prop) `{forall x, Decision (P x)}
    (l : list A) :
  Forall (fun x => ~ P x) l -> filter P l = [].
Proof.
  induction 1 as [|x l Hx Hl IH]; [done|].
  by rewrite filter_cons_False by done.
Qed.

(** The loop over [grade_distribution.items()]. *)
Lemma add_grade_level_fold (teachers : TeacherRegistry)
    (draws : nat -> ClassDraws) (dist : dict Z Z) (st : ClassState) :
  let st' := foldl (add_grade_level teachers draws) st dist in
  exists news,
    class_rows st' = class_rows st ++ news
    /\ next_class_id st' = next_class_id st + Z.of_nat (length news)
    /\ SchoolClass.class_id <$> news
       = seqZ (next_class_id st) (Z.of_nat (length news))
    /\ Forall (fun c => SchoolClass.grade_level_id c ∈ PyDict.keys dist
                        /\ class_ok teachers c) news
    /\ (PyDict.wf dist ->
        forall g,
          length (filter (fun c => SchoolClass.grade_level_id c = g) news)
          = match PyDict.get dist g with
            | Some c => (Z.to_nat (sections_for c) * length (subjects_for g))%nat
            | None => 0%nat
            end).
Proof.
  revert st. induction dist as [|[g0 c0] dist IH]; intros st.
  - exists []. cbn [foldl length]. rewrite app_nil_r, Z.add_0_r.
    repeat split; constructor.
  - cbn [foldl].
    set (st1 := add_grade_level teachers draws st (g0, c0)).
    destruct (add_section_fold teachers draws g0
                (seq 0 (Z.to_nat (sections_for c0))) st)
      as (n1 & Hr1 & Hl1 & Hn1 & Hi1 & Ha1).
    change (foldl (add_section teachers draws g0 (subjects_for g0)) st
              (seq 0 (Z.to_nat (sections_for c0))))
      with st1 in Hr1, Hn1.
    rewrite length_seq in Hl1.
    destruct (IH st1) as (n2 & Hr2 & Hn2 & Hi2 & Ha2 & Hc2).
    exists (n1 ++ n2). rewrite Hr2, Hr1, <- app_assoc. split; [done|].
    rewrite length_app.
    split; [rewrite Hn2, Hn1; lia|]. split; [|split].
    + rewrite fmap_app, Hi1, Hi2, Hn1, Nat2Z.inj_add.
      by rewrite seqZ_app by lia.
    + apply Forall_app. split.
      * eapply Forall_impl; [exact Ha1|]. intros c [-> Hc].
        split; [|done]. apply elem_of_cons. by left.
      * eapply Forall_impl; [exact Ha2|]. intros c [Hg Hc].
        split; [|done]. apply elem_of_cons. by right.
    + intros Hwf g. apply NoDup_cons in Hwf as [Hg0 Hwf].
      rewrite filter_app, length_app. cbn [PyDict.get].
      destruct (decide (g = g0)) as [->|Hne].
      * rewrite filter_Forall_all
          by (eapply Forall_impl; [exact Ha1|]; by intros c [? _]).
        rewrite (Hc2 Hwf g0).
        replace (PyDict.get dist g0) with (@None Z);
          [lia | symmetry; by apply get_None_keys].
      * rewrite filter_Forall_none
          by (eapply Forall_impl; [exact Ha1|]; intros c [? _]; congruence).
        by rewrite (Hc2 Hwf g).
Qed.

Lemma generate_classes_facts (students : StudentRegistry)
    (teachers : TeacherRegistry) (draws : nat -> ClassDraws) :
  let classes := _generate_classes students teachers draws in
  SchoolClass.class_id <$> classes = seqZ 1 (Z.of_nat (length classes))
  /\ (forall c, c ∈ classes ->
        (0 < count_at_grade (SchoolClass.grade_level_id c) students)%nat
        /\ class_ok teachers c)
  /\ (forall g,
        length (filter (fun c => SchoolClass.grade_level_id c = g) classes)
        = if decide (count_at_grade g students = 0%nat) then 0%nat
          else (Z.to_nat (sections_for (Z.of_nat (count_at_grade g students)))
                * length (subjects_for g))%nat).
Proof.
  intros classes. subst classes. unfold _generate_classes. cbv zeta.
  fold (grade_distribution students).
  destruct (add_grade_level_fold teachers draws (grade_distribution students)
              (mkClassState [] 1)) as (news & Hr & _ & Hi & Ha & Hc).
  cbn [class_rows next_class_id app] in Hr, Hi. rewrite Hr.
  destruct (grade_distribution_facts students) as [Hwf Hdist].
  split; [done|]. split.
  - intros c Hin. rewrite Forall_forall in Ha. destruct (Ha c Hin) as [Hg Hok].
    split; [|done]. apply get_Some_keys in Hg as [n Hn].
    apply get_Some_elem, Hdist in Hn as [-> Hpos]. lia.
  - intros g. rewrite (Hc Hwf g).
    destruct (PyDict.get (grade_distribution students) g) as [c|] eqn:Hg.
    + apply get_Some_elem, Hdist in Hg as [-> Hpos].
      rewrite decide_False by lia. done.
    + destruct (decide (count_at_grade g students = 0%nat)) as [|Hne]; [done|].
      assert (Hin : (g, Z.of_nat (count_at_grade g students))
                    ∈ grade_distribution students) by (apply Hdist; lia).
      apply (elem_get_Some _ _ _ Hwf) in Hin. congruence.
Qed.

(** X17.  [_generate_classes] numbers the classes 1, 2, ... in the order
    it makes them.  A grade level with no active student gets no class;
    a grade level with [n] students gets [max(1, n // 25)] sections of
    every subject of the grade.  In every class the period is the position of the subject
    in the grade's list, the classroom is between 1 and 20, the term
    between 1 and 4, and the teacher is an active teacher, or 1 when
    there is none. *)
Theorem generate_classes_spec (students : StudentRegistry)
    (teachers : TeacherRegistry) (draws : nat -> ClassDraws) :
  let classes := _generate_classes students teachers draws in
  SchoolClass.class_id <$> classes = seqZ 1 (Z.of_nat (length classes))
  /\ (forall c, c ∈ classes ->
        (0 < count_at_grade (SchoolClass.grade_level_id c) students)%nat
        /\ class_ok teachers c)
  /\ (forall g,
        length (filter (fun c => SchoolClass.grade_level_id c = g) classes)
        = if decide (count_at_grade g students = 0%nat) then 0%nat
          else (Z.to_nat (sections_for (Z.of_nat (count_at_grade g students)))
                * length (subjects_for g))%nat).
Proof. apply generate_classes_facts. Qed.

(** ** Enrolments *)

Lemma add_enrollment_fold (class_id : Z) (studs : list Student.t)
    (st : EnrollmentState) :
  let st' := foldl (add_enrollment class_id) st studs in
  exists news,
    enrollment_rows st' = enrollment_rows st ++ news
    /\ next_enrollment_id st' = next_enrollment_id st + Z.of_nat (length news)
    /\ Enrollment.enrollment_id <$> news
       = (fun i => "ENR" +:+ format_06d i)
           <$> seqZ (next_enrollment_id st) (Z.of_nat (length news))
    /\ (fun e => (Enrollment.student_id e, Enrollment.class_id e)) <$> news
       = (fun s => (Student.student_id s, class_id)) <$> studs.
Proof.
  revert st. induction studs as [|s studs IH]; intros st.
  - exists []. cbn [foldl length]. by rewrite app_nil_r, Z.add_0_r.
  - cbn [foldl]. set (st1 := add_enrollment class_id st s).
    destruct (IH st1) as (news & Hr & Hn & Hi & Hp).
    set (e := Enrollment.mk ("ENR" +:+ format_06d (next_enrollment_id st))
                (Student.student_id s) class_id).
    assert (Hst1 : enrollment_rows st1 = enrollment_rows st ++ [e]
                   /\ next_enrollment_id st1 = next_enrollment_id st + 1) by done.
    destruct Hst1 as [Hr1 Hn1].
    exists (e :: news). rewrite Hr, Hr1, <- app_assoc. split; [done|].
    cbn [length]. split; [rewrite Hn, Hn1; lia|]. split.
    + rewrite fmap_cons, Hi, Hn1.
      replace (Z.of_nat (S (length news))) with (1 + Z.of_nat (length news))
        by lia.
      rewrite (seqZ_app _ 1) by lia. done.
    + by rewrite !fmap_cons, Hp.
Qed.

Lemma add_class_enrollments_fold (students : StudentRegistry)
    (classes : list SchoolClass.t) (st : EnrollmentState) :
  let st' := foldl (add_class_enrollments students) st classes in
  exists news,
    enrollment_rows st' = enrollment_rows st ++ news
    /\ next_enrollment_id st' = next_enrollment_id st + Z.of_nat (length news)
    /\ Enrollment.enrollment_id <$> news
       = (fun i => "ENR" +:+ format_06d i)
           <$> seqZ (next_enrollment_id st) (Z.of_nat (length news))
    /\ (fun e => (Enrollment.student_id e, Enrollment.class_id e)) <$> news
       = classes ≫= (fun c =>
           (fun s => (Student.student_id s, SchoolClass.class_id c))
             <$> filter (fun s => Student.grade_level_id s
                                  = SchoolClass.grade_level_id c)
                        (PyDict.values (active_students students))).
Proof.
  revert st. induction classes as [|c classes IH]; intros st.
  - exists []. cbn [foldl length]. by rewrite app_nil_r, Z.add_0_r.
  - cbn [foldl]. set (st1 := add_class_enrollments students st c).
    destruct (add_enrollment_fold (SchoolClass.class_id c)
                (filter (fun s => Student.grade_level_id s
                                  = SchoolClass.grade_level_id c)
                        (PyDict.values (active_students students))) st)
      as (n1 & Hr1 & Hn1 & Hi1 & Hp1).
    change (foldl (add_enrollment (SchoolClass.class_id c)) st _)
      with st1 in Hr1, Hn1.
    destruct (IH st1) as (n2 & Hr2 & Hn2 & Hi2 & Hp2).
    exists (n1 ++ n2). rewrite Hr2, Hr1, <- app_assoc. split; [done|].
    rewrite length_app. split; [rewrite Hn2, Hn1; lia|]. split.
    + rewrite fmap_app, Hi1, Hi2, Hn1, Nat2Z.inj_add.
      by rewrite seqZ_app, fmap_app by lia.
    + rewrite fmap_app, Hp1, Hp2. done.
Qed.

Lemma generate_enrollments_pairs (students : StudentRegistry)
    (classes : list SchoolClass.t) :
  let enrollments := _generate_enrollments students classes in
  Enrollment.enrollment_id <$> enrollments
  = (fun i => "ENR" +:+ format_06d i) <$> seqZ 1 (Z.of_nat (length enrollments))
  /\ (fun e => (Enrollment.student_id e, Enrollment.class_id e)) <$> enrollments
     = classes ≫= (fun c =>
         (fun s => (Student.student_id s, SchoolClass.class_id c))
           <$> filter (fun s => Student.grade_level_id s
                                = SchoolClass.grade_level_id c)
                      (PyDict.values (active_students students))).
Proof.
  destruct (add_class_enrollments_fold students classes (mkEnrollmentState [] 1))
    as (news & Hr & _ & Hi & Hp).
  cbn [enrollment_rows next_enrollment_id app] in Hr, Hi.
  unfold _generate_enrollments. cbv zeta. rewrite Hr. done.
Qed.

Lemma length_bind_count (students : StudentRegistry)
    (classes : list SchoolClass.t) :
  length (classes ≫= (fun c =>
            (fun s => (Student.student_id s, SchoolClass.class_id c))
              <$> filter (fun s => Student.grade_level_id s
                                   = SchoolClass.grade_level_id c)
                         (PyDict.values (active_students students))))
  = sum_list ((fun c => count_at_grade (SchoolClass.grade_level_id c) students)
                <$> classes).
Proof.
  induction classes as [|c classes IH]; [done|].
  cbn [mbind list_bind fmap list_fmap sum_list sum_list_with].
  rewrite length_app, length_fmap.
  change (foldr _ _ _) with (classes ≫= (fun c =>
            (fun s => (Student.student_id s, SchoolClass.class_id c))
              <$> filter (fun s => Student.grade_level_id s
                                   = SchoolClass.grade_level_id c)
                         (PyDict.values (active_students students)))) in *.
  fold (count_at_grade (SchoolClass.grade_level_id c) students).
  f_equal. exact IH.
Qed.

(** X18.  [_generate_enrollments] enrols every active student in every
    class of the student's grade level, all sections alike, and in no
    other class: there is one row for each such student and class, so
    their number is the sum over the classes of the size of the class's
    grade.  The rows carry the ids ENR000001, ENR000002, ... in the
    order they are made. *)
Theorem generate_enrollments_spec (students : StudentRegistry)
    (classes : list SchoolClass.t) :
  let enrollments := _generate_enrollments students classes in
  (forall student_id class_id,
     (exists e, e ∈ enrollments
        /\ Enrollment.student_id e = student_id
        /\ Enrollment.class_id e = class_id)
     <-> (exists s c,
            s ∈ PyDict.values (active_students students)
            /\ c ∈ classes
            /\ Student.grade_level_id s = SchoolClass.grade_level_id c
            /\ Student.student_id s = student_id
            /\ SchoolClass.class_id c = class_id))
  /\ length enrollments
     = sum_list ((fun c => count_at_grade (SchoolClass.grade_level_id c) students)
                   <$> classes)
  /\ Enrollment.enrollment_id <$> enrollments
     = (fun i => "ENR" +:+ format_06d i)
         <$> seqZ 1 (Z.of_nat (length enrollments)).
Proof.
  intros enrollments.
  destruct (generate_enrollments_pairs students classes) as [Hi Hp].
  fold enrollments in Hi, Hp.
  split; [|split; [|exact Hi]].
  - intros sid cid. split.
    + intros (e & He & <- & <-).
      assert (Hin : (Enrollment.student_id e, Enrollment.class_id e)
                    ∈ (fun e => (Enrollment.student_id e, Enrollment.class_id e))
                        <$> enrollments)
        by (by apply (list_elem_of_fmap_2
                        (fun e => (Enrollment.student_id e, Enrollment.class_id e)))).
      rewrite Hp in Hin. apply list_elem_of_bind in Hin as (c & Hin & Hc).
      apply list_elem_of_fmap in Hin as (s & [= Hs1 Hs2] & Hs).
      apply list_elem_of_filter in Hs as [Hg Hs].
      by exists s, c.
    + intros (s & c & Hs & Hc & Hg & <- & <-).
      assert (Hin : (Student.student_id s, SchoolClass.class_id c)
                    ∈ (fun e => (Enrollment.student_id e, Enrollment.class_id e))
                        <$> enrollments).
      { rewrite Hp. apply list_elem_of_bind. exists c. split; [|done].
        apply (list_elem_of_fmap_2
                 (fun s => (Student.student_id s, SchoolClass.class_id c))).
        by apply list_elem_of_filter. }
      apply list_elem_of_fmap in Hin as (e & [= He1 He2] & He).
      by exists e.
  - rewrite <- (length_fmap (fun e => (Enrollment.student_id e,
                                      Enrollment.class_id e)) enrollments).
    rewrite Hp. apply length_bind_count.
Qed.

(** ** Assignments *)

(** The points of an assignment are those drawn for its category, so the
    lookup in [points_mapping] never fails. *)
Lemma assignment_points_ok (d : AssignmentDraws) :
  let category :=
    default "Homework"
      (PyRandom.choice assignment_categories (ad_category_pick d)) in
  category ∈ assignment_categories
  /\ exists lo hi,
       points_range category = Some (lo, hi)
       /\ PyDict.get (points_mapping d) category
          = Some (default 0 (PyDict.get (points_mapping d) category))
       /\ lo <= default 0 (PyDict.get (points_mapping d) category) <= hi.
Proof.
  intros category. subst category. unfold PyRandom.choice.
  assert (Hlt : (ad_category_pick d `mod` length assignment_categories < 5)%nat)
    by (apply Nat.mod_upper_bound; done).
  destruct (ad_category_pick d `mod` length assignment_categories)%nat
    as [|[|[|[|[|n]]]]]; [| | | | |lia];
    cbn [lookup list_lookup assignment_categories default].
  - split; [repeat constructor|]. exists 10, 25. split; [done|].
    split; [done|]. cbn. by apply randint_range.
  - split; [repeat constructor|]. exists 25, 50. split; [done|].
    split; [done|]. cbn. by apply randint_range.
  - split; [repeat constructor|]. exists 75, 100. split; [done|].
    split; [done|]. cbn. by apply randint_range.
  - split; [repeat constructor|]. exists 50, 100. split; [done|].
    split; [done|]. cbn. by apply randint_range.
  - split; [repeat constructor|]. exists 5, 15. split; [done|].
    split; [done|]. cbn. by apply randint_range.
Qed.

(** The assignments of one class. *)
Lemma add_assignment_fold (class_id : Z) (draws : nat -> AssignmentDraws)
    (idx : list nat) (st : AssignmentState) :
  let st' := foldl (add_assignment class_id draws) st idx in
  exists news,
    assignment_rows st' = assignment_rows st ++ news
    /\ length news = length idx
    /\ next_assignment_id st' = next_assignment_id st + Z.of_nat (length news)
    /\ Assignment.assignment_id <$> news
       = seqZ (next_assignment_id st) (Z.of_nat (length news))
    /\ Forall (fun a => Assignment.class_id a = class_id /\ assignment_ok a) news.
Proof.
  revert st. induction idx as [|i idx IH]; intros st.
  - exists []. cbn [foldl length]. rewrite app_nil_r, Z.add_0_r.
    repeat split; constructor.
  - cbn [foldl]. set (st1 := add_assignment class_id draws st i).
    destruct (IH st1) as (news & Hr & Hl & Hn & Hi & Ha).
    set (d := draws (length (assignment_rows st))).
    set (category := default "Homework"
                       (PyRandom.choice assignment_categories (ad_category_pick d))).
    set (a := Assignment.mk (next_assignment_id st) class_id
                (category +:+ " " +:+ pretty (Z.of_nat i + 1))
                (PyDate.strftime (ad_due_date d))
                (default 0 (PyDict.get (points_mapping d) category)) category
                (PyRandom.randint 1 4 (ad_term_pick d))).
    assert (Hst1 : assignment_rows st1 = assignment_rows st ++ [a]
                   /\ next_assignment_id st1 = next_assignment_id st + 1) by done.
    destruct Hst1 as [Hr1 Hn1].
    exists (a :: news). rewrite Hr, Hr1, <- app_assoc. split; [done|].
    cbn [length]. split; [lia|]. split; [rewrite Hn, Hn1; lia|]. split.
    + rewrite fmap_cons, Hi, Hn1.
      replace (Z.of_nat (S (length news))) with (1 + Z.of_nat (length news))
        by lia.
      rewrite (seqZ_app _ 1) by lia. done.
    + constructor; [|done]. split; [done|].
      destruct (assignment_points_ok d) as (Hc & lo & hi & Hrange & _ & Hp).
      split; [exact Hc|]. split; [by exists lo, hi|].
      by apply randint_range.
Qed.

(** The loop over the classes. *)
Lemma add_class_assignments_fold (count_pick : nat -> nat)
    (draws : nat -> AssignmentDraws) (items : list (nat * SchoolClass.t))
    (st : AssignmentState) :
  let st' := foldl (add_class_assignments count_pick draws) st items in
  exists news,
    assignment_rows st' = assignment_rows st ++ news
    /\ next_assignment_id st' = next_assignment_id st + Z.of_nat (length news)
    /\ Assignment.assignment_id <$> news
       = seqZ (next_assignment_id st) (Z.of_nat (length news))
    /\ Forall (fun a =>
                 Assignment.class_id a ∈ SchoolClass.class_id <$> items.*2
                 /\ assignment_ok a) news
    /\ (65 * length items <= length news <= 75 * length items)%nat
    /\ (NoDup (SchoolClass.class_id <$> items.*2) ->
        forall k, k ∈ SchoolClass.class_id <$> items.*2 ->
          (65 <= length (filter (fun a => Assignment.class_id a = k) news)
           <= 75)%nat).
Proof.
  revert st. induction items as [|[j c] items IH]; intros st.
  - exists []. cbn [foldl length]. rewrite app_nil_r, Z.add_0_r.
    split; [done|]. split; [done|]. split; [done|]. split; [constructor|].
    split; [lia|]. by intros _ k ?%elem_of_nil.
  - cbn [foldl]. set (st1 := add_class_assignments count_pick draws st (j, c)).
    set (n := Z.to_nat (PyRandom.randint 65 75 (count_pick j))).
    assert (Hn : (65 <= n <= 75)%nat).
    { pose proof (randint_range 65 75 (count_pick j)). lia. }
    destruct (add_assignment_fold (SchoolClass.class_id c) draws (seq 0 n) st)
      as (n1 & Hr1 & Hl1 & Hn1 & Hi1 & Ha1).
    change (foldl (add_assignment (SchoolClass.class_id c) draws) st (seq 0 n))
      with st1 in Hr1, Hn1.
    rewrite length_seq in Hl1.
    destruct (IH st1) as (n2 & Hr2 & Hn2 & Hi2 & Ha2 & Hl2 & Hc2).
    exists (n1 ++ n2). rewrite Hr2, Hr1, <- app_assoc. split; [done|].
    rewrite length_app. split; [rewrite Hn2, Hn1; lia|].
    rewrite !fmap_cons. cbn [snd length].
    split; [|split; [|split; [lia|]]].
    + rewrite fmap_app, Hi1, Hi2, Hn1, Nat2Z.inj_add.
      by rewrite seqZ_app by lia.
    + apply Forall_app. split.
      * eapply Forall_impl; [exact Ha1|]. intros a [-> Ha].
        split; [|done]. apply elem_of_cons. by left.
      * eapply Forall_impl; [exact Ha2|]. intros a [Hk Ha].
        split; [|done]. apply elem_of_cons. by right.
    + intros [Hc Hnd]%NoDup_cons k Hk.
      rewrite filter_app, length_app.
      destruct (decide (k = SchoolClass.class_id c)) as [->|Hne].
      * rewrite filter_Forall_all
          by (eapply Forall_impl; [exact Ha1|]; by intros a [? _]).
        rewrite (filter_Forall_none _ n2); [simpl; lia|].
        eapply Forall_impl; [exact Ha2|]. intros a [Hin _] Heq.
        apply Hc. by rewrite <- Heq.
      * rewrite filter_Forall_none
          by (eapply Forall_impl; [exact Ha1|]; intros a [? _]; congruence).
        apply elem_of_cons in Hk as [?|Hk]; [done|].
        simpl. by apply Hc2.
Qed.

Lemma generate_assignments_facts (year : Z) (classes : list SchoolClass.t)
    (count_pick : nat -> nat) (draws : nat -> AssignmentDraws) :
  (1 <= year <= 9998 \/ classes = [] ->
   exists assignments,
     _generate_assignments year classes count_pick draws = Some assignments
     /\ Assignment.assignment_id <$> assignments
        = seqZ 1 (Z.of_nat (length assignments))
     /\ (forall a, a ∈ assignments ->
           Assignment.class_id a ∈ SchoolClass.class_id <$> classes
           /\ assignment_ok a)
     /\ (65 * length classes <= length assignments <= 75 * length classes)%nat
     /\ (NoDup (SchoolClass.class_id <$> classes) ->
         forall k, k ∈ SchoolClass.class_id <$> classes ->
           (65 <= length (filter (fun a => Assignment.class_id a = k) assignments)
            <= 75)%nat))
  /\ (classes <> [] -> ~ 1 <= year <= 9998 ->
      _generate_assignments year classes count_pick draws = None).
Proof.
  split.
  - intros Hy.
    destruct (add_class_assignments_fold count_pick draws
                (zip (seq 0 (length classes)) classes) (mkAssignmentState [] 1))
      as (news & Hr & _ & Hi & Ha & Hl & Hc).
    rewrite snd_zip in Ha, Hc by (rewrite length_seq; lia).
    rewrite length_zip, length_seq, Nat.min_id in Hl.
    cbn [assignment_rows next_assignment_id app] in Hr, Hi.
    exists news. split.
    { unfold _generate_assignments. destruct classes as [|c cl].
      - cbn [zip zip_with seq length foldl assignment_rows] in Hr. by rewrite Hr.
      - destruct Hy as [Hy|Hy]; [|done].
        rewrite (make_fixed year 8 26), (make_fixed (year + 1) 6 6) by lia.
        cbn [mbind option_bind]. by rewrite Hr. }
    split; [done|]. split; [by apply Forall_forall|]. done.
  - intros Hne Hy. unfold _generate_assignments.
    destruct classes as [|c cl]; [done|].
    destruct (PyDate.make year 8 26) as [s|] eqn:Hs; [|done].
    destruct (PyDate.make (year + 1) 6 6) as [e|] eqn:He; [|done].
    apply make_Some in Hs as (_ & Hy1 & _). apply make_Some in He as (_ & Hy2 & _).
    lia.
Qed.

(** X19.  [_generate_assignments], for a school year of the calendar.
    The assignments are numbered 1, 2, ... in the order they are made;
    every class gets between 65 and 75 of them; each has one of the five
    categories and points in the range of its category (Homework 10-25,
    Quiz 25-50, Test 75-100, Project 50-100, Participation 5-15), so the
    lookup of the points never fails, and a term between 1 and 4.  With
    a class to serve and a year outside 1..9998 the dates of the school
    year cannot be built. *)
Theorem generate_assignments_spec (year : Z) (classes : list SchoolClass.t)
    (count_pick : nat -> nat) (draws : nat -> AssignmentDraws) :
  (1 <= year <= 9998 \/ classes = [] ->
   exists assignments,
     _generate_assignments year classes count_pick draws = Some assignments
     /\ Assignment.assignment_id <$> assignments
        = seqZ 1 (Z.of_nat (length assignments))
     /\ (forall a, a ∈ assignments ->
           Assignment.class_id a ∈ SchoolClass.class_id <$> classes
           /\ assignment_ok a)
     /\ (65 * length classes <= length assignments <= 75 * length classes)%nat
     /\ (NoDup (SchoolClass.class_id <$> classes) ->
         forall k, k ∈ SchoolClass.class_id <$> classes ->
           (65 <= length (filter (fun a => Assignment.class_id a = k) assignments)
            <= 75)%nat))
  /\ (classes <> [] -> ~ 1 <= year <= 9998 ->
      _generate_assignments year classes count_pick draws = None).
Proof. apply generate_assignments_facts. Qed.

Lemma generate_assignments_spec_witness :
  exists assignments,
    _generate_assignments 2016 sample_classes (fun j => j) sample_assignment_draws
    = Some assignments
    /\ Assignment.assignment_id <$> assignments
       = seqZ 1 (Z.of_nat (length assignments)).
Proof.
  destruct (proj1 (generate_assignments_spec 2016 sample_classes (fun j => j)
                     sample_assignment_draws))
    as (assignments & Heq & Hids & _).
  { left. lia. }
  exists assignments. split; [exact Heq | exact Hids].
Defined.

(** ** Grades *)

Lemma add_grade_fold (a : Assignment.t) (draws : nat -> GradeDraws)
    (sids : list Z) (st : GradeState) :
  let st' := foldl (add_grade a draws) st sids in
  exists news,
    grade_rows st' = grade_rows st ++ news
    /\ next_grade_id st' = next_grade_id st + Z.of_nat (length news)
    /\ Grade.grade_id <$> news
       = seqZ (next_grade_id st) (Z.of_nat (length news))
    /\ Grade.student_id <$> news = sids
    /\ Forall (fun g =>
                 Grade.assignment_id g = Assignment.assignment_id a
                 /\ 0 <= Grade.score g <= Z.max 0 (Assignment.points_possible a)
                 /\ Grade.submitted_on g = Assignment.due_date a
                 /\ Grade.term_id g = Assignment.term_id a) news.
Proof.
  revert st. induction sids as [|sid sids IH]; intros st.
  - exists []. cbn [foldl length]. rewrite app_nil_r, Z.add_0_r.
    repeat split; constructor.
  - cbn [foldl]. set (st1 := add_grade a draws st sid).
    destruct (IH st1) as (news & Hr & Hn & Hi & Hs & Ha).
    set (g := Grade.mk (next_grade_id st) sid (Assignment.assignment_id a)
                (CompleteDecade._generate_realistic_grade
                   (Assignment.points_possible a)
                   (draws (length (grade_rows st))))
                (Assignment.due_date a) (Assignment.term_id a)).
    assert (Hst1 : grade_rows st1 = grade_rows st ++ [g]
                   /\ next_grade_id st1 = next_grade_id st + 1) by done.
    destruct Hst1 as [Hr1 Hn1].
    exists (g :: news). rewrite Hr, Hr1, <- app_assoc. split; [done|].
    cbn [length]. split; [rewrite Hn, Hn1; lia|]. split; [|split].
    + rewrite fmap_cons, Hi, Hn1.
      replace (Z.of_nat (S (length news))) with (1 + Z.of_nat (length news))
        by lia.
      rewrite (seqZ_app _ 1) by lia. done.
    + by rewrite fmap_cons, Hs.
    + constructor; [|done]. split; [done|]. split; [|done].
      subst g. cbn [Grade.score].
      unfold CompleteDecade._generate_realistic_grade. lia.
Qed.

Lemma add_assignment_grades_fold (enrollments : list Enrollment.t)
    (draws : nat -> GradeDraws) (assignments : list Assignment.t)
    (st : GradeState) :
  let st' := foldl (add_assignment_grades enrollments draws) st assignments in
  exists news,
    grade_rows st' = grade_rows st ++ news
    /\ next_grade_id st' = next_grade_id st + Z.of_nat (length news)
    /\ Grade.grade_id <$> news
       = seqZ (next_grade_id st) (Z.of_nat (length news))
    /\ (fun g => (Grade.student_id g, Grade.assignment_id g)) <$> news
       = assignments ≫= (fun a =>
           (fun sid => (sid, Assignment.assignment_id a))
             <$> enrolled_students enrollments (Assignment.class_id a))
    /\ Forall (fun g =>
                 exists a, a ∈ assignments
                   /\ Grade.assignment_id g = Assignment.assignment_id a
                   /\ Grade.student_id g
                      ∈ enrolled_students enrollments (Assignment.class_id a)
                   /\ 0 <= Grade.score g <= Z.max 0 (Assignment.points_possible a)
                   /\ Grade.submitted_on g = Assignment.due_date a
                   /\ Grade.term_id g = Assignment.term_id a) news.
Proof.
  revert st. induction assignments as [|a assignments IH]; intros st.
  - exists []. cbn [foldl length]. rewrite app_nil_r, Z.add_0_r.
    repeat split; constructor.
  - cbn [foldl]. set (st1 := add_assignment_grades enrollments draws st a).
    destruct (add_grade_fold a draws
                (enrolled_students enrollments (Assignment.class_id a)) st)
      as (n1 & Hr1 & Hn1 & Hi1 & Hs1 & Ha1).
    change (foldl (add_grade a draws) st _) with st1 in Hr1, Hn1.
    destruct (IH st1) as (n2 & Hr2 & Hn2 & Hi2 & Hp2 & Ha2).
    exists (n1 ++ n2). rewrite Hr2, Hr1, <- app_assoc. split; [done|].
    rewrite length_app. split; [rewrite Hn2, Hn1; lia|].
    split; [|split].
    + rewrite fmap_app, Hi1, Hi2, Hn1, Nat2Z.inj_add.
      by rewrite seqZ_app by lia.
    + rewrite fmap_app, Hp2. cbn [mbind list_bind]. f_equal.
      rewrite <- Hs1. rewrite <- list_fmap_compose.
      apply Forall_fmap_ext_1.
      eapply Forall_impl; [exact Ha1|]. intros g (Hg & _). cbn. by rewrite Hg.
    + apply Forall_app. split.
      * apply Forall_forall. intros g Hg.
        rewrite Forall_forall in Ha1. destruct (Ha1 g Hg) as (Hga & Hsc & Hsub & Ht).
        exists a. split; [apply elem_of_cons; auto|]. split; [done|].
        split; [|done]. rewrite <- Hs1. by apply list_elem_of_fmap_2.
      * eapply Forall_impl; [exact Ha2|]. intros g (a' & Ha' & Hrest).
        exists a'. split; [apply elem_of_cons; auto | done].
Qed.

Lemma generate_grades_facts (assignments : list Assignment.t)
    (enrollments : list Enrollment.t) (draws : nat -> GradeDraws) :
  let grades := _generate_grades assignments enrollments draws in
  Grade.grade_id <$> grades = seqZ 1 (Z.of_nat (length grades))
  /\ (forall g, g ∈ grades ->
        exists a e,
          a ∈ assignments /\ e ∈ enrollments
          /\ Grade.assignment_id g = Assignment.assignment_id a
          /\ Grade.student_id g = Enrollment.student_id e
          /\ Enrollment.class_id e = Assignment.class_id a
          /\ 0 <= Grade.score g <= Z.max 0 (Assignment.points_possible a)
          /\ Grade.submitted_on g = Assignment.due_date a
          /\ Grade.term_id g = Assignment.term_id a)
  /\ (forall a e,
        a ∈ assignments -> e ∈ enrollments ->
        Enrollment.class_id e = Assignment.class_id a ->
        exists g, g ∈ grades
          /\ Grade.assignment_id g = Assignment.assignment_id a
          /\ Grade.student_id g = Enrollment.student_id e)
  /\ length grades
     = sum_list ((fun a => length (enrolled_students enrollments
                                     (Assignment.class_id a)))
                   <$> assignments).
Proof.
  intros grades.
  destruct (add_assignment_grades_fold enrollments draws assignments
              (mkGradeState [] 1)) as (news & Hr & _ & Hi & Hp & Ha).
  cbn [grade_rows next_grade_id app] in Hr, Hi.
  assert (Hg : grades = news) by exact Hr. rewrite Hg.
  split; [done|]. split; [|split].
  - intros g Hin. rewrite Forall_forall in Ha.
    destruct (Ha g Hin) as (a & Ha' & Hga & Hs & Hrest).
    apply list_elem_of_fmap in Hs as (e & He & Hein).
    apply list_elem_of_filter in Hein as [Hc Hein].
    exists a, e. done.
  - intros a e Ha' He Hc.
    assert (Hin : (Enrollment.student_id e, Assignment.assignment_id a)
                  ∈ (fun g => (Grade.student_id g, Grade.assignment_id g))
                      <$> news).
    { rewrite Hp. apply list_elem_of_bind. exists a. split; [|done].
      apply (list_elem_of_fmap_2 (fun sid => (sid, Assignment.assignment_id a))).
      apply list_elem_of_fmap_2. by apply list_elem_of_filter. }
    apply list_elem_of_fmap in Hin as (g & [= H1 H2] & Hgin).
    by exists g.
  - rewrite <- (length_fmap (fun g => (Grade.student_id g, Grade.assignment_id g))).
    rewrite Hp. clear.
    induction assignments as [|a assignments IH]; [done|].
    cbn [mbind list_bind fmap list_fmap sum_list sum_list_with].
    rewrite length_app, length_fmap. f_equal. exact IH.
Qed.

(** X20.  On a frame of enrolments that has a row, or without
    assignments (otherwise the lookup of the column ["class_id"] raises),
    [_generate_grades] gives one grade to every enrolment of the
    class of every assignment, and no other: the grades are numbered 1,
    2, ...; each belongs to an assignment and to a student enrolled in
    the class of that assignment, scores between 0 and the points of the
    assignment, and takes the due date and the term of the assignment. *)
Theorem generate_grades_spec (assignments : list Assignment.t)
    (enrollments : list Enrollment.t) (draws : nat -> GradeDraws) :
  enrollments <> [] \/ assignments = [] ->
  let grades := _generate_grades assignments enrollments draws in
  Grade.grade_id <$> grades = seqZ 1 (Z.of_nat (length grades))
  /\ (forall g, g ∈ grades ->
        exists a e,
          a ∈ assignments /\ e ∈ enrollments
          /\ Grade.assignment_id g = Assignment.assignment_id a
          /\ Grade.student_id g = Enrollment.student_id e
          /\ Enrollment.class_id e = Assignment.class_id a
          /\ 0 <= Grade.score g <= Z.max 0 (Assignment.points_possible a)
          /\ Grade.submitted_on g = Assignment.due_date a
          /\ Grade.term_id g = Assignment.term_id a)
  /\ (forall a e,
        a ∈ assignments -> e ∈ enrollments ->
        Enrollment.class_id e = Assignment.class_id a ->
        exists g, g ∈ grades
          /\ Grade.assignment_id g = Assignment.assignment_id a
          /\ Grade.student_id g = Enrollment.student_id e)
  /\ length grades
     = sum_list ((fun a => length (enrolled_students enrollments
                                     (Assignment.class_id a)))
                   <$> assignments).
Proof. intros _. apply generate_grades_facts. Qed.

Lemma generate_grades_spec_witness :
  Grade.grade_id
    <$> _generate_grades one_test
          [Enrollment.mk "ENR000001" 7 1; Enrollment.mk "ENR000002" 8 1]
          (fun _ => sample_grade_draws)
  = [1; 2].
Proof.
  destruct (generate_grades_spec one_test
              [Enrollment.mk "ENR000001" 7 1; Enrollment.mk "ENR000002" 8 1]
              (fun _ => sample_grade_draws)) as (Hids & _).
  { left. discriminate. }
  exact Hids.
Defined.

(** ** The academic tables together *)

Lemma filter_bind_key {A X} (key : A -> Z) (F : A -> list X) (l : list A)
    (a0 : A) :
  NoDup (key <$> l) -> a0 ∈ l ->
  filter (fun p : X * Z => p.2 = key a0)
         (l ≫= (fun a => (fun x => (x, key a)) <$> F a))
  = (fun x => (x, key a0)) <$> F a0.
Proof.
  induction l as [|a l IH]; [by intros _ ?%elem_of_nil|].
  rewrite fmap_cons. intros [Ha Hnd]%NoDup_cons Hin.
  cbn [mbind list_bind]. rewrite filter_app.
  change (foldr _ _ _) with (l ≫= (fun a => (fun x => (x, key a)) <$> F a)).
  assert (Hnone : forall a', key a' ∉ key <$> l ->
            filter (fun p : X * Z => p.2 = key a')
                   (l ≫= (fun a => (fun x => (x, key a)) <$> F a)) = []).
  { intros a' Hk. apply filter_Forall_none. apply Forall_forall.
    intros [x k] (a1 & Hx & Ha1)%list_elem_of_bind.
    apply list_elem_of_fmap in Hx as (x' & [= -> ->] & _). cbn.
    intros Heq. apply Hk. rewrite <- Heq. by apply list_elem_of_fmap_2. }
  destruct (decide (key a0 = key a)) as [Heq|Hne].
  - apply elem_of_cons in Hin as [->|Hin].
    2:{ exfalso. apply Ha. rewrite <- Heq. by apply list_elem_of_fmap_2. }
    rewrite (Hnone a Ha), app_nil_r.
    rewrite filter_Forall_all; [done|].
    apply Forall_forall. by intros [x k] (x' & [= -> ->] & _)%list_elem_of_fmap.
  - rewrite filter_Forall_none.
    2:{ apply Forall_forall.
        intros [x k] (x' & [= -> ->] & _)%list_elem_of_fmap. cbn. congruence. }
    apply elem_of_cons in Hin as [->|Hin]; [done|]. by apply IH.
Qed.

Lemma length_filter_class (k : Z) (l : list Enrollment.t) :
  length (filter (fun e => Enrollment.class_id e = k) l)
  = length (filter (fun p : Z * Z => p.2 = k)
              ((fun e => (Enrollment.student_id e, Enrollment.class_id e)) <$> l)).
Proof.
  induction l as [|x l IH]; [done|]. rewrite fmap_cons.
  destruct (decide (Enrollment.class_id x = k)).
  - rewrite !filter_cons_True by done. simpl. by rewrite IH.
  - by rewrite !filter_cons_False by done.
Qed.

Lemma length_filter_assignment (k : Z) (l : list Grade.t) :
  length (filter (fun g => Grade.assignment_id g = k) l)
  = length (filter (fun p : Z * Z => p.2 = k)
              ((fun g => (Grade.student_id g, Grade.assignment_id g)) <$> l)).
Proof.
  induction l as [|x l IH]; [done|]. rewrite fmap_cons.
  destruct (decide (Grade.assignment_id x = k)).
  - rewrite !filter_cons_True by done. simpl. by rewrite IH.
  - by rewrite !filter_cons_False by done.
Qed.

(** The students enrolled in a class are the students of its grade. *)
Lemma enrolled_students_length (students : StudentRegistry)
    (classes : list SchoolClass.t) (c : SchoolClass.t) :
  NoDup (SchoolClass.class_id <$> classes) -> c ∈ classes ->
  length (enrolled_students (_generate_enrollments students classes)
            (SchoolClass.class_id c))
  = count_at_grade (SchoolClass.grade_level_id c) students.
Proof.
  intros Hnd Hc. unfold enrolled_students. rewrite length_fmap.
  destruct (generate_enrollments_pairs students classes) as [_ Hp].
  rewrite length_filter_class, Hp.
  rewrite (list_bind_ext _
             (fun c => (fun x => (x, SchoolClass.class_id c))
                         <$> (Student.student_id
                                <$> filter (fun s => Student.grade_level_id s
                                                     = SchoolClass.grade_level_id c)
                                           (PyDict.values (active_students students))))
             classes classes); [|intros c'; by rewrite <- list_fmap_compose | done].
  rewrite (filter_bind_key SchoolClass.class_id _ classes c Hnd Hc).
  by rewrite !length_fmap.
Qed.

Lemma academic_data_facts (year : Z) (students : StudentRegistry)
    (teachers : TeacherRegistry) (draws : AcademicDraws) :
  1 <= year <= 9998 ->
  exists data,
    academic_data year students teachers draws = Some data
    /\ (forall g, g ∈ data_grades data ->
          exists s c a,
            s ∈ PyDict.values (active_students students)
            /\ c ∈ data_classes data
            /\ a ∈ data_assignments data
            /\ Grade.student_id g = Student.student_id s
            /\ Grade.assignment_id g = Assignment.assignment_id a
            /\ Assignment.class_id a = SchoolClass.class_id c
            /\ Student.grade_level_id s = SchoolClass.grade_level_id c
            /\ 0 <= Grade.score g <= Assignment.points_possible a
            /\ 5 <= Assignment.points_possible a <= 100)
    /\ (forall a c,
          a ∈ data_assignments data -> c ∈ data_classes data ->
          Assignment.class_id a = SchoolClass.class_id c ->
          length (filter (fun g => Grade.assignment_id g
                                   = Assignment.assignment_id a)
                         (data_grades data))
          = count_at_grade (SchoolClass.grade_level_id c) students).
Proof.
  intros Hy. unfold academic_data. cbv zeta.
  set (classes := _generate_classes students teachers (ac_class draws)).
  set (enrollments := _generate_enrollments students classes).
  destruct (generate_classes_facts students teachers (ac_class draws))
    as (Hcids & _ & _).
  fold classes in Hcids.
  assert (Hcnd : NoDup (SchoolClass.class_id <$> classes))
    by (rewrite Hcids; apply NoDup_seqZ).
  destruct (proj1 (generate_assignments_facts year classes (ac_count draws)
                     (ac_assignment draws)))
    as (assignments & Hasg & Haids & Haok & _); [by left|].
  rewrite Hasg. cbn [mbind option_bind].
  assert (Hand : NoDup (Assignment.assignment_id <$> assignments))
    by (rewrite Haids; apply NoDup_seqZ).
  set (grades := _generate_grades assignments enrollments (ac_grade draws)).
  eexists. split; [reflexivity|].
  cbn [data_classes data_assignments data_grades].
  destruct (generate_grades_facts assignments enrollments (ac_grade draws))
    as (_ & Hg & _ & _).
  fold grades in Hg.
  destruct (generate_enrollments_spec students classes) as (Henr & _ & _).
  fold enrollments in Henr.
  split.
  - intros g Hin.
    destruct (Hg g Hin) as (a & e & Ha & He & Hga & Hgs & Hec & Hsc & _).
    destruct (proj1 (Henr (Enrollment.student_id e) (Enrollment.class_id e)))
      as (s & c & Hs & Hc & Hgrade & Hsid & Hcid).
    { by exists e. }
    destruct (Haok a Ha) as (_ & _ & (lo & hi & Hrange & Hpts) & _).
    assert (Hp : 5 <= Assignment.points_possible a <= 100).
    { unfold points_range in Hrange. cbn [PyDict.get] in Hrange.
      repeat (destruct (decide _) in Hrange;
              [injection Hrange as <- <-; lia|]).
      discriminate Hrange. }
    exists s, c, a. split; [done|]. split; [done|]. split; [done|].
    split; [congruence|]. split; [done|]. split; [congruence|].
    split; [done|]. split; [lia | done].
  - intros a c Ha Hc Hac.
    destruct (add_assignment_grades_fold enrollments (ac_grade draws)
                assignments (mkGradeState [] 1)) as (news & Hr & _ & _ & Hp & _).
    cbn [grade_rows app] in Hr.
    assert (Hgr : grades = news) by exact Hr.
    rewrite Hgr, length_filter_assignment, Hp.
    rewrite (filter_bind_key Assignment.assignment_id _ assignments a Hand Ha).
    rewrite length_fmap, Hac.
    by apply enrolled_students_length.
Qed.

(** X21.  The academic tables of a year fit together.  For a school
    year of the calendar the four generators return; every grade belongs
    to an active student and to an assignment of a class of the
    student's grade level, and scores between 0 and the points of the
    assignment, which are between 5 and 100; and every assignment is
    graded once for each active student of the grade level of its
    class. *)
Theorem academic_data_spec (year : Z) (students : StudentRegistry)
    (teachers : TeacherRegistry) (draws : AcademicDraws) :
  1 <= year <= 9998 ->
  exists data,
    academic_data year students teachers draws = Some data
    /\ (forall g, g ∈ data_grades data ->
          exists s c a,
            s ∈ PyDict.values (active_students students)
            /\ c ∈ data_classes data
            /\ a ∈ data_assignments data
            /\ Grade.student_id g = Student.student_id s
            /\ Grade.assignment_id g = Assignment.assignment_id a
            /\ Assignment.class_id a = SchoolClass.class_id c
            /\ Student.grade_level_id s = SchoolClass.grade_level_id c
            /\ 0 <= Grade.score g <= Assignment.points_possible a
            /\ 5 <= Assignment.points_possible a <= 100)
    /\ (forall a c,
          a ∈ data_assignments data -> c ∈ data_classes data ->
          Assignment.class_id a = SchoolClass.class_id c ->
          length (filter (fun g => Grade.assignment_id g
                                   = Assignment.assignment_id a)
                         (data_grades data))
          = count_at_grade (SchoolClass.grade_level_id c) students).
Proof. apply academic_data_facts. Qed.

Lemma academic_data_spec_witness :
  is_Some (academic_data 2016 baseline_3 teachers_3 sample_academic_draws).
Proof.
  destruct (academic_data_spec 2016 baseline_3 teachers_3 sample_academic_draws)
    as (data & Heq & _).
  { lia. }
  exists data. exact Heq.
Defined.

(** ** The school calendar table *)

Lemma calendar_day_ok (holidays : dict PyDate.date string)
    (breaks : list (PyDate.date * PyDate.date * string)) (d : PyDate.date) :
  calendar_row_ok (calendar_day holidays breaks d)
  /\ CalendarDay.calendar_date (calendar_day holidays breaks d)
     = PyDate.strftime d.
Proof.
  unfold calendar_day, calendar_row_ok. cbv zeta.
  destruct (5 <=? PyDate.weekday d); cbn [orb negb].
  { cbn. split; [|done]. split; [by split|]. split; [repeat constructor|].
    split; [done|]. split; [done|done]. }
  destruct (PyDict.mem holidays d); cbn [orb negb].
  { cbn. split; [|done]. split; [by split|]. split; [repeat constructor|].
    split; [done|]. split; [done|done]. }
  destruct (existsb (in_break d) breaks); cbn [orb negb].
  { cbn. split; [|done]. split; [by split|]. split; [repeat constructor|].
    split; [done|]. split; [done|done]. }
  cbn. split; [|done]. split; [by split|]. split; [repeat constructor|].
  split; [done|]. split; [done|done].
Qed.

Lemma school_calendar_loop_ok (fuel : nat) (holidays : dict PyDate.date string)
    (breaks : list (PyDate.date * PyDate.date * string))
    (cur end_date : PyDate.date) (acc out : list CalendarDay.t) :
  school_calendar_loop fuel holidays breaks cur end_date acc = Some out ->
  Forall calendar_row_ok acc -> Forall calendar_row_ok out.
Proof.
  revert cur acc. induction fuel as [|fuel IH]; intros cur acc;
    cbn [school_calendar_loop]; destruct (PyDate.le cur end_date);
    try done; try (by intros [= <-]).
  intros Hloop Hacc. apply (IH _ _ Hloop).
  apply Forall_app. split; [done|]. apply Forall_singleton.
  apply calendar_day_ok.
Qed.

Lemma school_calendar_checked :
  forallb school_calendar_check (PyDict.keys year_configs) = true.
Proof. vm_compute. reflexivity. Qed.

(** X22.  The calendar table of a configured year:
    [_generate_school_calendar] returns one row for each day from 26
    August to 6 June, 285 of them or 286 when the February of the span
    has 29 days, each with a date of its own.  In every row the day is a
    school day exactly if its type is ["school_day"], the type is one of
    the four, the label repeats the comment, a day of type ["holiday"]
    has the holiday flag, and only such a day has a holiday name. *)
Theorem generate_school_calendar_spec (year : Z) :
  is_Some (PyDict.get year_configs year) ->
  exists calendar_data,
    _generate_school_calendar year = Some calendar_data
    /\ length calendar_data
       = (if PyDate.is_leap (year + 1) then 286 else 285)%nat
    /\ NoDup (CalendarDay.calendar_date <$> calendar_data)
    /\ forall r, r ∈ calendar_data -> calendar_row_ok r.
Proof.
  intros Hy%get_Some_keys.
  pose proof school_calendar_checked as Hall.
  rewrite forallb_forall in Hall. apply list_elem_of_In in Hy.
  specialize (Hall year Hy). unfold school_calendar_check in Hall.
  destruct (_generate_school_calendar year) as [cal|] eqn:Hcal;
    [|discriminate Hall].
  apply andb_prop in Hall as [Hall _].
  apply andb_prop in Hall as [Hlen Hnd].
  exists cal. split; [reflexivity|]. split; [by apply Nat.eqb_eq|].
  split; [by apply bool_decide_eq_true in Hnd|].
  apply Forall_forall.
  unfold _generate_school_calendar in Hcal.
  destruct (PyDate.make year 8 26) as [s|]; [|discriminate Hcal].
  destruct (PyDate.make (year + 1) 6 6) as [e|]; [|discriminate Hcal].
  destruct (calendar_holidays year) as [hs|]; [|discriminate Hcal].
  destruct (calendar_breaks year) as [bs|]; [|discriminate Hcal].
  cbn [mbind option_bind] in Hcal.
  apply (school_calendar_loop_ok _ _ _ _ _ _ _ Hcal). constructor.
Qed.

Lemma generate_school_calendar_spec_witness :
  exists calendar_data,
    _generate_school_calendar 2019 = Some calendar_data
    /\ length calendar_data = 286%nat.
Proof.
  destruct (generate_school_calendar_spec 2019) as (cal & Hcal & Hlen & _).
  { vm_compute. by eexists. }
  exists cal. split; [exact Hcal | exact Hlen].
Defined.

(** X23.  The attendance days and the calendar table of a configured
    year disagree: between 6 and 13 of the 180 days [_get_school_days]
    returns, the days on which attendance is recorded, are days whose
    row in the table of [_generate_school_calendar] says
    [is_school_day = False]. *)
Theorem attendance_off_calendar_spec (year : Z) :
  is_Some (PyDict.get year_configs year) ->
  exists school_days calendar_data,
    Calendar._get_school_days year = Some school_days
    /\ _generate_school_calendar year = Some calendar_data
    /\ (6 <= length (attendance_off_calendar year) <= 13)%nat
    /\ forall s, s ∈ attendance_off_calendar year ->
         s ∈ school_days
         /\ exists r, r ∈ calendar_data
              /\ CalendarDay.calendar_date r = s
              /\ CalendarDay.is_school_day r = false.
Proof.
  intros Hy. destruct (configured_calendar year Hy) as (days & Hdays & _).
  apply get_Some_keys in Hy.
  pose proof school_calendar_checked as Hall.
  rewrite forallb_forall in Hall. apply list_elem_of_In in Hy.
  specialize (Hall year Hy). unfold school_calendar_check in Hall.
  destruct (_generate_school_calendar year) as [cal|] eqn:Hcal;
    [|discriminate Hall].
  apply andb_prop in Hall as [_ Hn]. cbv zeta in Hn.
  apply andb_prop in Hn as [Hlo Hhi].
  apply Nat.leb_le in Hlo, Hhi.
  exists days, cal. split; [exact Hdays|]. split; [reflexivity|].
  split; [lia|].
  unfold attendance_off_calendar. rewrite Hdays, Hcal.
  intros s Hs. apply list_elem_of_In, filter_In in Hs as [Hin Hoff].
  split; [by apply list_elem_of_In|].
  unfold off_calendar in Hoff. apply existsb_exists in Hoff as (r & Hr & Hb).
  apply andb_prop in Hb as [Hd Hn]. exists r.
  split; [by apply list_elem_of_In|].
  split; [by apply bool_decide_eq_true in Hd | by apply negb_true_iff in Hn].
Qed.

Lemma attendance_off_calendar_spec_witness :
  (6 <= length (attendance_off_calendar 2016) <= 13)%nat.
Proof.
  destruct (attendance_off_calendar_spec 2016) as (days & cal & _ & _ & H & _).
  { vm_compute. by eexists. }
  exact H.
Defined.

(** ** Terms *)

(** X24.  The terms of a year and the rows that refer to terms.
    [_create_terms_records] gives the four terms of [year] the ids
    [4 * (year - 2015) + 1] to [4 * (year - 2015) + 4], so two years
    share no term id.  The classes, assignments and grades of a year
    draw their [term_id] from 1 to 4, the ids of the terms of 2015: in a
    year from 2016 on, none of them names a term of its own year. *)
Theorem terms_never_referenced (year : Z) (students : StudentRegistry)
    (teachers : TeacherRegistry) (draws : AcademicDraws) (data : AcademicData) :
  2016 <= year ->
  academic_data year students teachers draws = Some data ->
  Term.term_id <$> _create_terms_records year
  = seqZ (4 * (year - 2015) + 1) 4
  /\ (forall year', year' <> year ->
        forall k, k ∈ Term.term_id <$> _create_terms_records year ->
                  k ∉ Term.term_id <$> _create_terms_records year')
  /\ (forall c, c ∈ data_classes data ->
        SchoolClass.term_id c ∉ Term.term_id <$> _create_terms_records year)
  /\ (forall a, a ∈ data_assignments data ->
        Assignment.term_id a ∉ Term.term_id <$> _create_terms_records year)
  /\ (forall g, g ∈ data_grades data ->
        Grade.term_id g ∉ Term.term_id <$> _create_terms_records year).
Proof.
  intros Hy Hdata.
  assert (Hids : forall y, Term.term_id <$> _create_terms_records y
                           = seqZ (4 * (y - 2015) + 1) 4).
  { intros y. unfold _create_terms_records, seqZ.
    change (Z.to_nat 4) with 4%nat.
    cbn [seq fmap list_fmap Term.term_id]. repeat (f_equal; try lia). }
  assert (Hlow : forall k, 1 <= k <= 4 ->
                   k ∉ Term.term_id <$> _create_terms_records year).
  { intros k Hk. rewrite Hids. intros Hin%elem_of_seqZ. lia. }
  unfold academic_data in Hdata. cbv zeta in Hdata.
  set (classes := _generate_classes students teachers (ac_class draws)) in *.
  destruct (generate_classes_facts students teachers (ac_class draws))
    as (_ & Hcok & _).
  fold classes in Hcok.
  destruct (generate_assignments_facts year classes (ac_count draws)
              (ac_assignment draws)) as [Hsome Hnone].
  assert (Hcond : 1 <= year <= 9998 \/ classes = []).
  { destruct (decide (year <= 9998)); [left; lia|].
    destruct (decide (classes = [])) as [|Hne]; [by right|].
    exfalso. rewrite Hnone in Hdata; [discriminate Hdata | done | lia]. }
  destruct (Hsome Hcond) as (assignments & Hasg & _ & Haok & _).
  rewrite Hasg in Hdata. cbn [mbind option_bind] in Hdata.
  injection Hdata as <-.
  cbn [data_classes data_assignments data_grades].
  split; [apply Hids|]. split; [|split; [|split]].
  - intros y' Hne k. rewrite !Hids. intros Hk%elem_of_seqZ Hk'%elem_of_seqZ. lia.
  - intros c Hc. apply Hlow. destruct (Hcok c Hc) as (_ & _ & _ & _ & Ht & _).
    exact Ht.
  - intros a Ha. apply Hlow. destruct (Haok a Ha) as (_ & _ & _ & Ht).
    exact Ht.
  - intros g Hg.
    destruct (generate_grades_facts assignments
                (_generate_enrollments students classes) (ac_grade draws))
      as (_ & Hgr & _).
    destruct (Hgr g Hg) as (a & e & Ha & _ & _ & _ & _ & _ & _ & Ht).
    rewrite Ht. apply Hlow. destruct (Haok a Ha) as (_ & _ & _ & Hta).
    exact Hta.
Qed.

Lemma terms_never_referenced_witness :
  Term.term_id <$> _create_terms_records 2016 = seqZ 5 4.
Proof.
  destruct (academic_data_facts 2016 baseline_3 teachers_3 sample_academic_draws)
    as (data & Hdata & _); [lia|].
  destruct (terms_never_referenced 2016 baseline_3 teachers_3
              sample_academic_draws data) as (Hids & _); [lia | exact Hdata |].
  exact Hids.
Defined.

(** ** Standardized tests *)

Lemma int_div_12 (x : Z) : 0 <= x -> Py.int (inject_Z x / 12) = x / 12.
Proof.
  intros Hx. unfold Py.int, Qdiv, Qmult, Qinv, inject_Z. cbn.
  rewrite Z.mul_1_r. by apply Z.quot_div_nonneg.
Qed.

Lemma tests_for_names (g : Z) (q : Q) (name : string) :
  name ∈ tests_for g q ->
  name ∈ ["State Math Assessment"; "State Reading Assessment"; "PSAT"; "SAT";
          "AP Exam"]
  /\ 3 <= g
  /\ (name ∈ ["PSAT"; "SAT"] -> 10 <= g)
  /\ (name = "AP Exam" -> 11 <= g).
Proof.
  unfold tests_for.
  destruct (Z.leb_spec 3 g), (Z.leb_spec 10 g), (Z.leb_spec 11 g);
    try destruct (Qlt_le_dec q (3 # 10));
    cbn [app]; intros Hin;
    repeat (apply elem_of_cons in Hin as [->|Hin]);
    try (by apply elem_of_nil in Hin);
    (split; [repeat constructor|]; split; [lia|];
     split;
     [intros Hm;
      first [lia
            | repeat (apply elem_of_cons in Hm as [Hm|Hm]; [discriminate Hm|]);
              by apply elem_of_nil in Hm]
     |intros He; first [lia | discriminate He]]).
Qed.

Lemma test_score_ok (name : string) (d : TestDraws) :
  name ∈ ["State Math Assessment"; "State Reading Assessment"; "PSAT"; "SAT";
          "AP Exam"] ->
  let score := (test_score name d).1 in
  let percentile := (test_score name d).2 in
  1 <= percentile <= 99
  /\ (name ∈ ["PSAT"; "SAT"] ->
      400 <= score <= 1600
      /\ percentile = Z.min 99 (Z.max 1 ((score - 400) / 12)))
  /\ (name ∉ ["PSAT"; "SAT"] -> 150 <= score <= 300)
  /\ (if contains "Math" name then "Mathematics" else "Reading")
     = (if decide (name = "State Math Assessment")
        then "Mathematics" else "Reading").
Proof.
  intros Hname.
  assert (Hsat : let score := PyRandom.randint 400 1600 (tst_score_pick d) in
                 400 <= score <= 1600
                 /\ Z.min 99 (Z.max 1 (Py.int (inject_Z (score - 400) / 12)))
                    = Z.min 99 (Z.max 1 ((score - 400) / 12))).
  { cbv zeta. pose proof (randint_range 400 1600 (tst_score_pick d)) as Hr.
    split; [lia|]. rewrite int_div_12 by lia. done. }
  cbv zeta in Hsat. destruct Hsat as [Hs Hp].
  pose proof (randint_range 150 300 (tst_score_pick d) ltac:(lia)) as Hs'.
  pose proof (randint_range 1 99 (tst_percentile_pick d) ltac:(lia)) as Hp'.
  repeat (apply elem_of_cons in Hname as [->|Hname]);
    [| | | | |by apply elem_of_nil in Hname].
  - (* State Math Assessment *)
    change (test_score "State Math Assessment" d)
      with (PyRandom.randint 150 300 (tst_score_pick d),
            PyRandom.randint 1 99 (tst_percentile_pick d)).
    cbn [fst snd]. split; [done|]. split.
    { intros Hin. repeat (apply elem_of_cons in Hin as [Hin|Hin];
                          [discriminate Hin|]).
      by apply elem_of_nil in Hin. }
    split; [done|]. done.
  - change (test_score "State Reading Assessment" d)
      with (PyRandom.randint 150 300 (tst_score_pick d),
            PyRandom.randint 1 99 (tst_percentile_pick d)).
    cbn [fst snd]. split; [done|]. split.
    { intros Hin. repeat (apply elem_of_cons in Hin as [Hin|Hin];
                          [discriminate Hin|]).
      by apply elem_of_nil in Hin. }
    split; [done|]. done.
  - (* PSAT: the name holds "SAT" *)
    change (test_score "PSAT" d)
      with (PyRandom.randint 400 1600 (tst_score_pick d),
            Z.min 99 (Z.max 1
              (Py.int (inject_Z (PyRandom.randint 400 1600 (tst_score_pick d)
                                 - 400) / 12)))).
    cbn [fst snd]. rewrite Hp. split; [lia|]. split; [done|].
    split; [|done]. intros Hn. exfalso. apply Hn. repeat constructor.
  - change (test_score "SAT" d)
      with (PyRandom.randint 400 1600 (tst_score_pick d),
            Z.min 99 (Z.max 1
              (Py.int (inject_Z (PyRandom.randint 400 1600 (tst_score_pick d)
                                 - 400) / 12)))).
    cbn [fst snd]. rewrite Hp. split; [lia|]. split; [done|].
    split; [|done]. intros Hn. exfalso. apply Hn. repeat constructor.
  - change (test_score "AP Exam" d)
      with (PyRandom.randint 150 300 (tst_score_pick d),
            PyRandom.randint 1 99 (tst_percentile_pick d)).
    cbn [fst snd]. split; [done|]. split.
    { intros Hin. repeat (apply elem_of_cons in Hin as [Hin|Hin];
                          [discriminate Hin|]).
      by apply elem_of_nil in Hin. }
    split; [done|]. done.
Qed.

Lemma make_may_31 (y : Z) :
  1 <= y <= 9999 -> PyDate.make y 5 31 = Some (PyDate.mkDate y 5 31).
Proof.
  intros Hy. unfold PyDate.make, PyDate.days_in_month. cbn.
  replace (_ && _) with true; [done|]. symmetry.
  repeat (apply andb_true_intro; split); lia.
Qed.

Lemma add_test_fold (year : Z) (draws : nat -> TestDraws) (sid : Z)
    (names : list string) (st : TestState) :
  1 <= year <= 9999 ->
  Forall (fun name =>
            name ∈ ["State Math Assessment"; "State Reading Assessment";
                    "PSAT"; "SAT"; "AP Exam"]) names ->
  exists st' news,
    foldl (add_test year draws sid) (Some st) names = Some st'
    /\ test_rows st' = test_rows st ++ news
    /\ next_test_id st' = next_test_id st + Z.of_nat (length news)
    /\ StandardizedTest.test_id <$> news
       = (fun i => "TEST" +:+ format_06d i)
           <$> seqZ (next_test_id st) (Z.of_nat (length news))
    /\ StandardizedTest.test_name <$> news = names
    /\ Forall (fun r => StandardizedTest.student_id r = sid /\ test_ok r) news.
Proof.
  intros Hy. revert st. induction names as [|name names IH]; intros st Hnames.
  - exists st, []. cbn [foldl length]. rewrite app_nil_r, Z.add_0_r.
    repeat split; constructor.
  - apply Forall_cons in Hnames as [Hname Hnames]. cbn [foldl].
    set (d := draws (length (test_rows st))).
    set (r := StandardizedTest.mk ("TEST" +:+ format_06d (next_test_id st))
                sid name (PyDate.strftime (tst_date d)) (test_score name d).1
                (if contains "Math" name then "Mathematics" else "Reading")
                (test_score name d).2).
    assert (Hstep : add_test year draws sid (Some st) name
                    = Some (mkTestState (test_rows st ++ [r])
                              (next_test_id st + 1))).
    { unfold add_test. cbn [mbind option_bind].
      rewrite (make_fixed year 3 1), (make_may_31 year) by lia.
      cbn [mbind option_bind]. fold d. subst r.
      by destruct (test_score name d). }
    rewrite Hstep.
    destruct (IH (mkTestState (test_rows st ++ [r]) (next_test_id st + 1)) Hnames)
      as (st' & news & Heq & Hr & Hn & Hi & Hnm & Hok).
    cbn [test_rows next_test_id] in Hr, Hn, Hi.
    exists st', (r :: news). split; [done|].
    rewrite Hr, <- app_assoc. split; [done|]. cbn [length].
    split; [lia|]. split; [|split].
    + rewrite fmap_cons, Hi.
      replace (Z.of_nat (S (length news))) with (1 + Z.of_nat (length news))
        by lia.
      rewrite (seqZ_app _ 1) by lia. done.
    + by rewrite fmap_cons, Hnm.
    + constructor; [|done]. split; [done|].
      destruct (test_score_ok name d Hname) as (H1 & H2 & H3 & H4).
      unfold test_ok. subst r.
      cbn [StandardizedTest.percentile StandardizedTest.test_name
           StandardizedTest.score StandardizedTest.subject].
      done.
Qed.

Lemma add_student_tests_fold (year : Z) (ap_draw : nat -> Q)
    (draws : nat -> TestDraws) (items : list (nat * Student.t))
    (st : TestState) :
  1 <= year <= 9999 ->
  exists st' news,
    foldl (add_student_tests year ap_draw draws) (Some st) items = Some st'
    /\ test_rows st' = test_rows st ++ news
    /\ next_test_id st' = next_test_id st + Z.of_nat (length news)
    /\ StandardizedTest.test_id <$> news
       = (fun i => "TEST" +:+ format_06d i)
           <$> seqZ (next_test_id st) (Z.of_nat (length news))
    /\ length news
       = sum_list ((fun it : nat * Student.t =>
                      length (tests_for (Student.grade_level_id it.2)
                                (ap_draw it.1))) <$> items)
    /\ Forall (fun r =>
                 test_ok r
                 /\ exists it, it ∈ items
                      /\ StandardizedTest.student_id r = Student.student_id it.2
                      /\ StandardizedTest.test_name r
                         ∈ tests_for (Student.grade_level_id it.2) (ap_draw it.1))
              news.
Proof.
  intros Hy. revert st. induction items as [|[j s] items IH]; intros st.
  - exists st, []. cbn [foldl length]. rewrite app_nil_r, Z.add_0_r.
    repeat split; constructor.
  - cbn [foldl]. unfold add_student_tests at 2.
    destruct (add_test_fold year draws (Student.student_id s)
                (tests_for (Student.grade_level_id s) (ap_draw j)) st Hy)
      as (st1 & n1 & Heq1 & Hr1 & Hn1 & Hi1 & Hnm1 & Hok1).
    { apply Forall_forall. intros name Hin.
      apply tests_for_names in Hin as [Hin _]. exact Hin. }
    rewrite Heq1.
    destruct (IH st1) as (st' & n2 & Heq2 & Hr2 & Hn2 & Hi2 & Hl2 & Hok2).
    exists st', (n1 ++ n2). split; [done|].
    rewrite Hr2, Hr1, <- app_assoc. split; [done|].
    rewrite length_app. split; [lia|]. split; [|split].
    + rewrite fmap_app, Hi1, Hi2, Hn1, Nat2Z.inj_add.
      by rewrite seqZ_app, fmap_app by lia.
    + rewrite fmap_cons. cbn [sum_list sum_list_with fst snd].
      rewrite <- Hl2. f_equal. rewrite <- Hnm1. by rewrite length_fmap.
    + apply Forall_app. split.
      * apply Forall_forall. intros r Hr. rewrite Forall_forall in Hok1.
        destruct (Hok1 r Hr) as [Hsid Hok]. split; [done|].
        exists (j, s). split; [apply elem_of_cons; auto|]. split; [done|].
        cbn [fst snd]. rewrite <- Hnm1. by apply list_elem_of_fmap_2.
      * eapply Forall_impl; [exact Hok2|]. intros r (Hok & it & Hit & Hrest).
        split; [done|]. exists it. split; [apply elem_of_cons; auto | done].
Qed.

(** X25.  [_generate_standardized_tests] for a year of the calendar.
    The rows carry the ids TEST000001, TEST000002, ... in order; each is
    a test of an active student of grade level 3 or more (10 or more for
    PSAT and SAT, 11 or more for an AP exam); the percentile is between
    1 and 99.  Because the name ["PSAT"] holds ["SAT"], a PSAT is scored
    as a SAT, from 400 to 1600 with the percentile
    [min(99, max(1, (score - 400) // 12))]: the range from 320 to 1520
    is never used.  Every other test scores from 150 to 300, and only
    the state mathematics assessment has the subject ["Mathematics"]. *)
Theorem generate_standardized_tests_spec (year : Z) (students : StudentRegistry)
    (ap_draw : nat -> Q) (draws : nat -> TestDraws) :
  1 <= year <= 9999 ->
  exists rows,
    _generate_standardized_tests year students ap_draw draws = Some rows
    /\ StandardizedTest.test_id <$> rows
       = (fun i => "TEST" +:+ format_06d i) <$> seqZ 1 (Z.of_nat (length rows))
    /\ forall r, r ∈ rows ->
         test_ok r
         /\ exists s, s ∈ PyDict.values (active_students students)
              /\ StandardizedTest.student_id r = Student.student_id s
              /\ 3 <= Student.grade_level_id s
              /\ (StandardizedTest.test_name r ∈ ["PSAT"; "SAT"] ->
                  10 <= Student.grade_level_id s)
              /\ (StandardizedTest.test_name r = "AP Exam" ->
                  11 <= Student.grade_level_id s).
Proof.
  intros Hy. unfold _generate_standardized_tests. cbv zeta.
  set (active := PyDict.values (active_students students)).
  destruct (add_student_tests_fold year ap_draw draws
              (zip (seq 0 (length active)) active) (mkTestState [] 1) Hy)
    as (st' & news & Heq & Hr & _ & Hi & _ & Hok).
  cbn [test_rows next_test_id app] in Hr, Hi.
  exists news. rewrite Heq. cbn [fmap option_fmap option_map].
  split; [by rewrite Hr|]. split; [done|].
  intros r Hin. rewrite Forall_forall in Hok.
  destruct (Hok r Hin) as (Hrok & [j s] & Hit & Hsid & Hname).
  split; [done|]. exists s. cbn [fst snd] in Hsid, Hname.
  apply tests_for_names in Hname as (_ & H3 & H10 & H11).
  split; [|done].
  apply (list_elem_of_fmap_2 snd) in Hit. cbn [snd] in Hit.
  rewrite snd_zip in Hit by (rewrite length_seq; lia). done.
Qed.

Lemma generate_standardized_tests_spec_witness :
  is_Some (_generate_standardized_tests 2017 baseline_3 (fun _ => 1 # 5)
             sample_test_draws).
Proof.
  destruct (generate_standardized_tests_spec 2017 baseline_3 (fun _ => 1 # 5)
              sample_test_draws) as (rows & Heq & _).
  { lia. }
  exists rows. exact Heq.
Defined.

(** ** Payments *)

Lemma add_installment_fold (year guardian_id : Z) (monthly_amount : Q)
    (months : list Z) (st : PaymentState) :
  1 <= year <= 9998 ->
  Forall (fun month => 0 <= month <= 11) months ->
  exists st' news,
    foldl (add_installment year guardian_id monthly_amount) (Some st) months
    = Some st'
    /\ payment_rows st' = payment_rows st ++ news
    /\ next_payment_id st' = next_payment_id st + Z.of_nat (length news)
    /\ families_processed st' = families_processed st
    /\ Payment.payment_id <$> news
       = (fun i => "PAY" +:+ format_06d i)
           <$> seqZ (next_payment_id st) (Z.of_nat (length news))
    /\ Forall (fun p => Payment.guardian_id p = guardian_id
                        /\ Payment.fee_type_id p = 4) news
    /\ Payment.amount_paid <$> news
       = replicate (length months) (Py.int monthly_amount)
    /\ Payment.payment_date <$> news
       = (fun month =>
            PyDate.strftime
              (if month <? 5 then PyDate.mkDate year (8 + month) 15
               else PyDate.mkDate (year + 1) (month - 4) 15)) <$> months.
Proof.
  intros Hy. revert st. induction months as [|m months IH]; intros st Hm.
  - exists st, []. cbn [foldl length]. rewrite app_nil_r, Z.add_0_r.
    repeat split; constructor.
  - apply Forall_cons in Hm as [Hm0 Hm]. cbn [foldl].
    set (d := if m <? 5 then PyDate.mkDate year (8 + m) 15
              else PyDate.mkDate (year + 1) (m - 4) 15).
    set (p := Payment.mk ("PAY" +:+ format_06d (next_payment_id st))
                guardian_id 4 (Py.int monthly_amount) (PyDate.strftime d)).
    assert (Hstep : add_installment year guardian_id monthly_amount (Some st) m
                    = Some (mkPaymentState (payment_rows st ++ [p])
                              (next_payment_id st + 1) (families_processed st))).
    { unfold add_installment. cbn [mbind option_bind]. cbv zeta. subst p d.
      destruct (Z.ltb_spec m 5).
      - rewrite (make_fixed year (8 + m) 15) by lia. done.
      - rewrite (make_fixed (year + 1) (m - 4) 15) by lia. done. }
    rewrite Hstep.
    destruct (IH (mkPaymentState (payment_rows st ++ [p])
                    (next_payment_id st + 1) (families_processed st)) Hm)
      as (st' & news & Heq & Hr & Hn & Hf & Hi & Hg & Ha & Hd).
    cbn [payment_rows next_payment_id families_processed] in Hr, Hn, Hf, Hi.
    exists st', (p :: news). split; [done|].
    rewrite Hr, <- app_assoc. split; [done|]. cbn [length].
    split; [lia|]. split; [done|]. split; [|split; [|split]].
    + rewrite fmap_cons, Hi.
      replace (Z.of_nat (S (length news))) with (1 + Z.of_nat (length news))
        by lia.
      rewrite (seqZ_app _ 1) by lia. done.
    + constructor; [by split | done].
    + by rewrite fmap_cons, Ha.
    + by rewrite !fmap_cons, Hd.
Qed.

Lemma add_other_fee_fold (year guardian_id : Z) (fees : list (Z * Z * Q * nat))
    (st : PaymentState) :
  let st' := foldl (add_other_fee year guardian_id) st fees in
  exists news,
    payment_rows st' = payment_rows st ++ news
    /\ next_payment_id st' = next_payment_id st + Z.of_nat (length news)
    /\ families_processed st' = families_processed st
    /\ Payment.payment_id <$> news
       = (fun i => "PAY" +:+ format_06d i)
           <$> seqZ (next_payment_id st) (Z.of_nat (length news))
    /\ Forall (fun p => Payment.guardian_id p = guardian_id) news
    /\ sublist ((fun p => (Payment.fee_type_id p, Payment.amount_paid p)) <$> news)
               ((fun fee : Z * Z * Q * nat => (fee.1.1.1, fee.1.1.2)) <$> fees).
Proof.
  revert st. induction fees as [|[[[ft amount] draw] day] fees IH]; intros st.
  - exists []. cbn [foldl length]. rewrite app_nil_r, Z.add_0_r.
    repeat split; constructor.
  - cbn [foldl]. cbv zeta.
    set (p := Payment.mk ("PAY" +:+ format_06d (next_payment_id st))
                guardian_id ft amount
                (pretty year +:+ "-08-"
                 +:+ pretty (PyRandom.randint 10 30 day))).
    assert (Hstep : add_other_fee year guardian_id st (ft, amount, draw, day)
                    = if Qlt_le_dec draw (8 # 10)
                      then mkPaymentState (payment_rows st ++ [p])
                             (next_payment_id st + 1) (families_processed st)
                      else st) by done.
    rewrite Hstep. clear Hstep.
    destruct (Qlt_le_dec draw (8 # 10)).
    + destruct (IH (mkPaymentState (payment_rows st ++ [p])
                      (next_payment_id st + 1) (families_processed st)))
        as (news & Hr & Hn & Hf & Hi & Hg & Hs).
      cbn [payment_rows next_payment_id families_processed] in Hr, Hn, Hf, Hi.
      exists (p :: news). rewrite Hr, <- app_assoc. split; [done|].
      cbn [length]. split; [lia|]. split; [done|]. split; [|split].
      * rewrite fmap_cons, Hi.
        replace (Z.of_nat (S (length news))) with (1 + Z.of_nat (length news))
          by lia.
        rewrite (seqZ_app _ 1) by lia. done.
      * constructor; [done | done].
      * rewrite !fmap_cons. by apply sublist_skip.
    + destruct (IH st) as (news & Hr & Hn & Hf & Hi & Hg & Hs).
      exists news. split; [done|]. split; [done|]. split; [done|].
      split; [done|]. split; [done|]. rewrite fmap_cons. by apply sublist_cons.
Qed.

(** The payments of one row of [student_guardians]: none if the family
    has been billed, a block of the family otherwise. *)
Lemma pay_family_step (year : Z) (draws : nat -> PaymentDraws)
    (st : PaymentState) (sg : StudentGuardian.t) :
  1 <= year <= 9998 ->
  exists st' block,
    pay_family year draws (Some st) sg = Some st'
    /\ payment_rows st' = payment_rows st ++ block
    /\ next_payment_id st' = next_payment_id st + Z.of_nat (length block)
    /\ Payment.payment_id <$> block
       = (fun i => "PAY" +:+ format_06d i)
           <$> seqZ (next_payment_id st) (Z.of_nat (length block))
    /\ (if bool_decide (StudentGuardian.family_id sg ∈ families_processed st)
        then block = [] /\ families_processed st' = families_processed st
        else families_processed st'
             = families_processed st ++ [StudentGuardian.family_id sg]
             /\ family_block_ok year sg block).
Proof.
  intros Hy. unfold pay_family. cbn [mbind option_bind]. cbv zeta.
  destruct (bool_decide (StudentGuardian.family_id sg ∈ families_processed st)).
  { exists st, []. rewrite app_nil_r. cbn [length]. rewrite Z.add_0_r. done. }
  set (d := draws (length (families_processed st))).
  set (st0 := mkPaymentState (payment_rows st) (next_payment_id st)
                (families_processed st ++ [StudentGuardian.family_id sg])).
  set (gid := StudentGuardian.guardian_id sg).
  set (fees := [(1, 100, pay_tech_draw d, pay_tech_day d);
                (2, 50, pay_trip_draw d, pay_trip_day d)]).
  assert (Htuition : exists st1 tuition,
    (if decide (default "annual"
                  (PyRandom.choices ["annual"; "9_month"; "12_month"]
                     [10; 70; 20]%Q (pay_plan_draw d)) = "annual") then
       Some (add_payment gid 4 8000 (pretty year +:+ "-08-15") st0)
     else if decide (default "annual"
                       (PyRandom.choices ["annual"; "9_month"; "12_month"]
                          [10; 70; 20]%Q (pay_plan_draw d)) = "9_month") then
       foldl (add_installment year gid (inject_Z 8000 / 9)) (Some st0) (seqZ 0 9)
     else
       foldl (add_installment year gid (inject_Z 8000 / 12)) (Some st0)
             (seqZ 0 12)) = Some st1
    /\ payment_rows st1 = payment_rows st ++ tuition
    /\ next_payment_id st1 = next_payment_id st + Z.of_nat (length tuition)
    /\ families_processed st1
       = families_processed st ++ [StudentGuardian.family_id sg]
    /\ Payment.payment_id <$> tuition
       = (fun i => "PAY" +:+ format_06d i)
           <$> seqZ (next_payment_id st) (Z.of_nat (length tuition))
    /\ Forall (fun p => Payment.guardian_id p = gid
                        /\ Payment.fee_type_id p = 4) tuition
    /\ ((Payment.amount_paid <$> tuition = [8000]
         /\ Payment.payment_date <$> tuition = [pretty year +:+ "-08-15"])
        \/ (Payment.amount_paid <$> tuition = replicate 9 888
            /\ Payment.payment_date <$> tuition = installment_dates year 9)
        \/ (Payment.amount_paid <$> tuition = replicate 12 666
            /\ Payment.payment_date <$> tuition = installment_dates year 12))).
  { destruct (decide (_ = "annual")).
    - eexists. exists [Payment.mk ("PAY" +:+ format_06d (next_payment_id st))
                         gid 4 8000 (pretty year +:+ "-08-15")].
      split; [reflexivity|]. unfold add_payment. subst st0.
      cbn [payment_rows next_payment_id families_processed length].
      split; [done|]. split; [done|]. split; [done|]. split.
      { unfold seqZ. change (Z.to_nat (Z.of_nat 1)) with 1%nat.
        cbn [seq fmap list_fmap Payment.payment_id Z.of_nat].
        by rewrite Z.add_0_l. }
      split; [by repeat constructor|]. left. done.
    - destruct (decide (_ = "9_month")).
      + destruct (add_installment_fold year gid (inject_Z 8000 / 9) (seqZ 0 9)
                    st0 Hy) as (st1 & news & Heq & Hr & Hn & Hf & Hi & Hg & Ha & Hd).
        { apply Forall_forall. intros m Hm%elem_of_seqZ. lia. }
        exists st1, news. split; [exact Heq|]. split; [exact Hr|].
        split; [exact Hn|]. split; [exact Hf|]. split; [exact Hi|].
        split; [exact Hg|]. right. left. split; [exact Ha | exact Hd].
      + destruct (add_installment_fold year gid (inject_Z 8000 / 12) (seqZ 0 12)
                    st0 Hy) as (st1 & news & Heq & Hr & Hn & Hf & Hi & Hg & Ha & Hd).
        { apply Forall_forall. intros m Hm%elem_of_seqZ. lia. }
        exists st1, news. split; [exact Heq|]. split; [exact Hr|].
        split; [exact Hn|]. split; [exact Hf|]. split; [exact Hi|].
        split; [exact Hg|]. right. right. split; [exact Ha | exact Hd]. }
  destruct Htuition as (st1 & tuition & Heq & Hr1 & Hn1 & Hf1 & Hi1 & Hg1 & Hplan).
  rewrite Heq. cbn [mbind option_bind].
  destruct (add_other_fee_fold year gid fees st1)
    as (others & Hr2 & Hn2 & Hf2 & Hi2 & Hg2 & Hs2).
  eexists. exists (tuition ++ others). split; [reflexivity|].
  rewrite Hr2, Hr1, <- app_assoc. split; [done|].
  rewrite length_app. split; [lia|]. split.
  { rewrite fmap_app, Hi1, Hi2, Hn1, Nat2Z.inj_add.
    by rewrite seqZ_app, fmap_app by lia. }
  split; [by rewrite Hf2|].
  split.
  - apply Forall_app. split; [|done].
    eapply Forall_impl; [exact Hg1|]. by intros p [? _].
  - exists tuition, others. split; [done|]. split.
    { eapply Forall_impl; [exact Hg1|]. by intros p [_ ?]. }
    split; [exact Hplan | exact Hs2].
Qed.

Lemma pay_family_fold (year : Z) (draws : nat -> PaymentDraws)
    (rows : list StudentGuardian.t) (st : PaymentState) :
  1 <= year <= 9998 ->
  exists st' blocks,
    foldl (pay_family year draws) (Some st) rows = Some st'
    /\ payment_rows st' = payment_rows st ++ concat blocks
    /\ Payment.payment_id <$> concat blocks
       = (fun i => "PAY" +:+ format_06d i)
           <$> seqZ (next_payment_id st) (Z.of_nat (length (concat blocks)))
    /\ next_payment_id st'
       = next_payment_id st + Z.of_nat (length (concat blocks))
    /\ Forall2 (family_block_ok year)
         (first_of_family (families_processed st) rows) blocks.
Proof.
  intros Hy. revert st. induction rows as [|sg rows IH]; intros st.
  - exists st, []. cbn [foldl concat length first_of_family].
    rewrite app_nil_r, Z.add_0_r. repeat split; constructor.
  - cbn [foldl first_of_family].
    destruct (pay_family_step year draws st sg Hy)
      as (st1 & block & Heq & Hr1 & Hn1 & Hi1 & Hcase).
    rewrite Heq.
    destruct (IH st1) as (st' & blocks & Heq' & Hr' & Hi' & Hn' & Hall).
    destruct (bool_decide (StudentGuardian.family_id sg ∈ families_processed st)).
    + destruct Hcase as [-> Hf]. rewrite app_nil_r in Hr1.
      cbn [length] in Hn1. rewrite Z.add_0_r in Hn1.
      exists st', blocks. split; [done|].
      rewrite Hr', Hr1. split; [done|]. rewrite <- Hn1. split; [done|].
      split; [done|]. by rewrite <- Hf.
    + destruct Hcase as [Hf Hok].
      exists st', (block :: blocks). split; [done|]. cbn [concat].
      rewrite Hr', Hr1, <- app_assoc. split; [done|].
      rewrite length_app. split; [|split; [lia|]].
      * rewrite fmap_app, Hi1, Hi', Hn1, Nat2Z.inj_add.
        by rewrite seqZ_app, fmap_app by lia.
      * constructor; [done|]. by rewrite <- Hf.
Qed.

(** X26.  [_generate_payments] for a school year from 1000 to 9998,
    whose dates exist and print their year in four digits, bills
    every family once, in the order in which the families first occur
    among the rows of [student_guardians], to the guardian of that first
    row.  The tuition of a family is one payment of 8000, or 9 payments
    of 888 from August to April, or 12 of 666 from August to July: a
    family on instalments pays 7992.  The tuition is followed by at most
    the tech fee of 100 and the field trip fund of 50.  The payments
    carry the ids PAY000001, PAY000002, ... in order. *)
Theorem generate_payments_spec (year : Z) (guardians : GuardianRegistry)
    (draws : nat -> PaymentDraws) :
  1000 <= year <= 9998 ->
  exists payments blocks,
    _generate_payments year guardians draws = Some payments
    /\ payments = concat blocks
    /\ Payment.payment_id <$> payments
       = (fun i => "PAY" +:+ format_06d i)
           <$> seqZ 1 (Z.of_nat (length payments))
    /\ Forall2 (family_block_ok year)
         (first_of_family [] (PyDict.values (student_guardians guardians)))
         blocks
    /\ foldr Z.add 0 (replicate 9 888) = 7992
    /\ foldr Z.add 0 (replicate 12 666) = 7992.
Proof.
  intros Hy. unfold _generate_payments.
  destruct (pay_family_fold year draws
              (PyDict.values (student_guardians guardians))
              (mkPaymentState [] 1 []) ltac:(lia))
    as (st' & blocks & Heq & Hr & Hi & _ & Hall).
  cbn [payment_rows next_payment_id families_processed app] in Hr, Hi, Hall.
  exists (concat blocks), blocks. rewrite Heq.
  cbn [fmap option_fmap option_map]. rewrite Hr.
  split; [done|]. split; [done|]. split; [done|]. split; [done|].
  split; reflexivity.
Qed.

Lemma generate_payments_spec_witness :
  is_Some (_generate_payments 2016 siblings_registry sample_payment_draws).
Proof.
  destruct (generate_payments_spec 2016 siblings_registry sample_payment_draws)
    as (payments & blocks & Heq & _).
  { lia. }
  exists payments. exact Heq.
Defined.

(** ** The patcher *)

Lemma record_points_other (df : list Assignment.t) (acc : dict Z Z) (k : Z) :
  k ∉ Assignment.assignment_id <$> df ->
  PyDict.get (foldl record_points acc df) k = PyDict.get acc k.
Proof.
  revert acc. induction df as [|x df IH]; intros acc Hk; [done|].
  rewrite fmap_cons in Hk. apply not_elem_of_cons in Hk as [Hne Hk].
  cbn [foldl]. rewrite IH by done. unfold record_points.
  by rewrite get_set_ne.
Qed.

Lemma record_points_get (df : list Assignment.t) (acc : dict Z Z)
    (a : Assignment.t) :
  NoDup (Assignment.assignment_id <$> df) -> a ∈ df ->
  PyDict.get (foldl record_points acc df) (Assignment.assignment_id a)
  = Some (Assignment.points_possible a).
Proof.
  revert acc. induction df as [|x df IH]; intros acc Hnd Hin;
    [by apply elem_of_nil in Hin|].
  rewrite fmap_cons in Hnd. apply NoDup_cons in Hnd as [Hx Hnd].
  cbn [foldl]. apply elem_of_cons in Hin as [->|Hin].
  - rewrite record_points_other by done. unfold record_points.
    apply get_set_eq.
  - by apply IH.
Qed.

Lemma patch_score_bounds (points_possible : Z) (d : GradeDraws) :
  0 <= Patch._generate_policy_compliant_score points_possible d
    <= Z.max 0 points_possible.
Proof. unfold Patch._generate_policy_compliant_score. cbv zeta. lia. Qed.

(** X27.  One year of [patch_grade_distributions].  Every grade keeps
    all its fields but the score, and the new score lies between 0 and
    the points of its assignment as read from the file (100 when the
    assignment is not found).  Every assignment keeps all its fields but
    the points, which are redrawn in the range of the category
    (Participation 5-20, Final 100-200, the others as the generator has
    them) and left alone for an unknown category.  The grades are fixed
    before the points are redrawn, so a patched score can exceed the
    patched points of its assignment: 87 points out of 75. *)
Theorem patch_year_spec (grades_df : list Grade.t)
    (assignments_df : list Assignment.t)
    (draws : nat -> GradeDraws) (picks : nat -> nat) :
  NoDup (Assignment.assignment_id <$> assignments_df) ->
  let fixed_grades := (patch_year grades_df assignments_df true draws picks).1 in
  let fixed_assignments :=
    (patch_year grades_df assignments_df true draws picks).2 in
  length fixed_grades = length grades_df
  /\ (forall i g g',
        grades_df !! i = Some g -> fixed_grades !! i = Some g' ->
        g' = with_score g (Grade.score g')
        /\ (forall a, a ∈ assignments_df ->
              Assignment.assignment_id a = Grade.assignment_id g ->
              0 <= Grade.score g' <= Z.max 0 (Assignment.points_possible a))
        /\ (Grade.assignment_id g ∉ Assignment.assignment_id <$> assignments_df ->
            0 <= Grade.score g' <= 100))
  /\ length fixed_assignments = length assignments_df
  /\ (forall i a a',
        assignments_df !! i = Some a -> fixed_assignments !! i = Some a' ->
        a' = with_points a (Assignment.points_possible a')
        /\ match PyDict.get points_by_category (Assignment.category a) with
           | Some (lo, hi) => lo <= Assignment.points_possible a' <= hi
           | None => Assignment.points_possible a' = Assignment.points_possible a
           end)
  /\ (exists draws0 picks0 g' a',
        g' ∈ (patch_year one_grade one_test true draws0 picks0).1
        /\ a' ∈ (patch_year one_grade one_test true draws0 picks0).2
        /\ Grade.assignment_id g' = Assignment.assignment_id a'
        /\ Assignment.points_possible a' < Grade.score g').
Proof.
  intros Hnd fixed_grades fixed_assignments.
  subst fixed_grades fixed_assignments. unfold patch_year. cbn [fst snd].
  unfold _fix_grades_for_year, _fix_assignments_for_year. cbv zeta.
  split; [apply length_imap|]. split; [|split; [apply length_imap|split]].
  - intros i g g' Hg. rewrite list_lookup_imap, Hg. cbn [fmap option_fmap option_map].
    intros [= <-]. split; [done|]. cbn [with_score Grade.score]. split.
    + intros a Ha Hid. rewrite <- Hid, (record_points_get _ _ _ Hnd Ha).
      cbn [default]. apply patch_score_bounds.
    + intros Hnot. rewrite record_points_other by done.
      cbn [PyDict.get default].
      pose proof (patch_score_bounds 100 (draws i)). lia.
  - intros i a a' Ha. rewrite list_lookup_imap, Ha.
    cbn [fmap option_fmap option_map].
    destruct (PyDict.get points_by_category (Assignment.category a))
      as [[lo hi]|] eqn:Hcat; intros [= <-].
    + split; [done|]. cbn [with_points Assignment.points_possible].
      apply randint_range.
      unfold points_by_category in Hcat. cbn [PyDict.get] in Hcat.
      repeat (destruct (decide _) in Hcat; [injection Hcat as <- <-; lia|]).
      discriminate Hcat.
    + split; [by destruct a | done].
  - exists (fun _ => mkGradeDraws (1 # 2) (1 # 2) 0), (fun _ => 0%nat).
    eexists. eexists.
    split; [apply list_elem_of_singleton; vm_compute; reflexivity|].
    split; [apply list_elem_of_singleton; vm_compute; reflexivity|].
    split; [reflexivity|]. vm_compute. reflexivity.
Qed.

Lemma patch_year_spec_witness :
  length (patch_year one_grade one_test true (fun _ => sample_grade_draws)
            (fun _ => 0%nat)).1 = 1%nat.
Proof.
  destruct (patch_year_spec one_grade one_test (fun _ => sample_grade_draws)
              (fun _ => 0%nat)) as (Hlen & _).
  { repeat constructor. by intros ?%elem_of_nil. }
  exact Hlen.
Defined.
